(** * hp-wmi-sensors: record validation, classification, scaling and caching

    A shallow embedding of the sensor-decoding core of the HP WMI sensors
    hwmon driver ([src/hp-wmi-sensors.c]) together with the properties
    proved about it.

    The source file holds two revisions of the driver.  The first one
    (lines 1-1522) has the background refresh task and the lowest/highest
    history; the second one (lines 1523-2587) trims strings, rounds the
    Fahrenheit conversion and gates discovery on "No Contact".  Functions
    that are textually the same in both revisions ([check_wobj],
    [classify_numeric_sensor], the decade scaling loops) are embedded once;
    the others live in [Module Rev1] and [Module Rev2].

    Conventions.  C integers are [Z] with the conversions written out
    ([u8], [u32], [s32], [long], [ulong]); [long] is 64 bits wide (LP64,
    the x86-64 kernel).  Nullable [const char *] fields are
    [option string].  Array cursors are [nat] indices into a [list]. *)

From Stdlib Require Import ZArith List String Bool Lia Arith Sorted.
Import ListNotations.
Local Open Scope Z_scope.
Set Warnings "-register-all".

(** ** Machine integers *)

Definition wrap_unsigned (bits z : Z) : Z := z mod 2 ^ bits.

Definition wrap_signed (bits z : Z) : Z :=
  (z + 2 ^ (bits - 1)) mod 2 ^ bits - 2 ^ (bits - 1).

Definition u8 (z : Z) : Z := wrap_unsigned 8 z.
Definition u32 (z : Z) : Z := wrap_unsigned 32 z.
Definition s32 (z : Z) : Z := wrap_signed 32 z.
Definition long (z : Z) : Z := wrap_signed 64 z.
Definition ulong (z : Z) : Z := wrap_unsigned 64 z.

Definition LONG_MAX : Z := 2 ^ 63 - 1.
Definition LONG_MIN : Z := - 2 ^ 63.

Definition is_u32 (z : Z) : Prop := 0 <= z < 2 ^ 32.
Definition is_s32 (z : Z) : Prop := - 2 ^ 31 <= z < 2 ^ 31.
Definition is_long (z : Z) : Prop := LONG_MIN <= z <= LONG_MAX.

(** ** Error codes and results *)

Definition EIO : Z := 5.
Definition ENOMEM : Z := 12.
Definition EINVAL : Z := 22.
Definition ENODATA : Z := 61.
Definition ENODEV : Z := 19.
Definition ERANGE : Z := 34.
Definition EOPNOTSUPP : Z := 95.

(** A C function returning [0] with its out-parameters filled in, or a
    negative error code.  [Undefined] marks what the C text leaves
    undefined: a read past the end of an array, through the wrong member of
    [union acpi_object], or through a null pointer. *)
Inductive result (A : Type) : Type :=
| Ok (a : A)
| Err (code : Z)
| Undefined.
Arguments Ok {A} a.
Arguments Err {A} code.
Arguments Undefined {A}.

(** ** ACPI objects, as far as the driver looks at them *)

Inductive acpi_object_type : Type :=
| ACPI_TYPE_ANY
| ACPI_TYPE_INTEGER
| ACPI_TYPE_STRING
| ACPI_TYPE_BUFFER
| ACPI_TYPE_PACKAGE.

Definition acpi_type_eqb (a b : acpi_object_type) : bool :=
  match a, b with
  | ACPI_TYPE_ANY, ACPI_TYPE_ANY
  | ACPI_TYPE_INTEGER, ACPI_TYPE_INTEGER
  | ACPI_TYPE_STRING, ACPI_TYPE_STRING
  | ACPI_TYPE_BUFFER, ACPI_TYPE_BUFFER
  | ACPI_TYPE_PACKAGE, ACPI_TYPE_PACKAGE => true
  | _, _ => false
  end.

(** [union acpi_object].  An integer carries its 64-bit [value]; a string
    its [length] field and the C string behind [pointer]; a package its
    [elements] ([package.count] is their number). *)
Inductive acpi_object : Type :=
| AcpiInteger (value : Z)
| AcpiString (length : Z) (pointer : string)
| AcpiBuffer (length : Z)
| AcpiPackage (elements : list acpi_object)
| AcpiOther.

Definition acpi_type (o : acpi_object) : acpi_object_type :=
  match o with
  | AcpiInteger _ => ACPI_TYPE_INTEGER
  | AcpiString _ _ => ACPI_TYPE_STRING
  | AcpiBuffer _ => ACPI_TYPE_BUFFER
  | AcpiPackage _ => ACPI_TYPE_PACKAGE
  | AcpiOther => ACPI_TYPE_ANY
  end.

(** [elements[i].type]; every read in the driver is below [package.count]. *)
Definition elem_type (elements : list acpi_object) (i : nat) : acpi_object_type :=
  match nth_error elements i with
  | Some e => acpi_type e
  | None => ACPI_TYPE_ANY
  end.

(** ** Limits and vendor codes *)

Definition HP_WMI_MAX_STR_SIZE : Z := 128.
Definition HP_WMI_MAX_PROPERTIES : nat := 32.
Definition HP_WMI_MAX_INSTANCES : nat := 32.

Definition HP_WMI_MIN_UPDATE_INTERVAL : Z := 5000.
Definition HP_WMI_MAX_UPDATE_INTERVAL : Z := 604800000.

Definition HP_WMI_TYPE_OTHER : Z := 1.
Definition HP_WMI_TYPE_TEMPERATURE : Z := 2.
Definition HP_WMI_TYPE_VOLTAGE : Z := 3.
Definition HP_WMI_TYPE_CURRENT : Z := 4.
Definition HP_WMI_TYPE_AIR_FLOW : Z := 12.

Definition HP_WMI_STATUS_OK : Z := 2.
Definition HP_WMI_STATUS_DEGRADED : Z := 3.
Definition HP_WMI_STATUS_STRESSED : Z := 4.
Definition HP_WMI_STATUS_PREDICTIVE_FAILURE : Z := 5.
Definition HP_WMI_STATUS_ERROR : Z := 6.
Definition HP_WMI_STATUS_NON_RECOVERABLE_ERROR : Z := 7.
Definition HP_WMI_STATUS_NO_CONTACT : Z := 12.
Definition HP_WMI_STATUS_LOST_COMMUNICATION : Z := 13.
Definition HP_WMI_STATUS_ABORTED : Z := 14.
Definition HP_WMI_STATUS_SUPPORTING_ENTITY_IN_ERROR : Z := 16.
Definition HP_WMI_STATUS_COMPLETED : Z := 17.

Definition HP_WMI_UNITS_DEGREES_C : Z := 2.
Definition HP_WMI_UNITS_DEGREES_F : Z := 3.
Definition HP_WMI_UNITS_DEGREES_K : Z := 4.
Definition HP_WMI_UNITS_VOLTS : Z := 5.
Definition HP_WMI_UNITS_AMPS : Z := 6.
Definition HP_WMI_UNITS_RPM : Z := 19.

Definition HP_WMI_PROPERTY_NAME : Z := 0.
Definition HP_WMI_PROPERTY_DESCRIPTION : Z := 1.
Definition HP_WMI_PROPERTY_SENSOR_TYPE : Z := 2.
Definition HP_WMI_PROPERTY_OTHER_SENSOR_TYPE : Z := 3.
Definition HP_WMI_PROPERTY_OPERATIONAL_STATUS : Z := 4.
Definition HP_WMI_PROPERTY_CURRENT_STATE : Z := 5.
Definition HP_WMI_PROPERTY_POSSIBLE_STATES : Z := 6.
Definition HP_WMI_PROPERTY_BASE_UNITS : Z := 7.
Definition HP_WMI_PROPERTY_UNIT_MODIFIER : Z := 8.
Definition HP_WMI_PROPERTY_CURRENT_READING : Z := 9.

(** [hp_wmi_property_map[prop]].  The table has ten entries; the driver
    guards every lookup with [prop <= HP_WMI_PROPERTY_CURRENT_READING]. *)
Definition hp_wmi_property_map (prop : Z) : acpi_object_type :=
  match prop with
  | 0 => ACPI_TYPE_STRING
  | 1 => ACPI_TYPE_STRING
  | 2 => ACPI_TYPE_INTEGER
  | 3 => ACPI_TYPE_STRING
  | 4 => ACPI_TYPE_INTEGER
  | 5 => ACPI_TYPE_STRING
  | 6 => ACPI_TYPE_STRING
  | 7 => ACPI_TYPE_INTEGER
  | 8 => ACPI_TYPE_INTEGER
  | 9 => ACPI_TYPE_INTEGER
  | _ => ACPI_TYPE_ANY
  end.

(** ** check_wobj (same text in both revisions) *)

(** The inner loop of [check_wobj]:
    [for (; i + 1 < elem_count; i++, count++) if (elements[i + 1].type != valid_type) break;]
    It returns the final [i] and [count].  [fuel] bounds the number of
    iterations; [elem_count - i] is always enough. *)
Fixpoint lookahead (fuel : nat) (elements : list acpi_object)
    (elem_count : nat) (valid_type : acpi_object_type)
    (i : nat) (count : Z) : nat * Z :=
  match fuel with
  | O => (i, count)
  | S fuel' =>
      if (i + 1 <? elem_count)%nat then
        if negb (acpi_type_eqb (elem_type elements (i + 1)) valid_type)
        then (i, count)
        else lookahead fuel' elements elem_count valid_type (i + 1)%nat (u8 (count + 1))
      else (i, count)
  end.

(** How the outer loop of [check_wobj] ends: by [return -EINVAL] from its
    body, or by running off the end with the final [prop] and [count]. *)
Inductive check_exit : Type :=
| CheckReturn (ret : Z)
| CheckDone (prop count : Z).

(** The outer loop [for (i = 0; i < elem_count; i++, prop++)]. *)
Fixpoint check_loop (fuel : nat) (elements : list acpi_object)
    (elem_count : nat) (i : nat) (prop count : Z) : check_exit :=
  match fuel with
  | O => CheckDone prop count
  | S fuel' =>
      if (i <? elem_count)%nat then
        if prop >? HP_WMI_PROPERTY_CURRENT_READING then CheckReturn (- EINVAL)
        else if negb (acpi_type_eqb (elem_type elements i) (hp_wmi_property_map prop))
        then CheckReturn (- EINVAL)
        else if prop =? HP_WMI_PROPERTY_CURRENT_STATE then
          let prop := HP_WMI_PROPERTY_POSSIBLE_STATES in
          let valid_type := hp_wmi_property_map prop in
          let '(i, count) :=
            lookahead (elem_count - i) elements elem_count valid_type i count in
          check_loop fuel' elements elem_count (i + 1)%nat (prop + 1) count
        else check_loop fuel' elements elem_count (i + 1)%nat (prop + 1) count
      else CheckDone prop count
  end.

(** [check_wobj]: [Ok count] stands for return value 0 with
    [*possible_states_count = count]. *)
Definition check_wobj (wobj : acpi_object) : result Z :=
  match wobj with
  | AcpiPackage elements =>
      let elem_count := List.length elements in
      if (HP_WMI_MAX_PROPERTIES <? elem_count)%nat then Err (- EINVAL)
      else
        match check_loop elem_count elements elem_count 0%nat HP_WMI_PROPERTY_NAME 0 with
        | CheckReturn ret => Err ret
        | CheckDone prop count =>
            if (count =? 0) || (prop <=? HP_WMI_PROPERTY_CURRENT_READING)
            then Err (- EINVAL)
            else Ok count
        end
  | _ => Err (- EINVAL)
  end.

(** ** The sensor record *)

(** [struct hp_wmi_numeric_sensor].  [possible_states] is the array filled
    in so far through the [*possible_states++] cursor. *)
Record hp_wmi_numeric_sensor : Type := {
  name : option string;
  description : option string;
  sensor_type : Z;
  other_sensor_type : option string;
  operational_status : Z;
  current_state : option string;
  possible_states : list (option string);
  base_units : Z;
  unit_modifier : Z;
  current_reading : Z;
  possible_states_count : Z
}.

(** A zeroed record, as [devm_kzalloc] leaves it. *)
Definition zero_nsensor : hp_wmi_numeric_sensor :=
  {| name := None; description := None; sensor_type := 0;
     other_sensor_type := None; operational_status := 0;
     current_state := None; possible_states := [];
     base_units := 0; unit_modifier := 0; current_reading := 0;
     possible_states_count := 0 |}.

(** ** classify_numeric_sensor (same text in both revisions) *)

Definition classify_numeric_sensor (nsensor : hp_wmi_numeric_sensor) : Z :=
  let sensor_type := sensor_type nsensor in
  let base_units := base_units nsensor in
  if sensor_type =? HP_WMI_TYPE_TEMPERATURE then
    if (base_units =? HP_WMI_UNITS_DEGREES_C) ||
       (base_units =? HP_WMI_UNITS_DEGREES_F) ||
       (base_units =? HP_WMI_UNITS_DEGREES_K)
    then HP_WMI_TYPE_TEMPERATURE else - EINVAL
  else if sensor_type =? HP_WMI_TYPE_VOLTAGE then
    if base_units =? HP_WMI_UNITS_VOLTS then HP_WMI_TYPE_VOLTAGE else - EINVAL
  else if sensor_type =? HP_WMI_TYPE_CURRENT then
    if base_units =? HP_WMI_UNITS_AMPS then HP_WMI_TYPE_CURRENT else - EINVAL
  else if sensor_type =? HP_WMI_TYPE_AIR_FLOW then
    if base_units =? HP_WMI_UNITS_RPM then HP_WMI_TYPE_AIR_FLOW else - EINVAL
  else - EINVAL.

(** ** Scaling *)

(** [DIV_ROUND_CLOSEST(x, divisor)] of linux/math.h for a [long] [x] and a
    positive [int] constant [divisor]: C division truncates ([Z.quot]), and
    the sum is a [long] sum. *)
Definition DIV_ROUND_CLOSEST (x divisor : Z) : Z :=
  if Bool.eqb (x >? 0) (divisor >? 0)
  then Z.quot (long (x + Z.quot divisor 2)) divisor
  else Z.quot (long (x - Z.quot divisor 2)) divisor.

Definition MILLI : Z := 1000.
Definition ABSOLUTE_ZERO_MILLICELSIUS : Z := -273150.

(** [milli_kelvin_to_millicelsius] of linux/units.h. *)
Definition milli_kelvin_to_millicelsius (t : Z) : Z :=
  long (t + ABSOLUTE_ZERO_MILLICELSIUS).

(** [for (; unit_modifier < target_modifier; unit_modifier++) val = DIV_ROUND_CLOSEST(val, 10);]
    returning the final [unit_modifier] and [val]. *)
Fixpoint scale_down (fuel : nat) (unit_modifier target_modifier val : Z) : Z * Z :=
  match fuel with
  | O => (unit_modifier, val)
  | S fuel' =>
      if unit_modifier <? target_modifier
      then scale_down fuel' (s32 (unit_modifier + 1)) target_modifier
                      (DIV_ROUND_CLOSEST val 10)
      else (unit_modifier, val)
  end.

(** [for (; unit_modifier > target_modifier; unit_modifier--) { if (val > LONG_MAX / 10) { val = LONG_MAX; break; } val *= 10; }] *)
Fixpoint scale_up (fuel : nat) (unit_modifier target_modifier val : Z) : Z * Z :=
  match fuel with
  | O => (unit_modifier, val)
  | S fuel' =>
      if unit_modifier >? target_modifier then
        if val >? Z.quot LONG_MAX 10 then (unit_modifier, LONG_MAX)
        else scale_up fuel' (s32 (unit_modifier - 1)) target_modifier (long (val * 10))
      else (unit_modifier, val)
  end.

(** The part of [scale_numeric_sensor] both revisions share: the target
    exponent and the two decade loops.  Each loop runs at most
    [|target_modifier - unit_modifier|] times, which is the fuel given. *)
Definition scale_decades (nsensor : hp_wmi_numeric_sensor) : Z :=
  let current_reading := current_reading nsensor in
  let unit_modifier := unit_modifier nsensor in
  let sensor_type := sensor_type nsensor in
  let target_modifier := if sensor_type =? HP_WMI_TYPE_AIR_FLOW then 0 else -3 in
  let val := long current_reading in
  let '(unit_modifier, val) :=
    scale_down (Z.to_nat (target_modifier - unit_modifier))
               unit_modifier target_modifier val in
  let '(unit_modifier, val) :=
    scale_up (Z.to_nat (unit_modifier - target_modifier))
             unit_modifier target_modifier val in
  val.

(** ** Allocation *)

(** The kernel allocator is outside the driver.  A [heap] lists the
    outcomes of the allocations to come ([false]: the allocation fails);
    past its end every allocation succeeds. *)
Definition heap : Type := list bool.

Definition alloc (h : heap) : bool * heap :=
  match h with
  | [] => (true, [])
  | b :: h' => (b, h')
  end.

(** ** String helpers of the kernel library *)

(** Modelled from the spec: [isspace] and [strim] are kernel library
    functions (lib/ctype.c, lib/string.c), not part of this repository; the
    spec says that string fields are copied with surrounding whitespace
    trimmed. *)
Definition isspace (c : Ascii.ascii) : bool :=
  let n := Ascii.nat_of_ascii c in
  ((9 <=? n) && (n <=? 13) || (n =? 32) || (n =? 160))%nat.

Fixpoint skip_spaces (s : list Ascii.ascii) : list Ascii.ascii :=
  match s with
  | c :: s' => if isspace c then skip_spaces s' else s
  | [] => []
  end.

Definition strim (s : string) : string :=
  let l := list_ascii_of_string s in
  string_of_list_ascii (skip_spaces (rev (skip_spaces (rev l)))).

Definition strcmp_ne (a b : string) : bool := negb (String.eqb a b).

(** ** Field updates of the sensor record *)

Definition set_name (ns : hp_wmi_numeric_sensor) (v : option string) :=
  {| name := v; description := description ns; sensor_type := sensor_type ns;
     other_sensor_type := other_sensor_type ns;
     operational_status := operational_status ns;
     current_state := current_state ns; possible_states := possible_states ns;
     base_units := base_units ns; unit_modifier := unit_modifier ns;
     current_reading := current_reading ns;
     possible_states_count := possible_states_count ns |}.

Definition set_description (ns : hp_wmi_numeric_sensor) (v : option string) :=
  {| name := name ns; description := v; sensor_type := sensor_type ns;
     other_sensor_type := other_sensor_type ns;
     operational_status := operational_status ns;
     current_state := current_state ns; possible_states := possible_states ns;
     base_units := base_units ns; unit_modifier := unit_modifier ns;
     current_reading := current_reading ns;
     possible_states_count := possible_states_count ns |}.

Definition set_sensor_type (ns : hp_wmi_numeric_sensor) (v : Z) :=
  {| name := name ns; description := description ns; sensor_type := v;
     other_sensor_type := other_sensor_type ns;
     operational_status := operational_status ns;
     current_state := current_state ns; possible_states := possible_states ns;
     base_units := base_units ns; unit_modifier := unit_modifier ns;
     current_reading := current_reading ns;
     possible_states_count := possible_states_count ns |}.

Definition set_other_sensor_type (ns : hp_wmi_numeric_sensor) (v : option string) :=
  {| name := name ns; description := description ns; sensor_type := sensor_type ns;
     other_sensor_type := v;
     operational_status := operational_status ns;
     current_state := current_state ns; possible_states := possible_states ns;
     base_units := base_units ns; unit_modifier := unit_modifier ns;
     current_reading := current_reading ns;
     possible_states_count := possible_states_count ns |}.

Definition set_operational_status (ns : hp_wmi_numeric_sensor) (v : Z) :=
  {| name := name ns; description := description ns; sensor_type := sensor_type ns;
     other_sensor_type := other_sensor_type ns;
     operational_status := v;
     current_state := current_state ns; possible_states := possible_states ns;
     base_units := base_units ns; unit_modifier := unit_modifier ns;
     current_reading := current_reading ns;
     possible_states_count := possible_states_count ns |}.

Definition set_current_state (ns : hp_wmi_numeric_sensor) (v : option string) :=
  {| name := name ns; description := description ns; sensor_type := sensor_type ns;
     other_sensor_type := other_sensor_type ns;
     operational_status := operational_status ns;
     current_state := v; possible_states := possible_states ns;
     base_units := base_units ns; unit_modifier := unit_modifier ns;
     current_reading := current_reading ns;
     possible_states_count := possible_states_count ns |}.

Definition set_possible_states (ns : hp_wmi_numeric_sensor) (v : list (option string)) :=
  {| name := name ns; description := description ns; sensor_type := sensor_type ns;
     other_sensor_type := other_sensor_type ns;
     operational_status := operational_status ns;
     current_state := current_state ns; possible_states := v;
     base_units := base_units ns; unit_modifier := unit_modifier ns;
     current_reading := current_reading ns;
     possible_states_count := possible_states_count ns |}.

Definition set_base_units (ns : hp_wmi_numeric_sensor) (v : Z) :=
  {| name := name ns; description := description ns; sensor_type := sensor_type ns;
     other_sensor_type := other_sensor_type ns;
     operational_status := operational_status ns;
     current_state := current_state ns; possible_states := possible_states ns;
     base_units := v; unit_modifier := unit_modifier ns;
     current_reading := current_reading ns;
     possible_states_count := possible_states_count ns |}.

Definition set_unit_modifier (ns : hp_wmi_numeric_sensor) (v : Z) :=
  {| name := name ns; description := description ns; sensor_type := sensor_type ns;
     other_sensor_type := other_sensor_type ns;
     operational_status := operational_status ns;
     current_state := current_state ns; possible_states := possible_states ns;
     base_units := base_units ns; unit_modifier := v;
     current_reading := current_reading ns;
     possible_states_count := possible_states_count ns |}.

Definition set_current_reading (ns : hp_wmi_numeric_sensor) (v : Z) :=
  {| name := name ns; description := description ns; sensor_type := sensor_type ns;
     other_sensor_type := other_sensor_type ns;
     operational_status := operational_status ns;
     current_state := current_state ns; possible_states := possible_states ns;
     base_units := base_units ns; unit_modifier := unit_modifier ns;
     current_reading := v;
     possible_states_count := possible_states_count ns |}.

Definition set_possible_states_count (ns : hp_wmi_numeric_sensor) (v : Z) :=
  {| name := name ns; description := description ns; sensor_type := sensor_type ns;
     other_sensor_type := other_sensor_type ns;
     operational_status := operational_status ns;
     current_state := current_state ns; possible_states := possible_states ns;
     base_units := base_units ns; unit_modifier := unit_modifier ns;
     current_reading := current_reading ns;
     possible_states_count := v |}.

(** ** Reading the members of an element *)

(** [elements[i].integer.value]. *)
Definition integer_value (elements : list acpi_object) (i : nat) : result Z :=
  match nth_error elements i with
  | Some (AcpiInteger value) => Ok value
  | _ => Undefined
  end.

(** [elements[i].string.length] and [elements[i].string.pointer]. *)
Definition string_members (elements : list acpi_object) (i : nat)
  : result (Z * string) :=
  match nth_error elements i with
  | Some (AcpiString length pointer) => Ok (length, pointer)
  | _ => Undefined
  end.

(** ** Decoding, over what differs between the revisions *)

Section Decode.

(** [prep] is what is done to [element->string.pointer] before it is
    used (nothing in the first revision, [strim] in the second);
    [hp_wmi_strdup src len h] is the revision's length-limited copy, [None]
    for a failed allocation. *)
Variable prep : string -> string.
Variable hp_wmi_strdup : string -> Z -> heap -> option string * heap.

(** The locals of [populate_numeric_sensor_from_wobj] that live across
    iterations: the [element] cursor, the remaining
    [possible_states_count], and the last [value] and [string] read. *)
Record populate_locals : Type := {
  element : nat;
  remaining : Z;
  value : Z;
  string_ : option string
}.

(** The [switch (type)] at the top of the loop body (the second revision
    has it in [extract_acpi_value]): it reads [*element] as the schema
    type says and stores into [value] or [string]. *)
Definition extract_acpi_value (elements : list acpi_object)
    (type : acpi_object_type) (l : populate_locals) (h : heap)
  : result populate_locals * heap :=
  match type with
  | ACPI_TYPE_INTEGER =>
      match integer_value elements (element l) with
      | Ok v => (Ok {| element := element l; remaining := remaining l;
                       value := u32 v; string_ := string_ l |}, h)
      | Err e => (Err e, h)
      | Undefined => (Undefined, h)
      end
  | ACPI_TYPE_STRING =>
      match string_members elements (element l) with
      | Ok (length, pointer) =>
          let '(s, h) := hp_wmi_strdup (prep pointer) length h in
          match s with
          | None => (Err (- ENOMEM), h)
          | Some _ => (Ok {| element := element l; remaining := remaining l;
                             value := value l; string_ := s |}, h)
          end
      | Err e => (Err e, h)
      | Undefined => (Undefined, h)
      end
  | _ => (Err (- EINVAL), h)
  end.

(** The loop [for (prop = 0; prop <= HP_WMI_PROPERTY_CURRENT_READING; prop++)].
    The body moves [prop] itself (forward to skip OtherSensorType, back
    to stay on PossibleStates), so the loop is driven by [fuel]; running
    out of it is reported as [Undefined]. *)
Fixpoint populate_loop (fuel : nat) (elements : list acpi_object)
    (prop : Z) (l : populate_locals) (nsensor : hp_wmi_numeric_sensor)
    (h : heap) : result hp_wmi_numeric_sensor * heap :=
  match fuel with
  | O => (Undefined, h)
  | S fuel' =>
      if prop <=? HP_WMI_PROPERTY_CURRENT_READING then
        let type := hp_wmi_property_map prop in
        match extract_acpi_value elements type l h with
        | (Err e, h) => (Err e, h)
        | (Undefined, h) => (Undefined, h)
        | (Ok l, h) =>
            let l := {| element := (element l + 1)%nat; remaining := remaining l;
                        value := value l; string_ := string_ l |} in
            let next := populate_loop fuel' elements in
            if prop =? HP_WMI_PROPERTY_NAME then
              next (prop + 1) l (set_name nsensor (string_ l)) h
            else if prop =? HP_WMI_PROPERTY_DESCRIPTION then
              next (prop + 1) l (set_description nsensor (string_ l)) h
            else if prop =? HP_WMI_PROPERTY_SENSOR_TYPE then
              if value l >? HP_WMI_TYPE_AIR_FLOW then (Err (- EINVAL), h)
              else
                let nsensor := set_sensor_type nsensor (value l) in
                if negb (value l =? HP_WMI_TYPE_OTHER) then
                  let l := {| element := (element l + 1)%nat;
                              remaining := remaining l;
                              value := value l; string_ := string_ l |} in
                  next (prop + 1 + 1) l nsensor h
                else next (prop + 1) l nsensor h
            else if prop =? HP_WMI_PROPERTY_OTHER_SENSOR_TYPE then
              next (prop + 1) l (set_other_sensor_type nsensor (string_ l)) h
            else if prop =? HP_WMI_PROPERTY_OPERATIONAL_STATUS then
              next (prop + 1) l (set_operational_status nsensor (value l)) h
            else if prop =? HP_WMI_PROPERTY_CURRENT_STATE then
              next (prop + 1) l (set_current_state nsensor (string_ l)) h
            else if prop =? HP_WMI_PROPERTY_POSSIBLE_STATES then
              let nsensor :=
                set_possible_states nsensor
                  (possible_states nsensor ++ [string_ l]) in
              let l := {| element := element l;
                          remaining := u8 (remaining l - 1);
                          value := value l; string_ := string_ l |} in
              if negb (remaining l =? 0)
              then next (prop - 1 + 1) l nsensor h
              else next (prop + 1) l nsensor h
            else if prop =? HP_WMI_PROPERTY_BASE_UNITS then
              next (prop + 1) l (set_base_units nsensor (value l)) h
            else if prop =? HP_WMI_PROPERTY_UNIT_MODIFIER then
              next (prop + 1) l (set_unit_modifier nsensor (s32 (value l))) h
            else if prop =? HP_WMI_PROPERTY_CURRENT_READING then
              next (prop + 1) l (set_current_reading nsensor (value l)) h
            else (Err (- EINVAL), h)
        end
      else (Ok nsensor, h)
  end.

(** [populate_numeric_sensor_from_wobj].  The loop body runs once per
    element read and once more to leave, at most [10 + count] times. *)
Definition populate_numeric_sensor_from_wobj
    (nsensor : hp_wmi_numeric_sensor) (wobj : acpi_object) (h : heap)
  : result hp_wmi_numeric_sensor * heap :=
  match check_wobj wobj with
  | Err e => (Err e, h)
  | Undefined => (Undefined, h)
  | Ok possible_states_count =>
      let '(ok, h) := alloc h in
      if negb ok then (Err (- ENOMEM), h)
      else
        match wobj with
        | AcpiPackage elements =>
            let nsensor := set_possible_states nsensor [] in
            let nsensor := set_possible_states_count nsensor possible_states_count in
            populate_loop (Z.to_nat (11 + possible_states_count)) elements
              HP_WMI_PROPERTY_NAME
              {| element := 0%nat; remaining := possible_states_count;
                 value := 0; string_ := None |}
              nsensor h
        | _ => (Undefined, h)
        end
  end.

(** [update_numeric_sensor_from_wobj]: a [void] function that indexes
    the elements without checking them again. *)
Definition update_numeric_sensor_from_wobj
    (nsensor : hp_wmi_numeric_sensor) (wobj : acpi_object) (h : heap)
  : result hp_wmi_numeric_sensor * heap :=
  match wobj with
  | AcpiPackage elements =>
      match integer_value elements (Z.to_nat HP_WMI_PROPERTY_OPERATIONAL_STATUS),
            string_members elements (Z.to_nat HP_WMI_PROPERTY_CURRENT_STATE),
            current_state nsensor with
      | Ok status, Ok (length, pointer), Some current =>
          let nsensor := set_operational_status nsensor (u32 status) in
          let string := prep pointer in
          let '(nsensor, h) :=
            if strcmp_ne string current then
              let '(s, h) := hp_wmi_strdup string length h in
              (set_current_state nsensor s, h)
            else (nsensor, h) in
          let offset := u8 (possible_states_count nsensor - 1) in
          match integer_value elements
                  (Z.to_nat (HP_WMI_PROPERTY_UNIT_MODIFIER + offset)),
                integer_value elements
                  (Z.to_nat (HP_WMI_PROPERTY_CURRENT_READING + offset)) with
          | Ok modifier, Ok reading =>
              let nsensor := set_unit_modifier nsensor (s32 modifier) in
              let nsensor := set_current_reading nsensor (u32 reading) in
              (Ok nsensor, h)
          | _, _ => (Undefined, h)
          end
      | _, _, _ => (Undefined, h)
      end
  | _ => (Undefined, h)
  end.

End Decode.

(** ** hwmon sensor types (linux/hwmon.h) *)

Inductive hwmon_sensor_types : Type :=
| hwmon_chip
| hwmon_temp
| hwmon_in
| hwmon_curr
| hwmon_power
| hwmon_energy
| hwmon_humidity
| hwmon_fan
| hwmon_pwm
| hwmon_intrusion.

Definition hwmon_index (t : hwmon_sensor_types) : Z :=
  match t with
  | hwmon_chip => 0 | hwmon_temp => 1 | hwmon_in => 2 | hwmon_curr => 3
  | hwmon_power => 4 | hwmon_energy => 5 | hwmon_humidity => 6
  | hwmon_fan => 7 | hwmon_pwm => 8 | hwmon_intrusion => 9
  end.

Definition hwmon_eqb (a b : hwmon_sensor_types) : bool :=
  hwmon_index a =? hwmon_index b.

(** The values below [hwmon_max], in ascending order. *)
Definition hwmon_types : list hwmon_sensor_types :=
  [hwmon_chip; hwmon_temp; hwmon_in; hwmon_curr; hwmon_power; hwmon_energy;
   hwmon_humidity; hwmon_fan; hwmon_pwm; hwmon_intrusion].

(** [hp_wmi_hwmon_type_map[wtype]]; the gaps of the designated
    initialiser are zero, which is [hwmon_chip]. *)
Definition hp_wmi_hwmon_type_map (wtype : Z) : hwmon_sensor_types :=
  if wtype =? HP_WMI_TYPE_TEMPERATURE then hwmon_temp
  else if wtype =? HP_WMI_TYPE_VOLTAGE then hwmon_in
  else if wtype =? HP_WMI_TYPE_CURRENT then hwmon_curr
  else if wtype =? HP_WMI_TYPE_AIR_FLOW then hwmon_fan
  else hwmon_chip.

(** An array indexed by [enum hwmon_sensor_types]. *)
Definition by_type (A : Type) : Type := hwmon_sensor_types -> A.

Definition set_by_type {A : Type} (f : by_type A) (t : hwmon_sensor_types) (v : A)
  : by_type A :=
  fun t' => if hwmon_eqb t' t then v else f t'.

(** [l[i] = x] on an array held as a list; [None] when [i] is out of range. *)
Fixpoint list_set {A : Type} (l : list A) (i : nat) (x : A) : option (list A) :=
  match l, i with
  | [], _ => None
  | _ :: l', O => Some (x :: l')
  | y :: l', S i' =>
      match list_set l' i' x with
      | Some l'' => Some (y :: l'')
      | None => None
      end
  end.

(** ** The world outside the driver *)

(** [jiffies] is the tick counter, read as one value for the length of a
    call; [firmware] what a WMI block query returns for each instance
    ([None]: the query yields no object); [queries] the instances queried
    so far (latest first); [mem] the allocator; [hwmon_register] the error
    code of [devm_hwmon_device_register_with_info] (0 for success). *)
Record world : Type := {
  jiffies : Z;
  firmware : Z -> option acpi_object;
  queries : list Z;
  mem : heap;
  hwmon_register : Z
}.

Definition set_mem (w : world) (h : heap) : world :=
  {| jiffies := jiffies w; firmware := firmware w; queries := queries w;
     mem := h; hwmon_register := hwmon_register w |}.

(** [hp_wmi_get_wobj]: one [wmidev_block_query]. *)
Definition hp_wmi_get_wobj (w : world) (instance : Z) : option acpi_object * world :=
  (firmware w instance,
   {| jiffies := jiffies w; firmware := firmware w;
      queries := instance :: queries w;
      mem := mem w; hwmon_register := hwmon_register w |}).

(** [time_after(a, b)] of linux/jiffies.h: [(long)((b) - (a)) < 0] on
    [unsigned long] operands. *)
Definition time_after (a b : Z) : bool := long (ulong (b - a)) <? 0.

(** ** hwmon attributes (linux/hwmon.h) *)

(** The enumerators of linux/hwmon.h that the driver compares [attr]
    with.  The header is not part of the driver: the functions below take
    the numbers as a parameter, and what is proved of them holds for any
    numbering (in which, where it matters, the enumerators of one [enum]
    differ from one another). *)
Record hwmon_attributes : Type := {
  hwmon_chip_temp_reset_history : Z;
  hwmon_chip_in_reset_history : Z;
  hwmon_chip_curr_reset_history : Z;
  hwmon_chip_update_interval : Z;
  hwmon_temp_fault : Z;
  hwmon_temp_lowest : Z;
  hwmon_temp_highest : Z;
  hwmon_temp_reset_history : Z;
  hwmon_in_lowest : Z;
  hwmon_in_highest : Z;
  hwmon_in_reset_history : Z;
  hwmon_curr_lowest : Z;
  hwmon_curr_highest : Z;
  hwmon_curr_reset_history : Z;
  hwmon_fan_fault : Z
}.

(** File modes, written in octal in the C text: [0200], [0444], [0644]. *)
Definition mode_0200 : Z := 128.
Definition mode_0444 : Z := 292.
Definition mode_0644 : Z := 420.

(** What a call does to the delayed work of the refresh task:
    nothing, [cancel_delayed_work_sync] alone, or that followed by
    [schedule_delayed_work] with the given delay. *)
Inductive work_effect : Type :=
| WorkKept
| WorkCancelled
| WorkScheduled (delay : Z).

(** * First revision (lines 1-1522): refresh task and reading history *)

Module Rev1.

(** [hp_wmi_strdup(dev, src, len)]: at most [min(len, HP_WMI_MAX_STR_SIZE - 1)]
    characters of [src]. *)
Definition hp_wmi_strdup (src : string) (len : Z) (h : heap) : option string * heap :=
  let len := Z.min (u32 len) (HP_WMI_MAX_STR_SIZE - 1) in
  let '(ok, h) := alloc h in
  if ok then (Some (substring 0 (Z.to_nat len) src), h) else (None, h).

Definition numeric_sensor_has_fault (nsensor : hp_wmi_numeric_sensor) : bool :=
  let operational_status := operational_status nsensor in
  let current_reading := current_reading nsensor in
  negb (operational_status =? HP_WMI_STATUS_OK) || (current_reading =? 0).

Definition scale_numeric_sensor (nsensor : hp_wmi_numeric_sensor) : Z :=
  let sensor_type := sensor_type nsensor in
  let base_units := base_units nsensor in
  let val := scale_decades nsensor in
  if sensor_type =? HP_WMI_TYPE_TEMPERATURE then
    if base_units =? HP_WMI_UNITS_DEGREES_F then
      let val := long (val - 32 * MILLI) in
      if val <=? Z.quot LONG_MAX 5
      then Z.quot (long (val * 5)) 9
      else long (Z.quot val 9 * 5)
    else if base_units =? HP_WMI_UNITS_DEGREES_K then
      milli_kelvin_to_millicelsius val
    else val
  else val.

Definition populate_numeric_sensor_from_wobj :=
  populate_numeric_sensor_from_wobj (fun s => s) hp_wmi_strdup.

Definition update_numeric_sensor_from_wobj :=
  update_numeric_sensor_from_wobj (fun s => s) hp_wmi_strdup.

(** [struct hp_wmi_info]. *)
Record hp_wmi_info : Type := {
  nsensor : hp_wmi_numeric_sensor;
  instance : Z;
  is_active : bool;
  type : hwmon_sensor_types;
  cached_val : Z;
  lo_val : Z;
  hi_val : Z;
  last_updated : Z
}.

Definition zero_info : hp_wmi_info :=
  {| nsensor := zero_nsensor; instance := 0; is_active := false;
     type := hwmon_chip; cached_val := 0; lo_val := 0; hi_val := 0;
     last_updated := 0 |}.

Definition set_nsensor (info : hp_wmi_info) (ns : hp_wmi_numeric_sensor) :=
  {| nsensor := ns; instance := instance info; is_active := is_active info;
     type := type info; cached_val := cached_val info; lo_val := lo_val info;
     hi_val := hi_val info; last_updated := last_updated info |}.

Definition set_instance (info : hp_wmi_info) (i : Z) :=
  {| nsensor := nsensor info; instance := i; is_active := is_active info;
     type := type info; cached_val := cached_val info; lo_val := lo_val info;
     hi_val := hi_val info; last_updated := last_updated info |}.

Definition reset_info_history (info : hp_wmi_info) : hp_wmi_info :=
  if negb (hwmon_eqb (type info) hwmon_fan) then
    {| nsensor := nsensor info; instance := instance info;
       is_active := is_active info; type := type info;
       cached_val := cached_val info; lo_val := cached_val info;
       hi_val := cached_val info; last_updated := last_updated info |}
  else info.

(** [interpret_info]; [now] is the value of [jiffies]. *)
Definition interpret_info (now : Z) (info : hp_wmi_info) : hp_wmi_info :=
  let cached_val := scale_numeric_sensor (nsensor info) in
  let '(lo, hi) :=
    if negb (hwmon_eqb (type info) hwmon_fan)
    then (Z.min (lo_val info) cached_val, Z.max (hi_val info) cached_val)
    else (lo_val info, hi_val info) in
  {| nsensor := nsensor info; instance := instance info;
     is_active := is_active info; type := type info;
     cached_val := cached_val; lo_val := lo; hi_val := hi;
     last_updated := now |}.

(** [struct hp_wmi_sensors].  [info] is the array of
    [HP_WMI_MAX_INSTANCES] entries; [info_map] holds, per type and channel,
    the index of the entry pointed to ([None] for a null pointer);
    [update_interval] is [refresh_task.update_interval]. *)
Record hp_wmi_sensors : Type := {
  info : list hp_wmi_info;
  info_map : by_type (list (option nat));
  count : Z;
  channel_count : by_type Z;
  update_interval : Z
}.

Definition set_info (state : hp_wmi_sensors) (l : list hp_wmi_info) :=
  {| info := l; info_map := info_map state; count := count state;
     channel_count := channel_count state;
     update_interval := update_interval state |}.

Definition set_update_interval (state : hp_wmi_sensors) (v : Z) :=
  {| info := info state; info_map := info_map state; count := count state;
     channel_count := channel_count state; update_interval := v |}.

(** A zeroed driver state, as [hp_wmi_sensors_probe] allocates it. *)
Definition zero_state : hp_wmi_sensors :=
  {| info := repeat zero_info HP_WMI_MAX_INSTANCES;
     info_map := fun _ => [];
     count := 0;
     channel_count := fun _ => 0;
     update_interval := 0 |}.

(** The locals of [hp_wmi_sensors_init] that the discovery loop carries:
    [state->info], [active_info[0..channel)] (as indices into [info]; its
    length is [channel]), [channel_count] and [type_count]. *)
Record discovery : Type := {
  d_info : list hp_wmi_info;
  active_info : list nat;
  d_channel_count : by_type Z;
  type_count : Z
}.

(** One pass through the body of the discovery loop for instance [i] whose
    query returned [wobj].  [Err] is the [return err] after
    [out_free_wobj]. *)
Definition discover_instance (i : nat) (wobj : acpi_object) (d : discovery)
    (w : world) : result discovery * world :=
  match nth_error (d_info d) i with
  | None => (Undefined, w)
  | Some info =>
      let info := set_instance info (Z.of_nat i) in
      match populate_numeric_sensor_from_wobj (nsensor info) wobj (mem w) with
      | (Err err, h) => (Err err, set_mem w h)
      | (Undefined, h) => (Undefined, set_mem w h)
      | (Ok ns, h) =>
          let w := set_mem w h in
          let info := set_nsensor info ns in
          let wtype := classify_numeric_sensor ns in
          if numeric_sensor_has_fault ns || (wtype <? 0) then
            match list_set (d_info d) i info with
            | None => (Undefined, w)
            | Some l =>
                (Ok {| d_info := l; active_info := active_info d;
                       d_channel_count := d_channel_count d;
                       type_count := type_count d |}, w)
            end
          else
            let type := hp_wmi_hwmon_type_map wtype in
            let type_count :=
              if d_channel_count d type =? 0
              then u8 (type_count d + 1) else type_count d in
            let channel_count :=
              set_by_type (d_channel_count d) type (u8 (d_channel_count d type + 1)) in
            let info :=
              {| nsensor := nsensor info; instance := instance info;
                 is_active := true; type := type;
                 cached_val := cached_val info;
                 lo_val := LONG_MAX; hi_val := LONG_MIN;
                 last_updated := last_updated info |} in
            let info := interpret_info (jiffies w) info in
            match list_set (d_info d) i info with
            | None => (Undefined, w)
            | Some l =>
                (Ok {| d_info := l; active_info := active_info d ++ [i];
                       d_channel_count := channel_count;
                       type_count := type_count |}, w)
            end
      end
  end.

(** [for (i = 0, channel = 0; i < HP_WMI_MAX_INSTANCES; i++, info++)],
    from instance [i] on; the result carries the final [i]. *)
Fixpoint discover (fuel : nat) (i : nat) (d : discovery) (w : world)
  : result (nat * discovery) * world :=
  match fuel with
  | O => (Ok (i, d), w)
  | S fuel' =>
      if (i <? HP_WMI_MAX_INSTANCES)%nat then
        let '(wobj, w) := hp_wmi_get_wobj w (Z.of_nat i) in
        match wobj with
        | None => (Ok (i, d), w)
        | Some wobj =>
            match discover_instance i wobj d w with
            | (Ok d, w) => discover fuel' (i + 1)%nat d w
            | (Err err, w) => (Err err, w)
            | (Undefined, w) => (Undefined, w)
            end
        end
      else (Ok (i, d), w)
  end.

(** The loop over the hwmon types with channels: [add_channel_info] and
    the [devm_kcalloc] of [state->info_map[type]], in the order [types]. *)
Fixpoint alloc_channels (types : list hwmon_sensor_types)
    (channel_count : by_type Z) (map : by_type (list (option nat))) (h : heap)
  : result (by_type (list (option nat))) * heap :=
  match types with
  | [] => (Ok map, h)
  | type :: types' =>
      if channel_count type =? 0 then alloc_channels types' channel_count map h
      else
        let '(ok, h) := alloc h in
        if negb ok then (Err (- ENOMEM), h)
        else
          let '(ok, h) := alloc h in
          if negb ok then (Err (- ENOMEM), h)
          else
            alloc_channels types' channel_count
              (set_by_type map type (repeat None (Z.to_nat (channel_count type)))) h
  end.

(** [while (channel > 0) { type = active_info[--channel]->type; i = --channel_count[type]; state->info_map[type][i] = active_info[channel]; }] *)
Fixpoint fill_info_map (channel : nat) (active_info : list nat)
    (info : list hp_wmi_info) (channel_count : by_type Z)
    (map : by_type (list (option nat))) : result (by_type (list (option nat))) :=
  match channel with
  | O => Ok map
  | S channel' =>
      match nth_error active_info channel' with
      | None => Undefined
      | Some idx =>
          match nth_error info idx with
          | None => Undefined
          | Some inf =>
              let type := type inf in
              let i := u8 (channel_count type - 1) in
              match list_set (map type) (Z.to_nat i) (Some idx) with
              | None => Undefined
              | Some l =>
                  fill_info_map channel' active_info info
                    (set_by_type channel_count type i) (set_by_type map type l)
              end
          end
      end
  end.

(** [hp_wmi_sensors_init].  [hp_wmi_debugfs_init] returns [void] and does
    not touch the sensor state, so it is left out.  Of [hp_wmi_chip_info]
    the contents are left out and the allocations kept, in the order of the
    code: the two [devm_kcalloc] calls, then per hwmon type with channels
    (from [hwmon_max - 1] down to [hwmon_chip]) [add_channel_info] and the
    [info_map] row.  [devm_delayed_work_autocancel] is one more allocation
    that may fail. *)
Definition hp_wmi_sensors_init (state : hp_wmi_sensors) (w : world)
  : result hp_wmi_sensors * world :=
  let d0 := {| d_info := info state; active_info := [];
               d_channel_count := fun _ => 0; type_count := 0 |} in
  match discover HP_WMI_MAX_INSTANCES 0%nat d0 w with
  | (Err err, w) => (Err err, w)
  | (Undefined, w) => (Undefined, w)
  | (Ok (i, d), w) =>
      let count := Z.of_nat i in
      if count =? 0 then (Err (- ENODATA), w)
      else
        let channel := List.length (active_info d) in
        if (channel =? 0)%nat then
          (Ok {| info := d_info d; info_map := info_map state; count := count;
                 channel_count := channel_count state;
                 update_interval := update_interval state |}, w)
        else
          let channel_count := set_by_type (d_channel_count d) hwmon_chip 1 in
          let '(ok, h) := alloc (mem w) in
          if negb ok then (Err (- ENOMEM), set_mem w h)
          else
            let '(ok, h) := alloc h in
            if negb ok then (Err (- ENOMEM), set_mem w h)
            else
              match alloc_channels (rev hwmon_types) channel_count
                      (info_map state) h with
              | (Err err, h) => (Err err, set_mem w h)
              | (Undefined, h) => (Undefined, set_mem w h)
              | (Ok map, h) =>
                  let w := set_mem w h in
                  match fill_info_map channel (active_info d) (d_info d)
                          channel_count map with
                  | Err err => (Err err, w)
                  | Undefined => (Undefined, w)
                  | Ok map =>
                      if hwmon_register w <? 0 then (Err (hwmon_register w), w)
                      else
                        let '(ok, h) := alloc (mem w) in
                        let w := set_mem w h in
                        if negb ok then (Err (- ENOMEM), w)
                        else
                          (Ok {| info := d_info d; info_map := map;
                                 count := count;
                                 channel_count := channel_count;
                                 update_interval := update_interval state |}, w)
                  end
              end
  end.


Section WithHZ.

(** [HZ]: ticks per second, a kernel configuration constant. *)
Variable HZ : Z.

(** [hp_wmi_update_info]: the return value and the sensor info as the
    call leaves it. *)
Definition hp_wmi_update_info (w : world) (info : hp_wmi_info)
  : result (Z * hp_wmi_info) * world :=
  if time_after (jiffies w) (ulong (last_updated info + HZ)) then
    let '(wobj, w) := hp_wmi_get_wobj w (instance info) in
    match wobj with
    | None => (Ok (- EIO, info), w)
    | Some wobj =>
        match update_numeric_sensor_from_wobj (nsensor info) wobj (mem w) with
        | (Ok ns, h) =>
            (Ok (0, interpret_info (jiffies w) (set_nsensor info ns)), set_mem w h)
        | (Err e, h) => (Err e, set_mem w h)
        | (Undefined, h) => (Undefined, set_mem w h)
        end
    end
  else (Ok (0, info), w).

(** The loop of [hp_wmi_sensors_refresh_task] from index [i] on.  The
    boolean tells whether the loop was left through [goto out_unlock]. *)
Fixpoint refresh_loop (fuel : nat) (i : nat) (state : hp_wmi_sensors) (w : world)
  : result (hp_wmi_sensors * bool) * world :=
  match fuel with
  | O => (Ok (state, false), w)
  | S fuel' =>
      if Z.of_nat i <? count state then
        match nth_error (info state) i with
        | None => (Undefined, w)
        | Some inf =>
            if negb (is_active inf) then refresh_loop fuel' (i + 1)%nat state w
            else
              match hp_wmi_update_info w inf with
              | (Ok (err, inf'), w) =>
                  match list_set (info state) i inf' with
                  | None => (Undefined, w)
                  | Some l =>
                      let state := set_info state l in
                      if err =? 0
                      then (Ok (set_update_interval state 0, true), w)
                      else refresh_loop fuel' (i + 1)%nat state w
                  end
              | (Err e, w) => (Err e, w)
              | (Undefined, w) => (Undefined, w)
              end
        end
      else (Ok (state, false), w)
  end.

(** [hp_wmi_sensors_refresh_task].  The second component of the result is
    the delay in milliseconds handed to [schedule_delayed_work], or [None]
    when the task does not schedule itself again. *)
Definition hp_wmi_sensors_refresh_task (state : hp_wmi_sensors) (w : world)
  : result (hp_wmi_sensors * option Z) * world :=
  let update_interval := update_interval state in
  match refresh_loop (Z.to_nat (count state)) 0%nat state w with
  | (Ok (state, true), w) => (Ok (state, None), w)
  | (Ok (state, false), w) => (Ok (state, Some update_interval), w)
  | (Err e, w) => (Err e, w)
  | (Undefined, w) => (Undefined, w)
  end.

End WithHZ.

Section Hwmon.

Variable HZ : Z.
Variable a : hwmon_attributes.

(** [state->info_map[type][channel]] and the entry of [state->info] it
    points to, by its index.  [None] stands for a null row, a channel
    outside the row, or a null entry: following any of them is undefined.
    A row that was never allocated is the empty list. *)
Definition info_at (state : hp_wmi_sensors) (type : hwmon_sensor_types)
    (channel : Z) : option (nat * hp_wmi_info) :=
  if channel <? 0 then None
  else
    match nth_error (info_map state type) (Z.to_nat channel) with
    | Some (Some idx) =>
        match nth_error (info state) idx with
        | Some inf => Some (idx, inf)
        | None => None
        end
    | _ => None
    end.

(** [hp_wmi_hwmon_is_visible]; the result is the [umode_t]. *)
Definition hp_wmi_hwmon_is_visible (state : hp_wmi_sensors)
    (type : hwmon_sensor_types) (attr channel : Z) : result Z :=
  if hwmon_eqb type hwmon_chip then
    if (attr =? hwmon_chip_temp_reset_history a) ||
       (attr =? hwmon_chip_curr_reset_history a) ||
       (attr =? hwmon_chip_in_reset_history a)
    then Ok mode_0200
    else if attr =? hwmon_chip_update_interval a then Ok mode_0644
    else Ok 0
  else
    match info_map state type with
    | [] => Ok 0
    | row =>
        if channel <? 0 then Undefined
        else
          match nth_error row (Z.to_nat channel) with
          | None => Undefined
          | Some None => Ok 0
          | Some (Some _) =>
              if (hwmon_eqb type hwmon_temp && (attr =? hwmon_temp_reset_history a)) ||
                 (hwmon_eqb type hwmon_curr && (attr =? hwmon_curr_reset_history a)) ||
                 (hwmon_eqb type hwmon_in && (attr =? hwmon_in_reset_history a))
              then Ok mode_0200
              else Ok mode_0444
          end
    end.

(** [hp_wmi_hwmon_read]: the return value, what was stored through
    [val] (if anything) and the driver state afterwards. *)
Definition hp_wmi_hwmon_read (state : hp_wmi_sensors)
    (type : hwmon_sensor_types) (attr channel : Z) (w : world)
  : result (Z * option Z * hp_wmi_sensors) * world :=
  if hwmon_eqb type hwmon_chip then
    if attr =? hwmon_chip_update_interval a
    then (Ok (0, Some (update_interval state), state), w)
    else (Ok (- EOPNOTSUPP, None, state), w)
  else
    match info_at state type channel with
    | None => (Undefined, w)
    | Some (idx, inf) =>
        match hp_wmi_update_info HZ w inf with
        | (Ok (err, inf), w) =>
            match list_set (info state) idx inf with
            | None => (Undefined, w)
            | Some l =>
                let state := set_info state l in
                let nsensor := nsensor inf in
                if negb (err =? 0) then (Ok (err, None, state), w)
                else if (hwmon_eqb type hwmon_temp && (attr =? hwmon_temp_fault a)) ||
                        (hwmon_eqb type hwmon_fan && (attr =? hwmon_fan_fault a))
                then (Ok (0, Some (if numeric_sensor_has_fault nsensor then 1 else 0),
                          state), w)
                else if (hwmon_eqb type hwmon_temp && (attr =? hwmon_temp_lowest a)) ||
                        (hwmon_eqb type hwmon_curr && (attr =? hwmon_curr_lowest a)) ||
                        (hwmon_eqb type hwmon_in && (attr =? hwmon_in_lowest a))
                then (Ok (0, Some (lo_val inf), state), w)
                else if (hwmon_eqb type hwmon_temp && (attr =? hwmon_temp_highest a)) ||
                        (hwmon_eqb type hwmon_curr && (attr =? hwmon_curr_highest a)) ||
                        (hwmon_eqb type hwmon_in && (attr =? hwmon_in_highest a))
                then (Ok (0, Some (hi_val inf), state), w)
                else (Ok (0, Some (cached_val inf), state), w)
            end
        | (Err e, w) => (Err e, w)
        | (Undefined, w) => (Undefined, w)
        end
    end.

(** [hp_wmi_hwmon_read_string]: the return value and the string stored
    through [str]. *)
Definition hp_wmi_hwmon_read_string (state : hp_wmi_sensors)
    (type : hwmon_sensor_types) (attr channel : Z) : result (Z * option string) :=
  match info_at state type channel with
  | None => Undefined
  | Some (_, inf) => Ok (0, name (nsensor inf))
  end.

(** [for (i = 0; i < state->channel_count[type]; i++) reset_info_history(state->info_map[type][i]);] *)
Fixpoint reset_loop (fuel : nat) (i : Z) (state : hp_wmi_sensors)
    (type : hwmon_sensor_types) : result hp_wmi_sensors :=
  match fuel with
  | O => Ok state
  | S fuel' =>
      if i <? channel_count state type then
        match info_at state type i with
        | None => Undefined
        | Some (idx, inf) =>
            match list_set (info state) idx (reset_info_history inf) with
            | None => Undefined
            | Some l => reset_loop fuel' (u8 (i + 1)) (set_info state l) type
            end
        end
      else Ok state
  end.

(** [hp_wmi_hwmon_chip_write]: the return value, the driver state and
    what happened to the delayed work. *)
Definition hp_wmi_hwmon_chip_write (state : hp_wmi_sensors) (attr val : Z)
  : result (Z * hp_wmi_sensors * work_effect) :=
  if attr =? hwmon_chip_update_interval a then
    if negb (val =? 0) &&
       ((val <? HP_WMI_MIN_UPDATE_INTERVAL) || (val >? HP_WMI_MAX_UPDATE_INTERVAL))
    then Ok (- ERANGE, state, WorkKept)
    else
      Ok (0, set_update_interval state val,
          if negb (val =? 0) then WorkScheduled 0 else WorkCancelled)
  else
    let type :=
      if attr =? hwmon_chip_temp_reset_history a then Some hwmon_temp
      else if attr =? hwmon_chip_curr_reset_history a then Some hwmon_curr
      else if attr =? hwmon_chip_in_reset_history a then Some hwmon_in
      else None in
    match type with
    | None => Ok (- EOPNOTSUPP, state, WorkKept)
    | Some type =>
        if negb (val =? 1) then Ok (- EINVAL, state, WorkKept)
        else
          match reset_loop (Z.to_nat (channel_count state type)) 0 state type with
          | Ok state => Ok (0, state, WorkKept)
          | Err e => Err e
          | Undefined => Undefined
          end
    end.

(** [hp_wmi_hwmon_write]. *)
Definition hp_wmi_hwmon_write (state : hp_wmi_sensors)
    (type : hwmon_sensor_types) (attr channel val : Z)
  : result (Z * hp_wmi_sensors * work_effect) :=
  if hwmon_eqb type hwmon_chip then hp_wmi_hwmon_chip_write state attr val
  else if negb (val =? 1) then Ok (- EINVAL, state, WorkKept)
  else
    match info_at state type channel with
    | None => Undefined
    | Some (idx, inf) =>
        match list_set (info state) idx (reset_info_history inf) with
        | None => Undefined
        | Some l => Ok (0, set_info state l, WorkKept)
        end
    end.

End Hwmon.

(** [hp_wmi_sensors_probe].  The two booleans are the answers of
    [wmi_has_guid] for the numeric sensor GUID and the BIOS GUID. *)
Definition hp_wmi_sensors_probe (has_numeric_sensor_guid has_bios_guid : bool)
    (w : world) : result hp_wmi_sensors * world :=
  if negb has_numeric_sensor_guid || negb has_bios_guid then (Err (- ENODEV), w)
  else
    let '(ok, h) := alloc (mem w) in
    if negb ok then (Err (- ENOMEM), set_mem w h)
    else hp_wmi_sensors_init zero_state (set_mem w h).

End Rev1.

(** * Second revision (lines 1523-2587): trimmed strings, "No Contact" gate *)

Module Rev2.

(** [hp_wmi_strdup(dev, src)]: at most [HP_WMI_MAX_STR_SIZE - 1] characters
    of [src].  The length argument of the shared decoder is not used. *)
Definition hp_wmi_strdup (src : string) (len : Z) (h : heap) : option string * heap :=
  let len := HP_WMI_MAX_STR_SIZE - 1 in
  let '(ok, h) := alloc h in
  if ok then (Some (substring 0 (Z.to_nat len) src), h) else (None, h).

Definition numeric_sensor_is_connected (nsensor : hp_wmi_numeric_sensor) : bool :=
  let operational_status := operational_status nsensor in
  negb (operational_status =? HP_WMI_STATUS_NO_CONTACT).

Definition numeric_sensor_has_fault (nsensor : hp_wmi_numeric_sensor) : bool :=
  let operational_status := operational_status nsensor in
  (operational_status =? HP_WMI_STATUS_DEGRADED) ||
  (operational_status =? HP_WMI_STATUS_STRESSED) ||
  (operational_status =? HP_WMI_STATUS_PREDICTIVE_FAILURE) ||
  (operational_status =? HP_WMI_STATUS_ERROR) ||
  (operational_status =? HP_WMI_STATUS_NON_RECOVERABLE_ERROR) ||
  (operational_status =? HP_WMI_STATUS_NO_CONTACT) ||
  (operational_status =? HP_WMI_STATUS_LOST_COMMUNICATION) ||
  (operational_status =? HP_WMI_STATUS_ABORTED) ||
  (operational_status =? HP_WMI_STATUS_SUPPORTING_ENTITY_IN_ERROR) ||
  (operational_status =? HP_WMI_STATUS_COMPLETED + HP_WMI_STATUS_DEGRADED) ||
  (operational_status =? HP_WMI_STATUS_COMPLETED + HP_WMI_STATUS_ERROR).

Definition scale_numeric_sensor (nsensor : hp_wmi_numeric_sensor) : Z :=
  let sensor_type := sensor_type nsensor in
  let base_units := base_units nsensor in
  let val := scale_decades nsensor in
  if sensor_type =? HP_WMI_TYPE_TEMPERATURE then
    if base_units =? HP_WMI_UNITS_DEGREES_F then
      let val := long (val - MILLI * 32) in
      if val <=? Z.quot LONG_MAX 5
      then DIV_ROUND_CLOSEST (long (val * 5)) 9
      else long (DIV_ROUND_CLOSEST val 9 * 5)
    else if base_units =? HP_WMI_UNITS_DEGREES_K then
      milli_kelvin_to_millicelsius val
    else val
  else val.

Definition populate_numeric_sensor_from_wobj :=
  populate_numeric_sensor_from_wobj strim hp_wmi_strdup.

Definition update_numeric_sensor_from_wobj :=
  update_numeric_sensor_from_wobj strim hp_wmi_strdup.

(** [struct hp_wmi_info]. *)
Record hp_wmi_info : Type := {
  nsensor : hp_wmi_numeric_sensor;
  instance : Z;
  is_active : bool;
  type : hwmon_sensor_types;
  cached_val : Z;
  last_updated : Z
}.

Definition zero_info : hp_wmi_info :=
  {| nsensor := zero_nsensor; instance := 0; is_active := false;
     type := hwmon_chip; cached_val := 0; last_updated := 0 |}.

Definition set_nsensor (info : hp_wmi_info) (ns : hp_wmi_numeric_sensor) :=
  {| nsensor := ns; instance := instance info; is_active := is_active info;
     type := type info; cached_val := cached_val info;
     last_updated := last_updated info |}.

Definition set_instance (info : hp_wmi_info) (i : Z) :=
  {| nsensor := nsensor info; instance := i; is_active := is_active info;
     type := type info; cached_val := cached_val info;
     last_updated := last_updated info |}.

(** [interpret_info]; [now] is the value of [jiffies]. *)
Definition interpret_info (now : Z) (info : hp_wmi_info) : hp_wmi_info :=
  {| nsensor := nsensor info; instance := instance info;
     is_active := is_active info; type := type info;
     cached_val := scale_numeric_sensor (nsensor info);
     last_updated := now |}.

(** [struct hp_wmi_sensors]; see the first revision for the encoding. *)
Record hp_wmi_sensors : Type := {
  info : list hp_wmi_info;
  info_map : by_type (list (option nat));
  count : Z;
  channel_count : by_type Z
}.

Definition zero_state : hp_wmi_sensors :=
  {| info := repeat zero_info HP_WMI_MAX_INSTANCES;
     info_map := fun _ => [];
     count := 0;
     channel_count := fun _ => 0 |}.

Record discovery : Type := {
  d_info : list hp_wmi_info;
  active_info : list nat;
  d_channel_count : by_type Z;
  type_count : Z
}.

(** The body of the discovery loop for instance [i]. *)
Definition discover_instance (i : nat) (wobj : acpi_object) (d : discovery)
    (w : world) : result discovery * world :=
  match nth_error (d_info d) i with
  | None => (Undefined, w)
  | Some info =>
      let info := set_instance info (Z.of_nat i) in
      match populate_numeric_sensor_from_wobj (nsensor info) wobj (mem w) with
      | (Err err, h) => (Err err, set_mem w h)
      | (Undefined, h) => (Undefined, set_mem w h)
      | (Ok ns, h) =>
          let w := set_mem w h in
          let info := set_nsensor info ns in
          let wtype := classify_numeric_sensor ns in
          if negb (numeric_sensor_is_connected ns) || (wtype <? 0) then
            match list_set (d_info d) i info with
            | None => (Undefined, w)
            | Some l =>
                (Ok {| d_info := l; active_info := active_info d;
                       d_channel_count := d_channel_count d;
                       type_count := type_count d |}, w)
            end
          else
            let type := hp_wmi_hwmon_type_map wtype in
            let type_count :=
              if d_channel_count d type =? 0
              then u8 (type_count d + 1) else type_count d in
            let channel_count :=
              set_by_type (d_channel_count d) type (u8 (d_channel_count d type + 1)) in
            let info :=
              {| nsensor := nsensor info; instance := instance info;
                 is_active := true; type := type;
                 cached_val := cached_val info;
                 last_updated := last_updated info |} in
            let info := interpret_info (jiffies w) info in
            match list_set (d_info d) i info with
            | None => (Undefined, w)
            | Some l =>
                (Ok {| d_info := l; active_info := active_info d ++ [i];
                       d_channel_count := channel_count;
                       type_count := type_count |}, w)
            end
      end
  end.

Fixpoint discover (fuel : nat) (i : nat) (d : discovery) (w : world)
  : result (nat * discovery) * world :=
  match fuel with
  | O => (Ok (i, d), w)
  | S fuel' =>
      if (i <? HP_WMI_MAX_INSTANCES)%nat then
        let '(wobj, w) := hp_wmi_get_wobj w (Z.of_nat i) in
        match wobj with
        | None => (Ok (i, d), w)
        | Some wobj =>
            match discover_instance i wobj d w with
            | (Ok d, w) => discover fuel' (i + 1)%nat d w
            | (Err err, w) => (Err err, w)
            | (Undefined, w) => (Undefined, w)
            end
        end
      else (Ok (i, d), w)
  end.

Fixpoint alloc_channels (types : list hwmon_sensor_types)
    (channel_count : by_type Z) (map : by_type (list (option nat))) (h : heap)
  : result (by_type (list (option nat))) * heap :=
  match types with
  | [] => (Ok map, h)
  | type :: types' =>
      if channel_count type =? 0 then alloc_channels types' channel_count map h
      else
        let '(ok, h) := alloc h in
        if negb ok then (Err (- ENOMEM), h)
        else
          let '(ok, h) := alloc h in
          if negb ok then (Err (- ENOMEM), h)
          else
            alloc_channels types' channel_count
              (set_by_type map type (repeat None (Z.to_nat (channel_count type)))) h
  end.

Fixpoint fill_info_map (channel : nat) (active_info : list nat)
    (info : list hp_wmi_info) (channel_count : by_type Z)
    (map : by_type (list (option nat))) : result (by_type (list (option nat))) :=
  match channel with
  | O => Ok map
  | S channel' =>
      match nth_error active_info channel' with
      | None => Undefined
      | Some idx =>
          match nth_error info idx with
          | None => Undefined
          | Some inf =>
              let type := type inf in
              let i := u8 (channel_count type - 1) in
              match list_set (map type) (Z.to_nat i) (Some idx) with
              | None => Undefined
              | Some l =>
                  fill_info_map channel' active_info info
                    (set_by_type channel_count type i) (set_by_type map type l)
              end
          end
      end
  end.

(** [hp_wmi_sensors_init]. *)
Definition hp_wmi_sensors_init (state : hp_wmi_sensors) (w : world)
  : result hp_wmi_sensors * world :=
  let d0 := {| d_info := info state; active_info := [];
               d_channel_count := fun _ => 0; type_count := 0 |} in
  match discover HP_WMI_MAX_INSTANCES 0%nat d0 w with
  | (Err err, w) => (Err err, w)
  | (Undefined, w) => (Undefined, w)
  | (Ok (i, d), w) =>
      let count := Z.of_nat i in
      if count =? 0 then (Err (- ENODATA), w)
      else
        let channel := List.length (active_info d) in
        if (channel =? 0)%nat then
          (Ok {| info := d_info d; info_map := info_map state; count := count;
                 channel_count := channel_count state |}, w)
        else
          let channel_count :=
            if negb (d_channel_count d hwmon_temp =? 0)
            then set_by_type (d_channel_count d) hwmon_chip 1
            else d_channel_count d in
          let '(ok, h) := alloc (mem w) in
          if negb ok then (Err (- ENOMEM), set_mem w h)
          else
            let '(ok, h) := alloc h in
            if negb ok then (Err (- ENOMEM), set_mem w h)
            else
              match alloc_channels hwmon_types channel_count
                      (info_map state) h with
              | (Err err, h) => (Err err, set_mem w h)
              | (Undefined, h) => (Undefined, set_mem w h)
              | (Ok map, h) =>
                  let w := set_mem w h in
                  match fill_info_map channel (active_info d) (d_info d)
                          channel_count map with
                  | Err err => (Err err, w)
                  | Undefined => (Undefined, w)
                  | Ok map =>
                      if hwmon_register w <? 0 then (Err (hwmon_register w), w)
                      else
                        (Ok {| info := d_info d; info_map := map;
                               count := count;
                               channel_count := channel_count |}, w)
                  end
              end
  end.

Section WithHZ.

Variable HZ : Z.

(** [hp_wmi_update_info]; the refresh runs under [state->lock]. *)
Definition hp_wmi_update_info (w : world) (info : hp_wmi_info)
  : result (Z * hp_wmi_info) * world :=
  if time_after (jiffies w) (ulong (last_updated info + HZ)) then
    let '(wobj, w) := hp_wmi_get_wobj w (instance info) in
    match wobj with
    | None => (Ok (- EIO, info), w)
    | Some wobj =>
        match update_numeric_sensor_from_wobj (nsensor info) wobj (mem w) with
        | (Ok ns, h) =>
            (Ok (0, interpret_info (jiffies w) (set_nsensor info ns)), set_mem w h)
        | (Err e, h) => (Err e, set_mem w h)
        | (Undefined, h) => (Undefined, set_mem w h)
        end
    end
  else (Ok (0, info), w).

End WithHZ.

Section Hwmon.

Variable HZ : Z.
Variable a : hwmon_attributes.

(** [state->info_map[type][channel]] and the entry of [state->info] it
    points to; see the first revision. *)
Definition info_at (state : hp_wmi_sensors) (type : hwmon_sensor_types)
    (channel : Z) : option (nat * hp_wmi_info) :=
  if channel <? 0 then None
  else
    match nth_error (info_map state type) (Z.to_nat channel) with
    | Some (Some idx) =>
        match nth_error (info state) idx with
        | Some inf => Some (idx, inf)
        | None => None
        end
    | _ => None
    end.

(** [hp_wmi_hwmon_is_visible]. *)
Definition hp_wmi_hwmon_is_visible (state : hp_wmi_sensors)
    (type : hwmon_sensor_types) (attr channel : Z) : result Z :=
  match info_map state type with
  | [] => Ok 0
  | row =>
      if channel <? 0 then Undefined
      else
        match nth_error row (Z.to_nat channel) with
        | None => Undefined
        | Some None => Ok 0
        | Some (Some _) => Ok mode_0444
        end
  end.

(** [hp_wmi_hwmon_read]. *)
Definition hp_wmi_hwmon_read (state : hp_wmi_sensors)
    (type : hwmon_sensor_types) (attr channel : Z) (w : world)
  : result (Z * option Z * hp_wmi_sensors) * world :=
  match info_at state type channel with
  | None => (Undefined, w)
  | Some (idx, inf) =>
      match hp_wmi_update_info HZ w inf with
      | (Ok (err, inf), w) =>
          match list_set (info state) idx inf with
          | None => (Undefined, w)
          | Some l =>
              let state :=
                {| info := l; info_map := info_map state; count := count state;
                   channel_count := channel_count state |} in
              let nsensor := nsensor inf in
              if negb (err =? 0) then (Ok (err, None, state), w)
              else if (hwmon_eqb type hwmon_temp && (attr =? hwmon_temp_fault a)) ||
                      (hwmon_eqb type hwmon_fan && (attr =? hwmon_fan_fault a))
              then (Ok (0, Some (if numeric_sensor_has_fault nsensor then 1 else 0),
                        state), w)
              else (Ok (0, Some (cached_val inf), state), w)
          end
      | (Err e, w) => (Err e, w)
      | (Undefined, w) => (Undefined, w)
      end
  end.

(** [hp_wmi_hwmon_read_string]. *)
Definition hp_wmi_hwmon_read_string (state : hp_wmi_sensors)
    (type : hwmon_sensor_types) (attr channel : Z) : result (Z * option string) :=
  match info_at state type channel with
  | None => Undefined
  | Some (_, inf) => Ok (0, name (nsensor inf))
  end.

End Hwmon.

(** [hp_wmi_sensors_probe]. *)
Definition hp_wmi_sensors_probe (w : world) : result hp_wmi_sensors * world :=
  let '(ok, h) := alloc (mem w) in
  if negb ok then (Err (- ENOMEM), set_mem w h)
  else hp_wmi_sensors_init zero_state (set_mem w h).

End Rev2.

(** * Specification-side definitions *)

(** ** Validation *)

Definition is_string (e : acpi_object) : Prop := acpi_type e = ACPI_TYPE_STRING.

(** No String at the front: where the lookahead of [check_wobj] stops. *)
Definition no_leading_string (l : list acpi_object) : Prop :=
  match l with
  | e :: _ => acpi_type e <> ACPI_TYPE_STRING
  | [] => True
  end.

(** The six fields in front of PossibleStates and the three behind it. *)
Definition head_types : list acpi_object_type :=
  [ACPI_TYPE_STRING; ACPI_TYPE_STRING; ACPI_TYPE_INTEGER;
   ACPI_TYPE_STRING; ACPI_TYPE_INTEGER; ACPI_TYPE_STRING].

Definition tail_types : list acpi_object_type :=
  [ACPI_TYPE_INTEGER; ACPI_TYPE_INTEGER; ACPI_TYPE_INTEGER].

(** The outer loop of [check_wobj] once it is past CurrentState, as a
    recursion on the elements still to come. *)
Fixpoint check_rest (rest : list acpi_object) (prop count : Z) : check_exit :=
  match rest with
  | [] => CheckDone prop count
  | e :: rest' =>
      if prop >? HP_WMI_PROPERTY_CURRENT_READING then CheckReturn (- EINVAL)
      else if negb (acpi_type_eqb (acpi_type e) (hp_wmi_property_map prop))
      then CheckReturn (- EINVAL)
      else check_rest rest' (prop + 1) count
  end.


(** ** Scaling, in unbounded integers *)

(** Division by ten rounded to the nearest integer, on a magnitude. *)
Definition round10 (v : Z) : Z := (v + 5) / 10.

(** The spec's decade scaling without any bound: divide-and-round while
    the exponent is below the target, multiply by ten while it is above. *)
Definition decade_exact (reading modifier target : Z) : Z :=
  if modifier <? target
  then Nat.iter (Z.to_nat (target - modifier)) round10 reading
  else reading * 10 ^ (modifier - target).

Definition target_modifier (sensor_type : Z) : Z :=
  if sensor_type =? HP_WMI_TYPE_AIR_FLOW then 0 else -3.

(** The decade-scaled value as the driver holds it: exact, or clamped. *)
Definition decade_clamped (nsensor : hp_wmi_numeric_sensor) : Z :=
  Z.min (decade_exact (current_reading nsensor) (unit_modifier nsensor)
           (target_modifier (sensor_type nsensor)))
        LONG_MAX.

(** [x / d] rounded to the nearest integer, ties away from zero ([d > 0]). *)
Definition div_closest (x d : Z) : Z :=
  if 0 <? x then Z.quot (x + Z.quot d 2) d else Z.quot (x - Z.quot d 2) d.

Definition fahrenheit_truncating (v : Z) : Z :=
  let v := v - 32000 in
  if v <=? Z.quot LONG_MAX 5 then Z.quot (v * 5) 9 else Z.quot v 9 * 5.

Definition fahrenheit_rounding (v : Z) : Z :=
  let v := v - 32000 in
  if v <=? Z.quot LONG_MAX 5 then div_closest (v * 5) 9 else div_closest v 9 * 5.

(** The temperature step on an unbounded integer, over the Fahrenheit
    conversion of the revision. *)
Definition convert_exact (fahrenheit : Z -> Z) (sensor_type base_units v : Z) : Z :=
  if sensor_type =? HP_WMI_TYPE_TEMPERATURE then
    if base_units =? HP_WMI_UNITS_DEGREES_F then fahrenheit v
    else if base_units =? HP_WMI_UNITS_DEGREES_K then v - 273150
    else v
  else v.

(** The spec's UnitScaler with no bound at all: what the claim calls the
    mathematically correct scaled value. *)
Definition scale_exact (nsensor : hp_wmi_numeric_sensor) : Z :=
  convert_exact fahrenheit_rounding (sensor_type nsensor) (base_units nsensor)
    (decade_exact (current_reading nsensor) (unit_modifier nsensor)
       (target_modifier (sensor_type nsensor))).

(** A record with the four fields the scaler and the classifier read. *)
Definition sensor_of (sensor_type base_units unit_modifier current_reading : Z)
  : hp_wmi_numeric_sensor :=
  set_current_reading
    (set_unit_modifier
       (set_base_units (set_sensor_type zero_nsensor sensor_type) base_units)
       unit_modifier)
    current_reading.

(** ** Refresh *)

(** The fields a refresh is not meant to touch. *)
Definition same_fixed_fields (a b : hp_wmi_numeric_sensor) : Prop :=
  name a = name b /\
  description a = description b /\
  sensor_type a = sensor_type b /\
  other_sensor_type a = other_sensor_type b /\
  possible_states a = possible_states b /\
  base_units a = base_units b /\
  possible_states_count a = possible_states_count b.

(** Ticks since [last], as the [unsigned long] difference. *)
Definition elapsed (now last : Z) : Z := ulong (now - last).

Definition is_ulong (z : Z) : Prop := 0 <= z < 2 ^ 64.

(** A well-formed record: Temperature in Celsius, two possible states. *)
Definition sample_wobj (status : Z) (state : string) (modifier reading : Z)
  : acpi_object :=
  AcpiPackage
    [AcpiString 8 "CPU Temp"; AcpiString 11 "Temperature";
     AcpiInteger HP_WMI_TYPE_TEMPERATURE; AcpiString 0 "";
     AcpiInteger status; AcpiString (Z.of_nat (String.length state)) state;
     AcpiString 6 "Normal"; AcpiString 7 "Caution";
     AcpiInteger HP_WMI_UNITS_DEGREES_C; AcpiInteger modifier;
     AcpiInteger reading].

(** The record [sample_wobj] decodes to. *)
Definition sample_nsensor (status : Z) (state : string) (modifier reading : Z)
  : hp_wmi_numeric_sensor :=
  {| name := Some "CPU Temp"%string; description := Some "Temperature"%string;
     sensor_type := HP_WMI_TYPE_TEMPERATURE; other_sensor_type := None;
     operational_status := status; current_state := Some state;
     possible_states := [Some "Normal"%string; Some "Caution"%string];
     base_units := HP_WMI_UNITS_DEGREES_C; unit_modifier := modifier;
     current_reading := reading; possible_states_count := 2 |}.

(** A world at tick [now] whose firmware answers with [fw]. *)
Definition world_at (now : Z) (fw : Z -> option acpi_object) : world :=
  {| jiffies := now; firmware := fw; queries := []; mem := [];
     hwmon_register := 0 |}.

(** A sensor last refreshed at tick [last], in each revision. *)
Definition sample_info1 (last : Z) : Rev1.hp_wmi_info :=
  {| Rev1.nsensor := sample_nsensor 2 "Normal" (-3) 25000;
     Rev1.instance := 0; Rev1.is_active := true; Rev1.type := hwmon_temp;
     Rev1.cached_val := 25000; Rev1.lo_val := 25000; Rev1.hi_val := 25000;
     Rev1.last_updated := last |}.

Definition sample_info2 (last : Z) : Rev2.hp_wmi_info :=
  {| Rev2.nsensor := sample_nsensor 2 "Normal" (-3) 25000;
     Rev2.instance := 0; Rev2.is_active := true; Rev2.type := hwmon_temp;
     Rev2.cached_val := 25000; Rev2.last_updated := last |}.

(** Firmware with the single instance 0. *)
Definition sample_firmware (wobj : acpi_object) (instance : Z) : option acpi_object :=
  if instance =? 0 then Some wobj else None.

(** ** Decoding *)

(** The call neither read outside the record nor ran out of fuel. *)
Definition defined {A : Type} (r : result A * heap) : Prop := fst r <> Undefined.

(** A record that passes validation with SensorType 13, one above Air Flow. *)
Definition out_of_range_elements : list acpi_object :=
  [AcpiString 4 "Lock"; AcpiString 4 "Lock"; AcpiInteger 13; AcpiString 0 "";
   AcpiInteger 2; AcpiString 6 "Normal"; AcpiString 6 "Normal";
   AcpiInteger 0; AcpiInteger 0; AcpiInteger 1].

(** ** Discovery *)

(** The gate of the discovery loop in each revision: what makes a decoded
    sensor live. *)
Definition rev1_live (ns : hp_wmi_numeric_sensor) : bool :=
  negb (Rev1.numeric_sensor_has_fault ns) && (0 <=? classify_numeric_sensor ns).

Definition rev2_live (ns : hp_wmi_numeric_sensor) : bool :=
  Rev2.numeric_sensor_is_connected ns && (0 <=? classify_numeric_sensor ns).

(** The active sensors of type [t] among the indices [idxs], in order. *)
Definition rev1_channels (info : list Rev1.hp_wmi_info) (idxs : list nat)
    (t : hwmon_sensor_types) : list nat :=
  filter (fun idx => hwmon_eqb (Rev1.type (nth idx info Rev1.zero_info)) t) idxs.

Definition rev2_channels (info : list Rev2.hp_wmi_info) (idxs : list nat)
    (t : hwmon_sensor_types) : list nat :=
  filter (fun idx => hwmon_eqb (Rev2.type (nth idx info Rev2.zero_info)) t) idxs.

(** The indices below [n] of the entries flagged active. *)
Definition rev1_active (info : list Rev1.hp_wmi_info) (n : nat) : list nat :=
  filter (fun idx => Rev1.is_active (nth idx info Rev1.zero_info)) (seq 0 n).

Definition rev2_active (info : list Rev2.hp_wmi_info) (n : nat) : list nat :=
  filter (fun idx => Rev2.is_active (nth idx info Rev2.zero_info)) (seq 0 n).

(** What the discovery loop has established when it reaches instance [i],
    with [fw] the firmware: the array keeps its size, the entries from [i]
    on are untouched, every entry below [i] holds the record decoded from
    a validated object and is active exactly when it passes the gate, and
    [active_info] and the channel counts list the active entries. *)
Definition rev1_discovered (fw : Z -> option acpi_object) (i : nat)
    (d : Rev1.discovery) : Prop :=
  List.length (Rev1.d_info d) = HP_WMI_MAX_INSTANCES /\
  (forall j inf, (i <= j)%nat -> nth_error (Rev1.d_info d) j = Some inf ->
                 Rev1.is_active inf = false) /\
  (forall j, (j < i)%nat ->
     exists inf n wobj,
       nth_error (Rev1.d_info d) j = Some inf /\
       fw (Z.of_nat j) = Some wobj /\ check_wobj wobj = Ok n /\
       Rev1.instance inf = Z.of_nat j /\
       Rev1.is_active inf = rev1_live (Rev1.nsensor inf) /\
       (Rev1.is_active inf = true ->
        Rev1.type inf
        = hp_wmi_hwmon_type_map (classify_numeric_sensor (Rev1.nsensor inf)))) /\
  Rev1.active_info d = rev1_active (Rev1.d_info d) i /\
  (forall t, Rev1.d_channel_count d t
             = Z.of_nat (List.length
                           (rev1_channels (Rev1.d_info d) (Rev1.active_info d) t))).

Definition rev2_discovered (fw : Z -> option acpi_object) (i : nat)
    (d : Rev2.discovery) : Prop :=
  List.length (Rev2.d_info d) = HP_WMI_MAX_INSTANCES /\
  (forall j inf, (i <= j)%nat -> nth_error (Rev2.d_info d) j = Some inf ->
                 Rev2.is_active inf = false) /\
  (forall j, (j < i)%nat ->
     exists inf n wobj,
       nth_error (Rev2.d_info d) j = Some inf /\
       fw (Z.of_nat j) = Some wobj /\ check_wobj wobj = Ok n /\
       Rev2.instance inf = Z.of_nat j /\
       Rev2.is_active inf = rev2_live (Rev2.nsensor inf) /\
       (Rev2.is_active inf = true ->
        Rev2.type inf
        = hp_wmi_hwmon_type_map (classify_numeric_sensor (Rev2.nsensor inf)))) /\
  Rev2.active_info d = rev2_active (Rev2.d_info d) i /\
  (forall t, Rev2.d_channel_count d t
             = Z.of_nat (List.length
                           (rev2_channels (Rev2.d_info d) (Rev2.active_info d) t))).

(** What a successful [hp_wmi_sensors_init] leaves behind, over the
    firmware [fw] it ran against: [n >= 1] instances were found, the first
    absent record is at [n], every entry below [n] was decoded from a
    validated object and is active exactly when it passes the gate, and the
    channel map of each sensor type lists the active entries of that type
    in discovery order (the chip channel points to no sensor). *)
Definition rev1_initialised (fw : Z -> option acpi_object)
    (st : Rev1.hp_wmi_sensors) : Prop :=
  exists n,
    Rev1.count st = Z.of_nat n /\ (1 <= n <= HP_WMI_MAX_INSTANCES)%nat /\
    ((n < HP_WMI_MAX_INSTANCES)%nat -> fw (Z.of_nat n) = None) /\
    (forall j, (j < n)%nat ->
       exists inf k wobj,
         nth_error (Rev1.info st) j = Some inf /\
         fw (Z.of_nat j) = Some wobj /\ check_wobj wobj = Ok k /\
         Rev1.instance inf = Z.of_nat j /\
         Rev1.is_active inf = rev1_live (Rev1.nsensor inf) /\
         (Rev1.is_active inf = true ->
          Rev1.type inf
          = hp_wmi_hwmon_type_map (classify_numeric_sensor (Rev1.nsensor inf)))) /\
    (forall t, t <> hwmon_chip ->
       Rev1.info_map st t
       = List.map Some
           (rev1_channels (Rev1.info st) (rev1_active (Rev1.info st) n) t)) /\
    (forall idx, ~ In (Some idx) (Rev1.info_map st hwmon_chip)).

Definition rev2_initialised (fw : Z -> option acpi_object)
    (st : Rev2.hp_wmi_sensors) : Prop :=
  exists n,
    Rev2.count st = Z.of_nat n /\ (1 <= n <= HP_WMI_MAX_INSTANCES)%nat /\
    ((n < HP_WMI_MAX_INSTANCES)%nat -> fw (Z.of_nat n) = None) /\
    (forall j, (j < n)%nat ->
       exists inf k wobj,
         nth_error (Rev2.info st) j = Some inf /\
         fw (Z.of_nat j) = Some wobj /\ check_wobj wobj = Ok k /\
         Rev2.instance inf = Z.of_nat j /\
         Rev2.is_active inf = rev2_live (Rev2.nsensor inf) /\
         (Rev2.is_active inf = true ->
          Rev2.type inf
          = hp_wmi_hwmon_type_map (classify_numeric_sensor (Rev2.nsensor inf)))) /\
    (forall t, t <> hwmon_chip ->
       Rev2.info_map st t
       = List.map Some
           (rev2_channels (Rev2.info st) (rev2_active (Rev2.info st) n) t)) /\
    (forall idx, ~ In (Some idx) (Rev2.info_map st hwmon_chip)).

(** A record that fails validation: a package of a single Integer. *)
Definition malformed_wobj : acpi_object := AcpiPackage [AcpiInteger 3].

(** Firmware with a valid instance 0 and a malformed instance 1. *)
Definition firmware_malformed_second (instance : Z) : option acpi_object :=
  if instance =? 0 then Some (sample_wobj 2 "Normal" (-3) 25000)
  else if instance =? 1 then Some malformed_wobj
  else None.

(** The driver state around the single sensor [info], in the first
    revision, with background updates every [interval] milliseconds. *)
Definition sample_state1 (info : Rev1.hp_wmi_info) (interval : Z)
  : Rev1.hp_wmi_sensors :=
  {| Rev1.info := info :: repeat Rev1.zero_info 31;
     Rev1.info_map := fun t => if hwmon_eqb t hwmon_temp then [Some 0%nat] else [];
     Rev1.count := 1;
     Rev1.channel_count := fun t => if hwmon_eqb t hwmon_temp then 1 else 0;
     Rev1.update_interval := interval |}.

(** What is seen of a run of the refresh task: the update interval it
    leaves and the delay it schedules itself with, if any. *)
Definition refresh_outcome
    (r : result (Rev1.hp_wmi_sensors * option Z) * world) : option (Z * option Z) :=
  match fst r with
  | Ok (state, scheduled) => Some (Rev1.update_interval state, scheduled)
  | _ => None
  end.

(** ** Definitions for the further properties *)

(** The copies of the strings of [states], made in order against the heap
    [h]: [None] when an allocation fails, with the heap as it is then. *)
Fixpoint dup_states (prep : string -> string)
    (dup : string -> Z -> heap -> option string * heap)
    (states : list acpi_object) (h : heap)
  : option (list (option string)) * heap :=
  match states with
  | AcpiString len p :: states' =>
      match dup (prep p) len h with
      | (Some s, h') =>
          match dup_states prep dup states' h' with
          | (Some l, h'') => (Some (Some s :: l), h'')
          | (None, h'') => (None, h'')
          end
      | (None, h') => (None, h')
      end
  | _ => (Some [], h)
  end.

(** The decoder on a record of the validated shape, written out as the
    sequence of its allocations and checks: the array of possible states,
    the copies of Name and Description, the range check on SensorType, the
    copy of OtherSensorType when the type is "Other", the copy of
    CurrentState, the copies of the possible states. *)
Definition populate_run (prep : string -> string)
    (dup : string -> Z -> heap -> option string * heap)
    (ns0 : hp_wmi_numeric_sensor)
    (l0 : Z) (p0 : string) (l1 : Z) (p1 : string) (v2 : Z)
    (l3 : Z) (p3 : string) (v4 : Z) (l5 : Z) (p5 : string)
    (states : list acpi_object) (vb vm vr : Z) (h : heap)
  : result hp_wmi_numeric_sensor * heap :=
  let '(ok, h) := alloc h in
  if negb ok then (Err (- ENOMEM), h)
  else
    match dup (prep p0) l0 h with
    | (None, h) => (Err (- ENOMEM), h)
    | (Some s0, h) =>
    match dup (prep p1) l1 h with
    | (None, h) => (Err (- ENOMEM), h)
    | (Some s1, h) =>
    if u32 v2 >? HP_WMI_TYPE_AIR_FLOW then (Err (- EINVAL), h)
    else
    match (if u32 v2 =? HP_WMI_TYPE_OTHER
           then match dup (prep p3) l3 h with
                | (None, h) => (None, h)
                | (Some s3, h) => (Some (Some s3), h)
                end
           else (Some (other_sensor_type ns0), h)) with
    | (None, h) => (Err (- ENOMEM), h)
    | (Some o3, h) =>
    match dup (prep p5) l5 h with
    | (None, h) => (Err (- ENOMEM), h)
    | (Some s5, h) =>
    match dup_states prep dup states h with
    | (None, h) => (Err (- ENOMEM), h)
    | (Some strs, h) =>
        (Ok {| name := Some s0; description := Some s1;
               sensor_type := u32 v2; other_sensor_type := o3;
               operational_status := u32 v4; current_state := Some s5;
               possible_states := strs;
               base_units := u32 vb; unit_modifier := s32 (u32 vm);
               current_reading := u32 vr;
               possible_states_count := Z.of_nat (List.length states) |}, h)
    end end end end end.

(** What [hp_wmi_strdup] of each revision stores for [src] when the
    allocation succeeds. *)
Definition rev1_copy (src : string) (len : Z) : string :=
  substring 0 (Z.to_nat (Z.min (u32 len) (HP_WMI_MAX_STR_SIZE - 1))) src.

Definition rev2_copy (src : string) (len : Z) : string :=
  substring 0 (Z.to_nat (HP_WMI_MAX_STR_SIZE - 1)) src.

(** The stored copy of a String element. *)
Definition decode_state (prep : string -> string) (copy : string -> Z -> string)
    (e : acpi_object) : option string :=
  match e with
  | AcpiString len p => Some (copy (prep p) len)
  | _ => None
  end.

(** [ns] holds the fields of the record [elements], decoded into a sensor
    that was [ns0] before: every String copied through [prep] and [copy],
    every Integer truncated to its field's width, OtherSensorType taken
    only when SensorType is "Other". *)
Definition decoded (prep : string -> string) (copy : string -> Z -> string)
    (ns0 ns : hp_wmi_numeric_sensor) (elements : list acpi_object) : Prop :=
  exists l0 p0 l1 p1 v2 l3 p3 v4 l5 p5 states vb vm vr,
    elements
    = [AcpiString l0 p0; AcpiString l1 p1; AcpiInteger v2;
       AcpiString l3 p3; AcpiInteger v4; AcpiString l5 p5]
      ++ states ++ [AcpiInteger vb; AcpiInteger vm; AcpiInteger vr] /\
    Forall is_string states /\
    (1 <= List.length states <= 23)%nat /\
    name ns = Some (copy (prep p0) l0) /\
    description ns = Some (copy (prep p1) l1) /\
    sensor_type ns = u32 v2 /\ u32 v2 <= HP_WMI_TYPE_AIR_FLOW /\
    other_sensor_type ns
    = (if u32 v2 =? HP_WMI_TYPE_OTHER then Some (copy (prep p3) l3)
       else other_sensor_type ns0) /\
    operational_status ns = u32 v4 /\
    current_state ns = Some (copy (prep p5) l5) /\
    possible_states ns = map (decode_state prep copy) states /\
    possible_states_count ns = Z.of_nat (List.length states) /\
    base_units ns = u32 vb /\
    unit_modifier ns = s32 (u32 vm) /\
    current_reading ns = u32 vr.

(** A copied string: not null and within [HP_WMI_MAX_STR_SIZE - 1]
    characters. *)
Definition bounded_string (o : option string) : Prop :=
  exists s, o = Some s /\ (String.length s <= 127)%nat.

(** The sensor after an update pass that read [status], [modifier] and
    [reading] and left [state] in [current_state]. *)
Definition updated (ns : hp_wmi_numeric_sensor) (status : Z)
    (state : option string) (modifier reading : Z) : hp_wmi_numeric_sensor :=
  set_current_reading
    (set_unit_modifier
       (set_current_state (set_operational_status ns (u32 status)) state)
       (s32 modifier))
    (u32 reading).

(** The world after one more block query for [instance]. *)
Definition queried (w : world) (instance : Z) : world :=
  snd (hp_wmi_get_wobj w instance).

(** What discovery leaves in [state->info[j]], with [fw] the firmware and
    [now] the tick of the discovery: the decoding of the record of
    instance [j] into a zeroed sensor; and for a sensor that is live, its
    hwmon type, the scaled reading as cached value and [now] as the time
    of the last update. *)
Definition rev1_entry (fw : Z -> option acpi_object) (now : Z) (j : nat)
    (inf : Rev1.hp_wmi_info) : Prop :=
  exists elements,
    fw (Z.of_nat j) = Some (AcpiPackage elements) /\
    decoded (fun s => s) rev1_copy zero_nsensor (Rev1.nsensor inf) elements /\
    Rev1.instance inf = Z.of_nat j /\
    Rev1.is_active inf = rev1_live (Rev1.nsensor inf) /\
    (Rev1.is_active inf = true ->
     Rev1.type inf
     = hp_wmi_hwmon_type_map (classify_numeric_sensor (Rev1.nsensor inf)) /\
     Rev1.cached_val inf = Rev1.scale_numeric_sensor (Rev1.nsensor inf) /\
     Rev1.last_updated inf = now /\
     (Rev1.type inf <> hwmon_fan ->
      Rev1.lo_val inf = Rev1.cached_val inf /\
      Rev1.hi_val inf = Rev1.cached_val inf)).

Definition rev2_entry (fw : Z -> option acpi_object) (now : Z) (j : nat)
    (inf : Rev2.hp_wmi_info) : Prop :=
  exists elements,
    fw (Z.of_nat j) = Some (AcpiPackage elements) /\
    decoded strim rev2_copy zero_nsensor (Rev2.nsensor inf) elements /\
    Rev2.instance inf = Z.of_nat j /\
    Rev2.is_active inf = rev2_live (Rev2.nsensor inf) /\
    (Rev2.is_active inf = true ->
     Rev2.type inf
     = hp_wmi_hwmon_type_map (classify_numeric_sensor (Rev2.nsensor inf)) /\
     Rev2.cached_val inf = Rev2.scale_numeric_sensor (Rev2.nsensor inf) /\
     Rev2.last_updated inf = now).

(** The channels of a hwmon type as [hp_wmi_sensors_init] leaves them:
    [channel_count] counts the row of [info_map], at most 32 entries; every channel points to
    an entry of [info] below [count] that is active, of that type, and
    carries its own index as instance number; the channels follow the
    instance numbers; and every such entry has a channel. *)
Definition rev1_channels_of (st : Rev1.hp_wmi_sensors) (t : hwmon_sensor_types)
  : Prop :=
  Rev1.channel_count st t = Z.of_nat (List.length (Rev1.info_map st t)) /\
  Rev1.channel_count st t <= Z.of_nat HP_WMI_MAX_INSTANCES /\
  (forall c, (c < List.length (Rev1.info_map st t))%nat ->
     exists idx inf,
       nth_error (Rev1.info_map st t) c = Some (Some idx) /\
       Z.of_nat idx < Rev1.count st /\
       nth_error (Rev1.info st) idx = Some inf /\
       Rev1.is_active inf = true /\ Rev1.type inf = t /\
       Rev1.instance inf = Z.of_nat idx) /\
  (forall c1 c2 i1 i2,
     (c1 < c2)%nat ->
     nth_error (Rev1.info_map st t) c1 = Some (Some i1) ->
     nth_error (Rev1.info_map st t) c2 = Some (Some i2) -> (i1 < i2)%nat) /\
  (forall idx inf,
     Z.of_nat idx < Rev1.count st -> nth_error (Rev1.info st) idx = Some inf ->
     Rev1.is_active inf = true -> Rev1.type inf = t ->
     In (Some idx) (Rev1.info_map st t)).

Definition rev2_channels_of (st : Rev2.hp_wmi_sensors) (t : hwmon_sensor_types)
  : Prop :=
  Rev2.channel_count st t = Z.of_nat (List.length (Rev2.info_map st t)) /\
  Rev2.channel_count st t <= Z.of_nat HP_WMI_MAX_INSTANCES /\
  (forall c, (c < List.length (Rev2.info_map st t))%nat ->
     exists idx inf,
       nth_error (Rev2.info_map st t) c = Some (Some idx) /\
       Z.of_nat idx < Rev2.count st /\
       nth_error (Rev2.info st) idx = Some inf /\
       Rev2.is_active inf = true /\ Rev2.type inf = t /\
       Rev2.instance inf = Z.of_nat idx) /\
  (forall c1 c2 i1 i2,
     (c1 < c2)%nat ->
     nth_error (Rev2.info_map st t) c1 = Some (Some i1) ->
     nth_error (Rev2.info_map st t) c2 = Some (Some i2) -> (i1 < i2)%nat) /\
  (forall idx inf,
     Z.of_nat idx < Rev2.count st -> nth_error (Rev2.info st) idx = Some inf ->
     Rev2.is_active inf = true -> Rev2.type inf = t ->
     In (Some idx) (Rev2.info_map st t)).

(** A numbering of the attributes in which the enumerators of each [enum]
    differ from one another. *)
Definition sample_attributes : hwmon_attributes :=
  {| hwmon_chip_temp_reset_history := 0; hwmon_chip_in_reset_history := 1;
     hwmon_chip_curr_reset_history := 2; hwmon_chip_update_interval := 3;
     hwmon_temp_fault := 4; hwmon_temp_lowest := 5; hwmon_temp_highest := 6;
     hwmon_temp_reset_history := 7; hwmon_in_lowest := 8;
     hwmon_in_highest := 9; hwmon_in_reset_history := 10;
     hwmon_curr_lowest := 11; hwmon_curr_highest := 12;
     hwmon_curr_reset_history := 13; hwmon_fan_fault := 14 |}.

(** What identifies a sensor: its instance, whether it is active, its
    hwmon type and the fields of the record that a refresh does not
    touch. *)
Definition rev1_same_sensor (a b : Rev1.hp_wmi_info) : Prop :=
  Rev1.instance b = Rev1.instance a /\
  Rev1.is_active b = Rev1.is_active a /\
  Rev1.type b = Rev1.type a /\
  same_fixed_fields (Rev1.nsensor b) (Rev1.nsensor a).

Definition rev2_same_sensor (a b : Rev2.hp_wmi_info) : Prop :=
  Rev2.instance b = Rev2.instance a /\
  Rev2.is_active b = Rev2.is_active a /\
  Rev2.type b = Rev2.type a /\
  same_fixed_fields (Rev2.nsensor b) (Rev2.nsensor a).

(** Two driver states with the same sensors behind the same channels. *)
Definition rev1_same_layout (s s' : Rev1.hp_wmi_sensors) : Prop :=
  Rev1.count s' = Rev1.count s /\
  Rev1.info_map s' = Rev1.info_map s /\
  Rev1.channel_count s' = Rev1.channel_count s /\
  Forall2 rev1_same_sensor (Rev1.info s) (Rev1.info s').

Definition rev2_same_layout (s s' : Rev2.hp_wmi_sensors) : Prop :=
  Rev2.count s' = Rev2.count s /\
  Rev2.info_map s' = Rev2.info_map s /\
  Rev2.channel_count s' = Rev2.channel_count s /\
  Forall2 rev2_same_sensor (Rev2.info s) (Rev2.info s').

(** An update interval that [hp_wmi_hwmon_chip_write] accepts: 0 (no
    background updates) or a number of milliseconds between the two
    bounds. *)
Definition valid_update_interval (v : Z) : Prop :=
  v = 0 \/ HP_WMI_MIN_UPDATE_INTERVAL <= v <= HP_WMI_MAX_UPDATE_INTERVAL.

(** The channels of type [t] are wired: [channel_count] is the length of
    the row of [info_map] (and fits its [u8]), and every channel points to
    an entry of [info]. *)
Definition rev1_channels_wired (state : Rev1.hp_wmi_sensors)
    (t : hwmon_sensor_types) : bool :=
  (Rev1.channel_count state t =? Z.of_nat (List.length (Rev1.info_map state t))) &&
  (Rev1.channel_count state t <? 256) &&
  forallb (fun o => match o with
                    | Some idx => (idx <? List.length (Rev1.info state))%nat
                    | None => false
                    end)
          (Rev1.info_map state t).

(** Whether entry [idx] is behind one of the channels of [row]. *)
Definition behind_channel (row : list (option nat)) (idx : nat) : bool :=
  existsb (fun o => match o with
                    | Some i => (i =? idx)%nat
                    | None => false
                    end) row.

(** The sensor type whose history a chip attribute resets, as the
    [switch] of [hp_wmi_hwmon_chip_write] selects it. *)
Definition chip_reset_type (a : hwmon_attributes) (attr : Z)
  : option hwmon_sensor_types :=
  if attr =? hwmon_chip_temp_reset_history a then Some hwmon_temp
  else if attr =? hwmon_chip_curr_reset_history a then Some hwmon_curr
  else if attr =? hwmon_chip_in_reset_history a then Some hwmon_in
  else None.

(** A record that the decoder accepts: [check_wobj] passes it and its
    SensorType, as a [u32], is within the table. *)
Definition decodable_record (wobj : acpi_object) : Prop :=
  exists n elements v,
    check_wobj wobj = Ok n /\ wobj = AcpiPackage elements /\
    nth_error elements (Z.to_nat HP_WMI_PROPERTY_SENSOR_TYPE)
    = Some (AcpiInteger v) /\
    u32 v <= HP_WMI_TYPE_AIR_FLOW.
(** * Properties *)

(** ** check_wobj *)

Lemma acpi_type_eqb_eq (a b : acpi_object_type) :
  acpi_type_eqb a b = true <-> a = b.
Proof. destruct a, b; simpl; split; intro H; congruence. Qed.

Lemma acpi_type_eqb_neq (a b : acpi_object_type) :
  acpi_type_eqb a b = false <-> a <> b.
Proof.
  rewrite <- acpi_type_eqb_eq. destruct (acpi_type_eqb a b); split; congruence.
Qed.

Lemma elem_type_app_r (pre rest : list acpi_object) (j : nat) :
  elem_type (pre ++ rest) (List.length pre + j) = elem_type rest j.
Proof.
  unfold elem_type. rewrite nth_error_app2 by lia.
  replace (List.length pre + j - List.length pre)%nat with j by lia. reflexivity.
Qed.

Lemma u8_small (z : Z) : 0 <= z < 256 -> u8 z = z.
Proof. intros H. unfold u8, wrap_unsigned. apply Z.mod_small. simpl. lia. Qed.

Lemma lookahead_strings (states : list acpi_object) :
  forall (pre tail : list acpi_object) (fuel i : nat) (count : Z),
    Forall is_string states -> no_leading_string tail ->
    List.length pre = (i + 1)%nat ->
    (List.length states <= fuel)%nat ->
    0 <= count -> count + Z.of_nat (List.length states) < 256 ->
    lookahead fuel (pre ++ states ++ tail) (List.length (pre ++ states ++ tail))
      ACPI_TYPE_STRING i count
    = ((i + List.length states)%nat, count + Z.of_nat (List.length states)).
Proof.
  induction states as [|s states IH]; intros pre tail fuel i count Hs Ht Hpre Hfuel Hc Hb.
  - simpl. rewrite Nat.add_0_r, Z.add_0_r.
    destruct fuel as [|fuel]; simpl; [reflexivity|].
    destruct (i + 1 <? List.length (pre ++ tail))%nat eqn:Hlt; [|reflexivity].
    replace (i + 1)%nat with (List.length pre + 0)%nat by lia.
    rewrite elem_type_app_r.
    destruct tail as [|t tail]; [rewrite length_app in Hlt; simpl in Hlt;
      apply Nat.ltb_lt in Hlt; lia|].
    unfold elem_type. simpl. simpl in Ht. apply acpi_type_eqb_neq in Ht.
    rewrite Ht. reflexivity.
  - destruct fuel as [|fuel]; [simpl in Hfuel; lia|].
    inversion Hs as [|? ? Hs1 Hs2]; subst.
    cbn [lookahead].
    assert (Hlt : (i + 1 <? List.length (pre ++ (s :: states) ++ tail))%nat = true).
    { apply Nat.ltb_lt. rewrite !length_app. simpl. lia. }
    rewrite Hlt.
    replace (i + 1)%nat with (List.length pre + 0)%nat at 1 by lia.
    rewrite elem_type_app_r. unfold elem_type at 1. cbn [app nth_error].
    red in Hs1. rewrite Hs1. cbn [acpi_type_eqb negb].
    simpl List.length in *.
    rewrite u8_small by lia.
    replace (pre ++ s :: states ++ tail) with ((pre ++ [s]) ++ states ++ tail)
      by (rewrite <- app_assoc; reflexivity).
    rewrite IH; try assumption; try lia.
    + f_equal; lia.
    + rewrite length_app. simpl. lia.
Qed.

Lemma check_loop_rest (rest : list acpi_object) :
  forall (pre : list acpi_object) (fuel : nat) (prop count : Z),
    HP_WMI_PROPERTY_CURRENT_STATE < prop ->
    (List.length rest <= fuel)%nat ->
    check_loop fuel (pre ++ rest) (List.length (pre ++ rest)) (List.length pre)
      prop count
    = check_rest rest prop count.
Proof.
  induction rest as [|e rest IH]; intros pre fuel prop count Hprop Hfuel.
  - destruct fuel; simpl; [reflexivity|].
    rewrite app_nil_r, Nat.ltb_irrefl. reflexivity.
  - destruct fuel as [|fuel]; [simpl in Hfuel; lia|].
    cbn [check_loop check_rest].
    assert (Hlt : (List.length pre <? List.length (pre ++ e :: rest))%nat = true).
    { apply Nat.ltb_lt. rewrite length_app. simpl. lia. }
    rewrite Hlt.
    replace (List.length pre) with (List.length pre + 0)%nat at 1 by lia.
    rewrite elem_type_app_r. unfold elem_type at 1. cbn [nth_error].
    destruct (prop >? HP_WMI_PROPERTY_CURRENT_READING); [reflexivity|].
    destruct (negb (acpi_type_eqb (acpi_type e) (hp_wmi_property_map prop)));
      [reflexivity|].
    replace (prop =? HP_WMI_PROPERTY_CURRENT_STATE) with false
      by (symmetry; apply Z.eqb_neq; lia).
    replace (pre ++ e :: rest) with ((pre ++ [e]) ++ rest)
      by (rewrite <- app_assoc; reflexivity).
    replace (List.length pre + 1)%nat with (List.length (pre ++ [e]))
      by (rewrite length_app; reflexivity).
    apply IH; [unfold HP_WMI_PROPERTY_CURRENT_STATE in *; lia | simpl in Hfuel; lia].
Qed.

Lemma check_rest_exit (rest : list acpi_object) :
  forall prop count,
    check_rest rest prop count = CheckReturn (- EINVAL) \/
    (check_rest rest prop count
       = CheckDone (prop + Z.of_nat (List.length rest)) count /\
     map acpi_type rest
       = map hp_wmi_property_map
           (map (fun j => prop + Z.of_nat j) (seq 0 (List.length rest))) /\
     (rest <> [] -> prop + Z.of_nat (List.length rest) <= 10)).
Proof.
  induction rest as [|e rest IH]; intros prop count.
  - right. simpl. rewrite Z.add_0_r. repeat split. congruence.
  - cbn [check_rest].
    destruct (prop >? HP_WMI_PROPERTY_CURRENT_READING) eqn:Hgt; [left; reflexivity|].
    destruct (acpi_type_eqb (acpi_type e) (hp_wmi_property_map prop)) eqn:He;
      cbn [negb]; [|left; reflexivity].
    destruct (IH (prop + 1) count) as [H|(H1 & H2 & H3)]; [left; exact H|right].
    apply acpi_type_eqb_eq in He.
    rewrite H1. repeat split.
    + f_equal. simpl List.length. lia.
    + cbn [List.length seq map]. rewrite Z.add_0_r, He. f_equal.
      rewrite H2. rewrite <- seq_shift, !map_map. apply map_ext. intros j.
      f_equal. lia.
    + intros _. simpl List.length.
      destruct rest as [|e' rest'].
      * simpl. unfold HP_WMI_PROPERTY_CURRENT_READING in Hgt. lia.
      * assert (e' :: rest' <> []) by congruence. specialize (H3 H).
        simpl List.length in *. lia.
Qed.

Lemma check_loop_ordinary (fuel : nat) (elements : list acpi_object)
    (n i : nat) (prop count : Z) :
  (i < n)%nat -> 0 <= prop <= HP_WMI_PROPERTY_CURRENT_READING ->
  prop <> HP_WMI_PROPERTY_CURRENT_STATE ->
  elem_type elements i = hp_wmi_property_map prop ->
  check_loop (S fuel) elements n i prop count
  = check_loop fuel elements n (i + 1) (prop + 1) count.
Proof.
  intros Hi Hprop Hne Hty. cbn [check_loop].
  apply Nat.ltb_lt in Hi. rewrite Hi.
  replace (prop >? HP_WMI_PROPERTY_CURRENT_READING) with false
    by (symmetry; rewrite Z.gtb_ltb; apply Z.ltb_ge; lia).
  rewrite Hty.
  replace (acpi_type_eqb (hp_wmi_property_map prop) (hp_wmi_property_map prop))
    with true by (symmetry; apply acpi_type_eqb_eq; reflexivity).
  apply Z.eqb_neq in Hne. rewrite Hne. reflexivity.
Qed.

Lemma check_loop_current_state (fuel : nat) (elements : list acpi_object)
    (n i : nat) (count : Z) :
  (i < n)%nat -> elem_type elements i = ACPI_TYPE_STRING ->
  check_loop (S fuel) elements n i HP_WMI_PROPERTY_CURRENT_STATE count
  = let '(i', count') :=
      lookahead (n - i) elements n ACPI_TYPE_STRING i count in
    check_loop fuel elements n (i' + 1) HP_WMI_PROPERTY_BASE_UNITS count'.
Proof.
  intros Hi Hty. cbn [check_loop].
  apply Nat.ltb_lt in Hi. rewrite Hi, Hty. reflexivity.
Qed.

Lemma check_loop_shape (head states tail : list acpi_object) :
  map acpi_type head = head_types ->
  Forall is_string states -> no_leading_string tail ->
  (List.length (head ++ states ++ tail) <= HP_WMI_MAX_PROPERTIES)%nat ->
  check_loop (List.length (head ++ states ++ tail)) (head ++ states ++ tail)
    (List.length (head ++ states ++ tail)) 0%nat HP_WMI_PROPERTY_NAME 0
  = check_rest tail HP_WMI_PROPERTY_BASE_UNITS (Z.of_nat (List.length states)).
Proof.
  intros Hhead Hstates Htail Hlen.
  destruct head as [|e0 [|e1 [|e2 [|e3 [|e4 [|e5 [|? ?]]]]]]]; try discriminate Hhead.
  injection Hhead as H0 H1 H2 H3 H4 H5.
  set (head := [e0; e1; e2; e3; e4; e5]) in *.
  unfold HP_WMI_MAX_PROPERTIES in Hlen.
  assert (Hn : List.length (head ++ states ++ tail)
               = S (S (S (S (S (S (List.length states + List.length tail))))))).
  { rewrite !length_app. reflexivity. }
  assert (Hla := lookahead_strings states head tail
                   (List.length (head ++ states ++ tail) - 5) 5 0
                   Hstates Htail eq_refl).
  assert (Hrest := fun fuel => check_loop_rest tail (head ++ states) fuel).
  rewrite <- app_assoc in Hrest.
  remember (head ++ states ++ tail) as elements eqn:Helements.
  assert (Hty : forall j t, nth_error [e0; e1; e2; e3; e4; e5] j = Some t ->
                            elem_type elements j = acpi_type t).
  { intros j t Hj. unfold elem_type. subst elements.
    rewrite nth_error_app1 by (apply nth_error_Some; unfold head; congruence).
    unfold head. rewrite Hj. reflexivity. }
  rewrite Hn at 1.
  unfold HP_WMI_PROPERTY_NAME.
  rewrite check_loop_ordinary;
    [| lia | unfold HP_WMI_PROPERTY_CURRENT_READING; lia | discriminate
     | rewrite (Hty 0%nat e0 eq_refl); exact H0 ].
  cbn [Nat.add Z.add Pos.add Pos.succ].
  rewrite check_loop_ordinary;
    [| lia | unfold HP_WMI_PROPERTY_CURRENT_READING; lia | discriminate
     | rewrite (Hty 1%nat e1 eq_refl); exact H1 ].
  cbn [Nat.add Z.add Pos.add Pos.succ].
  rewrite check_loop_ordinary;
    [| lia | unfold HP_WMI_PROPERTY_CURRENT_READING; lia | discriminate
     | rewrite (Hty 2%nat e2 eq_refl); exact H2 ].
  cbn [Nat.add Z.add Pos.add Pos.succ].
  rewrite check_loop_ordinary;
    [| lia | unfold HP_WMI_PROPERTY_CURRENT_READING; lia | discriminate
     | rewrite (Hty 3%nat e3 eq_refl); exact H3 ].
  cbn [Nat.add Z.add Pos.add Pos.succ].
  rewrite check_loop_ordinary;
    [| lia | unfold HP_WMI_PROPERTY_CURRENT_READING; lia | discriminate
     | rewrite (Hty 4%nat e4 eq_refl); exact H4 ].
  cbn [Nat.add Z.add Pos.add Pos.succ].
  cbn [Nat.add Z.add Pos.add Pos.succ].
  rewrite (check_loop_current_state _ _ _ 5);
    [| lia | rewrite (Hty 5%nat e5 eq_refl); exact H5 ].
  rewrite Hla by lia.
  replace (5 + List.length states + 1)%nat with (List.length (head ++ states))
    by (rewrite length_app; unfold head; simpl; lia).
  rewrite Z.add_0_l.
  apply Hrest; [unfold HP_WMI_PROPERTY_CURRENT_STATE, HP_WMI_PROPERTY_BASE_UNITS; lia | lia].
Qed.

(** A record of the schema's shape, within the property limit, with at
    least one PossibleStates entry and exactly three trailing Integers, is
    accepted with the number of those entries. *)
Lemma check_wobj_accepts (head states tail : list acpi_object) :
  map acpi_type head = head_types ->
  Forall is_string states ->
  no_leading_string tail ->
  (List.length (head ++ states ++ tail) <= HP_WMI_MAX_PROPERTIES)%nat ->
  states <> [] ->
  map acpi_type tail = tail_types ->
  check_wobj (AcpiPackage (head ++ states ++ tail))
  = Ok (Z.of_nat (List.length states)).
Proof.
  intros Hhead Hstates Htail Hlen Hne Htypes. unfold check_wobj.
  replace (HP_WMI_MAX_PROPERTIES <? List.length (head ++ states ++ tail))%nat
    with false by (symmetry; apply Nat.ltb_ge; exact Hlen).
  rewrite check_loop_shape by assumption.
  destruct tail as [|a [|b [|c [|? ?]]]]; try discriminate Htypes.
  injection Htypes as Ha Hb Hc.
  cbn [check_rest]. rewrite Ha, Hb, Hc. cbn.
  destruct states as [|s states]; [congruence|].
  replace (Z.of_nat (List.length (s :: states)) =? 0) with false
    by (symmetry; apply Z.eqb_neq; simpl List.length; lia).
  reflexivity.
Qed.

(** A record whose lookahead finds no String, or whose remainder is not
    exactly three Integers, is rejected. *)
Lemma check_wobj_rejects (head states tail : list acpi_object) :
  map acpi_type head = head_types ->
  Forall is_string states ->
  no_leading_string tail ->
  states = [] \/ map acpi_type tail <> tail_types ->
  check_wobj (AcpiPackage (head ++ states ++ tail)) = Err (- EINVAL).
Proof.
  intros Hhead Hstates Htail Hbad. unfold check_wobj.
  destruct (HP_WMI_MAX_PROPERTIES <? List.length (head ++ states ++ tail))%nat
    eqn:Hlen; [reflexivity|].
  apply Nat.ltb_ge in Hlen.
  rewrite check_loop_shape by assumption.
  destruct (check_rest_exit tail HP_WMI_PROPERTY_BASE_UNITS
              (Z.of_nat (List.length states))) as [H|(H1 & H2 & H3)];
    rewrite ?H, ?H1; [reflexivity|].
  destruct Hbad as [Hnil|Hbad].
  - subst states. reflexivity.
  - assert (Hshort : (List.length tail < 3)%nat).
    { destruct tail as [|a [|b [|c tail]]]; simpl; try lia.
      exfalso. apply Hbad.
      assert (Hlen3 : tail = []).
      { destruct tail as [|d tail]; [reflexivity|].
        unfold HP_WMI_PROPERTY_BASE_UNITS in H3. simpl List.length in H3.
        assert (Hcons : a :: b :: c :: d :: tail <> []) by congruence.
        specialize (H3 Hcons). lia. }
      subst tail. exact H2. }
    replace (HP_WMI_PROPERTY_BASE_UNITS + Z.of_nat (List.length tail)
             <=? HP_WMI_PROPERTY_CURRENT_READING) with true
      by (symmetry; apply Z.leb_le;
          unfold HP_WMI_PROPERTY_BASE_UNITS, HP_WMI_PROPERTY_CURRENT_READING; lia).
    rewrite orb_true_r. reflexivity.
Qed.

(** C1. A record whose first six fields match the schema splits into
    those six, the longest run [states] of Strings after them, and a [tail]
    that starts with no String.  Within the property limit, [check_wobj]
    succeeds with count [length states] when [states] is not empty and
    [tail] is exactly three Integers; it rejects with [-EINVAL] when the
    lookahead finds no String or [tail] is not three Integers. *)
Theorem check_wobj_possible_states_count (head states tail : list acpi_object) :
  map acpi_type head = head_types ->
  Forall is_string states ->
  no_leading_string tail ->
  ((List.length (head ++ states ++ tail) <= HP_WMI_MAX_PROPERTIES)%nat ->
   states <> [] ->
   map acpi_type tail = tail_types ->
   check_wobj (AcpiPackage (head ++ states ++ tail))
   = Ok (Z.of_nat (List.length states)))
  /\ (states = [] \/ map acpi_type tail <> tail_types ->
      check_wobj (AcpiPackage (head ++ states ++ tail)) = Err (- EINVAL)).
Proof.
  intros Hhead Hstates Htail. split.
  - intros Hlen Hne Htypes. apply check_wobj_accepts; assumption.
  - intros Hbad. apply check_wobj_rejects; assumption.
Qed.

(** ** Fuel *)

Lemma lookahead_advances (fuel : nat) :
  forall (elements : list acpi_object) (n : nat) (t : acpi_object_type)
         (i : nat) (count : Z),
    (i <= fst (lookahead fuel elements n t i count))%nat.
Proof.
  induction fuel as [|fuel IH]; intros elements n t i count; cbn [lookahead fst].
  - lia.
  - destruct (i + 1 <? n)%nat; [|cbn [fst]; lia].
    destruct (negb _); [cbn [fst]; lia|].
    specialize (IH elements n t (i + 1)%nat (u8 (count + 1))). lia.
Qed.

(** The outer loop of [check_wobj] never runs out of fuel: every iteration
    moves [i] forward, so [elem_count - i] iterations are enough and more
    fuel changes nothing. *)
Lemma check_loop_fuel (fuel : nat) :
  forall (fuel' : nat) (elements : list acpi_object) (n i : nat) (prop count : Z),
    (n - i <= fuel)%nat -> (n - i <= fuel')%nat ->
    check_loop fuel elements n i prop count
    = check_loop fuel' elements n i prop count.
Proof.
  induction fuel as [|fuel IH]; intros fuel' elements n i prop count H H'.
  - destruct fuel' as [|fuel']; [reflexivity|]. cbn [check_loop].
    replace (i <? n)%nat with false by (symmetry; apply Nat.ltb_ge; lia).
    reflexivity.
  - destruct fuel' as [|fuel'].
    + cbn [check_loop].
      replace (i <? n)%nat with false by (symmetry; apply Nat.ltb_ge; lia).
      reflexivity.
    + cbn [check_loop]. destruct (i <? n)%nat eqn:Hlt; [|reflexivity].
      apply Nat.ltb_lt in Hlt.
      destruct (prop >? HP_WMI_PROPERTY_CURRENT_READING); [reflexivity|].
      destruct (negb _); [reflexivity|].
      destruct (prop =? HP_WMI_PROPERTY_CURRENT_STATE).
      * pose proof (lookahead_advances (n - i) elements n
                      (hp_wmi_property_map HP_WMI_PROPERTY_POSSIBLE_STATES) i count)
          as Hadv.
        destruct (lookahead (n - i) elements n _ i count) as [i' count'].
        cbn [fst] in Hadv. apply IH; lia.
      * apply IH; lia.
Qed.

Lemma lookahead_fuel (fuel : nat) :
  forall (fuel' : nat) (elements : list acpi_object) (n : nat)
         (t : acpi_object_type) (i : nat) (count : Z),
    (n - i <= fuel)%nat -> (n - i <= fuel')%nat ->
    lookahead fuel elements n t i count = lookahead fuel' elements n t i count.
Proof.
  induction fuel as [|fuel IH]; intros fuel' elements n t i count H H'.
  - destruct fuel' as [|fuel']; [reflexivity|]. cbn [lookahead].
    replace (i + 1 <? n)%nat with false by (symmetry; apply Nat.ltb_ge; lia).
    reflexivity.
  - destruct fuel' as [|fuel'].
    + cbn [lookahead].
      replace (i + 1 <? n)%nat with false by (symmetry; apply Nat.ltb_ge; lia).
      reflexivity.
    + cbn [lookahead]. destruct (i + 1 <? n)%nat; [|reflexivity].
      destruct (negb _); [reflexivity|]. apply IH; lia.
Qed.

(** ** classify_numeric_sensor *)

(** C6. The classifier returns a category exactly on the pairs of the
    rule table and [-EINVAL], a negative value, on every other pair. *)
Theorem classify_numeric_sensor_table (nsensor : hp_wmi_numeric_sensor) :
  let t := sensor_type nsensor in
  let u := base_units nsensor in
  let c := classify_numeric_sensor nsensor in
  (c = HP_WMI_TYPE_TEMPERATURE <->
     t = HP_WMI_TYPE_TEMPERATURE /\
     (u = HP_WMI_UNITS_DEGREES_C \/ u = HP_WMI_UNITS_DEGREES_F \/
      u = HP_WMI_UNITS_DEGREES_K)) /\
  (c = HP_WMI_TYPE_VOLTAGE <->
     t = HP_WMI_TYPE_VOLTAGE /\ u = HP_WMI_UNITS_VOLTS) /\
  (c = HP_WMI_TYPE_CURRENT <->
     t = HP_WMI_TYPE_CURRENT /\ u = HP_WMI_UNITS_AMPS) /\
  (c = HP_WMI_TYPE_AIR_FLOW <->
     t = HP_WMI_TYPE_AIR_FLOW /\ u = HP_WMI_UNITS_RPM) /\
  (c = HP_WMI_TYPE_TEMPERATURE \/ c = HP_WMI_TYPE_VOLTAGE \/
   c = HP_WMI_TYPE_CURRENT \/ c = HP_WMI_TYPE_AIR_FLOW \/
   (c = - EINVAL /\ c < 0)).
Proof.
  cbv zeta. unfold classify_numeric_sensor.
  unfold HP_WMI_TYPE_TEMPERATURE, HP_WMI_TYPE_VOLTAGE, HP_WMI_TYPE_CURRENT,
    HP_WMI_TYPE_AIR_FLOW, HP_WMI_UNITS_DEGREES_C, HP_WMI_UNITS_DEGREES_F,
    HP_WMI_UNITS_DEGREES_K, HP_WMI_UNITS_VOLTS, HP_WMI_UNITS_AMPS,
    HP_WMI_UNITS_RPM, EINVAL.
  repeat match goal with
         | |- context [?a =? ?b] => destruct (Z.eqb_spec a b)
         end; cbn [orb]; lia.
Qed.

(** ** Scaling *)

Lemma long_id (z : Z) : is_long z -> long z = z.
Proof.
  unfold is_long, LONG_MIN, LONG_MAX, long, wrap_signed. intros H.
  change (2 ^ (64 - 1)) with 9223372036854775808.
  change (2 ^ 64) with 18446744073709551616.
  change (2 ^ 63) with 9223372036854775808 in H.
  rewrite Z.mod_small; lia.
Qed.

Lemma s32_id (z : Z) : is_s32 z -> s32 z = z.
Proof.
  unfold is_s32, s32, wrap_signed. intros H.
  change (2 ^ (32 - 1)) with 2147483648.
  change (2 ^ 32) with 4294967296.
  change (2 ^ 31) with 2147483648 in H.
  rewrite Z.mod_small; lia.
Qed.

Lemma LONG_MAX_value : LONG_MAX = 9223372036854775807.
Proof. reflexivity. Qed.

Lemma round10_bounds (v : Z) : 0 <= v -> 0 <= round10 v <= v.
Proof.
  intros H. unfold round10.
  pose proof (Z.div_mod (v + 5) 10 ltac:(lia)).
  pose proof (Z.mod_pos_bound (v + 5) 10 ltac:(lia)).
  lia.
Qed.

Lemma DIV_ROUND_CLOSEST_10 (v : Z) :
  0 <= v <= LONG_MAX - 5 -> DIV_ROUND_CLOSEST v 10 = round10 v.
Proof.
  intros H. rewrite LONG_MAX_value in H. unfold DIV_ROUND_CLOSEST, round10.
  change (Z.quot 10 2) with 5. change (10 >? 0) with true.
  destruct (v >? 0) eqn:Hv; cbn [Bool.eqb].
  - rewrite long_id by (unfold is_long, LONG_MIN; rewrite LONG_MAX_value; lia).
    apply Z.quot_div_nonneg; lia.
  - assert (v = 0) by (rewrite Z.gtb_ltb in Hv; apply Z.ltb_ge in Hv; lia).
    subst v. reflexivity.
Qed.

Lemma iter_round10_bounds (n : nat) (v : Z) :
  0 <= v -> 0 <= Nat.iter n round10 v <= v.
Proof.
  intros H. induction n as [|n IH]; simpl; [lia|].
  pose proof (round10_bounds (Nat.iter n round10 v) ltac:(lia)). lia.
Qed.

Lemma scale_down_exact (n : nat) :
  forall unit_modifier target val,
    is_s32 unit_modifier -> is_s32 target ->
    0 <= val <= LONG_MAX - 5 ->
    Z.of_nat n = target - unit_modifier ->
    scale_down n unit_modifier target val = (target, Nat.iter n round10 val).
Proof.
  induction n as [|n IH]; intros um t val Hum Ht Hval Hn.
  - simpl. f_equal. lia.
  - cbn [scale_down].
    replace (um <? t) with true by (symmetry; apply Z.ltb_lt; lia).
    rewrite s32_id by (unfold is_s32 in *; lia).
    rewrite DIV_ROUND_CLOSEST_10 by assumption.
    pose proof (round10_bounds val ltac:(lia)).
    rewrite IH; try assumption; try lia.
    + rewrite Nat.iter_succ_r. reflexivity.
    + unfold is_s32 in *; lia.
Qed.

Lemma scale_up_exact (n : nat) :
  forall unit_modifier target val,
    is_s32 unit_modifier -> is_s32 target ->
    0 <= val <= LONG_MAX ->
    Z.of_nat n = unit_modifier - target ->
    snd (scale_up n unit_modifier target val)
    = Z.min (val * 10 ^ Z.of_nat n) LONG_MAX.
Proof.
  induction n as [|n IH]; intros um t val Hum Ht Hval Hn.
  - simpl. lia.
  - cbn [scale_up].
    replace (um >? t) with true by (symmetry; rewrite Z.gtb_ltb; apply Z.ltb_lt; lia).
    rewrite Nat2Z.inj_succ, Z.pow_succ_r by lia.
    assert (Hp : 1 <= 10 ^ Z.of_nat n) by (pose proof (Z.pow_pos_nonneg 10 (Z.of_nat n)); lia).
    rewrite LONG_MAX_value in *. change (Z.quot 9223372036854775807 10)
      with 922337203685477580.
    destruct (val >? 922337203685477580) eqn:Hbig; rewrite Z.gtb_ltb in Hbig.
    + apply Z.ltb_lt in Hbig. cbn [snd]. nia.
    + apply Z.ltb_ge in Hbig.
      rewrite s32_id by (unfold is_s32 in *; lia).
      rewrite long_id by (unfold is_long, LONG_MIN; rewrite LONG_MAX_value; lia).
      rewrite IH; try assumption; try (unfold is_s32 in *; lia).
Qed.

Lemma target_modifier_s32 (t : Z) : is_s32 (target_modifier t) /\ -3 <= target_modifier t <= 0.
Proof.
  unfold target_modifier, is_s32. destruct (t =? HP_WMI_TYPE_AIR_FLOW); simpl; lia.
Qed.

(** The decade loops never wrap: they compute the exact decade-scaled
    value, or [LONG_MAX] when that value is larger. *)
Lemma scale_decades_clamped (nsensor : hp_wmi_numeric_sensor) :
  is_u32 (current_reading nsensor) -> is_s32 (unit_modifier nsensor) ->
  scale_decades nsensor = decade_clamped nsensor.
Proof.
  intros Hr Hm. unfold scale_decades, decade_clamped, decade_exact.
  fold (target_modifier (sensor_type nsensor)).
  destruct (target_modifier_s32 (sensor_type nsensor)) as [Ht Htr].
  set (t := target_modifier (sensor_type nsensor)) in *.
  set (m := unit_modifier nsensor) in *.
  set (r := current_reading nsensor) in *.
  assert (Hr' : 0 <= r < 4294967296) by exact Hr.
  rewrite (long_id r) by (unfold is_long, LONG_MIN; rewrite LONG_MAX_value; lia).
  destruct (m <? t) eqn:Hlt.
  - apply Z.ltb_lt in Hlt.
    rewrite scale_down_exact; try assumption;
      [| rewrite LONG_MAX_value; lia | lia].
    replace (Z.to_nat (t - t)) with 0%nat by lia. cbn [scale_up].
    pose proof (iter_round10_bounds (Z.to_nat (t - m)) r ltac:(lia)).
    rewrite LONG_MAX_value. lia.
  - apply Z.ltb_ge in Hlt.
    replace (Z.to_nat (t - m)) with 0%nat by lia. cbn [scale_down].
    pose proof (scale_up_exact (Z.to_nat (m - t)) m t r Hm Ht
                  ltac:(rewrite LONG_MAX_value; lia) ltac:(lia)) as Hup.
    destruct (scale_up (Z.to_nat (m - t)) m t r) as [um' val'].
    cbn [snd] in Hup. rewrite Hup. rewrite Z2Nat.id by lia. reflexivity.
Qed.

Lemma decade_clamped_range (nsensor : hp_wmi_numeric_sensor) :
  is_u32 (current_reading nsensor) ->
  0 <= decade_clamped nsensor <= LONG_MAX.
Proof.
  intros Hr. unfold decade_clamped, decade_exact.
  assert (Hr' : 0 <= current_reading nsensor < 4294967296) by exact Hr.
  destruct (_ <? _).
  - pose proof (iter_round10_bounds
                  (Z.to_nat (target_modifier (sensor_type nsensor) - unit_modifier nsensor))
                  (current_reading nsensor) ltac:(lia)).
    rewrite LONG_MAX_value. lia.
  - pose proof (Z.pow_nonneg 10
                  (unit_modifier nsensor - target_modifier (sensor_type nsensor))
                  ltac:(lia)).
    rewrite LONG_MAX_value. nia.
Qed.

(** The values the decade loops can leave behind: a 32-bit magnitude, a
    multiple of ten, or the clamp. *)
Lemma decade_clamped_shape (nsensor : hp_wmi_numeric_sensor) :
  is_u32 (current_reading nsensor) ->
  decade_clamped nsensor < 2 ^ 32 \/
  decade_clamped nsensor mod 10 = 0 \/
  decade_clamped nsensor = LONG_MAX.
Proof.
  intros Hr. unfold decade_clamped, decade_exact.
  assert (Hr' : 0 <= current_reading nsensor < 4294967296) by exact Hr.
  change (2 ^ 32) with 4294967296.
  set (t := target_modifier (sensor_type nsensor)).
  set (m := unit_modifier nsensor).
  set (r := current_reading nsensor) in *.
  destruct (m <? t) eqn:Hlt.
  - left. pose proof (iter_round10_bounds (Z.to_nat (t - m)) r ltac:(lia)).
    rewrite LONG_MAX_value. lia.
  - apply Z.ltb_ge in Hlt.
    destruct (Z.eq_dec m t) as [->|Hne].
    + left. rewrite Z.sub_diag. rewrite LONG_MAX_value. simpl. lia.
    + destruct (Z.min_spec (r * 10 ^ (m - t)) LONG_MAX) as [[_ ->]|[_ ->]];
        [right; left | right; right; reflexivity].
      replace (m - t) with (Z.succ (m - t - 1)) by lia.
      rewrite Z.pow_succ_r by lia.
      replace (r * (10 * 10 ^ (m - t - 1))) with (r * 10 ^ (m - t - 1) * 10) by ring.
      apply Z.mod_mul. lia.
Qed.

Lemma DIV_ROUND_CLOSEST_exact (x d : Z) :
  0 < d ->
  is_long (x + Z.quot d 2) -> is_long (x - Z.quot d 2) ->
  DIV_ROUND_CLOSEST x d = div_closest x d.
Proof.
  intros Hd Hp Hm. unfold DIV_ROUND_CLOSEST, div_closest.
  replace (d >? 0) with true by (symmetry; rewrite Z.gtb_ltb; apply Z.ltb_lt; lia).
  rewrite Z.gtb_ltb. rewrite !long_id by assumption.
  destruct (0 <? x); reflexivity.
Qed.

Lemma quot_9_bounds (x : Z) :
  0 <= x -> 0 <= Z.quot x 9 /\ 9 * Z.quot x 9 <= x < 9 * Z.quot x 9 + 9.
Proof.
  intros H. rewrite Z.quot_div_nonneg by lia.
  pose proof (Z.div_mod x 9 ltac:(lia)).
  pose proof (Z.mod_pos_bound x 9 ltac:(lia)). lia.
Qed.

Lemma quot_9_neg_bounds (x : Z) :
  x <= 0 -> Z.quot x 9 <= 0 /\ 9 * Z.quot x 9 - 9 < x <= 9 * Z.quot x 9.
Proof.
  intros H. pose proof (quot_9_bounds (- x) ltac:(lia)) as Hq.
  rewrite Z.quot_opp_l in Hq by lia. lia.
Qed.

Lemma quot_9_range (x : Z) : is_long x -> is_long (Z.quot x 9).
Proof.
  unfold is_long, LONG_MIN. rewrite LONG_MAX_value.
  change (- 2 ^ 63) with (-9223372036854775808). intros H.
  destruct (Z_le_gt_dec 0 x).
  - pose proof (quot_9_bounds x ltac:(lia)). lia.
  - pose proof (quot_9_neg_bounds x ltac:(lia)). lia.
Qed.

(** [div_closest x 9] is an integer nearest to [x / 9]. *)
Lemma div_closest_9_nearest (x : Z) : Z.abs (9 * div_closest x 9 - x) <= 4.
Proof.
  unfold div_closest. change (Z.quot 9 2) with 4.
  destruct (0 <? x) eqn:Hx.
  - apply Z.ltb_lt in Hx. pose proof (quot_9_bounds (x + 4) ltac:(lia)). lia.
  - apply Z.ltb_ge in Hx. pose proof (quot_9_neg_bounds (x - 4) ltac:(lia)). lia.
Qed.

Lemma rev1_fahrenheit_exact (s : Z) :
  0 <= s <= LONG_MAX ->
  (let val := long (s - 32 * MILLI) in
   if val <=? Z.quot LONG_MAX 5
   then Z.quot (long (val * 5)) 9
   else long (Z.quot val 9 * 5))
  = fahrenheit_truncating s
  /\ is_long (fahrenheit_truncating s).
Proof.
  intros Hs. cbv zeta. unfold fahrenheit_truncating, MILLI.
  change (32 * 1000) with 32000.
  rewrite LONG_MAX_value in *. change (Z.quot 9223372036854775807 5)
    with 1844674407370955161.
  rewrite (long_id (s - 32000))
    by (unfold is_long, LONG_MIN; rewrite LONG_MAX_value; lia).
  destruct (s - 32000 <=? 1844674407370955161) eqn:Hle.
  - apply Z.leb_le in Hle.
    rewrite long_id by (unfold is_long, LONG_MIN; rewrite LONG_MAX_value; lia).
    split; [reflexivity|]. apply quot_9_range.
    unfold is_long, LONG_MIN; rewrite LONG_MAX_value; lia.
  - apply Z.leb_gt in Hle.
    pose proof (quot_9_bounds (s - 32000) ltac:(lia)).
    assert (Hr : is_long (Z.quot (s - 32000) 9 * 5))
      by (unfold is_long, LONG_MIN; rewrite LONG_MAX_value; lia).
    rewrite long_id by exact Hr. split; [reflexivity|exact Hr].
Qed.

Lemma rev2_fahrenheit_exact (s : Z) :
  0 <= s <= LONG_MAX ->
  s < 2 ^ 32 \/ s mod 10 = 0 \/ s = LONG_MAX ->
  (let val := long (s - MILLI * 32) in
   if val <=? Z.quot LONG_MAX 5
   then DIV_ROUND_CLOSEST (long (val * 5)) 9
   else long (DIV_ROUND_CLOSEST val 9 * 5))
  = fahrenheit_rounding s
  /\ is_long (fahrenheit_rounding s)
  /\ (s - 32000 <= Z.quot LONG_MAX 5 -> is_long ((s - 32000) * 5 + 4)).
Proof.
  intros Hs Hshape. cbv zeta. unfold fahrenheit_rounding, MILLI.
  change (1000 * 32) with 32000. change (2 ^ 32) with 4294967296 in Hshape.
  rewrite LONG_MAX_value in *. change (Z.quot 9223372036854775807 5)
    with 1844674407370955161.
  rewrite (long_id (s - 32000))
    by (unfold is_long, LONG_MIN; rewrite LONG_MAX_value; lia).
  assert (Hprod : s - 32000 <= 1844674407370955161 ->
                  is_long ((s - 32000) * 5 + 4)).
  { intros Hle. unfold is_long, LONG_MIN; rewrite LONG_MAX_value.
    change (- 2 ^ 63) with (-9223372036854775808).
    destruct Hshape as [H|[H|H]]; [lia| |lia].
    pose proof (Z.div_mod s 10 ltac:(lia)). lia. }
  destruct (s - 32000 <=? 1844674407370955161) eqn:Hle.
  - apply Z.leb_le in Hle. specialize (Hprod Hle).
    unfold is_long, LONG_MIN in Hprod; rewrite LONG_MAX_value in Hprod.
    change (- 2 ^ 63) with (-9223372036854775808) in Hprod.
    rewrite long_id by (unfold is_long, LONG_MIN; rewrite LONG_MAX_value; lia).
    rewrite DIV_ROUND_CLOSEST_exact;
      [| lia | | ]; change (Z.quot 9 2) with 4;
      try (unfold is_long, LONG_MIN; rewrite LONG_MAX_value; lia).
    split; [reflexivity|]. split.
    + pose proof (div_closest_9_nearest ((s - 32000) * 5)).
      unfold is_long, LONG_MIN; rewrite LONG_MAX_value. lia.
    + intros _. unfold is_long, LONG_MIN; rewrite LONG_MAX_value. lia.
  - apply Z.leb_gt in Hle.
    rewrite DIV_ROUND_CLOSEST_exact;
      [| lia | | ]; change (Z.quot 9 2) with 4;
      try (unfold is_long, LONG_MIN; rewrite LONG_MAX_value; lia).
    pose proof (div_closest_9_nearest (s - 32000)).
    assert (Hr : is_long (div_closest (s - 32000) 9 * 5))
      by (unfold is_long, LONG_MIN; rewrite LONG_MAX_value; lia).
    rewrite long_id by exact Hr. split; [reflexivity|]. split; [exact Hr|].
    intros Hc. lia.
Qed.

Lemma rev1_scale_exact (nsensor : hp_wmi_numeric_sensor) :
  is_u32 (current_reading nsensor) -> is_s32 (unit_modifier nsensor) ->
  Rev1.scale_numeric_sensor nsensor
  = convert_exact fahrenheit_truncating (sensor_type nsensor)
      (base_units nsensor) (decade_clamped nsensor)
  /\ is_long (Rev1.scale_numeric_sensor nsensor).
Proof.
  intros Hr Hm. unfold Rev1.scale_numeric_sensor, convert_exact.
  rewrite scale_decades_clamped by assumption.
  pose proof (decade_clamped_range nsensor Hr) as Hs.
  destruct (rev1_fahrenheit_exact _ Hs) as [Hf Hfr]. cbv zeta in Hf.
  unfold milli_kelvin_to_millicelsius, ABSOLUTE_ZERO_MILLICELSIUS.
  assert (Hk : is_long (decade_clamped nsensor + -273150))
    by (unfold is_long, LONG_MIN; rewrite LONG_MAX_value in *; lia).
  rewrite (long_id _ Hk).
  destruct (sensor_type nsensor =? HP_WMI_TYPE_TEMPERATURE);
    [destruct (base_units nsensor =? HP_WMI_UNITS_DEGREES_F);
     [|destruct (base_units nsensor =? HP_WMI_UNITS_DEGREES_K)]|].
  - rewrite Hf. split; [reflexivity|exact Hfr].
  - split; [reflexivity|exact Hk].
  - split; [reflexivity|unfold is_long, LONG_MIN; rewrite LONG_MAX_value in *; lia].
  - split; [reflexivity|unfold is_long, LONG_MIN; rewrite LONG_MAX_value in *; lia].
Qed.

Lemma rev2_scale_exact (nsensor : hp_wmi_numeric_sensor) :
  is_u32 (current_reading nsensor) -> is_s32 (unit_modifier nsensor) ->
  Rev2.scale_numeric_sensor nsensor
  = convert_exact fahrenheit_rounding (sensor_type nsensor)
      (base_units nsensor) (decade_clamped nsensor)
  /\ is_long (Rev2.scale_numeric_sensor nsensor).
Proof.
  intros Hr Hm. unfold Rev2.scale_numeric_sensor, convert_exact.
  rewrite scale_decades_clamped by assumption.
  pose proof (decade_clamped_range nsensor Hr) as Hs.
  destruct (rev2_fahrenheit_exact _ Hs (decade_clamped_shape nsensor Hr))
    as (Hf & Hfr & _). cbv zeta in Hf.
  unfold milli_kelvin_to_millicelsius, ABSOLUTE_ZERO_MILLICELSIUS.
  assert (Hk : is_long (decade_clamped nsensor + -273150))
    by (unfold is_long, LONG_MIN; rewrite LONG_MAX_value in *; lia).
  rewrite (long_id _ Hk).
  destruct (sensor_type nsensor =? HP_WMI_TYPE_TEMPERATURE);
    [destruct (base_units nsensor =? HP_WMI_UNITS_DEGREES_F);
     [|destruct (base_units nsensor =? HP_WMI_UNITS_DEGREES_K)]|].
  - rewrite Hf. split; [reflexivity|exact Hfr].
  - split; [reflexivity|exact Hk].
  - split; [reflexivity|unfold is_long, LONG_MIN; rewrite LONG_MAX_value in *; lia].
  - split; [reflexivity|unfold is_long, LONG_MIN; rewrite LONG_MAX_value in *; lia].
Qed.

(** C2, as the code has it.  For every [u32] reading and [s32] modifier no
    operation of [scale_numeric_sensor] wraps, in either revision: the
    result is the revision's temperature conversion, taken in unbounded
    integers, of the decade-scaled value clamped at [LONG_MAX], and it is a
    [long].  For sensors other than Fahrenheit and Kelvin ones that is the
    exact decade-scaled value or [LONG_MAX]. *)
Theorem scale_numeric_sensor_no_wrap (nsensor : hp_wmi_numeric_sensor) :
  is_u32 (current_reading nsensor) -> is_s32 (unit_modifier nsensor) ->
  let t := sensor_type nsensor in
  let u := base_units nsensor in
  (Rev1.scale_numeric_sensor nsensor
   = convert_exact fahrenheit_truncating t u (decade_clamped nsensor) /\
   is_long (Rev1.scale_numeric_sensor nsensor)) /\
  (Rev2.scale_numeric_sensor nsensor
   = convert_exact fahrenheit_rounding t u (decade_clamped nsensor) /\
   is_long (Rev2.scale_numeric_sensor nsensor)) /\
  (~ (t = HP_WMI_TYPE_TEMPERATURE /\
      (u = HP_WMI_UNITS_DEGREES_F \/ u = HP_WMI_UNITS_DEGREES_K)) ->
   Rev1.scale_numeric_sensor nsensor = Rev2.scale_numeric_sensor nsensor /\
   (Rev2.scale_numeric_sensor nsensor = scale_exact nsensor \/
    Rev2.scale_numeric_sensor nsensor = LONG_MAX)).
Proof.
  intros Hr Hm t u.
  destruct (rev1_scale_exact nsensor Hr Hm) as [H1 H1r].
  destruct (rev2_scale_exact nsensor Hr Hm) as [H2 H2r].
  split; [split; assumption|]. split; [split; assumption|].
  intros Hnot. split.
  - rewrite H1, H2. unfold convert_exact. fold t u.
    destruct (Z.eqb_spec t HP_WMI_TYPE_TEMPERATURE); [|reflexivity].
    destruct (Z.eqb_spec u HP_WMI_UNITS_DEGREES_F); [tauto|reflexivity].
  - rewrite H2. unfold scale_exact, convert_exact. fold t u.
    assert (Hc : decade_clamped nsensor
                 = decade_exact (current_reading nsensor) (unit_modifier nsensor)
                     (target_modifier t) \/
                 decade_clamped nsensor = LONG_MAX)
      by (unfold decade_clamped; fold t; lia).
    destruct (Z.eqb_spec t HP_WMI_TYPE_TEMPERATURE); [|exact Hc].
    destruct (Z.eqb_spec u HP_WMI_UNITS_DEGREES_F); [tauto|].
    destruct (Z.eqb_spec u HP_WMI_UNITS_DEGREES_K); [tauto|exact Hc].
Qed.

(** C2 as stated fails: a Kelvin sensor whose decade scaling saturates
    reports [LONG_MAX - 273150], which is neither the exact value nor
    [LONG_MAX]. *)
Lemma scale_numeric_sensor_saturated_kelvin :
  let nsensor := sensor_of HP_WMI_TYPE_TEMPERATURE HP_WMI_UNITS_DEGREES_K 16 1 in
  is_u32 (current_reading nsensor) /\ is_s32 (unit_modifier nsensor) /\
  ~ (Rev1.scale_numeric_sensor nsensor = scale_exact nsensor \/
     Rev1.scale_numeric_sensor nsensor = LONG_MAX) /\
  ~ (Rev2.scale_numeric_sensor nsensor = scale_exact nsensor \/
     Rev2.scale_numeric_sensor nsensor = LONG_MAX).
Proof.
  cbv zeta. repeat split; try (vm_compute; congruence);
    intros [H|H]; vm_compute in H; discriminate H.
Qed.

(** ** The Fahrenheit conversion *)

(** The second revision does what C5 says: after the decade scaling it
    subtracts 32000, then takes five ninths rounded to the nearest
    integer, multiplying first when the value is at most [LONG_MAX / 5]
    and dividing first otherwise; neither the product nor the rounding
    term leaves the range of [long]. *)
Lemma rev2_scale_fahrenheit (nsensor : hp_wmi_numeric_sensor) :
  is_u32 (current_reading nsensor) -> is_s32 (unit_modifier nsensor) ->
  sensor_type nsensor = HP_WMI_TYPE_TEMPERATURE ->
  base_units nsensor = HP_WMI_UNITS_DEGREES_F ->
  let v := decade_clamped nsensor - 32000 in
  (v <= Z.quot LONG_MAX 5 ->
   Rev2.scale_numeric_sensor nsensor = div_closest (v * 5) 9 /\
   Z.abs (9 * Rev2.scale_numeric_sensor nsensor - v * 5) <= 4 /\
   is_long (v * 5 + 4)) /\
  (Z.quot LONG_MAX 5 < v ->
   Rev2.scale_numeric_sensor nsensor = div_closest v 9 * 5 /\
   Z.abs (9 * div_closest v 9 - v) <= 4).
Proof.
  intros Hr Hm Ht Hu v.
  destruct (rev2_scale_exact nsensor Hr Hm) as [H2 _].
  pose proof (decade_clamped_range nsensor Hr) as Hs.
  destruct (rev2_fahrenheit_exact _ Hs (decade_clamped_shape nsensor Hr))
    as (_ & _ & Hprod).
  rewrite H2. unfold convert_exact. rewrite Ht, Hu. cbn.
  unfold fahrenheit_rounding. fold v. split; intros Hv.
  - replace (v <=? Z.quot LONG_MAX 5) with true by (symmetry; apply Z.leb_le; exact Hv).
    repeat split; [apply div_closest_9_nearest | | ];
      apply Hprod in Hv; fold v in Hv; unfold is_long in *; lia.
  - replace (v <=? Z.quot LONG_MAX 5) with false by (symmetry; apply Z.leb_gt; exact Hv).
    split; [reflexivity | apply div_closest_9_nearest].
Qed.

Lemma rev2_scale_freezing_point :
  Rev2.scale_numeric_sensor
    (sensor_of HP_WMI_TYPE_TEMPERATURE HP_WMI_UNITS_DEGREES_F (-3) 32000) = 0.
Proof. reflexivity. Qed.

(** C5 on the first revision: 33000 milli-degrees Fahrenheit are 1000 above
    freezing, that is 555.56 milli-degrees Celsius.  The first revision
    divides with plain [/] and reports 555; the second one rounds and
    reports 556, the nearest integer. *)
Theorem rev1_scale_fahrenheit_truncates :
  let nsensor :=
    sensor_of HP_WMI_TYPE_TEMPERATURE HP_WMI_UNITS_DEGREES_F (-3) 33000 in
  Rev1.scale_numeric_sensor nsensor = 555 /\
  Rev2.scale_numeric_sensor nsensor = 556 /\
  Z.abs (9 * 555 - (33000 - 32000) * 5) = 5 /\
  Z.abs (9 * 556 - (33000 - 32000) * 5) = 4.
Proof. cbv zeta. repeat split. Qed.

(** ** update_numeric_sensor_from_wobj *)

Lemma update_numeric_sensor_frame
    (prep : string -> string)
    (dup : string -> Z -> heap -> option string * heap)
    (nsensor nsensor' : hp_wmi_numeric_sensor) (wobj : acpi_object) (h h' : heap) :
  update_numeric_sensor_from_wobj prep dup nsensor wobj h = (Ok nsensor', h') ->
  same_fixed_fields nsensor' nsensor.
Proof.
  unfold update_numeric_sensor_from_wobj, same_fixed_fields.
  intros H.
  repeat match type of H with
         | context [match ?x with _ => _ end] => destruct x eqn:?; try discriminate H
         end.
  all: injection H as <- _.
  all: match goal with
       | Hif : (if ?c then _ else _) = (_, _) |- _ =>
           destruct c; [destruct (dup _ _ _)|]; injection Hif as <- _
       end.
  all: cbn; repeat split; reflexivity.
Qed.

Lemma update_numeric_sensor_no_error
    (prep : string -> string)
    (dup : string -> Z -> heap -> option string * heap)
    (nsensor : hp_wmi_numeric_sensor) (wobj : acpi_object) (h h' : heap) (e : Z) :
  update_numeric_sensor_from_wobj prep dup nsensor wobj h <> (Err e, h').
Proof.
  unfold update_numeric_sensor_from_wobj.
  repeat match goal with
         | |- context [match ?x with _ => _ end] => destruct x eqn:?; try discriminate
         end.
Qed.


(** ** hp_wmi_update_info *)

Lemma time_after_elapsed (HZ now last : Z) :
  0 < HZ < 2 ^ 62 -> is_ulong now -> is_ulong last ->
  (elapsed now last <= HZ -> time_after now (ulong (last + HZ)) = false) /\
  (HZ < elapsed now last <= HZ + 2 ^ 63 ->
   time_after now (ulong (last + HZ)) = true).
Proof.
  unfold is_ulong, elapsed, time_after, long, ulong, wrap_signed, wrap_unsigned.
  change (2 ^ (64 - 1)) with 9223372036854775808.
  change (2 ^ 64) with 18446744073709551616.
  change (2 ^ 63) with 9223372036854775808.
  change (2 ^ 62) with 4611686018427387904.
  intros HHZ Hnow Hlast. split; intros He.
  - apply Z.ltb_ge. Z.div_mod_to_equations. lia.
  - apply Z.ltb_lt. Z.div_mod_to_equations. lia.
Qed.

Lemma elapsed_self (now : Z) : is_ulong now -> elapsed now now = 0.
Proof. intros _. unfold elapsed. rewrite Z.sub_diag. reflexivity. Qed.

Lemma rev1_update_info_fresh (HZ : Z) (w : world) (info : Rev1.hp_wmi_info) :
  0 < HZ < 2 ^ 62 ->
  is_ulong (jiffies w) -> is_ulong (Rev1.last_updated info) ->
  elapsed (jiffies w) (Rev1.last_updated info) <= HZ ->
  Rev1.hp_wmi_update_info HZ w info = (Ok (0, info), w).
Proof.
  intros HHZ Hj Hl He. unfold Rev1.hp_wmi_update_info.
  rewrite (proj1 (time_after_elapsed HZ _ _ HHZ Hj Hl) He). reflexivity.
Qed.

Lemma rev1_update_info_stale (HZ : Z) (w : world) (info : Rev1.hp_wmi_info) :
  0 < HZ < 2 ^ 62 ->
  is_ulong (jiffies w) -> is_ulong (Rev1.last_updated info) ->
  HZ < elapsed (jiffies w) (Rev1.last_updated info) <= HZ + 2 ^ 63 ->
  queries (snd (Rev1.hp_wmi_update_info HZ w info))
  = Rev1.instance info :: queries w /\
  forall ret info' w',
    Rev1.hp_wmi_update_info HZ w info = (Ok (ret, info'), w') ->
    (ret = - EIO /\ info' = info /\ firmware w (Rev1.instance info) = None) \/
    (ret = 0 /\ firmware w (Rev1.instance info) <> None /\
     Rev1.last_updated info' = jiffies w /\
     Rev1.instance info' = Rev1.instance info /\
     Rev1.is_active info' = Rev1.is_active info /\
     Rev1.type info' = Rev1.type info /\
     Rev1.cached_val info' = Rev1.scale_numeric_sensor (Rev1.nsensor info') /\
     same_fixed_fields (Rev1.nsensor info') (Rev1.nsensor info)).
Proof.
  intros HHZ Hj Hl He. unfold Rev1.hp_wmi_update_info.
  rewrite (proj2 (time_after_elapsed HZ _ _ HHZ Hj Hl) He).
  unfold hp_wmi_get_wobj.
  destruct (firmware w (Rev1.instance info)) as [wobj|] eqn:Hfw.
  - destruct (Rev1.update_numeric_sensor_from_wobj (Rev1.nsensor info) wobj _)
      as [[ns|e|] h] eqn:Hup; cbn [snd queries set_mem mem];
      (split; [reflexivity|]); intros ret info' w' H; try discriminate H.
    right. injection H as <- <- <-.
    apply update_numeric_sensor_frame in Hup.
    unfold Rev1.interpret_info.
    destruct (negb (hwmon_eqb _ hwmon_fan)); cbn; repeat split; try congruence;
      apply Hup.
  - cbn. split; [reflexivity|]. intros ret info' w' H. left.
    injection H as <- <- <-. repeat split.
Qed.

Lemma rev2_update_info_fresh (HZ : Z) (w : world) (info : Rev2.hp_wmi_info) :
  0 < HZ < 2 ^ 62 ->
  is_ulong (jiffies w) -> is_ulong (Rev2.last_updated info) ->
  elapsed (jiffies w) (Rev2.last_updated info) <= HZ ->
  Rev2.hp_wmi_update_info HZ w info = (Ok (0, info), w).
Proof.
  intros HHZ Hj Hl He. unfold Rev2.hp_wmi_update_info.
  rewrite (proj1 (time_after_elapsed HZ _ _ HHZ Hj Hl) He). reflexivity.
Qed.

Lemma rev2_update_info_stale (HZ : Z) (w : world) (info : Rev2.hp_wmi_info) :
  0 < HZ < 2 ^ 62 ->
  is_ulong (jiffies w) -> is_ulong (Rev2.last_updated info) ->
  HZ < elapsed (jiffies w) (Rev2.last_updated info) <= HZ + 2 ^ 63 ->
  queries (snd (Rev2.hp_wmi_update_info HZ w info))
  = Rev2.instance info :: queries w /\
  forall ret info' w',
    Rev2.hp_wmi_update_info HZ w info = (Ok (ret, info'), w') ->
    (ret = - EIO /\ info' = info /\ firmware w (Rev2.instance info) = None) \/
    (ret = 0 /\ firmware w (Rev2.instance info) <> None /\
     Rev2.last_updated info' = jiffies w /\
     Rev2.instance info' = Rev2.instance info /\
     Rev2.is_active info' = Rev2.is_active info /\
     Rev2.type info' = Rev2.type info /\
     Rev2.cached_val info' = Rev2.scale_numeric_sensor (Rev2.nsensor info') /\
     same_fixed_fields (Rev2.nsensor info') (Rev2.nsensor info)).
Proof.
  intros HHZ Hj Hl He. unfold Rev2.hp_wmi_update_info.
  rewrite (proj2 (time_after_elapsed HZ _ _ HHZ Hj Hl) He).
  unfold hp_wmi_get_wobj.
  destruct (firmware w (Rev2.instance info)) as [wobj|] eqn:Hfw.
  - destruct (Rev2.update_numeric_sensor_from_wobj (Rev2.nsensor info) wobj _)
      as [[ns|e|] h] eqn:Hup; cbn [snd queries set_mem mem];
      (split; [reflexivity|]); intros ret info' w' H; try discriminate H.
    right. injection H as <- <- <-.
    apply update_numeric_sensor_frame in Hup.
    unfold Rev2.interpret_info.
    cbn; repeat split; try congruence; apply Hup.
  - cbn. split; [reflexivity|]. intros ret info' w' H. left.
    injection H as <- <- <-. repeat split.
Qed.


(** ** What a validated record looks like *)

Lemma check_loop_done_prefix (fuel : nat) :
  forall (elements : list acpi_object) (i : nat) (prop count p c : Z),
    (i <= 5)%nat -> prop = Z.of_nat i ->
    check_loop fuel elements (List.length elements) i prop count = CheckDone p c ->
    HP_WMI_PROPERTY_CURRENT_READING < p ->
    (6 <= List.length elements)%nat /\
    forall j, (i <= j < 6)%nat ->
              elem_type elements j = nth j head_types ACPI_TYPE_ANY.
Proof.
  unfold HP_WMI_PROPERTY_CURRENT_READING.
  induction fuel as [|fuel IH]; intros elements i prop count p c Hi Hprop H Hp.
  - simpl in H. injection H as <- <-. lia.
  - cbn [check_loop] in H.
    destruct (i <? List.length elements)%nat eqn:Hlt;
      [|injection H as <- <-; lia].
    apply Nat.ltb_lt in Hlt.
    destruct (prop >? HP_WMI_PROPERTY_CURRENT_READING); [discriminate H|].
    destruct (acpi_type_eqb (elem_type elements i) (hp_wmi_property_map prop))
      eqn:Hty; cbn [negb] in H; [|discriminate H].
    apply acpi_type_eqb_eq in Hty.
    assert (Hmap : hp_wmi_property_map prop = nth i head_types ACPI_TYPE_ANY).
    { subst prop. do 6 (destruct i as [|i]; [reflexivity|]). lia. }
    destruct (prop =? HP_WMI_PROPERTY_CURRENT_STATE) eqn:H5.
    + apply Z.eqb_eq in H5. unfold HP_WMI_PROPERTY_CURRENT_STATE in H5.
      assert (i = 5%nat) by lia. subst i. split; [lia|].
      intros j Hj. assert (j = 5%nat) by lia. subst j. congruence.
    + apply Z.eqb_neq in H5. unfold HP_WMI_PROPERTY_CURRENT_STATE in H5.
      apply IH in H; [| lia | lia | exact Hp].
      destruct H as [Hlen Hrest]. split; [exact Hlen|].
      intros j Hj. destruct (Nat.eq_dec j i) as [->|Hne]; [congruence|].
      apply Hrest. lia.
Qed.

Lemma split_strings (l : list acpi_object) :
  exists states tail,
    l = states ++ tail /\ Forall is_string states /\ no_leading_string tail.
Proof.
  induction l as [|e l (states & tail & Hl & Hs & Ht)].
  - exists [], []. repeat split. constructor.
  - destruct (acpi_type_eqb (acpi_type e) ACPI_TYPE_STRING) eqn:He.
    + apply acpi_type_eqb_eq in He. exists (e :: states), tail.
      subst l. repeat split; [constructor; assumption | assumption].
    + apply acpi_type_eqb_neq in He. exists [], (e :: l).
      repeat split; [constructor | exact He].
Qed.

Lemma acpi_types_eq_dec (a b : list acpi_object_type) : {a = b} + {a <> b}.
Proof. apply list_eq_dec. decide equality. Qed.

(** [check_wobj] accepts only the records of the schema. *)
Lemma check_wobj_ok_shape (wobj : acpi_object) (n : Z) :
  check_wobj wobj = Ok n ->
  exists head states tail,
    wobj = AcpiPackage (head ++ states ++ tail) /\
    map acpi_type head = head_types /\
    Forall is_string states /\ states <> [] /\
    map acpi_type tail = tail_types /\
    n = Z.of_nat (List.length states) /\
    (List.length (head ++ states ++ tail) <= HP_WMI_MAX_PROPERTIES)%nat.
Proof.
  intros H. destruct wobj as [| | |elements|]; try discriminate H.
  assert (Hcopy := H). unfold check_wobj in H.
  destruct (HP_WMI_MAX_PROPERTIES <? List.length elements)%nat eqn:Hlen;
    [discriminate H|]. apply Nat.ltb_ge in Hlen.
  destruct (check_loop _ _ _ _ _ _) as [ret|p c] eqn:Hloop; [discriminate H|].
  destruct ((c =? 0) || (p <=? HP_WMI_PROPERTY_CURRENT_READING)) eqn:Hc;
    [discriminate H|].
  apply orb_false_elim in Hc. destruct Hc as [_ Hp]. apply Z.leb_gt in Hp.
  destruct (check_loop_done_prefix _ _ 0%nat _ _ _ _ ltac:(lia) eq_refl Hloop Hp)
    as [Hsix Htypes].
  destruct elements as [|e0 [|e1 [|e2 [|e3 [|e4 [|e5 rest]]]]]];
    try (simpl in Hsix; lia).
  destruct (split_strings rest) as (states & tail & -> & Hs & Ht).
  assert (Hhead : map acpi_type [e0; e1; e2; e3; e4; e5] = head_types).
  { unfold head_types. cbn [map].
    pose proof (Htypes 0%nat ltac:(lia)) as T0.
    pose proof (Htypes 1%nat ltac:(lia)) as T1.
    pose proof (Htypes 2%nat ltac:(lia)) as T2.
    pose proof (Htypes 3%nat ltac:(lia)) as T3.
    pose proof (Htypes 4%nat ltac:(lia)) as T4.
    pose proof (Htypes 5%nat ltac:(lia)) as T5.
    unfold elem_type in *. cbn in T0, T1, T2, T3, T4, T5. congruence. }
  change (e0 :: e1 :: e2 :: e3 :: e4 :: e5 :: states ++ tail)
    with ([e0; e1; e2; e3; e4; e5] ++ states ++ tail) in *.
  pose proof (check_wobj_accepts _ states tail Hhead Hs Ht) as Hok.
  pose proof (check_wobj_rejects _ states tail Hhead Hs Ht) as Hbad.
  exists [e0; e1; e2; e3; e4; e5], states, tail.
  destruct states as [|s states'].
  - rewrite Hbad in Hcopy by (left; reflexivity). discriminate Hcopy.
  - destruct (acpi_types_eq_dec (map acpi_type tail) tail_types) as [Heq|Hne].
    + rewrite Hok in Hcopy by (assumption || congruence).
      injection Hcopy as <-. repeat split; try assumption; congruence.
    + rewrite Hbad in Hcopy by (right; exact Hne). discriminate Hcopy.
Qed.

(** ** populate_numeric_sensor_from_wobj *)

Section PopulateProofs.

Variable prep : string -> string.
Variable dup : string -> Z -> heap -> option string * heap.

Local Abbreviation ploop := (populate_loop prep dup).
Local Abbreviation populate := (populate_numeric_sensor_from_wobj prep dup).

Lemma populate_loop_unfold (fuel : nat) (elements : list acpi_object)
    (prop : Z) (l : populate_locals) (ns : hp_wmi_numeric_sensor) (h : heap) :
  ploop (S fuel) elements prop l ns h
  = if prop <=? HP_WMI_PROPERTY_CURRENT_READING then
      match extract_acpi_value prep dup elements (hp_wmi_property_map prop) l h with
      | (Err e, h) => (Err e, h)
      | (Undefined, h) => (Undefined, h)
      | (Ok l, h) =>
          let l := {| element := (element l + 1)%nat; remaining := remaining l;
                      value := value l; string_ := string_ l |} in
          let next := ploop fuel elements in
          if prop =? HP_WMI_PROPERTY_NAME then
            next (prop + 1) l (set_name ns (string_ l)) h
          else if prop =? HP_WMI_PROPERTY_DESCRIPTION then
            next (prop + 1) l (set_description ns (string_ l)) h
          else if prop =? HP_WMI_PROPERTY_SENSOR_TYPE then
            if value l >? HP_WMI_TYPE_AIR_FLOW then (Err (- EINVAL), h)
            else
              let ns := set_sensor_type ns (value l) in
              if negb (value l =? HP_WMI_TYPE_OTHER) then
                let l := {| element := (element l + 1)%nat;
                            remaining := remaining l;
                            value := value l; string_ := string_ l |} in
                next (prop + 1 + 1) l ns h
              else next (prop + 1) l ns h
          else if prop =? HP_WMI_PROPERTY_OTHER_SENSOR_TYPE then
            next (prop + 1) l (set_other_sensor_type ns (string_ l)) h
          else if prop =? HP_WMI_PROPERTY_OPERATIONAL_STATUS then
            next (prop + 1) l (set_operational_status ns (value l)) h
          else if prop =? HP_WMI_PROPERTY_CURRENT_STATE then
            next (prop + 1) l (set_current_state ns (string_ l)) h
          else if prop =? HP_WMI_PROPERTY_POSSIBLE_STATES then
            let ns :=
              set_possible_states ns (possible_states ns ++ [string_ l]) in
            let l := {| element := element l;
                        remaining := u8 (remaining l - 1);
                        value := value l; string_ := string_ l |} in
            if negb (remaining l =? 0)
            then next (prop - 1 + 1) l ns h
            else next (prop + 1) l ns h
          else if prop =? HP_WMI_PROPERTY_BASE_UNITS then
            next (prop + 1) l (set_base_units ns (value l)) h
          else if prop =? HP_WMI_PROPERTY_UNIT_MODIFIER then
            next (prop + 1) l (set_unit_modifier ns (s32 (value l))) h
          else if prop =? HP_WMI_PROPERTY_CURRENT_READING then
            next (prop + 1) l (set_current_reading ns (value l)) h
          else (Err (- EINVAL), h)
      end
    else (Ok ns, h).
Proof. reflexivity. Qed.

(** What [extract_acpi_value] does on an element of the expected type. *)
Lemma extract_string (elements : list acpi_object) (l : populate_locals)
    (h : heap) (len : Z) (p : string) :
  nth_error elements (element l) = Some (AcpiString len p) ->
  extract_acpi_value prep dup elements ACPI_TYPE_STRING l h
  = match dup (prep p) len h with
    | (None, h') => (Err (- ENOMEM), h')
    | (Some s, h') =>
        (Ok {| element := element l; remaining := remaining l;
               value := value l; string_ := Some s |}, h')
    end.
Proof.
  intros H. unfold extract_acpi_value, string_members. rewrite H.
  destruct (dup (prep p) len h) as [[s|] h']; reflexivity.
Qed.

Lemma extract_integer (elements : list acpi_object) (l : populate_locals)
    (h : heap) (v : Z) :
  nth_error elements (element l) = Some (AcpiInteger v) ->
  extract_acpi_value prep dup elements ACPI_TYPE_INTEGER l h
  = (Ok {| element := element l; remaining := remaining l;
           value := u32 v; string_ := string_ l |}, h).
Proof.
  intros H. unfold extract_acpi_value, integer_value. rewrite H. reflexivity.
Qed.

Lemma is_string_inv (e : acpi_object) :
  is_string e -> exists len p, e = AcpiString len p.
Proof. destruct e; unfold is_string; simpl; try discriminate. eauto. Qed.

Lemma is_integer_inv (e : acpi_object) :
  acpi_type e = ACPI_TYPE_INTEGER -> exists v, e = AcpiInteger v.
Proof. destruct e; simpl; try discriminate. eauto. Qed.

(** The PossibleStates phase: once it has consumed [states] it goes on
    with BaseUnits at the element after them. *)
Lemma populate_states_defined (states : list acpi_object) :
  forall (pre tail : list acpi_object) (fuel : nat) (l : populate_locals)
         (ns : hp_wmi_numeric_sensor) (h : heap),
    Forall is_string states -> states <> [] ->
    (List.length states < 256)%nat ->
    element l = List.length pre ->
    remaining l = Z.of_nat (List.length states) ->
    (List.length states <= fuel)%nat ->
    (forall l' ns' h',
       element l' = (List.length pre + List.length states)%nat ->
       defined (ploop (fuel - List.length states)
                  (pre ++ states ++ tail) HP_WMI_PROPERTY_BASE_UNITS l' ns' h')) ->
    defined (ploop fuel (pre ++ states ++ tail)
               HP_WMI_PROPERTY_POSSIBLE_STATES l ns h).
Proof.
  induction states as [|s states IH];
    intros pre tail fuel l ns h Hs Hne Hlen Hel Hrem Hfuel Hk; [congruence|].
  inversion Hs as [|? ? Hs1 Hs2]; subst.
  destruct (is_string_inv s Hs1) as (len & p & ->).
  destruct fuel as [|fuel]; [simpl in Hfuel; lia|].
  rewrite populate_loop_unfold.
  change (HP_WMI_PROPERTY_POSSIBLE_STATES <=? HP_WMI_PROPERTY_CURRENT_READING) with true.
  change (hp_wmi_property_map HP_WMI_PROPERTY_POSSIBLE_STATES) with ACPI_TYPE_STRING.
  cbv iota.
  rewrite (extract_string _ _ _ len p)
    by (rewrite Hel, nth_error_app2, Nat.sub_diag by lia; reflexivity).
  destruct (dup (prep p) len h) as [[str|] h']; [|unfold defined; simpl; congruence].
  cbn [element remaining value string_].
  change (HP_WMI_PROPERTY_POSSIBLE_STATES =? HP_WMI_PROPERTY_NAME) with false.
  change (HP_WMI_PROPERTY_POSSIBLE_STATES =? HP_WMI_PROPERTY_DESCRIPTION) with false.
  change (HP_WMI_PROPERTY_POSSIBLE_STATES =? HP_WMI_PROPERTY_SENSOR_TYPE) with false.
  change (HP_WMI_PROPERTY_POSSIBLE_STATES =? HP_WMI_PROPERTY_OTHER_SENSOR_TYPE) with false.
  change (HP_WMI_PROPERTY_POSSIBLE_STATES =? HP_WMI_PROPERTY_OPERATIONAL_STATUS) with false.
  change (HP_WMI_PROPERTY_POSSIBLE_STATES =? HP_WMI_PROPERTY_CURRENT_STATE) with false.
  change (HP_WMI_PROPERTY_POSSIBLE_STATES =? HP_WMI_PROPERTY_POSSIBLE_STATES) with true.
  cbv iota zeta. cbn [element remaining value string_].
  rewrite Hrem. cbn [List.length] in *.
  assert (Hb : 0 <= Z.of_nat (S (List.length states)) - 1 < 256) by (clear - Hlen; lia).
  rewrite u8_small by exact Hb.
  replace (Z.of_nat (S (List.length states)) - 1) with (Z.of_nat (List.length states)) by lia.
  destruct states as [|s' states'].
  - change (Z.of_nat (List.length (@nil acpi_object)) =? 0) with true. cbn [negb].
    change (HP_WMI_PROPERTY_POSSIBLE_STATES + 1) with HP_WMI_PROPERTY_BASE_UNITS.
    specialize (Hk {| element := (element l + 1)%nat; remaining := 0;
                      value := value l; string_ := Some str |}
                   (set_possible_states ns (possible_states ns ++ [Some str])) h').
    cbn [List.length] in Hk. cbn [Nat.sub] in Hk. rewrite Nat.sub_0_r in Hk.
    apply Hk. cbn [element]. lia.
  - replace (Z.of_nat (List.length (s' :: states')) =? 0) with false
      by (symmetry; apply Z.eqb_neq; cbn [List.length]; lia).
    cbn [negb].
    change (HP_WMI_PROPERTY_POSSIBLE_STATES - 1 + 1) with HP_WMI_PROPERTY_POSSIBLE_STATES.
    replace (pre ++ (AcpiString len p :: s' :: states') ++ tail)
      with ((pre ++ [AcpiString len p]) ++ (s' :: states') ++ tail)
      by (rewrite <- app_assoc; reflexivity).
    apply IH; try assumption; try congruence;
      try (cbn [List.length element remaining] in *; rewrite ?length_app;
           cbn [List.length]; lia).
    + intros l' ns' h'' Hel'.
      replace ((pre ++ [AcpiString len p]) ++ (s' :: states') ++ tail)
        with (pre ++ (AcpiString len p :: s' :: states') ++ tail)
        by (rewrite <- app_assoc; reflexivity).
      replace (fuel - List.length (s' :: states'))%nat
        with (S fuel - List.length (AcpiString len p :: s' :: states'))%nat
        by (cbn [List.length]; lia).
      apply Hk. rewrite Hel', length_app. cbn [List.length]. lia.
Qed.

(** One iteration on a String element, for the properties that take one. *)
Lemma populate_string_defined (fuel : nat) (elements : list acpi_object)
    (prop : Z) (l : populate_locals) (ns : hp_wmi_numeric_sensor) (h : heap)
    (len : Z) (p : string) (set : hp_wmi_numeric_sensor -> option string -> hp_wmi_numeric_sensor) :
  (prop = HP_WMI_PROPERTY_NAME /\ set = set_name) \/
  (prop = HP_WMI_PROPERTY_DESCRIPTION /\ set = set_description) \/
  (prop = HP_WMI_PROPERTY_OTHER_SENSOR_TYPE /\ set = set_other_sensor_type) \/
  (prop = HP_WMI_PROPERTY_CURRENT_STATE /\ set = set_current_state) ->
  nth_error elements (element l) = Some (AcpiString len p) ->
  (forall s h',
     defined (ploop fuel elements (prop + 1)
                {| element := (element l + 1)%nat; remaining := remaining l;
                   value := value l; string_ := Some s |}
                (set ns (Some s)) h')) ->
  defined (ploop (S fuel) elements prop l ns h).
Proof.
  intros Hprop Hnth Hk. rewrite populate_loop_unfold.
  destruct Hprop as [[-> ->]|[[-> ->]|[[-> ->]|[-> ->]]]];
    cbv beta iota delta [hp_wmi_property_map HP_WMI_PROPERTY_NAME
      HP_WMI_PROPERTY_DESCRIPTION HP_WMI_PROPERTY_OTHER_SENSOR_TYPE
      HP_WMI_PROPERTY_CURRENT_STATE HP_WMI_PROPERTY_CURRENT_READING
      HP_WMI_PROPERTY_SENSOR_TYPE HP_WMI_PROPERTY_OPERATIONAL_STATUS
      Z.leb Z.eqb Z.compare Pos.compare Pos.compare_cont Pos.eqb];
    rewrite (extract_string _ _ _ len p Hnth);
    (destruct (dup (prep p) len h) as [[s|] h'];
     [|unfold defined; simpl; congruence]);
    cbv zeta; cbn [element remaining value string_]; apply Hk.
Qed.

(** One iteration on an Integer element other than SensorType. *)
Lemma populate_integer_defined (fuel : nat) (elements : list acpi_object)
    (prop : Z) (l : populate_locals) (ns : hp_wmi_numeric_sensor) (h : heap)
    (v : Z) (set : hp_wmi_numeric_sensor -> Z -> hp_wmi_numeric_sensor) :
  (prop = HP_WMI_PROPERTY_OPERATIONAL_STATUS /\ set = set_operational_status) \/
  (prop = HP_WMI_PROPERTY_BASE_UNITS /\ set = set_base_units) \/
  (prop = HP_WMI_PROPERTY_UNIT_MODIFIER /\
   set = fun ns v => set_unit_modifier ns (s32 v)) \/
  (prop = HP_WMI_PROPERTY_CURRENT_READING /\ set = set_current_reading) ->
  nth_error elements (element l) = Some (AcpiInteger v) ->
  defined (ploop fuel elements (prop + 1)
             {| element := (element l + 1)%nat; remaining := remaining l;
                value := u32 v; string_ := string_ l |}
             (set ns (u32 v)) h) ->
  defined (ploop (S fuel) elements prop l ns h).
Proof.
  intros Hprop Hnth Hk. rewrite populate_loop_unfold.
  destruct Hprop as [[-> ->]|[[-> ->]|[[-> ->]|[-> ->]]]];
    cbv beta iota delta [hp_wmi_property_map HP_WMI_PROPERTY_NAME
      HP_WMI_PROPERTY_DESCRIPTION HP_WMI_PROPERTY_OTHER_SENSOR_TYPE
      HP_WMI_PROPERTY_CURRENT_STATE HP_WMI_PROPERTY_CURRENT_READING
      HP_WMI_PROPERTY_SENSOR_TYPE HP_WMI_PROPERTY_OPERATIONAL_STATUS
      HP_WMI_PROPERTY_POSSIBLE_STATES HP_WMI_PROPERTY_BASE_UNITS
      HP_WMI_PROPERTY_UNIT_MODIFIER
      Z.leb Z.eqb Z.compare Pos.compare Pos.compare_cont Pos.eqb];
    rewrite (extract_integer _ _ _ v Hnth);
    cbv zeta; cbn [element remaining value string_]; apply Hk.
Qed.

(** The iteration on SensorType. *)
Lemma populate_sensor_type_unfold (fuel : nat) (elements : list acpi_object)
    (l : populate_locals) (ns : hp_wmi_numeric_sensor) (h : heap) (v : Z) :
  nth_error elements (element l) = Some (AcpiInteger v) ->
  ploop (S fuel) elements HP_WMI_PROPERTY_SENSOR_TYPE l ns h
  = if u32 v >? HP_WMI_TYPE_AIR_FLOW then (Err (- EINVAL), h)
    else if negb (u32 v =? HP_WMI_TYPE_OTHER) then
      ploop fuel elements HP_WMI_PROPERTY_OPERATIONAL_STATUS
        {| element := (element l + 1 + 1)%nat; remaining := remaining l;
           value := u32 v; string_ := string_ l |}
        (set_sensor_type ns (u32 v)) h
    else
      ploop fuel elements HP_WMI_PROPERTY_OTHER_SENSOR_TYPE
        {| element := (element l + 1)%nat; remaining := remaining l;
           value := u32 v; string_ := string_ l |}
        (set_sensor_type ns (u32 v)) h.
Proof.
  intros Hnth. rewrite populate_loop_unfold.
  change (HP_WMI_PROPERTY_SENSOR_TYPE <=? HP_WMI_PROPERTY_CURRENT_READING) with true.
  change (hp_wmi_property_map HP_WMI_PROPERTY_SENSOR_TYPE) with ACPI_TYPE_INTEGER.
  rewrite (extract_integer _ _ _ v Hnth). reflexivity.
Qed.

(** The decoder never leaves the elements that [check_wobj] has vetted and
    has fuel to spare: it returns a record or an error code. *)
Lemma populate_defined (nsensor : hp_wmi_numeric_sensor) (wobj : acpi_object)
    (h : heap) :
  defined (populate nsensor wobj h).
Proof.
  unfold populate_numeric_sensor_from_wobj.
  destruct (check_wobj wobj) as [n|e|] eqn:Hcheck;
    [|unfold defined; simpl; congruence|].
  2:{ exfalso. unfold check_wobj in Hcheck.
      repeat match type of Hcheck with
             | context [match ?x with _ => _ end] => destruct x; try discriminate Hcheck
             end. }
  destruct (check_wobj_ok_shape _ _ Hcheck)
    as (head & states & tail & -> & Hhead & Hs & Hne & Htail & -> & Hlen).
  destruct (alloc h) as [[|] h0]; cbn [negb]; [|unfold defined; simpl; congruence].
  unfold HP_WMI_MAX_PROPERTIES in Hlen.
  destruct head as [|e0 [|e1 [|e2 [|e3 [|e4 [|e5 [|? ?]]]]]]]; try discriminate Hhead.
  injection Hhead as H0 H1 H2 H3 H4 H5.
  destruct tail as [|b [|m [|r [|? ?]]]]; try discriminate Htail.
  injection Htail as Hb Hm Hr.
  destruct (is_string_inv e0 H0) as (l0 & p0 & ->).
  destruct (is_string_inv e1 H1) as (l1 & p1 & ->).
  destruct (is_integer_inv e2 H2) as (v2 & ->).
  destruct (is_string_inv e3 H3) as (l3 & p3 & ->).
  destruct (is_integer_inv e4 H4) as (v4 & ->).
  destruct (is_string_inv e5 H5) as (l5 & p5 & ->).
  destruct (is_integer_inv b Hb) as (vb & ->).
  destruct (is_integer_inv m Hm) as (vm & ->).
  destruct (is_integer_inv r Hr) as (vr & ->).
  set (head := [AcpiString l0 p0; AcpiString l1 p1; AcpiInteger v2;
                AcpiString l3 p3; AcpiInteger v4; AcpiString l5 p5]) in *.
  set (tail := [AcpiInteger vb; AcpiInteger vm; AcpiInteger vr]) in *.
  rewrite !length_app in Hlen. cbn [List.length] in Hlen.
  replace (Z.to_nat (11 + Z.of_nat (List.length states)))
    with (S (S (S (S (S (S (List.length states + 5)))))))%nat by lia.
  remember (head ++ states ++ tail) as elements eqn:Hels.
  assert (Hnth : forall j e, nth_error head j = Some e -> nth_error elements j = Some e).
  { intros j e Hj. subst elements. rewrite nth_error_app1; [exact Hj|].
    apply nth_error_Some. congruence. }
  assert (Htl : forall j e, nth_error tail j = Some e ->
                  nth_error elements (6 + List.length states + j) = Some e).
  { intros j e Hj. subst elements.
    rewrite nth_error_app2 by (unfold head; simpl; lia).
    rewrite nth_error_app2 by (unfold head; simpl; lia).
    replace (6 + List.length states + j - List.length head - List.length states)%nat
      with j by (unfold head; simpl; lia).
    exact Hj. }
  (* after CurrentState: the states, then the three integers *)
  assert (Hrest : forall fuel l ns h,
            element l = 6%nat -> remaining l = Z.of_nat (List.length states) ->
            (List.length states + 4 <= fuel)%nat ->
            defined (ploop fuel elements HP_WMI_PROPERTY_POSSIBLE_STATES l ns h)).
  { intros fuel l ns h1 Hel Hrem Hfuel. rewrite Hels.
    apply populate_states_defined; try assumption; try lia.
    intros l' ns' h' Hel'. rewrite <- Hels.
    assert (Hel2 : element l' = (6 + List.length states + 0)%nat)
      by (rewrite Hel'; unfold head; simpl; lia).
    destruct (fuel - List.length states)%nat as [|[|[|[|f]]]] eqn:Hf; try lia.
    eapply populate_integer_defined;
      [right; left; split; reflexivity | rewrite Hel2; apply Htl; reflexivity|].
    eapply populate_integer_defined;
      [right; right; left; split; reflexivity
      | cbn [element]; rewrite Hel2;
        replace (6 + List.length states + 0 + 1)%nat
          with (6 + List.length states + 1)%nat by lia;
        apply Htl; reflexivity|].
    eapply populate_integer_defined;
      [right; right; right; split; reflexivity
      | cbn [element]; rewrite Hel2;
        replace (6 + List.length states + 0 + 1 + 1)%nat
          with (6 + List.length states + 2)%nat by lia;
        apply Htl; reflexivity|].
    rewrite populate_loop_unfold. unfold defined. simpl. congruence. }
  (* from OperationalStatus to CurrentState *)
  assert (Hmid : forall fuel l ns h,
            element l = 4%nat -> remaining l = Z.of_nat (List.length states) ->
            (List.length states + 6 <= fuel)%nat ->
            defined (ploop fuel elements
                       HP_WMI_PROPERTY_OPERATIONAL_STATUS l ns h)).
  { intros [|[|fuel]] l ns h1 Hel Hrem Hfuel; try lia.
    eapply populate_integer_defined;
      [left; split; reflexivity | rewrite Hel; apply Hnth; reflexivity|].
    eapply populate_string_defined;
      [right; right; right; split; reflexivity
      | cbn [element]; rewrite Hel; apply Hnth; reflexivity|].
    intros s h'. apply Hrest; cbn [element remaining]; lia. }
  eapply populate_string_defined;
    [left; split; reflexivity | apply Hnth; reflexivity|].
  intros s0 h1.
  eapply populate_string_defined;
    [right; left; split; reflexivity | apply Hnth; reflexivity|].
  intros s1 h2.
  change (HP_WMI_PROPERTY_NAME + 1 + 1) with HP_WMI_PROPERTY_SENSOR_TYPE.
  rewrite (populate_sensor_type_unfold _ _ _ _ _ v2) by (apply Hnth; reflexivity).
  cbn [element remaining value string_].
  destruct (u32 v2 >? HP_WMI_TYPE_AIR_FLOW); [unfold defined; simpl; congruence|].
  destruct (negb (u32 v2 =? HP_WMI_TYPE_OTHER)).
  - apply Hmid; cbn [element remaining]; lia.
  - eapply populate_string_defined;
      [right; right; left; split; reflexivity
      | cbn [element]; apply Hnth; reflexivity|].
    intros s3 h3. apply Hmid; cbn [element remaining]; lia.
Qed.

(** The iteration on Name and on Description. *)
Lemma populate_name_unfold (fuel : nat) (elements : list acpi_object)
    (l : populate_locals) (ns : hp_wmi_numeric_sensor) (h : heap)
    (len : Z) (p : string) :
  nth_error elements (element l) = Some (AcpiString len p) ->
  ploop (S fuel) elements HP_WMI_PROPERTY_NAME l ns h
  = match dup (prep p) len h with
    | (None, h') => (Err (- ENOMEM), h')
    | (Some s, h') =>
        ploop fuel elements HP_WMI_PROPERTY_DESCRIPTION
          {| element := (element l + 1)%nat; remaining := remaining l;
             value := value l; string_ := Some s |}
          (set_name ns (Some s)) h'
    end.
Proof.
  intros Hnth. rewrite populate_loop_unfold.
  change (HP_WMI_PROPERTY_NAME <=? HP_WMI_PROPERTY_CURRENT_READING) with true.
  change (hp_wmi_property_map HP_WMI_PROPERTY_NAME) with ACPI_TYPE_STRING.
  rewrite (extract_string _ _ _ len p Hnth).
  destruct (dup (prep p) len h) as [[s|] h']; reflexivity.
Qed.

Lemma populate_description_unfold (fuel : nat) (elements : list acpi_object)
    (l : populate_locals) (ns : hp_wmi_numeric_sensor) (h : heap)
    (len : Z) (p : string) :
  nth_error elements (element l) = Some (AcpiString len p) ->
  ploop (S fuel) elements HP_WMI_PROPERTY_DESCRIPTION l ns h
  = match dup (prep p) len h with
    | (None, h') => (Err (- ENOMEM), h')
    | (Some s, h') =>
        ploop fuel elements HP_WMI_PROPERTY_SENSOR_TYPE
          {| element := (element l + 1)%nat; remaining := remaining l;
             value := value l; string_ := Some s |}
          (set_description ns (Some s)) h'
    end.
Proof.
  intros Hnth. rewrite populate_loop_unfold.
  change (HP_WMI_PROPERTY_DESCRIPTION <=? HP_WMI_PROPERTY_CURRENT_READING) with true.
  change (hp_wmi_property_map HP_WMI_PROPERTY_DESCRIPTION) with ACPI_TYPE_STRING.
  rewrite (extract_string _ _ _ len p Hnth).
  destruct (dup (prep p) len h) as [[s|] h']; reflexivity.
Qed.

(** C10 in the shared decoder: a validated record whose SensorType exceeds
    the Air Flow code is turned down, with [-EINVAL] unless an allocation
    failed before the SensorType was looked at. *)
Lemma populate_rejects_sensor_type (nsensor : hp_wmi_numeric_sensor)
    (elements : list acpi_object) (n v : Z) (h : heap) :
  check_wobj (AcpiPackage elements) = Ok n ->
  nth_error elements (Z.to_nat HP_WMI_PROPERTY_SENSOR_TYPE) = Some (AcpiInteger v) ->
  HP_WMI_TYPE_AIR_FLOW < u32 v ->
  exists e h',
    populate nsensor (AcpiPackage elements) h = (Err e, h') /\
    (e = - EINVAL \/ e = - ENOMEM) /\
    ((forall src len, exists s, dup src len [] = (Some s, [])) ->
     h = [] -> e = - EINVAL).
Proof.
  intros Hcheck Hv Hbig.
  unfold populate_numeric_sensor_from_wobj. rewrite Hcheck.
  destruct (check_wobj_ok_shape _ _ Hcheck)
    as (head & states & tail & Hels & Hhead & Hs & Hne & Htail & -> & Hlen).
  injection Hels as ->.
  destruct head as [|e0 [|e1 [|e2 [|e3 [|e4 [|e5 [|? ?]]]]]]]; try discriminate Hhead.
  injection Hhead as H0 H1 H2 H3 H4 H5.
  destruct (is_string_inv e0 H0) as (l0 & p0 & ->).
  destruct (is_string_inv e1 H1) as (l1 & p1 & ->).
  cbn in Hv. injection Hv as ->.
  replace (Z.to_nat (11 + Z.of_nat (List.length states)))
    with (S (S (S (List.length states + 8))))%nat by lia.
  destruct (alloc h) as [[|] h0] eqn:Halloc; cbn [negb].
  2:{ exists (- ENOMEM), h0. split; [reflexivity|]. split; [right; reflexivity|].
      intros _ ->. simpl in Halloc. discriminate Halloc. }
  rewrite (populate_name_unfold _ _ _ _ _ l0 p0) by reflexivity.
  destruct (dup (prep p0) l0 h0) as [[s0|] h1] eqn:Hd0.
  2:{ exists (- ENOMEM), h1. split; [reflexivity|]. split; [right; reflexivity|].
      intros Hdup ->. simpl in Halloc. injection Halloc as <-.
      destruct (Hdup (prep p0) l0) as [s Hs0]. congruence. }
  rewrite (populate_description_unfold _ _ _ _ _ l1 p1) by reflexivity.
  destruct (dup (prep p1) l1 h1) as [[s1|] h2] eqn:Hd1.
  2:{ exists (- ENOMEM), h2. split; [reflexivity|]. split; [right; reflexivity|].
      intros Hdup ->. simpl in Halloc. injection Halloc as <-.
      destruct (Hdup (prep p0) l0) as [s Hs0].
      assert (h1 = []) by congruence. subst h1.
      destruct (Hdup (prep p1) l1) as [s' Hs1]. congruence. }
  rewrite (populate_sensor_type_unfold _ _ _ _ _ v) by reflexivity.
  replace (u32 v >? HP_WMI_TYPE_AIR_FLOW) with true
    by (symmetry; rewrite Z.gtb_ltb; apply Z.ltb_lt; exact Hbig).
  exists (- EINVAL), h2. split; [reflexivity|]. split; [left; reflexivity|].
  reflexivity.
Qed.

End PopulateProofs.

Lemma rev_strdup_succeeds :
  (forall src len, exists s, Rev1.hp_wmi_strdup src len [] = (Some s, [])) /\
  (forall src len, exists s, Rev2.hp_wmi_strdup src len [] = (Some s, [])).
Proof. split; intros src len; eexists; reflexivity. Qed.

(** C10. In both revisions a record that passes [check_wobj] and whose
    SensorType, read as a [u32], exceeds the Air Flow code 12 is rejected
    by the decoder: no record comes out of it, and the error is [-EINVAL]
    (or [-ENOMEM], when an allocation failed first). *)
Theorem populate_rejects_out_of_range_sensor_type
    (nsensor : hp_wmi_numeric_sensor) (elements : list acpi_object)
    (n v : Z) (h : heap) :
  check_wobj (AcpiPackage elements) = Ok n ->
  nth_error elements (Z.to_nat HP_WMI_PROPERTY_SENSOR_TYPE) = Some (AcpiInteger v) ->
  HP_WMI_TYPE_AIR_FLOW < u32 v ->
  (exists e h',
     Rev1.populate_numeric_sensor_from_wobj nsensor (AcpiPackage elements) h
     = (Err e, h') /\
     (e = - EINVAL \/ e = - ENOMEM) /\ (h = [] -> e = - EINVAL)) /\
  (exists e h',
     Rev2.populate_numeric_sensor_from_wobj nsensor (AcpiPackage elements) h
     = (Err e, h') /\
     (e = - EINVAL \/ e = - ENOMEM) /\ (h = [] -> e = - EINVAL)).
Proof.
  intros Hcheck Hv Hbig. split.
  - destruct (populate_rejects_sensor_type (fun s => s) Rev1.hp_wmi_strdup
                nsensor elements n v h Hcheck Hv Hbig) as (e & h' & H1 & H2 & H3).
    exists e, h'. repeat split; try assumption.
    apply H3. apply rev_strdup_succeeds.
  - destruct (populate_rejects_sensor_type strim Rev2.hp_wmi_strdup
                nsensor elements n v h Hcheck Hv Hbig) as (e & h' & H1 & H2 & H3).
    exists e, h'. repeat split; try assumption.
    apply H3. apply rev_strdup_succeeds.
Qed.

Lemma populate_rejects_out_of_range_sensor_type_witness :
  (exists e h',
     Rev1.populate_numeric_sensor_from_wobj zero_nsensor
       (AcpiPackage out_of_range_elements) [] = (Err e, h') /\
     (e = - EINVAL \/ e = - ENOMEM) /\ (@nil bool = [] -> e = - EINVAL)) /\
  (exists e h',
     Rev2.populate_numeric_sensor_from_wobj zero_nsensor
       (AcpiPackage out_of_range_elements) [] = (Err e, h') /\
     (e = - EINVAL \/ e = - ENOMEM) /\ (@nil bool = [] -> e = - EINVAL)).
Proof.
  apply (populate_rejects_out_of_range_sensor_type zero_nsensor
           out_of_range_elements 1 13 []);
    [reflexivity | reflexivity | vm_compute; reflexivity].
Defined.

(** ** The update pass on a validated record *)

(** On a record of the validated shape whose PossibleStates count is the
    one stored at discovery, the update pass is defined and reads
    OperationalStatus, UnitModifier and CurrentReading from their places:
    the offset [possible_states_count - 1] lands on the two trailing
    Integers. *)
Lemma update_reads_validated_record
    (prep : string -> string)
    (dup : string -> Z -> heap -> option string * heap)
    (ns : hp_wmi_numeric_sensor) (head states tail : list acpi_object)
    (h : heap) (s : string) :
  map acpi_type head = head_types ->
  Forall is_string states -> states <> [] ->
  map acpi_type tail = tail_types ->
  (List.length (head ++ states ++ tail) <= HP_WMI_MAX_PROPERTIES)%nat ->
  possible_states_count ns = Z.of_nat (List.length states) ->
  current_state ns = Some s ->
  exists ns' h' status modifier reading,
    update_numeric_sensor_from_wobj prep dup ns
      (AcpiPackage (head ++ states ++ tail)) h = (Ok ns', h') /\
    nth_error head 4 = Some (AcpiInteger status) /\
    nth_error tail 1 = Some (AcpiInteger modifier) /\
    nth_error tail 2 = Some (AcpiInteger reading) /\
    operational_status ns' = u32 status /\
    unit_modifier ns' = s32 modifier /\
    current_reading ns' = u32 reading.
Proof.
  intros Hhead Hs Hne Htail Hlen Hcount Hcur.
  destruct head as [|e0 [|e1 [|e2 [|e3 [|e4 [|e5 [|? ?]]]]]]]; try discriminate Hhead.
  injection Hhead as H0 H1 H2 H3 H4 H5.
  destruct tail as [|b [|m [|r [|? ?]]]]; try discriminate Htail.
  injection Htail as Hb Hm Hr.
  destruct (is_integer_inv e4 H4) as (v4 & ->).
  destruct (is_string_inv e5 H5) as (l5 & p5 & ->).
  destruct (is_integer_inv m Hm) as (vm & ->).
  destruct (is_integer_inv r Hr) as (vr & ->).
  unfold HP_WMI_MAX_PROPERTIES in Hlen. rewrite !length_app in Hlen.
  cbn [List.length] in Hlen.
  assert (Hpos : (1 <= List.length states)%nat)
    by (destruct states; [congruence | simpl; lia]).
  unfold update_numeric_sensor_from_wobj.
  change (integer_value ([e0; e1; e2; e3; AcpiInteger v4; AcpiString l5 p5]
                           ++ states ++ [b; AcpiInteger vm; AcpiInteger vr])
            (Z.to_nat HP_WMI_PROPERTY_OPERATIONAL_STATUS)) with (@Ok Z v4).
  change (string_members ([e0; e1; e2; e3; AcpiInteger v4; AcpiString l5 p5]
                            ++ states ++ [b; AcpiInteger vm; AcpiInteger vr])
            (Z.to_nat HP_WMI_PROPERTY_CURRENT_STATE)) with (@Ok (Z * string) (l5, p5)).
  rewrite Hcur.
  assert (Hidx : forall (ns1 : hp_wmi_numeric_sensor) (k : Z) (j : nat) (v : Z),
            possible_states_count ns1 = Z.of_nat (List.length states) ->
            k = 7 + Z.of_nat j ->
            nth_error [b; AcpiInteger vm; AcpiInteger vr] j = Some (AcpiInteger v) ->
            integer_value ([e0; e1; e2; e3; AcpiInteger v4; AcpiString l5 p5]
                             ++ states ++ [b; AcpiInteger vm; AcpiInteger vr])
              (Z.to_nat (k + u8 (possible_states_count ns1 - 1))) = Ok v).
  { intros ns1 k j v Hc -> Hj. rewrite Hc, u8_small by lia.
    unfold integer_value.
    rewrite nth_error_app2 by (cbn [List.length]; lia).
    rewrite nth_error_app2 by (cbn [List.length]; lia).
    replace (Z.to_nat (7 + Z.of_nat j + (Z.of_nat (List.length states) - 1))
             - List.length [e0; e1; e2; e3; AcpiInteger v4; AcpiString l5 p5]
             - List.length states)%nat with j by (cbn [List.length]; lia).
    rewrite Hj. reflexivity. }
  destruct (strcmp_ne (prep p5) s).
  - destruct (dup (prep p5) l5 h) as [s' h'].
    rewrite (Hidx _ HP_WMI_PROPERTY_UNIT_MODIFIER 1%nat vm)
      by (cbn; assumption || reflexivity).
    rewrite (Hidx _ HP_WMI_PROPERTY_CURRENT_READING 2%nat vr)
      by (cbn; assumption || reflexivity).
    eexists _, h', v4, vm, vr. repeat split.
  - rewrite (Hidx _ HP_WMI_PROPERTY_UNIT_MODIFIER 1%nat vm)
      by (cbn; assumption || reflexivity).
    rewrite (Hidx _ HP_WMI_PROPERTY_CURRENT_READING 2%nat vr)
      by (cbn; assumption || reflexivity).
    eexists _, h, v4, vm, vr. repeat split.
Qed.

(** C9. The update pass of either revision leaves the name, description,
    sensor type, other sensor type, base units, possible states and their
    count of the record as they were, whatever the record read; and it
    does return on every record that [check_wobj] accepts with the count
    stored at discovery. *)
Theorem update_numeric_sensor_from_wobj_frame
    (nsensor : hp_wmi_numeric_sensor) (wobj : acpi_object) (h : heap) :
  (forall nsensor' h',
     Rev1.update_numeric_sensor_from_wobj nsensor wobj h = (Ok nsensor', h') ->
     same_fixed_fields nsensor' nsensor) /\
  (forall nsensor' h',
     Rev2.update_numeric_sensor_from_wobj nsensor wobj h = (Ok nsensor', h') ->
     same_fixed_fields nsensor' nsensor) /\
  (forall s,
     check_wobj wobj = Ok (possible_states_count nsensor) ->
     current_state nsensor = Some s ->
     (exists nsensor' h',
        Rev1.update_numeric_sensor_from_wobj nsensor wobj h = (Ok nsensor', h')) /\
     (exists nsensor' h',
        Rev2.update_numeric_sensor_from_wobj nsensor wobj h = (Ok nsensor', h'))).
Proof.
  split; [|split].
  - intros nsensor' h'. apply update_numeric_sensor_frame.
  - intros nsensor' h'. apply update_numeric_sensor_frame.
  - intros s Hcheck Hcur.
    destruct (check_wobj_ok_shape _ _ Hcheck)
      as (head & states & tail & -> & Hhead & Hs & Hne & Htail & Hcount & Hlen).
    split.
    + destruct (update_reads_validated_record (fun s => s) Rev1.hp_wmi_strdup
                  nsensor head states tail h s Hhead Hs Hne Htail Hlen Hcount Hcur)
        as (ns' & h' & _ & _ & _ & Hup & _).
      exists ns', h'. exact Hup.
    + destruct (update_reads_validated_record strim Rev2.hp_wmi_strdup
                  nsensor head states tail h s Hhead Hs Hne Htail Hlen Hcount Hcur)
        as (ns' & h' & _ & _ & _ & Hup & _).
      exists ns', h'. exact Hup.
Qed.

Lemma update_numeric_sensor_from_wobj_frame_witness :
  same_fixed_fields (sample_nsensor 3 "Caution" (-3) 61000)
                    (sample_nsensor 2 "Normal" (-3) 25000) /\
  (exists nsensor' h',
     Rev2.update_numeric_sensor_from_wobj
       (sample_nsensor 2 "Normal" (-3) 25000)
       (sample_wobj 3 "Caution" (-3) 61000) [] = (Ok nsensor', h')).
Proof.
  split.
  - apply (proj1 (update_numeric_sensor_from_wobj_frame
                    (sample_nsensor 2 "Normal" (-3) 25000)
                    (sample_wobj 3 "Caution" (-3) 61000) [])
             (sample_nsensor 3 "Caution" (-3) 61000) []).
    reflexivity.
  - apply (proj2 (proj2 (update_numeric_sensor_from_wobj_frame
                           (sample_nsensor 2 "Normal" (-3) 25000)
                           (sample_wobj 3 "Caution" (-3) 61000) []))
             "Normal"%string eq_refl eq_refl).
Defined.

(** ** Arrays as lists *)

Lemma list_set_some {A : Type} (l : list A) (i : nat) (x : A) :
  (i < List.length l)%nat -> exists l', list_set l i x = Some l'.
Proof.
  revert i. induction l as [|y l IH]; intros i Hi; [simpl in Hi; lia|].
  destruct i as [|i]; simpl; [eauto|].
  destruct (IH i ltac:(simpl in Hi; lia)) as [l' ->]. eauto.
Qed.

Lemma list_set_spec {A : Type} (l l' : list A) (i : nat) (x : A) :
  list_set l i x = Some l' ->
  List.length l' = List.length l /\
  (i < List.length l)%nat /\
  nth_error l' i = Some x /\
  forall j, j <> i -> nth_error l' j = nth_error l j.
Proof.
  revert i l'. induction l as [|y l IH]; intros i l' H; [discriminate H|].
  destruct i as [|i]; simpl in H.
  - injection H as <-. simpl. repeat split; [lia|].
    intros [|j] Hj; [congruence|reflexivity].
  - destruct (list_set l i x) as [l''|] eqn:Hl; [|discriminate H].
    injection H as <-. destruct (IH _ _ Hl) as (H1 & H2 & H3 & H4).
    simpl. repeat split; try lia; try assumption.
    intros [|j] Hj; [reflexivity|]. simpl. apply H4. congruence.
Qed.

Lemma nth_nth_error {A : Type} (l : list A) (i : nat) (d x : A) :
  nth_error l i = Some x -> nth i l d = x.
Proof. intros H. apply nth_error_nth. exact H. Qed.

(** ** The discovery loop *)

Lemma populate_ok_check (prep : string -> string)
    (dup : string -> Z -> heap -> option string * heap)
    (ns ns' : hp_wmi_numeric_sensor) (wobj : acpi_object) (h h' : heap) :
  populate_numeric_sensor_from_wobj prep dup ns wobj h = (Ok ns', h') ->
  exists n, check_wobj wobj = Ok n.
Proof.
  unfold populate_numeric_sensor_from_wobj.
  destruct (check_wobj wobj) as [n|e|]; try discriminate. eauto.
Qed.

Lemma populate_check_err (prep : string -> string)
    (dup : string -> Z -> heap -> option string * heap)
    (ns : hp_wmi_numeric_sensor) (wobj : acpi_object) (h : heap) (e : Z) :
  check_wobj wobj = Err e ->
  populate_numeric_sensor_from_wobj prep dup ns wobj h = (Err e, h).
Proof.
  intros H. unfold populate_numeric_sensor_from_wobj. rewrite H.
  reflexivity.
Qed.

Lemma rev2_discover_instance_spec (i : nat) (wobj : acpi_object)
    (d : Rev2.discovery) (w : world) (inf0 : Rev2.hp_wmi_info) :
  nth_error (Rev2.d_info d) i = Some inf0 ->
  Rev2.is_active inf0 = false ->
  match Rev2.discover_instance i wobj d w with
  | (Undefined, _) => False
  | (Err e, w') =>
      firmware w' = firmware w /\ hwmon_register w' = hwmon_register w
  | (Ok d', w') =>
      firmware w' = firmware w /\ hwmon_register w' = hwmon_register w /\
      List.length (Rev2.d_info d') = List.length (Rev2.d_info d) /\
      (forall j, j <> i ->
                 nth_error (Rev2.d_info d') j = nth_error (Rev2.d_info d) j) /\
      exists inf n,
        nth_error (Rev2.d_info d') i = Some inf /\
        check_wobj wobj = Ok n /\
        Rev2.instance inf = Z.of_nat i /\
        Rev2.is_active inf = rev2_live (Rev2.nsensor inf) /\
        (Rev2.is_active inf = true ->
         Rev2.type inf
         = hp_wmi_hwmon_type_map (classify_numeric_sensor (Rev2.nsensor inf))) /\
        Rev2.active_info d'
        = Rev2.active_info d ++ (if Rev2.is_active inf then [i] else []) /\
        Rev2.d_channel_count d'
        = (if Rev2.is_active inf
           then set_by_type (Rev2.d_channel_count d) (Rev2.type inf)
                  (u8 (Rev2.d_channel_count d (Rev2.type inf) + 1))
           else Rev2.d_channel_count d)
  end.
Proof.
  intros Hnth Hinactive. unfold Rev2.discover_instance. rewrite Hnth.
  pose proof (populate_defined strim Rev2.hp_wmi_strdup
                (Rev2.nsensor (Rev2.set_instance inf0 (Z.of_nat i))) wobj (mem w))
    as Hdef.
  unfold Rev2.populate_numeric_sensor_from_wobj.
  destruct (populate_numeric_sensor_from_wobj strim Rev2.hp_wmi_strdup
              (Rev2.nsensor (Rev2.set_instance inf0 (Z.of_nat i))) wobj (mem w))
    as [[ns|e|] h] eqn:Hpop.
  - destruct (populate_ok_check _ _ _ _ _ _ _ Hpop) as [n Hn].
    assert (Hi : (i < List.length (Rev2.d_info d))%nat)
      by (apply nth_error_Some; congruence).
    fold (rev2_live ns).
    replace (negb (Rev2.numeric_sensor_is_connected ns)
             || (classify_numeric_sensor ns <? 0))
      with (negb (rev2_live ns))
      by (unfold rev2_live; rewrite negb_andb; f_equal;
          rewrite Z.leb_antisym; apply negb_involutive).
    destruct (rev2_live ns) eqn:Hlive; cbn [negb].
    + match goal with
      | |- context [list_set _ i ?x] =>
          destruct (list_set_some (Rev2.d_info d) i x Hi) as [l' Hl'];
          rewrite Hl'; destruct (list_set_spec _ _ _ _ Hl') as (L1 & L2 & L3 & L4)
      end.
      cbn. repeat split; try assumption.
      eexists _, n. split; [exact L3|]. cbn. repeat split; try assumption.
      * symmetry; exact Hlive.
    + match goal with
      | |- context [list_set _ i ?x] =>
          destruct (list_set_some (Rev2.d_info d) i x Hi) as [l' Hl'];
          rewrite Hl'; destruct (list_set_spec _ _ _ _ Hl') as (L1 & L2 & L3 & L4)
      end.
      cbn. repeat split; try assumption.
      eexists _, n. split; [exact L3|]. cbn. rewrite Hinactive.
      repeat split; try assumption; try congruence.
      symmetry. apply app_nil_r.
  - cbn. split; reflexivity.
  - apply Hdef. reflexivity.
Qed.

Lemma hwmon_eqb_eq (a b : hwmon_sensor_types) : hwmon_eqb a b = true <-> a = b.
Proof.
  unfold hwmon_eqb. rewrite Z.eqb_eq. split; [|congruence].
  destruct a, b; simpl; intros H; try reflexivity; discriminate H.
Qed.

Lemma hwmon_eqb_refl (a : hwmon_sensor_types) : hwmon_eqb a a = true.
Proof. apply hwmon_eqb_eq. reflexivity. Qed.

Lemma filter_seq_bound (f : nat -> bool) (n idx : nat) :
  In idx (filter f (seq 0 n)) -> (idx < n)%nat.
Proof. intros H. apply filter_In in H. destruct H as [H _]. apply in_seq in H. lia. Qed.

Lemma filter_length_le {A : Type} (f : A -> bool) (l : list A) :
  (List.length (filter f l) <= List.length l)%nat.
Proof.
  induction l as [|x l IH]; simpl; [lia|]. destruct (f x); simpl; lia.
Qed.

Lemma rev2_discovered_step (fw : Z -> option acpi_object) (i : nat)
    (wobj : acpi_object) (d d' : Rev2.discovery) (w w' : world) :
  rev2_discovered fw i d -> (i < HP_WMI_MAX_INSTANCES)%nat ->
  fw (Z.of_nat i) = Some wobj ->
  Rev2.discover_instance i wobj d w = (Ok d', w') ->
  rev2_discovered fw (i + 1) d'.
Proof.
  intros (Hlen & Hrest & Hdone & Hact & Hcc) Hi Hfw Hstep.
  assert (Hsome : exists inf0, nth_error (Rev2.d_info d) i = Some inf0).
  { destruct (nth_error (Rev2.d_info d) i) eqn:E; [eauto|].
    apply nth_error_None in E. lia. }
  destruct Hsome as [inf0 Hinf0].
  pose proof (rev2_discover_instance_spec i wobj d w inf0 Hinf0
                (Hrest i inf0 (le_n i) Hinf0)) as Hspec.
  rewrite Hstep in Hspec.
  destruct Hspec as (_ & _ & Hlen' & Hother & inf & n & Hinf & Hcheck & Hinst
                     & Hlive & Htype & Hactive' & Hcc').
  assert (Hnth : forall j, j <> i ->
            nth j (Rev2.d_info d') Rev2.zero_info = nth j (Rev2.d_info d) Rev2.zero_info).
  { intros j Hj. specialize (Hother j Hj).
    destruct (nth_error (Rev2.d_info d) j) as [x|] eqn:E.
    + rewrite (nth_nth_error _ _ Rev2.zero_info x E).
      apply nth_nth_error. congruence.
    + rewrite !nth_overflow; [reflexivity| |];
        apply nth_error_None; congruence. }
  assert (Hnthi : nth i (Rev2.d_info d') Rev2.zero_info = inf)
    by (apply nth_nth_error; exact Hinf).
  assert (Hact2 : Rev2.active_info d' = rev2_active (Rev2.d_info d') (i + 1)).
  { rewrite Hactive', Hact. unfold rev2_active.
    rewrite seq_app, filter_app. cbn [seq filter Nat.add]. rewrite Hnthi.
    replace (filter (fun idx => Rev2.is_active (nth idx (Rev2.d_info d') Rev2.zero_info))
               (seq 0 i))
      with (filter (fun idx => Rev2.is_active (nth idx (Rev2.d_info d) Rev2.zero_info))
              (seq 0 i)).
    - destruct (Rev2.is_active inf); reflexivity.
    - apply filter_ext_in. intros j Hj. apply in_seq in Hj.
      rewrite Hnth by lia. reflexivity. }
  repeat split.
  - congruence.
  - intros j inf' Hj Hjn. rewrite Hother in Hjn by lia. eapply Hrest; [|exact Hjn]. lia.
  - intros j Hj. destruct (Nat.eq_dec j i) as [->|Hne].
    + exists inf, n, wobj. repeat split; assumption.
    + destruct (Hdone j ltac:(lia)) as (inf' & n' & wobj' & H1 & H2).
      exists inf', n', wobj'. rewrite Hother by exact Hne. split; assumption.
  - exact Hact2.
  - intros t. rewrite Hcc', Hactive'. unfold rev2_channels.
    rewrite filter_app, length_app.
    assert (Hold : filter (fun idx => hwmon_eqb (Rev2.type (nth idx (Rev2.d_info d') Rev2.zero_info)) t)
                     (Rev2.active_info d)
                   = filter (fun idx => hwmon_eqb (Rev2.type (nth idx (Rev2.d_info d) Rev2.zero_info)) t)
                       (Rev2.active_info d)).
    { apply filter_ext_in. intros j Hj. rewrite Hact in Hj.
      apply filter_seq_bound in Hj. rewrite Hnth by lia. reflexivity. }
    rewrite Hold. fold (rev2_channels (Rev2.d_info d) (Rev2.active_info d) t).
    destruct (Rev2.is_active inf).
    + cbn [filter]. rewrite Hnthi. unfold set_by_type.
      destruct (hwmon_eqb t (Rev2.type inf)) eqn:Ht.
      * apply hwmon_eqb_eq in Ht. subst t. rewrite hwmon_eqb_refl.
        rewrite Hcc. cbn [List.length].
        pose proof (filter_length_le
                      (fun idx => hwmon_eqb (Rev2.type (nth idx (Rev2.d_info d) Rev2.zero_info))
                                    (Rev2.type inf)) (Rev2.active_info d)) as Hle.
        fold (rev2_channels (Rev2.d_info d) (Rev2.active_info d) (Rev2.type inf)) in Hle.
        assert (Hal : (List.length (Rev2.active_info d) <= i)%nat).
        { rewrite Hact. unfold rev2_active.
          etransitivity; [apply filter_length_le|]. rewrite length_seq. lia. }
        unfold HP_WMI_MAX_INSTANCES in Hi.
        rewrite u8_small by lia. lia.
      * replace (hwmon_eqb (Rev2.type inf) t) with false.
        -- cbn [List.length]. rewrite Hcc. lia.
        -- symmetry. apply not_true_is_false. intros E. apply hwmon_eqb_eq in E.
           subst t. rewrite hwmon_eqb_refl in Ht. discriminate Ht.
    + cbn [filter List.length]. rewrite Hcc. lia.
Qed.

Lemma rev2_discover_spec (fw : Z -> option acpi_object) (fuel : nat) :
  forall (i : nat) (d : Rev2.discovery) (w : world),
    rev2_discovered fw i d -> firmware w = fw ->
    (i <= HP_WMI_MAX_INSTANCES)%nat -> (HP_WMI_MAX_INSTANCES - i <= fuel)%nat ->
    match Rev2.discover fuel i d w with
    | (Undefined, _) => False
    | (Err e, w') => True
    | (Ok (i', d'), w') =>
        rev2_discovered fw i' d' /\ (i <= i' <= HP_WMI_MAX_INSTANCES)%nat /\
        ((i' < HP_WMI_MAX_INSTANCES)%nat -> fw (Z.of_nat i') = None) /\
        hwmon_register w' = hwmon_register w
    end.
Proof.
  induction fuel as [|fuel IH]; intros i d w Hinv Hfw Hi Hfuel.
  - simpl. split; [assumption | split; [unfold HP_WMI_MAX_INSTANCES in *; lia | split; [intros; unfold HP_WMI_MAX_INSTANCES in *; try assumption; lia | reflexivity]]].
  - cbn [Rev2.discover].
    destruct (i <? HP_WMI_MAX_INSTANCES)%nat eqn:Hlt.
    2:{ apply Nat.ltb_ge in Hlt. split; [assumption | split; [unfold HP_WMI_MAX_INSTANCES in *; lia | split; [intros; unfold HP_WMI_MAX_INSTANCES in *; try assumption; lia | reflexivity]]]. }
    apply Nat.ltb_lt in Hlt. unfold hp_wmi_get_wobj. rewrite Hfw.
    destruct (fw (Z.of_nat i)) as [wobj|] eqn:Hwobj.
    2:{ split; [assumption | split; [unfold HP_WMI_MAX_INSTANCES in *; lia | split; [intros; unfold HP_WMI_MAX_INSTANCES in *; try assumption; lia | reflexivity]]]. }
    set (w1 := {| jiffies := jiffies w; firmware := fw;
                  queries := Z.of_nat i :: queries w; mem := mem w;
                  hwmon_register := hwmon_register w |}).
    assert (Hsome : exists inf0, nth_error (Rev2.d_info d) i = Some inf0).
    { destruct (nth_error (Rev2.d_info d) i) eqn:E; [eauto|].
      apply nth_error_None in E. destruct Hinv as [Hlen _]. lia. }
    destruct Hsome as [inf0 Hinf0].
    pose proof (rev2_discover_instance_spec i wobj d w1 inf0 Hinf0
                  (proj1 (proj2 Hinv) i inf0 (le_n i) Hinf0)) as Hspec.
    destruct (Rev2.discover_instance i wobj d w1) as [[d'|e|] w2] eqn:Hstep;
      [|exact I|exact Hspec].
    destruct Hspec as (Hfw2 & Hreg2 & _).
    pose proof (rev2_discovered_step fw i wobj d d' w1 w2 Hinv Hlt Hwobj Hstep) as Hinv'.
    specialize (IH (i + 1)%nat d' w2 Hinv' Hfw2 ltac:(lia) ltac:(lia)).
    destruct (Rev2.discover fuel (i + 1) d' w2) as [[[i' d'']|e|] w3];
      [|exact I|exact IH].
    destruct IH as (H1 & H2 & H3 & H4).
    split; [assumption | split; [lia | split; [assumption|]]].
    rewrite H4, Hreg2. reflexivity.
Qed.

Lemma rev2_discover_malformed (fw : Z -> option acpi_object) (k : nat)
    (bad : acpi_object) (e : Z) (fuel : nat) :
  (k < HP_WMI_MAX_INSTANCES)%nat ->
  fw (Z.of_nat k) = Some bad -> check_wobj bad = Err e ->
  forall (i : nat) (d : Rev2.discovery) (w : world),
    rev2_discovered fw i d -> firmware w = fw ->
    (i <= k)%nat -> (HP_WMI_MAX_INSTANCES - i <= fuel)%nat ->
    (forall j, (i <= j <= k)%nat -> fw (Z.of_nat j) <> None) ->
    exists e' w', Rev2.discover fuel i d w = (Err e', w').
Proof.
  intros Hk Hbad Hcheck.
  induction fuel as [|fuel IH]; intros i d w Hinv Hfw Hi Hfuel Hall; [lia|].
  cbn [Rev2.discover].
  replace (i <? HP_WMI_MAX_INSTANCES)%nat with true
    by (symmetry; apply Nat.ltb_lt; lia).
  unfold hp_wmi_get_wobj. rewrite Hfw.
  destruct (fw (Z.of_nat i)) as [wobj|] eqn:Hwobj;
    [|exfalso; apply (Hall i ltac:(lia)); exact Hwobj].
  set (w1 := {| jiffies := jiffies w; firmware := fw;
                queries := Z.of_nat i :: queries w; mem := mem w;
                hwmon_register := hwmon_register w |}).
  assert (Hsome : exists inf0, nth_error (Rev2.d_info d) i = Some inf0).
  { destruct (nth_error (Rev2.d_info d) i) eqn:E; [eauto|].
    apply nth_error_None in E. destruct Hinv as [Hlen _]. lia. }
  destruct Hsome as [inf0 Hinf0].
  destruct (Nat.eq_dec i k) as [->|Hne].
  - assert (wobj = bad) by congruence. subst wobj.
    unfold Rev2.discover_instance. rewrite Hinf0.
    unfold Rev2.populate_numeric_sensor_from_wobj.
    rewrite (populate_check_err _ _ _ _ _ _ Hcheck). eauto.
  - pose proof (rev2_discover_instance_spec i wobj d w1 inf0 Hinf0
                  (proj1 (proj2 Hinv) i inf0 (le_n i) Hinf0)) as Hspec.
    destruct (Rev2.discover_instance i wobj d w1) as [[d'|e1|] w2] eqn:Hstep;
      [|eauto|contradiction].
    destruct Hspec as (Hfw2 & _).
    apply IH; try assumption; try lia.
    + eapply rev2_discovered_step; eauto. lia.
    + intros j Hj. apply Hall. lia.
Qed.

Lemma rev2_discovered_zero (fw : Z -> option acpi_object) :
  rev2_discovered fw 0
    {| Rev2.d_info := Rev2.info Rev2.zero_state; Rev2.active_info := [];
       Rev2.d_channel_count := fun _ => 0; Rev2.type_count := 0 |}.
Proof.
  repeat split; cbn.
  - intros j inf _ H. apply nth_error_In in H.
    repeat (destruct H as [<-|H]; [reflexivity|]). destruct H.
  - intros j Hj. lia.
Qed.

(** ** Building the channel maps *)

Lemma existsb_hwmon_types (t : hwmon_sensor_types) :
  existsb (hwmon_eqb t) hwmon_types = true /\
  existsb (hwmon_eqb t) (rev hwmon_types) = true.
Proof. destruct t; split; reflexivity. Qed.

Lemma rev2_alloc_channels_spec (types : list hwmon_sensor_types)
    (cc : by_type Z) :
  forall (map : by_type (list (option nat))) (h : heap),
    match Rev2.alloc_channels types cc map h with
    | (Undefined, _) => False
    | (Err e, _) => True
    | (Ok map', _) =>
        forall t, map' t
                  = if existsb (hwmon_eqb t) types && negb (cc t =? 0)
                    then repeat None (Z.to_nat (cc t)) else map t
    end.
Proof.
  induction types as [|t0 types IH]; intros map h; cbn [Rev2.alloc_channels].
  - intros t. reflexivity.
  - destruct (cc t0 =? 0) eqn:Hz.
    + specialize (IH map h).
      destruct (Rev2.alloc_channels types cc map h) as [[map'|e|] h']; try exact IH.
      intros t. rewrite IH. cbn [existsb].
      destruct (hwmon_eqb t t0) eqn:Ht; [|reflexivity].
      apply hwmon_eqb_eq in Ht. subst t0. rewrite Hz. cbn [negb].
      rewrite !andb_false_r. reflexivity.
    + destruct (alloc h) as [[|] h1]; cbn [negb]; [|exact I].
      destruct (alloc h1) as [[|] h2]; cbn [negb]; [|exact I].
      specialize (IH (set_by_type map t0 (repeat None (Z.to_nat (cc t0)))) h2).
      destruct (Rev2.alloc_channels types cc _ h2) as [[map'|e|] h']; try exact IH.
      intros t. rewrite IH. cbn [existsb]. unfold set_by_type.
      destruct (hwmon_eqb t t0) eqn:Ht; cbn [orb]; [|reflexivity].
      apply hwmon_eqb_eq in Ht. subst t0. rewrite Hz. cbn [negb].
      rewrite andb_true_r. destruct (existsb (hwmon_eqb t) types); reflexivity.
Qed.

Lemma list_set_repeat {A : Type} (x y : A) (n : nat) (r : list A) :
  list_set (repeat x (S n) ++ r) n y = Some (repeat x n ++ y :: r).
Proof.
  induction n as [|n IH]; [reflexivity|].
  change (repeat x (S (S n)) ++ r) with (x :: (repeat x (S n) ++ r)).
  cbn [list_set]. rewrite IH. reflexivity.
Qed.

Lemma skipn_nth_error {A : Type} (l : list A) (c : nat) (x : A) :
  nth_error l c = Some x -> skipn c l = x :: skipn (S c) l.
Proof.
  revert c. induction l as [|y l IH]; intros [|c] H; try discriminate H.
  - injection H as ->. reflexivity.
  - simpl in H. apply IH in H. exact H.
Qed.

Lemma firstn_nth_error {A : Type} (l : list A) (c : nat) (x : A) :
  nth_error l c = Some x -> firstn (S c) l = firstn c l ++ [x].
Proof.
  revert c. induction l as [|y l IH]; intros [|c] H; try discriminate H.
  - injection H as ->. reflexivity.
  - simpl in H. apply IH in H.
    change (y :: firstn (S c) l = (y :: firstn c l) ++ [x]).
    rewrite H. reflexivity.
Qed.

Lemma rev2_fill_info_map_spec (info : list Rev2.hp_wmi_info) (active : list nat) :
  (forall idx, In idx active -> (idx < List.length info)%nat) ->
  forall (c : nat) (cc : by_type Z) (map : by_type (list (option nat))),
    (c <= List.length active)%nat ->
    (forall t,
       Z.of_nat (List.length (rev2_channels info (firstn c active) t)) <= cc t < 256 /\
       map t = repeat None (Z.to_nat (cc t))
               ++ List.map Some (rev2_channels info (skipn c active) t)) ->
    exists map',
      Rev2.fill_info_map c active info cc map = Ok map' /\
      forall t,
        map' t
        = repeat None
            (Z.to_nat (cc t - Z.of_nat (List.length (rev2_channels info (firstn c active) t))))
          ++ List.map Some (rev2_channels info active t).
Proof.
  intros Hbound. induction c as [|c IH]; intros cc map Hc Hinv.
  - exists map. split; [reflexivity|]. intros t.
    destruct (Hinv t) as [_ Hmap]. rewrite Hmap. cbn [firstn skipn].
    unfold rev2_channels at 2. cbn [filter List.length Z.of_nat].
    rewrite Z.sub_0_r. reflexivity.
  - cbn [Rev2.fill_info_map].
    destruct (nth_error active c) as [idx|] eqn:Hidx;
      [|apply nth_error_None in Hidx; lia].
    assert (Hin : In idx active) by (eapply nth_error_In; exact Hidx).
    destruct (nth_error info idx) as [inf|] eqn:Hinf;
      [|apply nth_error_None in Hinf; specialize (Hbound idx Hin); lia].
    assert (Hnth : nth idx info Rev2.zero_info = inf) by (apply nth_nth_error; exact Hinf).
    set (t0 := Rev2.type inf).
    assert (Hfirst : forall t,
              rev2_channels info (firstn (S c) active) t
              = rev2_channels info (firstn c active) t
                ++ (if hwmon_eqb t0 t then [idx] else [])).
    { intros t. unfold rev2_channels. rewrite (firstn_nth_error _ _ _ Hidx).
      rewrite filter_app. cbn [filter]. rewrite Hnth. reflexivity. }
    assert (Hskip : forall t,
              rev2_channels info (skipn c active) t
              = (if hwmon_eqb t0 t then [idx] else [])
                ++ rev2_channels info (skipn (S c) active) t).
    { intros t. unfold rev2_channels. rewrite (skipn_nth_error _ _ _ Hidx).
      cbn [filter]. rewrite Hnth. fold t0. destruct (hwmon_eqb t0 t); reflexivity. }
    destruct (Hinv t0) as [[Hlo Hhi] Hmap0].
    rewrite Hfirst, hwmon_eqb_refl, length_app in Hlo. cbn [List.length] in Hlo.
    rewrite u8_small by lia.
    rewrite Hmap0.
    replace (Z.to_nat (cc t0)) with (S (Z.to_nat (cc t0 - 1))) by lia.
    rewrite list_set_repeat.
    assert (Hne : forall t, hwmon_eqb t t0 = false -> hwmon_eqb t0 t = false).
    { intros t Ht. apply not_true_is_false. intros E. apply hwmon_eqb_eq in E.
      subst t. rewrite hwmon_eqb_refl in Ht. discriminate Ht. }
    destruct (IH (set_by_type cc t0 (cc t0 - 1))
                 (set_by_type map t0
                    (repeat None (Z.to_nat (cc t0 - 1))
                     ++ Some idx :: List.map Some
                                      (rev2_channels info (skipn (S c) active) t0))))
      as (map' & Hfill & Hspec); [lia| |].
    + intros t. unfold set_by_type. destruct (Hinv t) as [[Hlo' Hhi'] Hmap'].
      rewrite Hfirst, length_app in Hlo'.
      destruct (hwmon_eqb t t0) eqn:Ht.
      * apply hwmon_eqb_eq in Ht. subst t.
        rewrite hwmon_eqb_refl in Hlo'. cbn [List.length] in Hlo'.
        split; [lia|]. rewrite Hskip, hwmon_eqb_refl. reflexivity.
      * rewrite (Hne t Ht) in Hlo'. cbn [List.length] in Hlo'.
        split; [lia|]. rewrite Hmap', Hskip, (Hne t Ht). reflexivity.
    + exists map'. split; [exact Hfill|].
      intros t. rewrite Hspec. f_equal. f_equal. unfold set_by_type.
      rewrite Hfirst, length_app.
      destruct (hwmon_eqb t t0) eqn:Ht.
      * apply hwmon_eqb_eq in Ht. subst t. rewrite hwmon_eqb_refl.
        cbn [List.length]. lia.
      * rewrite (Hne t Ht). cbn [List.length]. lia.
Qed.

(** ** hp_wmi_sensors_init *)

Lemma classified_type_not_chip (ns : hp_wmi_numeric_sensor) :
  0 <= classify_numeric_sensor ns ->
  hp_wmi_hwmon_type_map (classify_numeric_sensor ns) <> hwmon_chip.
Proof.
  unfold classify_numeric_sensor.
  repeat match goal with
         | |- context [if ?c then _ else _] => destruct c
         end; cbn; intros H; try discriminate; unfold EINVAL in H; lia.
Qed.

Lemma filter_none {A : Type} (f : A -> bool) (l : list A) :
  (forall x, In x l -> f x = false) -> filter f l = [].
Proof.
  induction l as [|x l IH]; intros H; [reflexivity|].
  cbn [filter]. rewrite (H x (or_introl eq_refl)). apply IH.
  intros y Hy. apply H. right. exact Hy.
Qed.

Lemma repeat_None_no_Some (n idx : nat) : ~ In (Some idx) (repeat (@None nat) n).
Proof. intros H. apply repeat_spec in H. discriminate H. Qed.

(** [hp_wmi_sensors_init] never leaves its arrays: it returns an error
    code or a state that satisfies the invariant. *)
Lemma rev2_init_cases (w : world) (r : result Rev2.hp_wmi_sensors * world) :
  Rev2.hp_wmi_sensors_init Rev2.zero_state w = r ->
  match r with
  | (Undefined, _) => False
  | (Err _, _) => True
  | (Ok st, _) => rev2_initialised (firmware w) st
  end.
Proof.
  unfold Rev2.hp_wmi_sensors_init. intros H.
  pose proof (rev2_discover_spec (firmware w) HP_WMI_MAX_INSTANCES 0 _ w
                (rev2_discovered_zero (firmware w)) eq_refl
                ltac:(lia) ltac:(lia)) as Hd.
  destruct (Rev2.discover HP_WMI_MAX_INSTANCES 0 _ w) as [[[n d]|e|] w1];
    [| subst r; exact I | destruct Hd].
  destruct Hd as (Hinv & Hn & Hstop & _).
  destruct Hinv as (Hlen & Hrest & Hdone & Hact & Hcc).
  destruct (Z.of_nat n =? 0) eqn:Hz; [subst r; exact I|]. apply Z.eqb_neq in Hz.
  assert (Hchip : rev2_channels (Rev2.d_info d) (Rev2.active_info d) hwmon_chip = []).
  { unfold rev2_channels. rewrite Hact. apply filter_none.
    intros idx Hidx. apply not_true_is_false. intros Hty.
    apply filter_In in Hidx. destruct Hidx as [Hseq Hactive].
    apply in_seq in Hseq.
    destruct (Hdone idx ltac:(lia)) as (inf & k & wobj & Hnth & _ & _ & _ & Hlive & Htype).
    rewrite (nth_nth_error _ _ _ _ Hnth) in Hty, Hactive.
    apply hwmon_eqb_eq in Hty. rewrite Htype in Hty by exact Hactive.
    revert Hty. apply classified_type_not_chip.
    rewrite Hactive in Hlive. symmetry in Hlive. unfold rev2_live in Hlive.
    apply andb_prop in Hlive. apply Z.leb_le. apply Hlive. }
  destruct (List.length (Rev2.active_info d) =? 0)%nat eqn:Hch.
  - subst r. exists n. cbn.
    apply Nat.eqb_eq in Hch. apply length_zero_iff_nil in Hch.
    split; [reflexivity|]. split; [lia|]. split; [exact Hstop|].
    split; [exact Hdone|]. split.
    + intros t _. rewrite <- Hact, Hch. reflexivity.
    + intros idx [].
  - set (cc := if negb (Rev2.d_channel_count d hwmon_temp =? 0)
               then set_by_type (Rev2.d_channel_count d) hwmon_chip 1
               else Rev2.d_channel_count d) in *.
    destruct (alloc (mem w1)) as [[|] h1]; cbn [negb] in H; [|subst r; exact I].
    destruct (alloc h1) as [[|] h2]; cbn [negb] in H; [|subst r; exact I].
    pose proof (rev2_alloc_channels_spec hwmon_types cc
                  (Rev2.info_map Rev2.zero_state) h2) as Halloc.
    destruct (Rev2.alloc_channels hwmon_types cc _ h2) as [[map|e|] h3];
      [| subst r; exact I | destruct Halloc].
    assert (Hccle : forall t, Rev2.d_channel_count d t <= cc t < 256).
    { intros t.
      assert (0 <= Rev2.d_channel_count d t <= 32).
      { rewrite Hcc. split; [lia|].
        pose proof (filter_length_le
                      (fun idx => hwmon_eqb (Rev2.type (nth idx (Rev2.d_info d) Rev2.zero_info)) t)
                      (Rev2.active_info d)) as L1.
        fold (rev2_channels (Rev2.d_info d) (Rev2.active_info d) t) in L1.
        assert (L2 : (List.length (Rev2.active_info d) <= n)%nat).
        { rewrite Hact. unfold rev2_active.
          etransitivity; [apply filter_length_le|]. rewrite length_seq. lia. }
        unfold HP_WMI_MAX_INSTANCES in Hn. lia. }
      unfold cc. destruct (negb _); [|lia].
      unfold set_by_type. destruct (hwmon_eqb t hwmon_chip) eqn:Ht; [|lia].
      apply hwmon_eqb_eq in Ht. subst t. rewrite (Hcc hwmon_chip), Hchip. simpl. lia. }
    assert (Hccne : forall t, t <> hwmon_chip -> cc t = Rev2.d_channel_count d t).
    { intros t Ht. unfold cc. destruct (negb _); [|reflexivity].
      unfold set_by_type. destruct (hwmon_eqb t hwmon_chip) eqn:E; [|reflexivity].
      apply hwmon_eqb_eq in E. contradiction. }
    destruct (rev2_fill_info_map_spec (Rev2.d_info d) (Rev2.active_info d))
      with (c := List.length (Rev2.active_info d)) (cc := cc) (map := map)
      as (map' & Hfill & Hmap').
    + intros idx Hidx. rewrite Hact in Hidx. apply filter_seq_bound in Hidx. lia.
    + lia.
    + intros t. rewrite firstn_all, skipn_all. split.
      * rewrite <- Hcc. apply Hccle.
      * rewrite Halloc. rewrite (proj1 (existsb_hwmon_types t)). cbn [andb].
        unfold rev2_channels at 1. cbn [filter List.map]. rewrite app_nil_r.
        destruct (cc t =? 0) eqn:E; cbn [negb]; [|reflexivity].
        apply Z.eqb_eq in E. rewrite E. reflexivity.
    + rewrite Hfill in H.
      destruct (hwmon_register _ <? 0); [subst r; exact I|].
      subst r. exists n. cbn.
      split; [reflexivity|]. split; [lia|]. split; [exact Hstop|].
      split; [exact Hdone|]. split.
      * intros t Ht. rewrite Hmap', firstn_all, <- Hcc, (Hccne t Ht), Z.sub_diag.
        rewrite <- Hact. reflexivity.
      * intros idx Hin. rewrite Hmap', Hchip in Hin. cbn [List.map] in Hin.
        rewrite app_nil_r in Hin. revert Hin. apply repeat_None_no_Some.
Qed.

Lemma rev2_init_spec (w w' : world) (st : Rev2.hp_wmi_sensors) :
  Rev2.hp_wmi_sensors_init Rev2.zero_state w = (Ok st, w') ->
  rev2_initialised (firmware w) st.
Proof. intros H. exact (rev2_init_cases w _ H). Qed.

Lemma rev2_init_defined (w : world) :
  fst (Rev2.hp_wmi_sensors_init Rev2.zero_state w) <> Undefined.
Proof.
  pose proof (rev2_init_cases w _ eq_refl) as H.
  destruct (Rev2.hp_wmi_sensors_init Rev2.zero_state w) as [[st|e|] w'];
    [discriminate | discriminate | destruct H].
Qed.

(** ** The same for the first revision *)

Lemma rev1_interpret_info_fields (now : Z) (info : Rev1.hp_wmi_info) :
  Rev1.nsensor (Rev1.interpret_info now info) = Rev1.nsensor info /\
  Rev1.instance (Rev1.interpret_info now info) = Rev1.instance info /\
  Rev1.is_active (Rev1.interpret_info now info) = Rev1.is_active info /\
  Rev1.type (Rev1.interpret_info now info) = Rev1.type info.
Proof.
  unfold Rev1.interpret_info. destruct (negb _); repeat split.
Qed.

Lemma rev1_discover_instance_spec (i : nat) (wobj : acpi_object)
    (d : Rev1.discovery) (w : world) (inf0 : Rev1.hp_wmi_info) :
  nth_error (Rev1.d_info d) i = Some inf0 ->
  Rev1.is_active inf0 = false ->
  match Rev1.discover_instance i wobj d w with
  | (Undefined, _) => False
  | (Err e, w') =>
      firmware w' = firmware w /\ hwmon_register w' = hwmon_register w
  | (Ok d', w') =>
      firmware w' = firmware w /\ hwmon_register w' = hwmon_register w /\
      List.length (Rev1.d_info d') = List.length (Rev1.d_info d) /\
      (forall j, j <> i ->
                 nth_error (Rev1.d_info d') j = nth_error (Rev1.d_info d) j) /\
      exists inf n,
        nth_error (Rev1.d_info d') i = Some inf /\
        check_wobj wobj = Ok n /\
        Rev1.instance inf = Z.of_nat i /\
        Rev1.is_active inf = rev1_live (Rev1.nsensor inf) /\
        (Rev1.is_active inf = true ->
         Rev1.type inf
         = hp_wmi_hwmon_type_map (classify_numeric_sensor (Rev1.nsensor inf))) /\
        Rev1.active_info d'
        = Rev1.active_info d ++ (if Rev1.is_active inf then [i] else []) /\
        Rev1.d_channel_count d'
        = (if Rev1.is_active inf
           then set_by_type (Rev1.d_channel_count d) (Rev1.type inf)
                  (u8 (Rev1.d_channel_count d (Rev1.type inf) + 1))
           else Rev1.d_channel_count d)
  end.
Proof.
  intros Hnth Hinactive. unfold Rev1.discover_instance. rewrite Hnth.
  pose proof (populate_defined (fun s => s) Rev1.hp_wmi_strdup
                (Rev1.nsensor (Rev1.set_instance inf0 (Z.of_nat i))) wobj (mem w))
    as Hdef.
  unfold Rev1.populate_numeric_sensor_from_wobj.
  destruct (populate_numeric_sensor_from_wobj (fun s => s) Rev1.hp_wmi_strdup
              (Rev1.nsensor (Rev1.set_instance inf0 (Z.of_nat i))) wobj (mem w))
    as [[ns|e|] h] eqn:Hpop.
  - destruct (populate_ok_check _ _ _ _ _ _ _ Hpop) as [n Hn].
    assert (Hi : (i < List.length (Rev1.d_info d))%nat)
      by (apply nth_error_Some; congruence).
    fold (rev1_live ns).
    replace (Rev1.numeric_sensor_has_fault ns
             || (classify_numeric_sensor ns <? 0))
      with (negb (rev1_live ns))
      by (unfold rev1_live; rewrite negb_andb, negb_involutive; f_equal;
          rewrite Z.leb_antisym; apply negb_involutive).
    destruct (rev1_live ns) eqn:Hlive; cbn [negb].
    + match goal with
      | |- context [list_set _ i ?x] =>
          destruct (list_set_some (Rev1.d_info d) i x Hi) as [l' Hl'];
          rewrite Hl'; destruct (list_set_spec _ _ _ _ Hl') as (L1 & L2 & L3 & L4)
      end.
      cbn. repeat split; try assumption.
      eexists _, n. split; [exact L3|].
      match goal with
      | |- context [Rev1.interpret_info ?now ?x] =>
          destruct (rev1_interpret_info_fields now x) as (I1 & I2 & I3 & I4);
          rewrite ?I1, ?I2, ?I3, ?I4
      end.
      cbn. repeat split; try assumption.
      * symmetry; exact Hlive.
    + match goal with
      | |- context [list_set _ i ?x] =>
          destruct (list_set_some (Rev1.d_info d) i x Hi) as [l' Hl'];
          rewrite Hl'; destruct (list_set_spec _ _ _ _ Hl') as (L1 & L2 & L3 & L4)
      end.
      cbn. repeat split; try assumption.
      eexists _, n. split; [exact L3|]. cbn. rewrite Hinactive.
      repeat split; try assumption; try congruence.
      symmetry. apply app_nil_r.
  - cbn. split; reflexivity.
  - apply Hdef. reflexivity.
Qed.

Lemma rev1_discovered_step (fw : Z -> option acpi_object) (i : nat)
    (wobj : acpi_object) (d d' : Rev1.discovery) (w w' : world) :
  rev1_discovered fw i d -> (i < HP_WMI_MAX_INSTANCES)%nat ->
  fw (Z.of_nat i) = Some wobj ->
  Rev1.discover_instance i wobj d w = (Ok d', w') ->
  rev1_discovered fw (i + 1) d'.
Proof.
  intros (Hlen & Hrest & Hdone & Hact & Hcc) Hi Hfw Hstep.
  assert (Hsome : exists inf0, nth_error (Rev1.d_info d) i = Some inf0).
  { destruct (nth_error (Rev1.d_info d) i) eqn:E; [eauto|].
    apply nth_error_None in E. lia. }
  destruct Hsome as [inf0 Hinf0].
  pose proof (rev1_discover_instance_spec i wobj d w inf0 Hinf0
                (Hrest i inf0 (le_n i) Hinf0)) as Hspec.
  rewrite Hstep in Hspec.
  destruct Hspec as (_ & _ & Hlen' & Hother & inf & n & Hinf & Hcheck & Hinst
                     & Hlive & Htype & Hactive' & Hcc').
  assert (Hnth : forall j, j <> i ->
            nth j (Rev1.d_info d') Rev1.zero_info = nth j (Rev1.d_info d) Rev1.zero_info).
  { intros j Hj. specialize (Hother j Hj).
    destruct (nth_error (Rev1.d_info d) j) as [x|] eqn:E.
    + rewrite (nth_nth_error _ _ Rev1.zero_info x E).
      apply nth_nth_error. congruence.
    + rewrite !nth_overflow; [reflexivity| |];
        apply nth_error_None; congruence. }
  assert (Hnthi : nth i (Rev1.d_info d') Rev1.zero_info = inf)
    by (apply nth_nth_error; exact Hinf).
  assert (Hact2 : Rev1.active_info d' = rev1_active (Rev1.d_info d') (i + 1)).
  { rewrite Hactive', Hact. unfold rev1_active.
    rewrite seq_app, filter_app. cbn [seq filter Nat.add]. rewrite Hnthi.
    replace (filter (fun idx => Rev1.is_active (nth idx (Rev1.d_info d') Rev1.zero_info))
               (seq 0 i))
      with (filter (fun idx => Rev1.is_active (nth idx (Rev1.d_info d) Rev1.zero_info))
              (seq 0 i)).
    - destruct (Rev1.is_active inf); reflexivity.
    - apply filter_ext_in. intros j Hj. apply in_seq in Hj.
      rewrite Hnth by lia. reflexivity. }
  repeat split.
  - congruence.
  - intros j inf' Hj Hjn. rewrite Hother in Hjn by lia. eapply Hrest; [|exact Hjn]. lia.
  - intros j Hj. destruct (Nat.eq_dec j i) as [->|Hne].
    + exists inf, n, wobj. repeat split; assumption.
    + destruct (Hdone j ltac:(lia)) as (inf' & n' & wobj' & H1 & H2).
      exists inf', n', wobj'. rewrite Hother by exact Hne. split; assumption.
  - exact Hact2.
  - intros t. rewrite Hcc', Hactive'. unfold rev1_channels.
    rewrite filter_app, length_app.
    assert (Hold : filter (fun idx => hwmon_eqb (Rev1.type (nth idx (Rev1.d_info d') Rev1.zero_info)) t)
                     (Rev1.active_info d)
                   = filter (fun idx => hwmon_eqb (Rev1.type (nth idx (Rev1.d_info d) Rev1.zero_info)) t)
                       (Rev1.active_info d)).
    { apply filter_ext_in. intros j Hj. rewrite Hact in Hj.
      apply filter_seq_bound in Hj. rewrite Hnth by lia. reflexivity. }
    rewrite Hold. fold (rev1_channels (Rev1.d_info d) (Rev1.active_info d) t).
    destruct (Rev1.is_active inf).
    + cbn [filter]. rewrite Hnthi. unfold set_by_type.
      destruct (hwmon_eqb t (Rev1.type inf)) eqn:Ht.
      * apply hwmon_eqb_eq in Ht. subst t. rewrite hwmon_eqb_refl.
        rewrite Hcc. cbn [List.length].
        pose proof (filter_length_le
                      (fun idx => hwmon_eqb (Rev1.type (nth idx (Rev1.d_info d) Rev1.zero_info))
                                    (Rev1.type inf)) (Rev1.active_info d)) as Hle.
        fold (rev1_channels (Rev1.d_info d) (Rev1.active_info d) (Rev1.type inf)) in Hle.
        assert (Hal : (List.length (Rev1.active_info d) <= i)%nat).
        { rewrite Hact. unfold rev1_active.
          etransitivity; [apply filter_length_le|]. rewrite length_seq. lia. }
        unfold HP_WMI_MAX_INSTANCES in Hi.
        rewrite u8_small by lia. lia.
      * replace (hwmon_eqb (Rev1.type inf) t) with false.
        -- cbn [List.length]. rewrite Hcc. lia.
        -- symmetry. apply not_true_is_false. intros E. apply hwmon_eqb_eq in E.
           subst t. rewrite hwmon_eqb_refl in Ht. discriminate Ht.
    + cbn [filter List.length]. rewrite Hcc. lia.
Qed.

Lemma rev1_discover_spec (fw : Z -> option acpi_object) (fuel : nat) :
  forall (i : nat) (d : Rev1.discovery) (w : world),
    rev1_discovered fw i d -> firmware w = fw ->
    (i <= HP_WMI_MAX_INSTANCES)%nat -> (HP_WMI_MAX_INSTANCES - i <= fuel)%nat ->
    match Rev1.discover fuel i d w with
    | (Undefined, _) => False
    | (Err e, w') => True
    | (Ok (i', d'), w') =>
        rev1_discovered fw i' d' /\ (i <= i' <= HP_WMI_MAX_INSTANCES)%nat /\
        ((i' < HP_WMI_MAX_INSTANCES)%nat -> fw (Z.of_nat i') = None) /\
        hwmon_register w' = hwmon_register w
    end.
Proof.
  induction fuel as [|fuel IH]; intros i d w Hinv Hfw Hi Hfuel.
  - simpl. split; [assumption | split; [unfold HP_WMI_MAX_INSTANCES in *; lia | split; [intros; unfold HP_WMI_MAX_INSTANCES in *; try assumption; lia | reflexivity]]].
  - cbn [Rev1.discover].
    destruct (i <? HP_WMI_MAX_INSTANCES)%nat eqn:Hlt.
    2:{ apply Nat.ltb_ge in Hlt. split; [assumption | split; [unfold HP_WMI_MAX_INSTANCES in *; lia | split; [intros; unfold HP_WMI_MAX_INSTANCES in *; try assumption; lia | reflexivity]]]. }
    apply Nat.ltb_lt in Hlt. unfold hp_wmi_get_wobj. rewrite Hfw.
    destruct (fw (Z.of_nat i)) as [wobj|] eqn:Hwobj.
    2:{ split; [assumption | split; [unfold HP_WMI_MAX_INSTANCES in *; lia | split; [intros; unfold HP_WMI_MAX_INSTANCES in *; try assumption; lia | reflexivity]]]. }
    set (w1 := {| jiffies := jiffies w; firmware := fw;
                  queries := Z.of_nat i :: queries w; mem := mem w;
                  hwmon_register := hwmon_register w |}).
    assert (Hsome : exists inf0, nth_error (Rev1.d_info d) i = Some inf0).
    { destruct (nth_error (Rev1.d_info d) i) eqn:E; [eauto|].
      apply nth_error_None in E. destruct Hinv as [Hlen _]. lia. }
    destruct Hsome as [inf0 Hinf0].
    pose proof (rev1_discover_instance_spec i wobj d w1 inf0 Hinf0
                  (proj1 (proj2 Hinv) i inf0 (le_n i) Hinf0)) as Hspec.
    destruct (Rev1.discover_instance i wobj d w1) as [[d'|e|] w2] eqn:Hstep;
      [|exact I|exact Hspec].
    destruct Hspec as (Hfw2 & Hreg2 & _).
    pose proof (rev1_discovered_step fw i wobj d d' w1 w2 Hinv Hlt Hwobj Hstep) as Hinv'.
    specialize (IH (i + 1)%nat d' w2 Hinv' Hfw2 ltac:(lia) ltac:(lia)).
    destruct (Rev1.discover fuel (i + 1) d' w2) as [[[i' d'']|e|] w3];
      [|exact I|exact IH].
    destruct IH as (H1 & H2 & H3 & H4).
    split; [assumption | split; [lia | split; [assumption|]]].
    rewrite H4, Hreg2. reflexivity.
Qed.

Lemma rev1_discover_malformed (fw : Z -> option acpi_object) (k : nat)
    (bad : acpi_object) (e : Z) (fuel : nat) :
  (k < HP_WMI_MAX_INSTANCES)%nat ->
  fw (Z.of_nat k) = Some bad -> check_wobj bad = Err e ->
  forall (i : nat) (d : Rev1.discovery) (w : world),
    rev1_discovered fw i d -> firmware w = fw ->
    (i <= k)%nat -> (HP_WMI_MAX_INSTANCES - i <= fuel)%nat ->
    (forall j, (i <= j <= k)%nat -> fw (Z.of_nat j) <> None) ->
    exists e' w', Rev1.discover fuel i d w = (Err e', w').
Proof.
  intros Hk Hbad Hcheck.
  induction fuel as [|fuel IH]; intros i d w Hinv Hfw Hi Hfuel Hall; [lia|].
  cbn [Rev1.discover].
  replace (i <? HP_WMI_MAX_INSTANCES)%nat with true
    by (symmetry; apply Nat.ltb_lt; lia).
  unfold hp_wmi_get_wobj. rewrite Hfw.
  destruct (fw (Z.of_nat i)) as [wobj|] eqn:Hwobj;
    [|exfalso; apply (Hall i ltac:(lia)); exact Hwobj].
  set (w1 := {| jiffies := jiffies w; firmware := fw;
                queries := Z.of_nat i :: queries w; mem := mem w;
                hwmon_register := hwmon_register w |}).
  assert (Hsome : exists inf0, nth_error (Rev1.d_info d) i = Some inf0).
  { destruct (nth_error (Rev1.d_info d) i) eqn:E; [eauto|].
    apply nth_error_None in E. destruct Hinv as [Hlen _]. lia. }
  destruct Hsome as [inf0 Hinf0].
  destruct (Nat.eq_dec i k) as [->|Hne].
  - assert (wobj = bad) by congruence. subst wobj.
    unfold Rev1.discover_instance. rewrite Hinf0.
    unfold Rev1.populate_numeric_sensor_from_wobj.
    rewrite (populate_check_err _ _ _ _ _ _ Hcheck). eauto.
  - pose proof (rev1_discover_instance_spec i wobj d w1 inf0 Hinf0
                  (proj1 (proj2 Hinv) i inf0 (le_n i) Hinf0)) as Hspec.
    destruct (Rev1.discover_instance i wobj d w1) as [[d'|e1|] w2] eqn:Hstep;
      [|eauto|contradiction].
    destruct Hspec as (Hfw2 & _).
    apply IH; try assumption; try lia.
    + eapply rev1_discovered_step; eauto. lia.
    + intros j Hj. apply Hall. lia.
Qed.

Lemma rev1_discovered_zero (fw : Z -> option acpi_object) :
  rev1_discovered fw 0
    {| Rev1.d_info := Rev1.info Rev1.zero_state; Rev1.active_info := [];
       Rev1.d_channel_count := fun _ => 0; Rev1.type_count := 0 |}.
Proof.
  repeat split; cbn.
  - intros j inf _ H. apply nth_error_In in H.
    repeat (destruct H as [<-|H]; [reflexivity|]). destruct H.
  - intros j Hj. lia.
Qed.

Lemma rev1_alloc_channels_spec (types : list hwmon_sensor_types)
    (cc : by_type Z) :
  forall (map : by_type (list (option nat))) (h : heap),
    match Rev1.alloc_channels types cc map h with
    | (Undefined, _) => False
    | (Err e, _) => True
    | (Ok map', _) =>
        forall t, map' t
                  = if existsb (hwmon_eqb t) types && negb (cc t =? 0)
                    then repeat None (Z.to_nat (cc t)) else map t
    end.
Proof.
  induction types as [|t0 types IH]; intros map h; cbn [Rev1.alloc_channels].
  - intros t. reflexivity.
  - destruct (cc t0 =? 0) eqn:Hz.
    + specialize (IH map h).
      destruct (Rev1.alloc_channels types cc map h) as [[map'|e|] h']; try exact IH.
      intros t. rewrite IH. cbn [existsb].
      destruct (hwmon_eqb t t0) eqn:Ht; [|reflexivity].
      apply hwmon_eqb_eq in Ht. subst t0. rewrite Hz. cbn [negb].
      rewrite !andb_false_r. reflexivity.
    + destruct (alloc h) as [[|] h1]; cbn [negb]; [|exact I].
      destruct (alloc h1) as [[|] h2]; cbn [negb]; [|exact I].
      specialize (IH (set_by_type map t0 (repeat None (Z.to_nat (cc t0)))) h2).
      destruct (Rev1.alloc_channels types cc _ h2) as [[map'|e|] h']; try exact IH.
      intros t. rewrite IH. cbn [existsb]. unfold set_by_type.
      destruct (hwmon_eqb t t0) eqn:Ht; cbn [orb]; [|reflexivity].
      apply hwmon_eqb_eq in Ht. subst t0. rewrite Hz. cbn [negb].
      rewrite andb_true_r. destruct (existsb (hwmon_eqb t) types); reflexivity.
Qed.

Lemma rev1_fill_info_map_spec (info : list Rev1.hp_wmi_info) (active : list nat) :
  (forall idx, In idx active -> (idx < List.length info)%nat) ->
  forall (c : nat) (cc : by_type Z) (map : by_type (list (option nat))),
    (c <= List.length active)%nat ->
    (forall t,
       Z.of_nat (List.length (rev1_channels info (firstn c active) t)) <= cc t < 256 /\
       map t = repeat None (Z.to_nat (cc t))
               ++ List.map Some (rev1_channels info (skipn c active) t)) ->
    exists map',
      Rev1.fill_info_map c active info cc map = Ok map' /\
      forall t,
        map' t
        = repeat None
            (Z.to_nat (cc t - Z.of_nat (List.length (rev1_channels info (firstn c active) t))))
          ++ List.map Some (rev1_channels info active t).
Proof.
  intros Hbound. induction c as [|c IH]; intros cc map Hc Hinv.
  - exists map. split; [reflexivity|]. intros t.
    destruct (Hinv t) as [_ Hmap]. rewrite Hmap. cbn [firstn skipn].
    unfold rev1_channels at 2. cbn [filter List.length Z.of_nat].
    rewrite Z.sub_0_r. reflexivity.
  - cbn [Rev1.fill_info_map].
    destruct (nth_error active c) as [idx|] eqn:Hidx;
      [|apply nth_error_None in Hidx; lia].
    assert (Hin : In idx active) by (eapply nth_error_In; exact Hidx).
    destruct (nth_error info idx) as [inf|] eqn:Hinf;
      [|apply nth_error_None in Hinf; specialize (Hbound idx Hin); lia].
    assert (Hnth : nth idx info Rev1.zero_info = inf) by (apply nth_nth_error; exact Hinf).
    set (t0 := Rev1.type inf).
    assert (Hfirst : forall t,
              rev1_channels info (firstn (S c) active) t
              = rev1_channels info (firstn c active) t
                ++ (if hwmon_eqb t0 t then [idx] else [])).
    { intros t. unfold rev1_channels. rewrite (firstn_nth_error _ _ _ Hidx).
      rewrite filter_app. cbn [filter]. rewrite Hnth. reflexivity. }
    assert (Hskip : forall t,
              rev1_channels info (skipn c active) t
              = (if hwmon_eqb t0 t then [idx] else [])
                ++ rev1_channels info (skipn (S c) active) t).
    { intros t. unfold rev1_channels. rewrite (skipn_nth_error _ _ _ Hidx).
      cbn [filter]. rewrite Hnth. fold t0. destruct (hwmon_eqb t0 t); reflexivity. }
    destruct (Hinv t0) as [[Hlo Hhi] Hmap0].
    rewrite Hfirst, hwmon_eqb_refl, length_app in Hlo. cbn [List.length] in Hlo.
    rewrite u8_small by lia.
    rewrite Hmap0.
    replace (Z.to_nat (cc t0)) with (S (Z.to_nat (cc t0 - 1))) by lia.
    rewrite list_set_repeat.
    assert (Hne : forall t, hwmon_eqb t t0 = false -> hwmon_eqb t0 t = false).
    { intros t Ht. apply not_true_is_false. intros E. apply hwmon_eqb_eq in E.
      subst t. rewrite hwmon_eqb_refl in Ht. discriminate Ht. }
    destruct (IH (set_by_type cc t0 (cc t0 - 1))
                 (set_by_type map t0
                    (repeat None (Z.to_nat (cc t0 - 1))
                     ++ Some idx :: List.map Some
                                      (rev1_channels info (skipn (S c) active) t0))))
      as (map' & Hfill & Hspec); [lia| |].
    + intros t. unfold set_by_type. destruct (Hinv t) as [[Hlo' Hhi'] Hmap'].
      rewrite Hfirst, length_app in Hlo'.
      destruct (hwmon_eqb t t0) eqn:Ht.
      * apply hwmon_eqb_eq in Ht. subst t.
        rewrite hwmon_eqb_refl in Hlo'. cbn [List.length] in Hlo'.
        split; [lia|]. rewrite Hskip, hwmon_eqb_refl. reflexivity.
      * rewrite (Hne t Ht) in Hlo'. cbn [List.length] in Hlo'.
        split; [lia|]. rewrite Hmap', Hskip, (Hne t Ht). reflexivity.
    + exists map'. split; [exact Hfill|].
      intros t. rewrite Hspec. f_equal. f_equal. unfold set_by_type.
      rewrite Hfirst, length_app.
      destruct (hwmon_eqb t t0) eqn:Ht.
      * apply hwmon_eqb_eq in Ht. subst t. rewrite hwmon_eqb_refl.
        cbn [List.length]. lia.
      * rewrite (Hne t Ht). cbn [List.length]. lia.
Qed.

(** [hp_wmi_sensors_init] never leaves its arrays: it returns an error
    code or a state that satisfies the invariant. *)
Lemma rev1_init_cases (w : world) (r : result Rev1.hp_wmi_sensors * world) :
  Rev1.hp_wmi_sensors_init Rev1.zero_state w = r ->
  match r with
  | (Undefined, _) => False
  | (Err _, _) => True
  | (Ok st, _) => rev1_initialised (firmware w) st
  end.
Proof.
  unfold Rev1.hp_wmi_sensors_init. intros H.
  pose proof (rev1_discover_spec (firmware w) HP_WMI_MAX_INSTANCES 0 _ w
                (rev1_discovered_zero (firmware w)) eq_refl
                ltac:(lia) ltac:(lia)) as Hd.
  destruct (Rev1.discover HP_WMI_MAX_INSTANCES 0 _ w) as [[[n d]|e|] w1];
    [| subst r; exact I | destruct Hd].
  destruct Hd as (Hinv & Hn & Hstop & _).
  destruct Hinv as (Hlen & Hrest & Hdone & Hact & Hcc).
  destruct (Z.of_nat n =? 0) eqn:Hz; [subst r; exact I|]. apply Z.eqb_neq in Hz.
  assert (Hchip : rev1_channels (Rev1.d_info d) (Rev1.active_info d) hwmon_chip = []).
  { unfold rev1_channels. rewrite Hact. apply filter_none.
    intros idx Hidx. apply not_true_is_false. intros Hty.
    apply filter_In in Hidx. destruct Hidx as [Hseq Hactive].
    apply in_seq in Hseq.
    destruct (Hdone idx ltac:(lia)) as (inf & k & wobj & Hnth & _ & _ & _ & Hlive & Htype).
    rewrite (nth_nth_error _ _ _ _ Hnth) in Hty, Hactive.
    apply hwmon_eqb_eq in Hty. rewrite Htype in Hty by exact Hactive.
    revert Hty. apply classified_type_not_chip.
    rewrite Hactive in Hlive. symmetry in Hlive. unfold rev1_live in Hlive.
    apply andb_prop in Hlive. apply Z.leb_le. apply Hlive. }
  destruct (List.length (Rev1.active_info d) =? 0)%nat eqn:Hch.
  - subst r. exists n. cbn.
    apply Nat.eqb_eq in Hch. apply length_zero_iff_nil in Hch.
    split; [reflexivity|]. split; [lia|]. split; [exact Hstop|].
    split; [exact Hdone|]. split.
    + intros t _. rewrite <- Hact, Hch. reflexivity.
    + intros idx [].
  - set (cc := set_by_type (Rev1.d_channel_count d) hwmon_chip 1) in *.
    destruct (alloc (mem w1)) as [[|] h1]; cbn [negb] in H; [|subst r; exact I].
    destruct (alloc h1) as [[|] h2]; cbn [negb] in H; [|subst r; exact I].
    pose proof (rev1_alloc_channels_spec (rev hwmon_types) cc
                  (Rev1.info_map Rev1.zero_state) h2) as Halloc.
    destruct (Rev1.alloc_channels (rev hwmon_types) cc _ h2) as [[map|e|] h3];
      [| subst r; exact I | destruct Halloc].
    assert (Hccle : forall t, Rev1.d_channel_count d t <= cc t < 256).
    { intros t.
      assert (0 <= Rev1.d_channel_count d t <= 32).
      { rewrite Hcc. split; [lia|].
        pose proof (filter_length_le
                      (fun idx => hwmon_eqb (Rev1.type (nth idx (Rev1.d_info d) Rev1.zero_info)) t)
                      (Rev1.active_info d)) as L1.
        fold (rev1_channels (Rev1.d_info d) (Rev1.active_info d) t) in L1.
        assert (L2 : (List.length (Rev1.active_info d) <= n)%nat).
        { rewrite Hact. unfold rev1_active.
          etransitivity; [apply filter_length_le|]. rewrite length_seq. lia. }
        unfold HP_WMI_MAX_INSTANCES in Hn. lia. }
      unfold cc.
      unfold set_by_type. destruct (hwmon_eqb t hwmon_chip) eqn:Ht; [|lia].
      apply hwmon_eqb_eq in Ht. subst t. rewrite (Hcc hwmon_chip), Hchip. simpl. lia. }
    assert (Hccne : forall t, t <> hwmon_chip -> cc t = Rev1.d_channel_count d t).
    { intros t Ht. unfold cc.
      unfold set_by_type. destruct (hwmon_eqb t hwmon_chip) eqn:E; [|reflexivity].
      apply hwmon_eqb_eq in E. contradiction. }
    destruct (rev1_fill_info_map_spec (Rev1.d_info d) (Rev1.active_info d))
      with (c := List.length (Rev1.active_info d)) (cc := cc) (map := map)
      as (map' & Hfill & Hmap').
    + intros idx Hidx. rewrite Hact in Hidx. apply filter_seq_bound in Hidx. lia.
    + lia.
    + intros t. rewrite firstn_all, skipn_all. split.
      * rewrite <- Hcc. apply Hccle.
      * rewrite Halloc. rewrite (proj2 (existsb_hwmon_types t)). cbn [andb].
        unfold rev1_channels at 1. cbn [filter List.map]. rewrite app_nil_r.
        destruct (cc t =? 0) eqn:E; cbn [negb]; [|reflexivity].
        apply Z.eqb_eq in E. rewrite E. reflexivity.
    + rewrite Hfill in H.
      destruct (hwmon_register _ <? 0); [subst r; exact I|].
      destruct (alloc _) as [[|] h4]; cbn [negb] in H; [|subst r; exact I].
      subst r. exists n. cbn.
      split; [reflexivity|]. split; [lia|]. split; [exact Hstop|].
      split; [exact Hdone|]. split.
      * intros t Ht. rewrite Hmap', firstn_all, <- Hcc, (Hccne t Ht), Z.sub_diag.
        rewrite <- Hact. reflexivity.
      * intros idx Hin. rewrite Hmap', Hchip in Hin. cbn [List.map] in Hin.
        rewrite app_nil_r in Hin. revert Hin. apply repeat_None_no_Some.
Qed.

Lemma rev1_init_spec (w w' : world) (st : Rev1.hp_wmi_sensors) :
  Rev1.hp_wmi_sensors_init Rev1.zero_state w = (Ok st, w') ->
  rev1_initialised (firmware w) st.
Proof. intros H. exact (rev1_init_cases w _ H). Qed.

Lemma rev1_init_defined (w : world) :
  fst (Rev1.hp_wmi_sensors_init Rev1.zero_state w) <> Undefined.
Proof.
  pose proof (rev1_init_cases w _ eq_refl) as H.
  destruct (Rev1.hp_wmi_sensors_init Rev1.zero_state w) as [[st|e|] w'];
    [discriminate | discriminate | destruct H].
Qed.

(** ** Discovery: which errors are fatal *)

(** C8 as stated fails: with a valid instance 0 and a malformed instance 1
    the initialisation does not stop at index 1 and keep the first sensor;
    it fails with [-EINVAL], in both revisions. *)
Lemma discovery_malformed_second_instance :
  let w := world_at 0 firmware_malformed_second in
  fst (Rev1.hp_wmi_sensors_init Rev1.zero_state w) = Err (- EINVAL) /\
  fst (Rev2.hp_wmi_sensors_init Rev2.zero_state w) = Err (- EINVAL) /\
  ~ (exists st w', Rev1.hp_wmi_sensors_init Rev1.zero_state w = (Ok st, w')
                   /\ Rev1.count st = 1) /\
  ~ (exists st w', Rev2.hp_wmi_sensors_init Rev2.zero_state w = (Ok st, w')
                   /\ Rev2.count st = 1).
Proof.
  cbv zeta.
  assert (H1 : fst (Rev1.hp_wmi_sensors_init Rev1.zero_state
                      (world_at 0 firmware_malformed_second)) = Err (- EINVAL))
    by (vm_compute; reflexivity).
  assert (H2 : fst (Rev2.hp_wmi_sensors_init Rev2.zero_state
                      (world_at 0 firmware_malformed_second)) = Err (- EINVAL))
    by (vm_compute; reflexivity).
  split; [exact H1|]. split; [exact H2|]. split.
  - intros (st & w' & H & _). rewrite H in H1. discriminate H1.
  - intros (st & w' & H & _). rewrite H in H2. discriminate H2.
Qed.

(** ** Discovery: the live set *)








(** ** The background refresh task (first revision) *)

(** C3 on the code.  One active sensor, background updates every 5000 ms,
    [HZ = 1000].  When the update of the sensor succeeds (whether it polls
    the firmware at tick 5000 or answers from the cache at tick 500) the
    task sets the interval to 0 and does not schedule itself again; when
    the query fails it schedules itself after the 5000 ms.  The test
    [if (!err)] in the loop is the wrong way round. *)
Theorem refresh_task_stops_on_success :
  let fw_up := sample_firmware (sample_wobj 2 "Normal" (-3) 26000) in
  let fw_down := fun _ : Z => @None acpi_object in
  let state := sample_state1 (sample_info1 0) 5000 in
  refresh_outcome
    (Rev1.hp_wmi_sensors_refresh_task 1000 state (world_at 5000 fw_up))
  = Some (0, None) /\
  refresh_outcome
    (Rev1.hp_wmi_sensors_refresh_task 1000 state (world_at 500 fw_up))
  = Some (0, None) /\
  refresh_outcome
    (Rev1.hp_wmi_sensors_refresh_task 1000 state (world_at 5000 fw_down))
  = Some (5000, Some 5000) /\
  queries (snd (Rev1.hp_wmi_sensors_refresh_task 1000 state (world_at 5000 fw_down)))
  = [0].
Proof. cbv zeta. repeat split. Qed.

(** The same for any single active sensor: the task stops exactly when
    the update of that sensor returns 0. *)
Lemma refresh_task_single_sensor (HZ interval : Z) (info info' : Rev1.hp_wmi_info)
    (w w' : world) (ret : Z) :
  Rev1.is_active info = true ->
  Rev1.hp_wmi_update_info HZ w info = (Ok (ret, info'), w') ->
  refresh_outcome
    (Rev1.hp_wmi_sensors_refresh_task HZ (sample_state1 info interval) w)
  = if ret =? 0 then Some (0, None) else Some (interval, Some interval).
Proof.
  intros Hact Hup. unfold refresh_outcome, Rev1.hp_wmi_sensors_refresh_task.
  unfold sample_state1. cbn [Rev1.count Rev1.update_interval].
  change (Z.to_nat 1) with 1%nat.
  cbn [Rev1.refresh_loop Rev1.count Rev1.info nth_error Z.of_nat Z.ltb Z.compare].
  rewrite Hact. cbn [negb]. rewrite Hup. cbn [list_set].
  destruct (ret =? 0); reflexivity.
Qed.

(** ** Instances on concrete records *)

Lemma check_wobj_possible_states_count_witness :
  check_wobj (sample_wobj 2 "Normal" (-3) 25000) = Ok 2 /\
  check_wobj
    (AcpiPackage
       ([AcpiString 3 "Fan"; AcpiString 3 "Fan"; AcpiInteger 12; AcpiString 0 "";
         AcpiInteger 2; AcpiString 6 "Normal"] ++ [] ++
        [AcpiInteger 19; AcpiInteger 0; AcpiInteger 1200]))
  = Err (- EINVAL).
Proof.
  split.
  - refine (proj1 (check_wobj_possible_states_count
                     [AcpiString 8 "CPU Temp"; AcpiString 11 "Temperature";
                      AcpiInteger HP_WMI_TYPE_TEMPERATURE; AcpiString 0 "";
                      AcpiInteger 2; AcpiString 6 "Normal"]
                     [AcpiString 6 "Normal"; AcpiString 7 "Caution"]
                     [AcpiInteger HP_WMI_UNITS_DEGREES_C; AcpiInteger (-3);
                      AcpiInteger 25000] _ _ _) _ _ _).
    + reflexivity.
    + repeat constructor.
    + simpl. discriminate.
    + unfold HP_WMI_MAX_PROPERTIES. simpl. lia.
    + discriminate.
    + reflexivity.
  - refine (proj2 (check_wobj_possible_states_count _ [] _ _ _ _) _).
    + reflexivity.
    + constructor.
    + simpl. discriminate.
    + left. reflexivity.
Defined.

Lemma scale_numeric_sensor_no_wrap_witness :
  let nsensor := sensor_of HP_WMI_TYPE_TEMPERATURE HP_WMI_UNITS_DEGREES_K 16 1 in
  Rev2.scale_numeric_sensor nsensor = LONG_MAX - 273150 /\
  is_long (Rev2.scale_numeric_sensor nsensor).
Proof.
  cbv zeta.
  refine (match scale_numeric_sensor_no_wrap
                  (sensor_of HP_WMI_TYPE_TEMPERATURE HP_WMI_UNITS_DEGREES_K 16 1) _ _
          with
          | conj _ (conj (conj H2 H2r) _) => conj _ H2r
          end).
  - vm_compute. split; [discriminate | reflexivity].
  - vm_compute. split; [discriminate | reflexivity].
  - rewrite H2. vm_compute. reflexivity.
Defined.


(** * Further properties of the driver *)

(** The outer loop of [check_wobj] returns no code but [-EINVAL]. *)
Lemma check_loop_return (fuel : nat) :
  forall (elements : list acpi_object) (n i : nat) (prop count ret : Z),
    check_loop fuel elements n i prop count = CheckReturn ret -> ret = - EINVAL.
Proof.
  induction fuel as [|fuel IH]; intros elements n i prop count ret H;
    [discriminate H|].
  cbn [check_loop] in H.
  destruct (i <? n)%nat; [|discriminate H].
  destruct (prop >? HP_WMI_PROPERTY_CURRENT_READING); [congruence|].
  destruct (negb _); [congruence|].
  destruct (prop =? HP_WMI_PROPERTY_CURRENT_STATE).
  - destruct (lookahead _ _ _ _ _ _) as [i' count']. eapply IH; exact H.
  - eapply IH; exact H.
Qed.

Lemma check_wobj_error (wobj : acpi_object) (e : Z) :
  check_wobj wobj = Err e -> e = - EINVAL.
Proof.
  unfold check_wobj. destruct wobj as [| | |elements|]; try congruence.
  destruct (_ <? _)%nat; [congruence|].
  destruct (check_loop _ _ _ _ _ _) as [ret|prop count] eqn:Hloop.
  - intros H. injection H as <-. eapply check_loop_return; exact Hloop.
  - destruct (_ || _); congruence.
Qed.

Lemma check_wobj_defined (wobj : acpi_object) : check_wobj wobj <> Undefined.
Proof.
  unfold check_wobj. destruct wobj as [| | |elements|]; try discriminate.
  destruct (_ <? _)%nat; [discriminate|].
  destruct (check_loop _ _ _ _ _ _) as [ret|prop count]; [discriminate|].
  destruct (_ || _); discriminate.
Qed.

(** X1. [check_wobj] accepts a record only if it is a package of the six
    leading fields of the schema, [n] Strings and the three trailing
    Integers, with [n] between 1 and 23 (nine fixed fields within the limit
    of 32 elements); everything else it rejects, and always with
    [-EINVAL]. *)
Theorem check_wobj_accepts_only_schema (wobj : acpi_object) :
  (forall n, check_wobj wobj = Ok n ->
     exists head states tail,
       wobj = AcpiPackage (head ++ states ++ tail) /\
       map acpi_type head = head_types /\
       Forall is_string states /\
       map acpi_type tail = tail_types /\
       n = Z.of_nat (List.length states) /\
       List.length (head ++ states ++ tail) = (9 + List.length states)%nat /\
       1 <= n <= 23) /\
  ((exists n, check_wobj wobj = Ok n) \/ check_wobj wobj = Err (- EINVAL)).
Proof.
  split.
  - intros n H.
    destruct (check_wobj_ok_shape _ _ H)
      as (head & states & tail & Hw & Hhead & Hs & Hne & Htail & Hn & Hlen).
    exists head, states, tail.
    assert (L1 : List.length head = 6%nat)
      by (rewrite <- (length_map acpi_type), Hhead; reflexivity).
    assert (L2 : List.length tail = 3%nat)
      by (rewrite <- (length_map acpi_type), Htail; reflexivity).
    assert (L3 : (0 < List.length states)%nat)
      by (destruct states; [congruence|cbn [List.length]; lia]).
    rewrite !length_app in *. unfold HP_WMI_MAX_PROPERTIES in Hlen.
    repeat (split; [assumption|]). split; lia.
  - destruct (check_wobj wobj) as [n|e|] eqn:H.
    + left. eauto.
    + right. rewrite (check_wobj_error _ _ H). reflexivity.
    + exfalso. exact (check_wobj_defined _ H).
Qed.

Lemma last_cons_nonempty {A : Type} (l : list A) (a d d' : A) :
  l <> [] -> last (a :: l) d = last l d'.
Proof.
  intros Hne. destruct l as [|x l]; [congruence|]. cbn [last].
  clear Hne. revert x. induction l as [|y l IH]; intros x; [reflexivity|].
  cbn [last] in *. apply IH.
Qed.

Section PopulateRun.

Variable prep : string -> string.
Variable dup : string -> Z -> heap -> option string * heap.

Local Abbreviation ploop' := (populate_loop prep dup).

(** One iteration on a String element, for the properties that take one. *)
Lemma populate_string_unfold (fuel : nat) (elements : list acpi_object)
    (prop : Z) (l : populate_locals) (ns : hp_wmi_numeric_sensor) (h : heap)
    (len : Z) (p : string)
    (set : hp_wmi_numeric_sensor -> option string -> hp_wmi_numeric_sensor) :
  (prop = HP_WMI_PROPERTY_NAME /\ set = set_name) \/
  (prop = HP_WMI_PROPERTY_DESCRIPTION /\ set = set_description) \/
  (prop = HP_WMI_PROPERTY_OTHER_SENSOR_TYPE /\ set = set_other_sensor_type) \/
  (prop = HP_WMI_PROPERTY_CURRENT_STATE /\ set = set_current_state) ->
  nth_error elements (element l) = Some (AcpiString len p) ->
  ploop' (S fuel) elements prop l ns h
  = match dup (prep p) len h with
    | (None, h') => (Err (- ENOMEM), h')
    | (Some s, h') =>
        ploop' fuel elements (prop + 1)
          {| element := (element l + 1)%nat; remaining := remaining l;
             value := value l; string_ := Some s |}
          (set ns (Some s)) h'
    end.
Proof.
  intros Hprop Hnth. rewrite populate_loop_unfold.
  destruct Hprop as [[-> ->]|[[-> ->]|[[-> ->]|[-> ->]]]];
    cbv beta iota delta [hp_wmi_property_map HP_WMI_PROPERTY_NAME
      HP_WMI_PROPERTY_DESCRIPTION HP_WMI_PROPERTY_OTHER_SENSOR_TYPE
      HP_WMI_PROPERTY_CURRENT_STATE HP_WMI_PROPERTY_CURRENT_READING
      HP_WMI_PROPERTY_SENSOR_TYPE HP_WMI_PROPERTY_OPERATIONAL_STATUS
      Z.leb Z.eqb Z.compare Pos.compare Pos.compare_cont Pos.eqb];
    rewrite (extract_string _ _ _ _ _ len p Hnth);
    destruct (dup (prep p) len h) as [[s|] h']; reflexivity.
Qed.

(** One iteration on an Integer element other than SensorType. *)
Lemma populate_integer_unfold (fuel : nat) (elements : list acpi_object)
    (prop : Z) (l : populate_locals) (ns : hp_wmi_numeric_sensor) (h : heap)
    (v : Z) (set : hp_wmi_numeric_sensor -> Z -> hp_wmi_numeric_sensor) :
  (prop = HP_WMI_PROPERTY_OPERATIONAL_STATUS /\ set = set_operational_status) \/
  (prop = HP_WMI_PROPERTY_BASE_UNITS /\ set = set_base_units) \/
  (prop = HP_WMI_PROPERTY_UNIT_MODIFIER /\
   set = fun ns v => set_unit_modifier ns (s32 v)) \/
  (prop = HP_WMI_PROPERTY_CURRENT_READING /\ set = set_current_reading) ->
  nth_error elements (element l) = Some (AcpiInteger v) ->
  ploop' (S fuel) elements prop l ns h
  = ploop' fuel elements (prop + 1)
      {| element := (element l + 1)%nat; remaining := remaining l;
         value := u32 v; string_ := string_ l |}
      (set ns (u32 v)) h.
Proof.
  intros Hprop Hnth. rewrite populate_loop_unfold.
  destruct Hprop as [[-> ->]|[[-> ->]|[[-> ->]|[-> ->]]]];
    cbv beta iota delta [hp_wmi_property_map HP_WMI_PROPERTY_NAME
      HP_WMI_PROPERTY_DESCRIPTION HP_WMI_PROPERTY_OTHER_SENSOR_TYPE
      HP_WMI_PROPERTY_CURRENT_STATE HP_WMI_PROPERTY_CURRENT_READING
      HP_WMI_PROPERTY_SENSOR_TYPE HP_WMI_PROPERTY_OPERATIONAL_STATUS
      HP_WMI_PROPERTY_POSSIBLE_STATES HP_WMI_PROPERTY_BASE_UNITS
      HP_WMI_PROPERTY_UNIT_MODIFIER
      Z.leb Z.eqb Z.compare Pos.compare Pos.compare_cont Pos.eqb];
    rewrite (extract_integer _ _ _ _ _ v Hnth); reflexivity.
Qed.

(** The loop is left once [prop] is past CurrentReading. *)
Lemma populate_loop_exit (fuel : nat) (elements : list acpi_object)
    (l : populate_locals) (ns : hp_wmi_numeric_sensor) (h : heap) :
  ploop' (S fuel) elements (HP_WMI_PROPERTY_CURRENT_READING + 1) l ns h = (Ok ns, h).
Proof. reflexivity. Qed.

(** The PossibleStates phase as a whole: it copies the strings of
    [states] in order, appends them to [possible_states] and goes on with
    BaseUnits at the element after them. *)
Lemma populate_states_run (states : list acpi_object) :
  forall (pre tail : list acpi_object) (fuel : nat) (l : populate_locals)
         (ns : hp_wmi_numeric_sensor) (h : heap),
    Forall is_string states -> states <> [] ->
    (List.length states < 256)%nat ->
    element l = List.length pre ->
    remaining l = Z.of_nat (List.length states) ->
    (List.length states <= fuel)%nat ->
    ploop' fuel (pre ++ states ++ tail) HP_WMI_PROPERTY_POSSIBLE_STATES l ns h
    = match dup_states prep dup states h with
      | (None, h') => (Err (- ENOMEM), h')
      | (Some strs, h') =>
          ploop' (fuel - List.length states) (pre ++ states ++ tail)
            HP_WMI_PROPERTY_BASE_UNITS
            {| element := (List.length pre + List.length states)%nat;
               remaining := 0; value := value l;
               string_ := last strs (string_ l) |}
            (set_possible_states ns (possible_states ns ++ strs)) h'
      end.
Proof.
  induction states as [|s states IH];
    intros pre tail fuel l ns h Hs Hne Hlen Hel Hrem Hfuel; [congruence|].
  inversion Hs as [|? ? Hs1 Hs2]; subst.
  destruct (is_string_inv s Hs1) as (len & p & ->).
  destruct fuel as [|fuel]; [simpl in Hfuel; lia|].
  rewrite populate_loop_unfold.
  change (HP_WMI_PROPERTY_POSSIBLE_STATES <=? HP_WMI_PROPERTY_CURRENT_READING) with true.
  change (hp_wmi_property_map HP_WMI_PROPERTY_POSSIBLE_STATES) with ACPI_TYPE_STRING.
  cbv iota.
  rewrite (extract_string _ _ _ _ _ len p)
    by (rewrite Hel, nth_error_app2, Nat.sub_diag by lia; reflexivity).
  cbn [dup_states].
  destruct (dup (prep p) len h) as [[str|] h']; [|reflexivity].
  cbn [element remaining value string_].
  change (HP_WMI_PROPERTY_POSSIBLE_STATES =? HP_WMI_PROPERTY_NAME) with false.
  change (HP_WMI_PROPERTY_POSSIBLE_STATES =? HP_WMI_PROPERTY_DESCRIPTION) with false.
  change (HP_WMI_PROPERTY_POSSIBLE_STATES =? HP_WMI_PROPERTY_SENSOR_TYPE) with false.
  change (HP_WMI_PROPERTY_POSSIBLE_STATES =? HP_WMI_PROPERTY_OTHER_SENSOR_TYPE) with false.
  change (HP_WMI_PROPERTY_POSSIBLE_STATES =? HP_WMI_PROPERTY_OPERATIONAL_STATUS) with false.
  change (HP_WMI_PROPERTY_POSSIBLE_STATES =? HP_WMI_PROPERTY_CURRENT_STATE) with false.
  change (HP_WMI_PROPERTY_POSSIBLE_STATES =? HP_WMI_PROPERTY_POSSIBLE_STATES) with true.
  cbv iota zeta. cbn [element remaining value string_].
  rewrite Hrem. cbn [List.length] in *.
  assert (Hb : 0 <= Z.of_nat (S (List.length states)) - 1 < 256) by (clear - Hlen; lia).
  rewrite u8_small by exact Hb.
  replace (Z.of_nat (S (List.length states)) - 1) with (Z.of_nat (List.length states)) by lia.
  destruct states as [|s' states'].
  - change (Z.of_nat (List.length (@nil acpi_object)) =? 0) with true. cbn [negb].
    change (HP_WMI_PROPERTY_POSSIBLE_STATES + 1) with HP_WMI_PROPERTY_BASE_UNITS.
    cbn [dup_states List.length last]. rewrite Hel.
    replace (S fuel - 1)%nat with fuel by lia. reflexivity.
  - replace (Z.of_nat (List.length (s' :: states')) =? 0) with false
      by (symmetry; apply Z.eqb_neq; cbn [List.length]; lia).
    cbn [negb].
    change (HP_WMI_PROPERTY_POSSIBLE_STATES - 1 + 1) with HP_WMI_PROPERTY_POSSIBLE_STATES.
    replace (pre ++ (AcpiString len p :: s' :: states') ++ tail)
      with ((pre ++ [AcpiString len p]) ++ (s' :: states') ++ tail)
      by (rewrite <- app_assoc; reflexivity).
    rewrite IH; try assumption; try congruence;
      try (cbn [List.length element remaining] in *; rewrite ?length_app;
           cbn [List.length]; lia).
    destruct (dup_states prep dup (s' :: states') h') as [[strs|] h''] eqn:Hd;
      [|reflexivity].
    cbn [element remaining value string_ possible_states set_possible_states].
    rewrite length_app. cbn [List.length].
    replace (List.length pre + 1 + S (List.length states'))%nat
      with (List.length pre + S (S (List.length states')))%nat by lia.
    replace (fuel - S (List.length states'))%nat
      with (S fuel - S (S (List.length states')))%nat by lia.
    rewrite <- app_assoc. cbn [app].
    assert (Hstrs : strs <> []).
    { destruct s'; inversion Hs2 as [|? ? Hs' _]; subst;
        try (unfold is_string in Hs'; simpl in Hs'; discriminate Hs').
      cbn [dup_states] in Hd.
      destruct (dup _ _ _) as [[?|] ?]; [|discriminate Hd].
      destruct (dup_states _ _ _ _) as [[?|] ?]; inversion Hd. discriminate. }
    rewrite (last_cons_nonempty strs (Some str) (string_ l) (Some str) Hstrs).
    f_equal. unfold set_possible_states.
    cbn [name description sensor_type other_sensor_type operational_status
         current_state possible_states base_units unit_modifier
         current_reading possible_states_count].
    rewrite <- app_assoc. reflexivity.
Qed.

End PopulateRun.

Section PopulateShape.

Variable prep : string -> string.
Variable dup : string -> Z -> heap -> option string * heap.

Local Abbreviation pl := (populate_loop prep dup).

Lemma populate_shape_run (ns0 : hp_wmi_numeric_sensor)
    (l0 : Z) (p0 : string) (l1 : Z) (p1 : string) (v2 : Z)
    (l3 : Z) (p3 : string) (v4 : Z) (l5 : Z) (p5 : string)
    (states : list acpi_object) (vb vm vr : Z) (h : heap) :
  Forall is_string states -> states <> [] ->
  (List.length states <= 23)%nat ->
  populate_numeric_sensor_from_wobj prep dup ns0
    (AcpiPackage
       ([AcpiString l0 p0; AcpiString l1 p1; AcpiInteger v2;
         AcpiString l3 p3; AcpiInteger v4; AcpiString l5 p5]
        ++ states ++ [AcpiInteger vb; AcpiInteger vm; AcpiInteger vr])) h
  = populate_run prep dup ns0 l0 p0 l1 p1 v2 l3 p3 v4 l5 p5 states vb vm vr h.
Proof.
  intros Hs Hne Hlen.
  set (head := [AcpiString l0 p0; AcpiString l1 p1; AcpiInteger v2;
                AcpiString l3 p3; AcpiInteger v4; AcpiString l5 p5]).
  set (tail := [AcpiInteger vb; AcpiInteger vm; AcpiInteger vr]).
  unfold populate_numeric_sensor_from_wobj, populate_run.
  rewrite (check_wobj_accepts head states tail); try assumption; try reflexivity.
  2:{ simpl. discriminate. }
  2:{ rewrite !length_app. unfold HP_WMI_MAX_PROPERTIES. simpl. lia. }
  destruct (alloc h) as [[|] h0]; cbn [negb]; [|reflexivity].
  replace (Z.to_nat (11 + Z.of_nat (List.length states)))
    with (S (S (S (S (S (S (List.length states + 5)))))))%nat by lia.
  remember (head ++ states ++ tail) as elements eqn:Hels.
  assert (Hnth : forall j e, nth_error head j = Some e -> nth_error elements j = Some e).
  { intros j e Hj. subst elements. rewrite nth_error_app1; [exact Hj|].
    apply nth_error_Some. congruence. }
  assert (Htl : forall j e, nth_error tail j = Some e ->
                  nth_error elements (6 + List.length states + j) = Some e).
  { intros j e Hj. subst elements.
    rewrite nth_error_app2 by (unfold head; simpl; lia).
    rewrite nth_error_app2 by (unfold head; simpl; lia).
    replace (6 + List.length states + j - List.length head - List.length states)%nat
      with j by (unfold head; simpl; lia).
    exact Hj. }
  (* after CurrentState: the states, then the three integers *)
  assert (Hrest : forall fuel l ns h,
            element l = 6%nat -> remaining l = Z.of_nat (List.length states) ->
            (List.length states + 4 <= fuel)%nat ->
            pl fuel elements HP_WMI_PROPERTY_POSSIBLE_STATES l ns h
            = match dup_states prep dup states h with
              | (None, h') => (Err (- ENOMEM), h')
              | (Some strs, h') =>
                  (Ok (set_current_reading
                         (set_unit_modifier
                            (set_base_units
                               (set_possible_states ns (possible_states ns ++ strs))
                               (u32 vb))
                            (s32 (u32 vm)))
                         (u32 vr)), h')
              end).
  { intros fuel l ns h1 Hel Hrem Hfuel. rewrite Hels.
    rewrite (populate_states_run prep dup states head tail); try assumption; try lia.
    destruct (dup_states prep dup states h1) as [[strs|] h'']; [|reflexivity].
    rewrite <- Hels.
    destruct (fuel - List.length states)%nat as [|[|[|[|f]]]] eqn:Hf; try lia.
    rewrite (populate_integer_unfold prep dup _ _ _ _ _ _ vb set_base_units);
      [| right; left; split; reflexivity
       | cbn [element]; replace (List.length head + List.length states)%nat
           with (6 + List.length states + 0)%nat by (unfold head; simpl; lia);
         apply Htl; reflexivity].
    rewrite (populate_integer_unfold prep dup _ _ _ _ _ _ vm
               (fun ns v => set_unit_modifier ns (s32 v)));
      [| right; right; left; split; reflexivity
       | cbn [element]; replace (List.length head + List.length states + 1)%nat
           with (6 + List.length states + 1)%nat by (unfold head; simpl; lia);
         apply Htl; reflexivity].
    rewrite (populate_integer_unfold prep dup _ _ _ _ _ _ vr set_current_reading);
      [| right; right; right; split; reflexivity
       | cbn [element]; replace (List.length head + List.length states + 1 + 1)%nat
           with (6 + List.length states + 2)%nat by (unfold head; simpl; lia);
         apply Htl; reflexivity].
    reflexivity. }
  (* from OperationalStatus to CurrentState *)
  assert (Hmid : forall fuel l ns h,
            element l = 4%nat -> remaining l = Z.of_nat (List.length states) ->
            (List.length states + 6 <= fuel)%nat ->
            pl fuel elements HP_WMI_PROPERTY_OPERATIONAL_STATUS l ns h
            = match dup (prep p5) l5 h with
              | (None, h') => (Err (- ENOMEM), h')
              | (Some s5, h') =>
                  match dup_states prep dup states h' with
                  | (None, h'') => (Err (- ENOMEM), h'')
                  | (Some strs, h'') =>
                      (Ok (set_current_reading
                             (set_unit_modifier
                                (set_base_units
                                   (set_possible_states
                                      (set_current_state
                                         (set_operational_status ns (u32 v4))
                                         (Some s5))
                                      (possible_states ns ++ strs))
                                   (u32 vb))
                                (s32 (u32 vm)))
                             (u32 vr)), h'')
                  end
              end).
  { intros [|[|fuel]] l ns h1 Hel Hrem Hfuel; try lia.
    rewrite (populate_integer_unfold prep dup _ _ _ _ _ _ v4 set_operational_status);
      [| left; split; reflexivity | rewrite Hel; apply Hnth; reflexivity].
    rewrite (populate_string_unfold prep dup _ _ _ _ _ _ l5 p5 set_current_state);
      [| right; right; right; split; reflexivity
       | cbn [element]; rewrite Hel; apply Hnth; reflexivity].
    destruct (dup (prep p5) l5 h1) as [[s5|] h']; [|reflexivity].
    rewrite Hrest by (cbn [element remaining]; lia). reflexivity. }
  rewrite (populate_string_unfold prep dup _ _ _ _ _ _ l0 p0 set_name);
    [| left; split; reflexivity | apply Hnth; reflexivity].
  destruct (dup (prep p0) l0 h0) as [[s0|] h1]; [|reflexivity].
  rewrite (populate_string_unfold prep dup _ _ _ _ _ _ l1 p1 set_description);
    [| right; left; split; reflexivity | apply Hnth; reflexivity].
  destruct (dup (prep p1) l1 h1) as [[s1|] h2]; [|reflexivity].
  change (HP_WMI_PROPERTY_NAME + 1 + 1) with HP_WMI_PROPERTY_SENSOR_TYPE.
  rewrite (populate_sensor_type_unfold _ _ _ _ _ _ _ v2) by (apply Hnth; reflexivity).
  cbn [element remaining value string_].
  destruct (u32 v2 >? HP_WMI_TYPE_AIR_FLOW); [reflexivity|].
  destruct (u32 v2 =? HP_WMI_TYPE_OTHER); cbn [negb].
  - rewrite (populate_string_unfold prep dup _ _ _ _ _ _ l3 p3 set_other_sensor_type);
      [| right; right; left; split; reflexivity
       | cbn [element]; apply Hnth; reflexivity].
    destruct (dup (prep p3) l3 h2) as [[s3|] h3]; [|reflexivity].
    rewrite Hmid by (cbn [element remaining]; lia).
    destruct (dup (prep p5) l5 h3) as [[s5|] h4]; [|reflexivity].
    destruct (dup_states prep dup states h4) as [[strs|] h5]; reflexivity.
  - rewrite Hmid by (cbn [element remaining]; lia).
    destruct (dup (prep p5) l5 h2) as [[s5|] h4]; [|reflexivity].
    destruct (dup_states prep dup states h4) as [[strs|] h5]; reflexivity.
Qed.

End PopulateShape.

Lemma substring_length_le (s : string) :
  forall n, (String.length (substring 0 n s) <= n)%nat.
Proof.
  induction s as [|c s IH]; intros [|n]; cbn; try lia.
  specialize (IH n). lia.
Qed.

Lemma substring_short (s : string) :
  forall n, (String.length s <= n)%nat -> substring 0 n s = s.
Proof.
  induction s as [|c s IH]; intros [|n] H; cbn in *; try reflexivity; try lia.
  rewrite IH by lia. reflexivity.
Qed.

Lemma rev1_strdup_alloc (src : string) (len : Z) (h : heap) :
  Rev1.hp_wmi_strdup src len h
  = let '(ok, h') := alloc h in
    if ok then (Some (rev1_copy src len), h') else (None, h').
Proof. reflexivity. Qed.

Lemma rev2_strdup_alloc (src : string) (len : Z) (h : heap) :
  Rev2.hp_wmi_strdup src len h
  = let '(ok, h') := alloc h in
    if ok then (Some (rev2_copy src len), h') else (None, h').
Proof. reflexivity. Qed.

Lemma rev_copy_length (src : string) (len : Z) :
  (String.length (rev1_copy src len) <= 127)%nat /\
  (String.length (rev2_copy src len) <= 127)%nat.
Proof.
  unfold rev1_copy, rev2_copy, HP_WMI_MAX_STR_SIZE. split.
  - etransitivity; [apply substring_length_le|].
    assert (0 <= u32 len) by (unfold u32, wrap_unsigned; apply Z.mod_pos_bound; lia).
    lia.
  - etransitivity; [apply substring_length_le|]. lia.
Qed.

Section PopulateDecoded.

Variable prep : string -> string.
Variable dup : string -> Z -> heap -> option string * heap.
Variable copy : string -> Z -> string.

Hypothesis Hdup :
  forall src len h,
    dup src len h
    = let '(ok, h') := alloc h in
      if ok then (Some (copy src len), h') else (None, h').

Lemma dup_some (src : string) (len : Z) (h h' : heap) (s : string) :
  dup src len h = (Some s, h') -> s = copy src len.
Proof.
  rewrite Hdup. destruct (alloc h) as [[|] h1]; intros H; inversion H. reflexivity.
Qed.

Lemma dup_nil (src : string) (len : Z) :
  dup src len [] = (Some (copy src len), []).
Proof. rewrite Hdup. reflexivity. Qed.

Lemma dup_states_some (states : list acpi_object) :
  forall (h h' : heap) (strs : list (option string)),
    Forall is_string states ->
    dup_states prep dup states h = (Some strs, h') ->
    strs = map (decode_state prep copy) states.
Proof.
  induction states as [|s states IH]; intros h h' strs Hs H.
  - cbn in H. inversion H. reflexivity.
  - inversion Hs as [|? ? Hs1 Hs2]; subst.
    destruct (is_string_inv s Hs1) as (len & p & ->).
    cbn [dup_states] in H.
    destruct (dup (prep p) len h) as [[str|] h1] eqn:E; [|discriminate H].
    destruct (dup_states prep dup states h1) as [[l|] h2] eqn:E2; [|discriminate H].
    inversion H; subst. cbn [map decode_state].
    rewrite (dup_some _ _ _ _ _ E), (IH _ _ _ Hs2 E2). reflexivity.
Qed.

Lemma dup_states_nil (states : list acpi_object) :
  Forall is_string states ->
  dup_states prep dup states [] = (Some (map (decode_state prep copy) states), []).
Proof.
  induction states as [|s states IH]; intros Hs; [reflexivity|].
  inversion Hs as [|? ? Hs1 Hs2]; subst.
  destruct (is_string_inv s Hs1) as (len & p & ->).
  cbn [dup_states]. rewrite dup_nil, (IH Hs2). reflexivity.
Qed.

Local Abbreviation pop := (populate_numeric_sensor_from_wobj prep dup).

(** A record of the validated shape, taken apart. *)
Lemma check_wobj_ok_fields (wobj : acpi_object) (n : Z) :
  check_wobj wobj = Ok n ->
  exists l0 p0 l1 p1 v2 l3 p3 v4 l5 p5 states vb vm vr,
    wobj = AcpiPackage
             ([AcpiString l0 p0; AcpiString l1 p1; AcpiInteger v2;
               AcpiString l3 p3; AcpiInteger v4; AcpiString l5 p5]
              ++ states ++ [AcpiInteger vb; AcpiInteger vm; AcpiInteger vr]) /\
    Forall is_string states /\ (1 <= List.length states <= 23)%nat /\
    n = Z.of_nat (List.length states).
Proof.
  intros Hcheck.
  destruct (check_wobj_ok_shape _ _ Hcheck)
    as (head & states & tail & -> & Hhead & Hs & Hne & Htail & -> & Hlen).
  unfold HP_WMI_MAX_PROPERTIES in Hlen.
  destruct head as [|e0 [|e1 [|e2 [|e3 [|e4 [|e5 [|? ?]]]]]]]; try discriminate Hhead.
  injection Hhead as H0 H1 H2 H3 H4 H5.
  destruct tail as [|b [|m [|r [|? ?]]]]; try discriminate Htail.
  injection Htail as Hb Hm Hr.
  destruct (is_string_inv e0 H0) as (l0 & p0 & ->).
  destruct (is_string_inv e1 H1) as (l1 & p1 & ->).
  destruct (is_integer_inv e2 H2) as (v2 & ->).
  destruct (is_string_inv e3 H3) as (l3 & p3 & ->).
  destruct (is_integer_inv e4 H4) as (v4 & ->).
  destruct (is_string_inv e5 H5) as (l5 & p5 & ->).
  destruct (is_integer_inv b Hb) as (vb & ->).
  destruct (is_integer_inv m Hm) as (vm & ->).
  destruct (is_integer_inv r Hr) as (vr & ->).
  exists l0, p0, l1, p1, v2, l3, p3, v4, l5, p5, states, vb, vm, vr.
  rewrite !length_app in Hlen. cbn [List.length] in Hlen.
  assert ((0 < List.length states)%nat)
    by (destruct states; [congruence|cbn [List.length]; lia]).
  split; [reflexivity|]. split; [assumption|]. split; [lia|reflexivity].
Qed.

Lemma populate_ok_decoded (ns0 ns : hp_wmi_numeric_sensor) (wobj : acpi_object)
    (h h' : heap) :
  pop ns0 wobj h = (Ok ns, h') ->
  exists elements, wobj = AcpiPackage elements /\ decoded prep copy ns0 ns elements.
Proof.
  intros H.
  destruct (populate_ok_check _ _ _ _ _ _ _ H) as (n & Hcheck).
  destruct (check_wobj_ok_fields _ _ Hcheck)
    as (l0 & p0 & l1 & p1 & v2 & l3 & p3 & v4 & l5 & p5 & states & vb & vm & vr
        & -> & Hs & Hlen & _).
  rewrite populate_shape_run in H;
    [| assumption | destruct states; [simpl in Hlen; lia|discriminate] | lia].
  unfold populate_run in H.
  destruct (alloc h) as [[|] h0]; cbn [negb] in H; [|discriminate H].
  destruct (dup (prep p0) l0 h0) as [[s0|] h1] eqn:E0; [|discriminate H].
  destruct (dup (prep p1) l1 h1) as [[s1|] h2] eqn:E1; [|discriminate H].
  destruct (u32 v2 >? HP_WMI_TYPE_AIR_FLOW) eqn:Ety; [discriminate H|].
  assert (Hty : u32 v2 <= HP_WMI_TYPE_AIR_FLOW)
    by (rewrite Z.gtb_ltb in Ety; apply Z.ltb_ge in Ety; exact Ety).
  eexists. split; [reflexivity|].
  exists l0, p0, l1, p1, v2, l3, p3, v4, l5, p5, states, vb, vm, vr.
  destruct (u32 v2 =? HP_WMI_TYPE_OTHER) eqn:Eo.
  - destruct (dup (prep p3) l3 h2) as [[s3|] h3] eqn:E3; [|discriminate H].
    destruct (dup (prep p5) l5 h3) as [[s5|] h4] eqn:E5; [|discriminate H].
    destruct (dup_states prep dup states h4) as [[strs|] h5] eqn:Ed; [|discriminate H].
    inversion H; subst. cbn.
    rewrite (dup_some _ _ _ _ _ E0), (dup_some _ _ _ _ _ E1),
      (dup_some _ _ _ _ _ E3), (dup_some _ _ _ _ _ E5),
      (dup_states_some _ _ _ _ Hs Ed).
    split; [reflexivity|]. split; [assumption|]. split; [assumption|].
    split; [reflexivity|]. split; [reflexivity|]. split; [reflexivity|].
    split; [assumption|]. split; [reflexivity|]. split; [reflexivity|].
    split; [reflexivity|]. split; [reflexivity|]. split; [reflexivity|].
    split; [reflexivity|]. split; reflexivity.
  - destruct (dup (prep p5) l5 h2) as [[s5|] h4] eqn:E5; [|discriminate H].
    destruct (dup_states prep dup states h4) as [[strs|] h5] eqn:Ed; [|discriminate H].
    inversion H; subst. cbn.
    rewrite (dup_some _ _ _ _ _ E0), (dup_some _ _ _ _ _ E1),
      (dup_some _ _ _ _ _ E5), (dup_states_some _ _ _ _ Hs Ed).
    split; [reflexivity|]. split; [assumption|]. split; [assumption|].
    split; [reflexivity|]. split; [reflexivity|]. split; [reflexivity|].
    split; [assumption|]. split; [reflexivity|]. split; [reflexivity|].
    split; [reflexivity|]. split; [reflexivity|]. split; [reflexivity|].
    split; [reflexivity|]. split; reflexivity.
Qed.

(** With no allocation failing, the decoder succeeds exactly on the
    validated records whose SensorType is within range. *)
Lemma populate_nil_succeeds (ns0 : hp_wmi_numeric_sensor) (wobj : acpi_object) :
  (exists ns, pop ns0 wobj [] = (Ok ns, [])) <->
  (exists n elements v,
     check_wobj wobj = Ok n /\ wobj = AcpiPackage elements /\
     nth_error elements (Z.to_nat HP_WMI_PROPERTY_SENSOR_TYPE) = Some (AcpiInteger v) /\
     u32 v <= HP_WMI_TYPE_AIR_FLOW).
Proof.
  split.
  - intros (ns & H).
    destruct (populate_ok_check _ _ _ _ _ _ _ H) as (n & Hcheck).
    destruct (populate_ok_decoded _ _ _ _ _ H) as (elements & -> & D).
    destruct D as (l0 & p0 & l1 & p1 & v2 & l3 & p3 & v4 & l5 & p5 & states
                   & vb & vm & vr & -> & _ & _ & _ & _ & _ & Hty & _).
    exists n. eexists. exists v2. split; [exact Hcheck|].
    split; [reflexivity|]. split; [reflexivity|exact Hty].
  - intros (n & elements & v & Hcheck & -> & Hv & Hty).
    destruct (check_wobj_ok_fields _ _ Hcheck)
      as (l0 & p0 & l1 & p1 & v2 & l3 & p3 & v4 & l5 & p5 & states & vb & vm & vr
          & Hw & Hs & Hlen & _).
    assert (He : elements
                 = [AcpiString l0 p0; AcpiString l1 p1; AcpiInteger v2;
                    AcpiString l3 p3; AcpiInteger v4; AcpiString l5 p5]
                   ++ states ++ [AcpiInteger vb; AcpiInteger vm; AcpiInteger vr])
      by congruence.
    clear Hw. subst elements. cbn in Hv. injection Hv as <-.
    rewrite populate_shape_run;
      [| assumption | destruct states; [simpl in Hlen; lia|discriminate] | lia].
    unfold populate_run. cbn [alloc negb]. rewrite !dup_nil.
    replace (u32 v2 >? HP_WMI_TYPE_AIR_FLOW) with false
      by (symmetry; rewrite Z.gtb_ltb; apply Z.ltb_ge; exact Hty).
    destruct (u32 v2 =? HP_WMI_TYPE_OTHER);
      rewrite ?dup_nil, (dup_states_nil _ Hs); eauto.
Qed.

End PopulateDecoded.

Lemma alloc_fails (h h' : heap) : alloc h = (false, h') -> In false h.
Proof.
  destruct h as [|[|] h0]; cbn; intros H; inversion H. left. reflexivity.
Qed.

Lemma alloc_keeps_failure (h h' : heap) (ok : bool) :
  alloc h = (ok, h') -> In false h' -> In false h.
Proof.
  destruct h as [|b h0]; cbn; intros H Hin; inversion H; subst; [exact Hin|].
  right. exact Hin.
Qed.

Section PopulateErrors.

Variable prep : string -> string.
Variable dup : string -> Z -> heap -> option string * heap.
Variable copy : string -> Z -> string.

Hypothesis Hdup :
  forall src len h,
    dup src len h
    = let '(ok, h') := alloc h in
      if ok then (Some (copy src len), h') else (None, h').

Lemma dup_fails (src : string) (len : Z) (h h' : heap) :
  dup src len h = (None, h') -> In false h.
Proof.
  rewrite Hdup. destruct (alloc h) as [[|] h1] eqn:E; intros H; inversion H; subst.
  eapply alloc_fails; exact E.
Qed.

Lemma dup_keeps_failure (src : string) (len : Z) (h h' : heap) (o : option string) :
  dup src len h = (o, h') -> In false h' -> In false h.
Proof.
  rewrite Hdup. destruct (alloc h) as [[|] h1] eqn:E; intros H; inversion H; subst;
    eapply alloc_keeps_failure; exact E.
Qed.

Lemma dup_states_fails (states : list acpi_object) :
  forall (h h' : heap) (o : option (list (option string))),
    dup_states prep dup states h = (o, h') ->
    (o = None -> In false h) /\ (In false h' -> In false h).
Proof.
  induction states as [|s states IH]; intros h h' o H.
  - cbn in H. inversion H; subst. split; [discriminate|auto].
  - destruct s as [v|len p|len|els|]; cbn [dup_states] in H;
      try (inversion H; subst; split; [discriminate|auto]; fail).
    destruct (dup (prep p) len h) as [[str|] h1] eqn:E.
    + destruct (dup_states prep dup states h1) as [[l|] h2] eqn:E2;
        inversion H; subst; destruct (IH _ _ _ E2) as [I1 I2]; split;
        try discriminate; intros; eapply dup_keeps_failure; eauto.
    + inversion H; subst. split; intros; [eapply dup_fails; eauto|].
      eapply dup_keeps_failure; eauto.
Qed.

Local Abbreviation pop' := (populate_numeric_sensor_from_wobj prep dup).

(** The error codes of the decoder: [-EINVAL] for a record that fails
    validation or whose SensorType is out of range, [-ENOMEM] when an
    allocation failed, and nothing else. *)
Lemma populate_error_codes (ns0 : hp_wmi_numeric_sensor) (wobj : acpi_object)
    (h h' : heap) (e : Z) :
  pop' ns0 wobj h = (Err e, h') ->
  e = - EINVAL \/ (e = - ENOMEM /\ In false h).
Proof.
  intros H. destruct (check_wobj wobj) as [n|e'|] eqn:Hcheck.
  - destruct (check_wobj_ok_fields _ _ Hcheck)
      as (l0 & p0 & l1 & p1 & v2 & l3 & p3 & v4 & l5 & p5 & states & vb & vm & vr
          & -> & Hs & Hlen & _).
    rewrite populate_shape_run in H;
      [| assumption | destruct states; [simpl in Hlen; lia|discriminate] | lia].
    unfold populate_run in H.
    destruct (alloc h) as [[|] h0] eqn:A; cbn [negb] in H.
    2:{ inversion H; subst. right. split; [reflexivity|]. eapply alloc_fails; eauto. }
    assert (K0 : In false h0 -> In false h) by (eapply alloc_keeps_failure; eauto).
    destruct (dup (prep p0) l0 h0) as [[s0|] h1] eqn:E0.
    2:{ inversion H; subst. right. split; [reflexivity|].
        apply K0. eapply dup_fails; eauto. }
    assert (K1 : In false h1 -> In false h)
      by (intros; apply K0; eapply dup_keeps_failure; eauto).
    destruct (dup (prep p1) l1 h1) as [[s1|] h2] eqn:E1.
    2:{ inversion H; subst. right. split; [reflexivity|].
        apply K1. eapply dup_fails; eauto. }
    assert (K2 : In false h2 -> In false h)
      by (intros; apply K1; eapply dup_keeps_failure; eauto).
    destruct (u32 v2 >? HP_WMI_TYPE_AIR_FLOW);
      [inversion H; subst; left; reflexivity|].
    assert (Hend : forall h3, (In false h3 -> In false h) ->
              match dup (prep p5) l5 h3 with
              | (None, h4) => (Err (- ENOMEM), h4)
              | (Some s5, h4) =>
                  match dup_states prep dup states h4 with
                  | (None, h5) => (@Err hp_wmi_numeric_sensor (- ENOMEM), h5)
                  | (Some strs, h5) => (Ok ns0, h5)
                  end
              end = (Err e, h') -> e = - ENOMEM /\ In false h).
    { intros h3 K3 H3.
      destruct (dup (prep p5) l5 h3) as [[s5|] h4] eqn:E5.
      2:{ inversion H3; subst. split; [reflexivity|].
          apply K3. eapply dup_fails; eauto. }
      destruct (dup_states prep dup states h4) as [[strs|] h5] eqn:Ed;
        [discriminate H3|].
      inversion H3; subst. split; [reflexivity|].
      apply K3. eapply dup_keeps_failure; [exact E5|].
      eapply (proj1 (dup_states_fails _ _ _ _ Ed)). reflexivity. }
    right. destruct (u32 v2 =? HP_WMI_TYPE_OTHER).
    + destruct (dup (prep p3) l3 h2) as [[s3|] h3] eqn:E3.
      2:{ inversion H; subst. split; [reflexivity|].
          apply K2. eapply dup_fails; eauto. }
      apply (Hend h3); [intros; apply K2; eapply dup_keeps_failure; eauto|].
      destruct (dup (prep p5) l5 h3) as [[s5|] h4]; [|exact H].
      destruct (dup_states prep dup states h4) as [[strs|] h5];
        [discriminate H|exact H].
    + apply (Hend h2 K2).
      destruct (dup (prep p5) l5 h2) as [[s5|] h4]; [|exact H].
      destruct (dup_states prep dup states h4) as [[strs|] h5];
        [discriminate H|exact H].
  - rewrite (populate_check_err _ _ _ _ _ _ Hcheck) in H. inversion H; subst.
    left. eapply check_wobj_error; exact Hcheck.
  - exfalso. exact (check_wobj_defined _ Hcheck).
Qed.

End PopulateErrors.

(** X2. The decoder of either revision reads no element that [check_wobj]
    has not vetted: on every object and whatever the allocator does it
    returns a record or an error code.  The code is [-EINVAL] or
    [-ENOMEM], and [-ENOMEM] only when an allocation failed. *)
Theorem populate_stays_within_validated_record
    (ns0 : hp_wmi_numeric_sensor) (wobj : acpi_object) (h : heap) :
  (fst (Rev1.populate_numeric_sensor_from_wobj ns0 wobj h) <> Undefined /\
   forall e h',
     Rev1.populate_numeric_sensor_from_wobj ns0 wobj h = (Err e, h') ->
     e = - EINVAL \/ (e = - ENOMEM /\ In false h)) /\
  (fst (Rev2.populate_numeric_sensor_from_wobj ns0 wobj h) <> Undefined /\
   forall e h',
     Rev2.populate_numeric_sensor_from_wobj ns0 wobj h = (Err e, h') ->
     e = - EINVAL \/ (e = - ENOMEM /\ In false h)).
Proof.
  split; (split; [apply populate_defined|]); intros e h'.
  - apply (populate_error_codes _ _ rev1_copy rev1_strdup_alloc).
  - apply (populate_error_codes _ _ rev2_copy rev2_strdup_alloc).
Qed.

(** X3. A successful decoding stores the fields of the record: the copies
    of Name, Description and CurrentState, SensorType (at most 12),
    OperationalStatus, BaseUnits and CurrentReading truncated to 32 bits,
    UnitModifier as a signed 32-bit value, one copy per PossibleStates entry
    and their number; OtherSensorType is copied only when SensorType is
    "Other" and left as it was otherwise.  The first revision copies at
    most [min(length, 127)] characters, the second trims the string and
    copies at most 127. *)
Theorem populate_decodes_fields
    (ns0 ns : hp_wmi_numeric_sensor) (wobj : acpi_object) (h h' : heap) :
  (Rev1.populate_numeric_sensor_from_wobj ns0 wobj h = (Ok ns, h') ->
   exists elements,
     wobj = AcpiPackage elements /\
     decoded (fun s => s) rev1_copy ns0 ns elements) /\
  (Rev2.populate_numeric_sensor_from_wobj ns0 wobj h = (Ok ns, h') ->
   exists elements,
     wobj = AcpiPackage elements /\ decoded strim rev2_copy ns0 ns elements).
Proof.
  split.
  - apply (populate_ok_decoded _ _ rev1_copy rev1_strdup_alloc).
  - apply (populate_ok_decoded _ _ rev2_copy rev2_strdup_alloc).
Qed.

(** X4. When no allocation fails, the decoder of either revision succeeds
    exactly on the records that [check_wobj] accepts and whose SensorType,
    truncated to 32 bits, is at most the Air Flow code. *)
Theorem populate_succeeds_iff_valid
    (ns0 : hp_wmi_numeric_sensor) (wobj : acpi_object) :
  let valid :=
    exists n elements v,
      check_wobj wobj = Ok n /\ wobj = AcpiPackage elements /\
      nth_error elements (Z.to_nat HP_WMI_PROPERTY_SENSOR_TYPE)
      = Some (AcpiInteger v) /\
      u32 v <= HP_WMI_TYPE_AIR_FLOW in
  ((exists ns, Rev1.populate_numeric_sensor_from_wobj ns0 wobj [] = (Ok ns, []))
   <-> valid) /\
  ((exists ns, Rev2.populate_numeric_sensor_from_wobj ns0 wobj [] = (Ok ns, []))
   <-> valid).
Proof.
  cbv zeta. split.
  - apply (populate_nil_succeeds _ _ rev1_copy rev1_strdup_alloc).
  - apply (populate_nil_succeeds _ _ rev2_copy rev2_strdup_alloc).
Qed.

Lemma decoded_strings_bounded (prep : string -> string)
    (copy : string -> Z -> string) (ns0 ns : hp_wmi_numeric_sensor)
    (elements : list acpi_object) :
  (forall src len, (String.length (copy src len) <= 127)%nat) ->
  decoded prep copy ns0 ns elements ->
  bounded_string (name ns) /\ bounded_string (description ns) /\
  bounded_string (current_state ns) /\
  Forall bounded_string (possible_states ns) /\
  Z.of_nat (List.length (possible_states ns)) = possible_states_count ns /\
  1 <= possible_states_count ns <= 23 /\
  (sensor_type ns = HP_WMI_TYPE_OTHER -> bounded_string (other_sensor_type ns)) /\
  (sensor_type ns <> HP_WMI_TYPE_OTHER ->
   other_sensor_type ns = other_sensor_type ns0).
Proof.
  intros Hcopy (l0 & p0 & l1 & p1 & v2 & l3 & p3 & v4 & l5 & p5 & states
                & vb & vm & vr & _ & Hs & Hlen & Hn & Hd & Ht & _ & Ho & _ & Hc
                & Hp & Hcount & _).
  unfold bounded_string. rewrite Hn, Hd, Hc, Hp, Hcount, Ho, Ht, length_map.
  split; [eauto|]. split; [eauto|]. split; [eauto|]. split.
  - apply Forall_forall. intros o Hin. apply in_map_iff in Hin.
    destruct Hin as (e & <- & Hin).
    rewrite Forall_forall in Hs. destruct (is_string_inv e (Hs e Hin)) as (len & p & ->).
    cbn. eauto.
  - split; [reflexivity|]. split; [lia|]. split.
    + intros ->. rewrite Z.eqb_refl. eauto.
    + intros Hne. apply Z.eqb_neq in Hne. rewrite Hne. reflexivity.
Qed.

(** X5. After a successful decoding, Name, Description, CurrentState and
    every possible state are non-null strings of at most 127 characters,
    there are exactly [possible_states_count] possible states, between 1 and
    23, and OtherSensorType is such a string when SensorType is "Other" and
    untouched otherwise. *)
Theorem populate_strings_bounded
    (ns0 ns : hp_wmi_numeric_sensor) (wobj : acpi_object) (h h' : heap) :
  let bounded :=
    bounded_string (name ns) /\ bounded_string (description ns) /\
    bounded_string (current_state ns) /\
    Forall bounded_string (possible_states ns) /\
    Z.of_nat (List.length (possible_states ns)) = possible_states_count ns /\
    1 <= possible_states_count ns <= 23 /\
    (sensor_type ns = HP_WMI_TYPE_OTHER -> bounded_string (other_sensor_type ns)) /\
    (sensor_type ns <> HP_WMI_TYPE_OTHER ->
     other_sensor_type ns = other_sensor_type ns0) in
  (Rev1.populate_numeric_sensor_from_wobj ns0 wobj h = (Ok ns, h') -> bounded) /\
  (Rev2.populate_numeric_sensor_from_wobj ns0 wobj h = (Ok ns, h') -> bounded).
Proof.
  cbv zeta. split; intros H.
  - destruct (populate_ok_decoded _ _ rev1_copy rev1_strdup_alloc _ _ _ _ _ H)
      as (elements & _ & D).
    eapply decoded_strings_bounded; [|exact D].
    intros src len. apply rev_copy_length.
  - destruct (populate_ok_decoded _ _ rev2_copy rev2_strdup_alloc _ _ _ _ _ H)
      as (elements & _ & D).
    eapply decoded_strings_bounded; [|exact D].
    intros src len. apply rev_copy_length.
Qed.

Lemma u32_range (z : Z) : is_u32 (u32 z).
Proof. unfold is_u32, u32, wrap_unsigned. apply Z.mod_pos_bound. lia. Qed.

Lemma s32_range (z : Z) : is_s32 (s32 z).
Proof.
  unfold is_s32, s32, wrap_signed.
  pose proof (Z.mod_pos_bound (z + 2 ^ (32 - 1)) (2 ^ 32) ltac:(lia)).
  change (2 ^ (32 - 1)) with 2147483648 in *. change (2 ^ 31) with 2147483648.
  change (2 ^ 32) with 4294967296 in *. lia.
Qed.

(** X6. The reading of a decoded sensor is within the range on which the
    scaling is exact: scaling it involves no wrap-around in either
    revision, and gives the conversion of the clamped decade-scaled
    value. *)
Theorem populate_then_scale_no_wrap
    (ns0 ns : hp_wmi_numeric_sensor) (wobj : acpi_object) (h h' : heap) :
  (Rev1.populate_numeric_sensor_from_wobj ns0 wobj h = (Ok ns, h') ->
   is_u32 (current_reading ns) /\ is_s32 (unit_modifier ns) /\
   is_long (Rev1.scale_numeric_sensor ns) /\
   Rev1.scale_numeric_sensor ns
   = convert_exact fahrenheit_truncating (sensor_type ns) (base_units ns)
       (decade_clamped ns)) /\
  (Rev2.populate_numeric_sensor_from_wobj ns0 wobj h = (Ok ns, h') ->
   is_u32 (current_reading ns) /\ is_s32 (unit_modifier ns) /\
   is_long (Rev2.scale_numeric_sensor ns) /\
   Rev2.scale_numeric_sensor ns
   = convert_exact fahrenheit_rounding (sensor_type ns) (base_units ns)
       (decade_clamped ns)).
Proof.
  split; intros H.
  - destruct (populate_ok_decoded _ _ rev1_copy rev1_strdup_alloc _ _ _ _ _ H)
      as (elements & _ & D).
    destruct D as (l0 & p0 & l1 & p1 & v2 & l3 & p3 & v4 & l5 & p5 & states
                   & vb & vm & vr & _ & _ & _ & _ & _ & _ & _ & _ & _ & _ & _ & _
                   & _ & Hm & Hr).
    assert (R : is_u32 (current_reading ns)) by (rewrite Hr; apply u32_range).
    assert (M : is_s32 (unit_modifier ns)) by (rewrite Hm; apply s32_range).
    destruct (rev1_scale_exact ns R M) as [E L]. auto.
  - destruct (populate_ok_decoded _ _ rev2_copy rev2_strdup_alloc _ _ _ _ _ H)
      as (elements & _ & D).
    destruct D as (l0 & p0 & l1 & p1 & v2 & l3 & p3 & v4 & l5 & p5 & states
                   & vb & vm & vr & _ & _ & _ & _ & _ & _ & _ & _ & _ & _ & _ & _
                   & _ & Hm & Hr).
    assert (R : is_u32 (current_reading ns)) by (rewrite Hr; apply u32_range).
    assert (M : is_s32 (unit_modifier ns)) by (rewrite Hm; apply s32_range).
    destruct (rev2_scale_exact ns R M) as [E L]. auto.
Qed.

Section UpdateShape.

Variable prep : string -> string.
Variable dup : string -> Z -> heap -> option string * heap.

Local Abbreviation upd := (update_numeric_sensor_from_wobj prep dup).

(** The update pass on a package whose elements 4 and 5 are an Integer and
    a String: OperationalStatus and CurrentState are taken from them, and
    the two reads behind PossibleStates go through the stored count. *)
Lemma update_unfold (ns : hp_wmi_numeric_sensor) (e0 e1 e2 e3 : acpi_object)
    (v4 l5 : Z) (p5 : string) (rest : list acpi_object) (h : heap) (s : string) :
  current_state ns = Some s ->
  1 <= possible_states_count ns <= 256 ->
  let elements := e0 :: e1 :: e2 :: e3 :: AcpiInteger v4 :: AcpiString l5 p5 :: rest in
  upd ns (AcpiPackage elements) h
  = let '(cs, h') :=
      if strcmp_ne (prep p5) s then dup (prep p5) l5 h else (Some s, h) in
    match integer_value rest (Z.to_nat (possible_states_count ns + 1)),
          integer_value rest (Z.to_nat (possible_states_count ns + 2)) with
    | Ok modifier, Ok reading =>
        (Ok (set_current_reading
               (set_unit_modifier
                  (set_current_state (set_operational_status ns (u32 v4)) cs)
                  (s32 modifier))
               (u32 reading)), h')
    | _, _ => (Undefined, h')
    end.
Proof.
  intros Hcur Hn elements. unfold update_numeric_sensor_from_wobj.
  change (integer_value elements (Z.to_nat HP_WMI_PROPERTY_OPERATIONAL_STATUS))
    with (@Ok Z v4).
  change (string_members elements (Z.to_nat HP_WMI_PROPERTY_CURRENT_STATE))
    with (@Ok (Z * string) (l5, p5)).
  rewrite Hcur.
  assert (Hidx : forall (ns1 : hp_wmi_numeric_sensor) (k : Z),
            possible_states_count ns1 = possible_states_count ns ->
            0 <= k ->
            integer_value elements
              (Z.to_nat (7 + k + u8 (possible_states_count ns1 - 1)))
            = integer_value rest (Z.to_nat (possible_states_count ns + k))).
  { intros ns1 k Hc Hk. rewrite Hc, u8_small by lia.
    unfold integer_value, elements.
    replace (Z.to_nat (7 + k + (possible_states_count ns - 1)))
      with (6 + Z.to_nat (possible_states_count ns + k))%nat by lia.
    reflexivity. }
  destruct (strcmp_ne (prep p5) s).
  - destruct (dup (prep p5) l5 h) as [s' h'].
    change HP_WMI_PROPERTY_UNIT_MODIFIER with (7 + 1).
    change HP_WMI_PROPERTY_CURRENT_READING with (7 + 2).
    rewrite !Hidx by (reflexivity || lia). reflexivity.
  - change HP_WMI_PROPERTY_UNIT_MODIFIER with (7 + 1).
    change HP_WMI_PROPERTY_CURRENT_READING with (7 + 2).
    rewrite !Hidx by (reflexivity || lia).
    replace (set_current_state (set_operational_status ns (u32 v4)) (Some s))
      with (set_operational_status ns (u32 v4))
      by (destruct ns; cbn in Hcur; rewrite Hcur; reflexivity).
    reflexivity.
Qed.

(** What the two reads find in [states ++ [BaseUnits; UnitModifier;
    CurrentReading]] when the stored count is [n]. *)
Lemma integer_value_behind_states (states : list acpi_object) (vb vm vr : Z)
    (k : nat) :
  Forall is_string states ->
  integer_value (states ++ [AcpiInteger vb; AcpiInteger vm; AcpiInteger vr]) k
  = if (k <? List.length states)%nat then Undefined
    else match (k - List.length states)%nat with
         | 0%nat => Ok vb
         | 1%nat => Ok vm
         | 2%nat => Ok vr
         | _ => Undefined
         end.
Proof.
  intros Hs. unfold integer_value.
  destruct (k <? List.length states)%nat eqn:E.
  - apply Nat.ltb_lt in E. rewrite nth_error_app1 by exact E.
    destruct (nth_error states k) as [e|] eqn:Hk;
      [|apply nth_error_None in Hk; lia].
    rewrite Forall_forall in Hs.
    destruct (is_string_inv e (Hs e (nth_error_In _ _ Hk))) as (len & p & ->).
    reflexivity.
  - apply Nat.ltb_ge in E. rewrite nth_error_app2 by exact E.
    destruct (k - List.length states)%nat as [|[|[|j]]]; try reflexivity.
    cbn. destruct j; reflexivity.
Qed.

End UpdateShape.

Section UpdateValidated.

Variable prep : string -> string.
Variable dup : string -> Z -> heap -> option string * heap.

Local Abbreviation upd' := (update_numeric_sensor_from_wobj prep dup).

(** The update pass on a validated record of [m] possible states, for a
    sensor that stores the count [n]. *)
Lemma update_validated_run (ns : hp_wmi_numeric_sensor) (wobj : acpi_object)
    (m : Z) (h : heap) (s : string) :
  check_wobj wobj = Ok m ->
  current_state ns = Some s ->
  1 <= possible_states_count ns <= 256 ->
  exists elements v4 l5 p5 vb vm vr,
    wobj = AcpiPackage elements /\
    nth_error elements 4 = Some (AcpiInteger v4) /\
    nth_error elements 5 = Some (AcpiString l5 p5) /\
    nth_error elements (Z.to_nat (6 + m)) = Some (AcpiInteger vb) /\
    nth_error elements (Z.to_nat (7 + m)) = Some (AcpiInteger vm) /\
    nth_error elements (Z.to_nat (8 + m)) = Some (AcpiInteger vr) /\
    upd' ns wobj h
    = let '(cs, h') :=
        if strcmp_ne (prep p5) s then dup (prep p5) l5 h else (Some s, h) in
      if possible_states_count ns =? m then (Ok (updated ns v4 cs vm vr), h')
      else if possible_states_count ns + 1 =? m
           then (Ok (updated ns v4 cs vb vm), h')
           else (Undefined, h').
Proof.
  intros Hcheck Hcur Hn.
  destruct (check_wobj_ok_fields _ _ Hcheck)
    as (l0 & p0 & l1 & p1 & v2 & l3 & p3 & v4 & l5 & p5 & states & vb & vm & vr
        & -> & Hs & Hlen & ->).
  eexists. exists v4, l5, p5, vb, vm, vr.
  split; [reflexivity|]. split; [reflexivity|]. split; [reflexivity|].
  assert (Htl : forall j e,
            nth_error [AcpiInteger vb; AcpiInteger vm; AcpiInteger vr] j = Some e ->
            nth_error
              ([AcpiString l0 p0; AcpiString l1 p1; AcpiInteger v2;
                AcpiString l3 p3; AcpiInteger v4; AcpiString l5 p5]
               ++ states ++ [AcpiInteger vb; AcpiInteger vm; AcpiInteger vr])
              (Z.to_nat (6 + Z.of_nat j + Z.of_nat (List.length states))) = Some e).
  { intros j e Hj.
    rewrite nth_error_app2 by (cbn [List.length]; lia).
    rewrite nth_error_app2 by (cbn [List.length]; lia).
    replace (Z.to_nat (6 + Z.of_nat j + Z.of_nat (List.length states)) - _ - _)%nat
      with j by (cbn [List.length]; lia).
    exact Hj. }
  split; [replace (6 + Z.of_nat (List.length states))
            with (6 + Z.of_nat 0 + Z.of_nat (List.length states)) by lia;
          apply Htl; reflexivity|].
  split; [replace (7 + Z.of_nat (List.length states))
            with (6 + Z.of_nat 1 + Z.of_nat (List.length states)) by lia;
          apply Htl; reflexivity|].
  split; [replace (8 + Z.of_nat (List.length states))
            with (6 + Z.of_nat 2 + Z.of_nat (List.length states)) by lia;
          apply Htl; reflexivity|].
  cbn [app].
  rewrite (update_unfold prep dup ns _ _ _ _ v4 l5 p5 _ h s Hcur Hn).
  rewrite !integer_value_behind_states by exact Hs.
  destruct (if strcmp_ne (prep p5) s then dup (prep p5) l5 h else (Some s, h))
    as [cs h'].
  destruct (possible_states_count ns =? Z.of_nat (List.length states)) eqn:E1.
  - apply Z.eqb_eq in E1. rewrite E1.
    replace (Z.to_nat (Z.of_nat (List.length states) + 1) <? List.length states)%nat
      with false by (symmetry; apply Nat.ltb_ge; lia).
    replace (Z.to_nat (Z.of_nat (List.length states) + 2) <? List.length states)%nat
      with false by (symmetry; apply Nat.ltb_ge; lia).
    replace (Z.to_nat (Z.of_nat (List.length states) + 1) - List.length states)%nat
      with 1%nat by lia.
    replace (Z.to_nat (Z.of_nat (List.length states) + 2) - List.length states)%nat
      with 2%nat by lia.
    reflexivity.
  - apply Z.eqb_neq in E1.
    destruct (possible_states_count ns + 1 =? Z.of_nat (List.length states)) eqn:E2.
    + apply Z.eqb_eq in E2.
      replace (Z.to_nat (possible_states_count ns + 1) <? List.length states)%nat
        with false by (symmetry; apply Nat.ltb_ge; lia).
      replace (Z.to_nat (possible_states_count ns + 2) <? List.length states)%nat
        with false by (symmetry; apply Nat.ltb_ge; lia).
      replace (Z.to_nat (possible_states_count ns + 1) - List.length states)%nat
        with 0%nat by lia.
      replace (Z.to_nat (possible_states_count ns + 2) - List.length states)%nat
        with 1%nat by lia.
      reflexivity.
    + apply Z.eqb_neq in E2.
      destruct (Z.to_nat (possible_states_count ns + 1) <? List.length states)%nat
        eqn:E3; [reflexivity|].
      apply Nat.ltb_ge in E3.
      destruct (Z.to_nat (possible_states_count ns + 2) <? List.length states)%nat
        eqn:E4; [apply Nat.ltb_lt in E4; lia|].
      destruct (Z.to_nat (possible_states_count ns + 1) - List.length states)%nat
        as [|[|[|j]]] eqn:E5; try lia; try reflexivity.
      replace (Z.to_nat (possible_states_count ns + 2) - List.length states)%nat
        with 3%nat by lia.
      reflexivity.
Qed.

End UpdateValidated.

Lemma check_wobj_count_range (wobj : acpi_object) (n : Z) :
  check_wobj wobj = Ok n -> 1 <= n <= 23.
Proof.
  intros H. destruct (check_wobj_ok_fields _ _ H)
    as (l0 & p0 & l1 & p1 & v2 & l3 & p3 & v4 & l5 & p5 & states & vb & vm & vr
        & _ & _ & Hlen & ->).
  lia.
Qed.

(** X7. On a record that [check_wobj] accepts with the count stored at
    discovery, the update pass of either revision returns, with
    OperationalStatus, UnitModifier and CurrentReading read from elements
    4, [7 + count] and [8 + count]; CurrentState is kept when the string of
    the record (trimmed, in the second revision) equals the stored one and
    replaced by a fresh copy otherwise. *)
Theorem update_reads_fungible_fields
    (ns : hp_wmi_numeric_sensor) (wobj : acpi_object) (h : heap) (s : string) :
  check_wobj wobj = Ok (possible_states_count ns) ->
  current_state ns = Some s ->
  exists elements v4 l5 p5 vm vr,
    wobj = AcpiPackage elements /\
    nth_error elements 4 = Some (AcpiInteger v4) /\
    nth_error elements 5 = Some (AcpiString l5 p5) /\
    nth_error elements (Z.to_nat (7 + possible_states_count ns))
    = Some (AcpiInteger vm) /\
    nth_error elements (Z.to_nat (8 + possible_states_count ns))
    = Some (AcpiInteger vr) /\
    Rev1.update_numeric_sensor_from_wobj ns wobj h
    = (let '(cs, h') :=
         if strcmp_ne p5 s then Rev1.hp_wmi_strdup p5 l5 h else (Some s, h) in
       (Ok (updated ns v4 cs vm vr), h')) /\
    Rev2.update_numeric_sensor_from_wobj ns wobj h
    = (let '(cs, h') :=
         if strcmp_ne (strim p5) s
         then Rev2.hp_wmi_strdup (strim p5) l5 h else (Some s, h) in
       (Ok (updated ns v4 cs vm vr), h')).
Proof.
  intros Hcheck Hcur.
  pose proof (check_wobj_count_range _ _ Hcheck) as Hn.
  destruct (update_validated_run (fun s => s) Rev1.hp_wmi_strdup ns wobj _ h s
              Hcheck Hcur ltac:(lia))
    as (elements & v4 & l5 & p5 & vb & vm & vr & -> & H4 & H5 & _ & Hm & Hr & H1).
  destruct (update_validated_run strim Rev2.hp_wmi_strdup ns _ _ h s
              Hcheck Hcur ltac:(lia))
    as (elements' & v4' & l5' & p5' & vb' & vm' & vr' & He & H4' & H5' & _ & Hm' & Hr' & H2).
  injection He as <-.
  rewrite H4 in H4'. rewrite H5 in H5'. rewrite Hm in Hm'. rewrite Hr in Hr'.
  injection H4' as <-. injection H5' as <- <-. injection Hm' as <-. injection Hr' as <-.
  exists elements, v4, l5, p5, vm, vr.
  rewrite Z.eqb_refl in H1, H2.
  split; [reflexivity|]. split; [exact H4|]. split; [exact H5|].
  split; [exact Hm|]. split; [exact Hr|]. split; [exact H1 | exact H2].
Qed.

Lemma update_reads_fungible_fields_witness :
  exists elements v4 l5 p5 vm vr,
    sample_wobj 3 "Caution" (-3) 61000 = AcpiPackage elements /\
    nth_error elements 4 = Some (AcpiInteger v4) /\
    nth_error elements 5 = Some (AcpiString l5 p5) /\
    nth_error elements (Z.to_nat (7 + 2)) = Some (AcpiInteger vm) /\
    nth_error elements (Z.to_nat (8 + 2)) = Some (AcpiInteger vr) /\
    Rev1.update_numeric_sensor_from_wobj (sample_nsensor 2 "Normal" (-3) 25000)
      (sample_wobj 3 "Caution" (-3) 61000) []
    = (let '(cs, h') :=
         if strcmp_ne p5 "Normal"
         then Rev1.hp_wmi_strdup p5 l5 [] else (Some "Normal"%string, []) in
       (Ok (updated (sample_nsensor 2 "Normal" (-3) 25000) v4 cs vm vr), h')) /\
    Rev2.update_numeric_sensor_from_wobj (sample_nsensor 2 "Normal" (-3) 25000)
      (sample_wobj 3 "Caution" (-3) 61000) []
    = (let '(cs, h') :=
         if strcmp_ne (strim p5) "Normal"
         then Rev2.hp_wmi_strdup (strim p5) l5 [] else (Some "Normal"%string, []) in
       (Ok (updated (sample_nsensor 2 "Normal" (-3) 25000) v4 cs vm vr), h')).
Proof.
  exact (update_reads_fungible_fields (sample_nsensor 2 "Normal" (-3) 25000)
           (sample_wobj 3 "Caution" (-3) 61000) [] "Normal" eq_refl eq_refl).
Defined.

(** X8. The update pass trusts the stored count.  On a validated record
    with [m] possible states, for a sensor that stores the count [n], it
    stays within the Integers behind PossibleStates only when [m = n] or
    [m = n + 1]; in the second case it takes BaseUnits for UnitModifier and
    UnitModifier for CurrentReading.  For any other [m] it reads a String
    as an Integer or past the end of the record. *)
Theorem update_trusts_stored_count
    (ns : hp_wmi_numeric_sensor) (wobj : acpi_object) (m : Z) (h : heap)
    (s : string) :
  check_wobj wobj = Ok m ->
  current_state ns = Some s ->
  1 <= possible_states_count ns <= 255 ->
  let n := possible_states_count ns in
  (fst (Rev1.update_numeric_sensor_from_wobj ns wobj h) <> Undefined
   <-> (n = m \/ n + 1 = m)) /\
  (fst (Rev2.update_numeric_sensor_from_wobj ns wobj h) <> Undefined
   <-> (n = m \/ n + 1 = m)) /\
  (n + 1 = m ->
   exists elements vb vm,
     wobj = AcpiPackage elements /\
     nth_error elements (Z.to_nat (6 + m)) = Some (AcpiInteger vb) /\
     nth_error elements (Z.to_nat (7 + m)) = Some (AcpiInteger vm) /\
     (exists ns1 h1,
        Rev1.update_numeric_sensor_from_wobj ns wobj h = (Ok ns1, h1) /\
        unit_modifier ns1 = s32 vb /\ current_reading ns1 = u32 vm) /\
     (exists ns2 h2,
        Rev2.update_numeric_sensor_from_wobj ns wobj h = (Ok ns2, h2) /\
        unit_modifier ns2 = s32 vb /\ current_reading ns2 = u32 vm)).
Proof.
  intros Hcheck Hcur Hn n.
  destruct (update_validated_run (fun s => s) Rev1.hp_wmi_strdup ns wobj _ h s
              Hcheck Hcur ltac:(lia))
    as (elements & v4 & l5 & p5 & vb & vm & vr & -> & H4 & H5 & Hb & Hm & Hr & H1).
  destruct (update_validated_run strim Rev2.hp_wmi_strdup ns _ _ h s
              Hcheck Hcur ltac:(lia))
    as (elements' & v4' & l5' & p5' & vb' & vm' & vr' & He & H4' & H5' & Hb' & Hm' & Hr' & H2).
  injection He as <-.
  rewrite Hb in Hb'. rewrite Hm in Hm'. injection Hb' as <-. injection Hm' as <-.
  unfold Rev1.update_numeric_sensor_from_wobj, Rev2.update_numeric_sensor_from_wobj.
  rewrite H1, H2. fold n.
  destruct (if strcmp_ne p5 s then Rev1.hp_wmi_strdup p5 l5 h else (Some s, h))
    as [cs1 h1].
  destruct (if strcmp_ne (strim p5') s
            then Rev2.hp_wmi_strdup (strim p5') l5' h else (Some s, h))
    as [cs2 h2].
  destruct (n =? m) eqn:E1; [apply Z.eqb_eq in E1|apply Z.eqb_neq in E1].
  - split; [split; [auto|discriminate]|]. split; [split; [auto|discriminate]|].
    intros. lia.
  - destruct (n + 1 =? m) eqn:E2; [apply Z.eqb_eq in E2|apply Z.eqb_neq in E2].
    + split; [split; [auto|discriminate]|]. split; [split; [auto|discriminate]|].
      intros _. exists elements, vb, vm.
      split; [reflexivity|]. split; [exact Hb|]. split; [exact Hm|].
      split; eexists _, _; (split; [reflexivity|]); split; reflexivity.
    + split; [split; [intros K; exfalso; apply K; reflexivity|intros [?|?]; lia]|].
      split; [split; [intros K; exfalso; apply K; reflexivity|intros [?|?]; lia]|].
      intros. lia.
Qed.

Lemma update_trusts_stored_count_witness :
  let ns := set_possible_states_count (sample_nsensor 2 "Normal" (-3) 25000) 1 in
  let wobj := sample_wobj 2 "Normal" (-3) 25000 in
  exists ns1 h1,
    Rev1.update_numeric_sensor_from_wobj ns wobj [] = (Ok ns1, h1) /\
    unit_modifier ns1 = s32 HP_WMI_UNITS_DEGREES_C /\
    current_reading ns1 = u32 (-3).
Proof.
  cbv zeta.
  destruct (proj2 (proj2 (update_trusts_stored_count
              (set_possible_states_count (sample_nsensor 2 "Normal" (-3) 25000) 1)
              (sample_wobj 2 "Normal" (-3) 25000) 2 [] "Normal"
              eq_refl eq_refl ltac:(cbn; lia))) eq_refl)
    as (elements & vb & vm & He & Hb & Hm & H1 & _).
  injection He as <-. cbn in Hb, Hm. injection Hb as <-. injection Hm as <-.
  exact H1.
Defined.

(** X9. The copy of a changed CurrentState is stored unchecked.  When the
    record's CurrentState differs from the stored one and the allocation
    of its copy fails, the update pass still returns, leaving
    [current_state] null; the next update pass on that sensor hands the
    null pointer to [strcmp], whatever record it is given. *)
Theorem update_failed_copy_nulls_state
    (ns : hp_wmi_numeric_sensor) (wobj : acpi_object) (h h0 : heap) (s : string) :
  check_wobj wobj = Ok (possible_states_count ns) ->
  current_state ns = Some s ->
  alloc h = (false, h0) ->
  exists elements l5 p5,
    wobj = AcpiPackage elements /\
    nth_error elements 5 = Some (AcpiString l5 p5) /\
    (p5 <> s ->
     exists ns1,
       Rev1.update_numeric_sensor_from_wobj ns wobj h = (Ok ns1, h0) /\
       current_state ns1 = None /\
       forall wobj' h1,
         fst (Rev1.update_numeric_sensor_from_wobj ns1 wobj' h1) = Undefined) /\
    (strim p5 <> s ->
     exists ns2,
       Rev2.update_numeric_sensor_from_wobj ns wobj h = (Ok ns2, h0) /\
       current_state ns2 = None /\
       forall wobj' h1,
         fst (Rev2.update_numeric_sensor_from_wobj ns2 wobj' h1) = Undefined).
Proof.
  intros Hcheck Hcur Halloc.
  pose proof (check_wobj_count_range _ _ Hcheck) as Hn.
  destruct (update_validated_run (fun s => s) Rev1.hp_wmi_strdup ns wobj _ h s
              Hcheck Hcur ltac:(lia))
    as (elements & v4 & l5 & p5 & vb & vm & vr & -> & H4 & H5 & Hb & Hm & Hr & H1).
  destruct (update_validated_run strim Rev2.hp_wmi_strdup ns _ _ h s
              Hcheck Hcur ltac:(lia))
    as (elements' & v4' & l5' & p5' & vb' & vm' & vr' & He & H4' & H5' & Hb' & Hm' & Hr' & H2).
  injection He as <-. rewrite H5 in H5'. injection H5' as <- <-.
  rewrite Z.eqb_refl in H1, H2.
  exists elements, l5, p5. split; [reflexivity|]. split; [exact H5|].
  assert (Hnull : forall (prep : string -> string)
                    (dup : string -> Z -> heap -> option string * heap)
                    ns1 wobj' h1,
             current_state ns1 = None ->
             fst (update_numeric_sensor_from_wobj prep dup ns1 wobj' h1)
             = Undefined).
  { intros prep dup ns1 wobj' h1 Hc.
    unfold update_numeric_sensor_from_wobj. rewrite Hc.
    destruct wobj' as [| | |els|]; try reflexivity.
    destruct (integer_value els _) as [?| |]; try reflexivity.
    destruct (string_members els _) as [[? ?]| |]; reflexivity. }
  split; intros Hne.
  - unfold strcmp_ne in H1.
    replace (String.eqb p5 s) with false in H1
      by (symmetry; apply String.eqb_neq; exact Hne).
    cbn [negb] in H1. rewrite rev1_strdup_alloc, Halloc in H1.
    eexists. split; [exact H1|]. split; [reflexivity|].
    intros wobj' h1. apply Hnull. reflexivity.
  - unfold strcmp_ne in H2.
    replace (String.eqb (strim p5) s) with false in H2
      by (symmetry; apply String.eqb_neq; exact Hne).
    cbn [negb] in H2. rewrite rev2_strdup_alloc, Halloc in H2.
    eexists. split; [exact H2|]. split; [reflexivity|].
    intros wobj' h1. apply Hnull. reflexivity.
Qed.

Lemma update_failed_copy_nulls_state_witness :
  exists ns1,
    Rev1.update_numeric_sensor_from_wobj (sample_nsensor 2 "Normal" (-3) 25000)
      (sample_wobj 3 "Caution" (-3) 61000) [false] = (Ok ns1, []) /\
    current_state ns1 = None /\
    forall wobj' h1,
      fst (Rev1.update_numeric_sensor_from_wobj ns1 wobj' h1) = Undefined.
Proof.
  destruct (update_failed_copy_nulls_state (sample_nsensor 2 "Normal" (-3) 25000)
              (sample_wobj 3 "Caution" (-3) 61000) [false] [] "Normal"
              eq_refl eq_refl eq_refl)
    as (elements & l5 & p5 & He & H5 & H1 & _).
  injection He as <-. cbn in H5. injection H5 as <- <-.
  apply H1. discriminate.
Defined.

Lemma updated_fields (ns : hp_wmi_numeric_sensor) (status : Z)
    (state : option string) (modifier reading : Z) :
  operational_status (updated ns status state modifier reading) = u32 status /\
  current_state (updated ns status state modifier reading) = state /\
  unit_modifier (updated ns status state modifier reading) = s32 modifier /\
  current_reading (updated ns status state modifier reading) = u32 reading /\
  same_fixed_fields (updated ns status state modifier reading) ns.
Proof. unfold same_fixed_fields. repeat split. Qed.

(** X10. A stale read refreshes from the firmware's record.  More than
    [HZ] ticks after the last update, [hp_wmi_update_info] issues one query;
    if it yields no object the call returns [-EIO] and leaves the sensor as
    it was, cache and time stamp included.  If it yields a record that
    [check_wobj] accepts with the stored count, the call returns 0, the
    sensor holds the record's UnitModifier and CurrentReading, the cached
    value is their scaling (computed without wrap-around) and the time
    stamp is the current tick. *)
Theorem hp_wmi_update_info_refreshes_from_record (HZ : Z) (w : world) :
  0 < HZ < 2 ^ 62 ->
  is_ulong (jiffies w) ->
  (forall info wobj s,
     is_ulong (Rev1.last_updated info) ->
     HZ < elapsed (jiffies w) (Rev1.last_updated info) <= HZ + 2 ^ 63 ->
     (firmware w (Rev1.instance info) = None ->
      Rev1.hp_wmi_update_info HZ w info
      = (Ok (- EIO, info), queried w (Rev1.instance info))) /\
     (firmware w (Rev1.instance info) = Some wobj ->
      check_wobj wobj = Ok (possible_states_count (Rev1.nsensor info)) ->
      current_state (Rev1.nsensor info) = Some s ->
      exists info' w' elements vm vr,
        Rev1.hp_wmi_update_info HZ w info = (Ok (0, info'), w') /\
        queries w' = Rev1.instance info :: queries w /\
        wobj = AcpiPackage elements /\
        nth_error elements
          (Z.to_nat (7 + possible_states_count (Rev1.nsensor info)))
        = Some (AcpiInteger vm) /\
        nth_error elements
          (Z.to_nat (8 + possible_states_count (Rev1.nsensor info)))
        = Some (AcpiInteger vr) /\
        unit_modifier (Rev1.nsensor info') = s32 vm /\
        current_reading (Rev1.nsensor info') = u32 vr /\
        Rev1.cached_val info' = Rev1.scale_numeric_sensor (Rev1.nsensor info') /\
        is_long (Rev1.cached_val info') /\
        Rev1.last_updated info' = jiffies w)) /\
  (forall info wobj s,
     is_ulong (Rev2.last_updated info) ->
     HZ < elapsed (jiffies w) (Rev2.last_updated info) <= HZ + 2 ^ 63 ->
     (firmware w (Rev2.instance info) = None ->
      Rev2.hp_wmi_update_info HZ w info
      = (Ok (- EIO, info), queried w (Rev2.instance info))) /\
     (firmware w (Rev2.instance info) = Some wobj ->
      check_wobj wobj = Ok (possible_states_count (Rev2.nsensor info)) ->
      current_state (Rev2.nsensor info) = Some s ->
      exists info' w' elements vm vr,
        Rev2.hp_wmi_update_info HZ w info = (Ok (0, info'), w') /\
        queries w' = Rev2.instance info :: queries w /\
        wobj = AcpiPackage elements /\
        nth_error elements
          (Z.to_nat (7 + possible_states_count (Rev2.nsensor info)))
        = Some (AcpiInteger vm) /\
        nth_error elements
          (Z.to_nat (8 + possible_states_count (Rev2.nsensor info)))
        = Some (AcpiInteger vr) /\
        unit_modifier (Rev2.nsensor info') = s32 vm /\
        current_reading (Rev2.nsensor info') = u32 vr /\
        Rev2.cached_val info' = Rev2.scale_numeric_sensor (Rev2.nsensor info') /\
        is_long (Rev2.cached_val info') /\
        Rev2.last_updated info' = jiffies w)).
Proof.
  intros HHZ Hj. split; intros info wobj s Hl He.
  - unfold Rev1.hp_wmi_update_info.
    rewrite (proj2 (time_after_elapsed HZ _ _ HHZ Hj Hl) He).
    unfold queried, hp_wmi_get_wobj. cbn [snd].
    split; [intros ->; reflexivity|]. intros -> Hcheck Hcur.
    cbn [mem jiffies].
    pose proof (check_wobj_count_range _ _ Hcheck) as Hn.
    destruct (update_validated_run (fun s => s) Rev1.hp_wmi_strdup
                (Rev1.nsensor info) wobj _ (mem w) s Hcheck Hcur ltac:(lia))
      as (elements & v4 & l5 & p5 & vb & vm & vr & -> & H4 & H5 & _ & Hm & Hr & H1).
    rewrite Z.eqb_refl in H1.
    unfold Rev1.update_numeric_sensor_from_wobj. rewrite H1.
    destruct (if strcmp_ne p5 s then Rev1.hp_wmi_strdup p5 l5 (mem w)
              else (Some s, mem w)) as [cs h'].
    destruct (updated_fields (Rev1.nsensor info) v4 cs vm vr)
      as (_ & _ & Um & Ur & _).
    assert (R : is_u32 (current_reading (updated (Rev1.nsensor info) v4 cs vm vr)))
      by (rewrite Ur; apply u32_range).
    assert (M : is_s32 (unit_modifier (updated (Rev1.nsensor info) v4 cs vm vr)))
      by (rewrite Um; apply s32_range).
    destruct (rev1_scale_exact _ R M) as [_ L].
    eexists _, _, elements, vm, vr. split; [reflexivity|].
    split; [reflexivity|]. split; [reflexivity|].
    split; [exact Hm|]. split; [exact Hr|].
    destruct (rev1_interpret_info_fields (jiffies w)
                (Rev1.set_nsensor info (updated (Rev1.nsensor info) v4 cs vm vr)))
      as (Hns & _).
    rewrite Hns. cbn [Rev1.set_nsensor Rev1.nsensor].
    split; [exact Um|]. split; [exact Ur|].
    unfold Rev1.interpret_info.
    destruct (negb (hwmon_eqb _ hwmon_fan)); cbn [Rev1.cached_val Rev1.last_updated
      Rev1.set_nsensor Rev1.nsensor];
      (split; [reflexivity|]); (split; [exact L|reflexivity]).
  - unfold Rev2.hp_wmi_update_info.
    rewrite (proj2 (time_after_elapsed HZ _ _ HHZ Hj Hl) He).
    unfold queried, hp_wmi_get_wobj. cbn [snd].
    split; [intros ->; reflexivity|]. intros -> Hcheck Hcur.
    cbn [mem jiffies].
    pose proof (check_wobj_count_range _ _ Hcheck) as Hn.
    destruct (update_validated_run strim Rev2.hp_wmi_strdup
                (Rev2.nsensor info) wobj _ (mem w) s Hcheck Hcur ltac:(lia))
      as (elements & v4 & l5 & p5 & vb & vm & vr & -> & H4 & H5 & _ & Hm & Hr & H1).
    rewrite Z.eqb_refl in H1.
    unfold Rev2.update_numeric_sensor_from_wobj. rewrite H1.
    destruct (if strcmp_ne (strim p5) s then Rev2.hp_wmi_strdup (strim p5) l5 (mem w)
              else (Some s, mem w)) as [cs h'].
    destruct (updated_fields (Rev2.nsensor info) v4 cs vm vr)
      as (_ & _ & Um & Ur & _).
    assert (R : is_u32 (current_reading (updated (Rev2.nsensor info) v4 cs vm vr)))
      by (rewrite Ur; apply u32_range).
    assert (M : is_s32 (unit_modifier (updated (Rev2.nsensor info) v4 cs vm vr)))
      by (rewrite Um; apply s32_range).
    destruct (rev2_scale_exact _ R M) as [_ L].
    eexists _, _, elements, vm, vr. split; [reflexivity|].
    split; [reflexivity|]. split; [reflexivity|].
    split; [exact Hm|]. split; [exact Hr|].
    cbn [Rev2.interpret_info Rev2.set_nsensor Rev2.nsensor Rev2.cached_val
         Rev2.last_updated].
    split; [exact Um|]. split; [exact Ur|].
    split; [reflexivity|]. split; [exact L|reflexivity].
Qed.

Lemma hp_wmi_update_info_refreshes_from_record_witness :
  let w := world_at 5000 (sample_firmware (sample_wobj 2 "Normal" (-3) 26000)) in
  exists info' w' elements vm vr,
    Rev2.hp_wmi_update_info 1000 w (sample_info2 3000) = (Ok (0, info'), w') /\
    queries w' = Rev2.instance (sample_info2 3000) :: queries w /\
    sample_wobj 2 "Normal" (-3) 26000 = AcpiPackage elements /\
    nth_error elements (Z.to_nat (7 + 2)) = Some (AcpiInteger vm) /\
    nth_error elements (Z.to_nat (8 + 2)) = Some (AcpiInteger vr) /\
    unit_modifier (Rev2.nsensor info') = s32 vm /\
    current_reading (Rev2.nsensor info') = u32 vr /\
    Rev2.cached_val info' = Rev2.scale_numeric_sensor (Rev2.nsensor info') /\
    is_long (Rev2.cached_val info') /\
    Rev2.last_updated info' = jiffies w.
Proof.
  cbv zeta.
  refine (proj2 (proj2 (hp_wmi_update_info_refreshes_from_record 1000
                          (world_at 5000 (sample_firmware (sample_wobj 2 "Normal" (-3) 26000)))
                          _ _)
                   (sample_info2 3000) (sample_wobj 2 "Normal" (-3) 26000) "Normal"%string
                   _ _) eq_refl eq_refl eq_refl).
  - lia.
  - unfold is_ulong. cbn. lia.
  - unfold is_ulong. cbn. lia.
  - vm_compute. split; [reflexivity | discriminate].
Defined.

(** X11. The reading history of the first revision brackets the cached
    value.  Whatever [hp_wmi_update_info] does, it never raises the lowest
    nor lowers the highest value; for a sensor other than a fan whose cached
    value lies between the two it still does afterwards, and for a fan both
    are left alone.  [reset_info_history] sets both to the cached value,
    except for a fan, and never changes the cached value. *)
Theorem rev1_history_brackets_cached_value :
  (forall HZ w info ret info' w',
     Rev1.hp_wmi_update_info HZ w info = (Ok (ret, info'), w') ->
     Rev1.lo_val info' <= Rev1.lo_val info /\
     Rev1.hi_val info <= Rev1.hi_val info' /\
     (Rev1.type info = hwmon_fan ->
      Rev1.lo_val info' = Rev1.lo_val info /\
      Rev1.hi_val info' = Rev1.hi_val info) /\
     (Rev1.type info <> hwmon_fan ->
      Rev1.lo_val info <= Rev1.cached_val info <= Rev1.hi_val info ->
      Rev1.lo_val info' <= Rev1.cached_val info' <= Rev1.hi_val info')) /\
  (forall info,
     Rev1.cached_val (Rev1.reset_info_history info) = Rev1.cached_val info /\
     (Rev1.type info <> hwmon_fan ->
      Rev1.lo_val (Rev1.reset_info_history info) = Rev1.cached_val info /\
      Rev1.hi_val (Rev1.reset_info_history info) = Rev1.cached_val info) /\
     (Rev1.type info = hwmon_fan -> Rev1.reset_info_history info = info)).
Proof.
  split.
  - intros HZ w info ret info' w' H. unfold Rev1.hp_wmi_update_info in H.
    destruct (time_after _ _).
    + destruct (hp_wmi_get_wobj w (Rev1.instance info)) as [[wobj|] w1].
      * destruct (Rev1.update_numeric_sensor_from_wobj _ _ _) as [[ns|e|] h];
          try discriminate H.
        injection H as <- <- <-. unfold Rev1.interpret_info.
        cbn [Rev1.set_nsensor Rev1.type Rev1.lo_val Rev1.hi_val Rev1.nsensor].
        destruct (hwmon_eqb (Rev1.type info) hwmon_fan) eqn:E; cbn [negb];
          cbn [Rev1.lo_val Rev1.hi_val Rev1.cached_val].
        -- split; [lia|]. split; [lia|]. split; [auto|].
           intros Hne. apply hwmon_eqb_eq in E. contradiction.
        -- split; [lia|]. split; [lia|]. split; [|intros; lia].
           intros Hf. rewrite Hf, hwmon_eqb_refl in E. discriminate E.
      * injection H as <- <- <-. split; [lia|]. split; [lia|]. auto.
    + injection H as <- <- <-. split; [lia|]. split; [lia|]. auto.
  - intros info. unfold Rev1.reset_info_history.
    destruct (hwmon_eqb (Rev1.type info) hwmon_fan) eqn:E; cbn [negb].
    + split; [reflexivity|]. split; [|reflexivity].
      intros Hne. apply hwmon_eqb_eq in E. contradiction.
    + cbn. split; [reflexivity|]. split; [auto|].
      intros Hf. rewrite Hf, hwmon_eqb_refl in E. discriminate E.
Qed.

Lemma decoded_ranges (prep : string -> string) (copy : string -> Z -> string)
    (ns0 ns : hp_wmi_numeric_sensor) (elements : list acpi_object) :
  decoded prep copy ns0 ns elements ->
  is_u32 (current_reading ns) /\ is_s32 (unit_modifier ns).
Proof.
  intros (l0 & p0 & l1 & p1 & v2 & l3 & p3 & v4 & l5 & p5 & states
          & vb & vm & vr & _ & _ & _ & _ & _ & _ & _ & _ & _ & _ & _ & _
          & _ & Hm & Hr).
  rewrite Hm, Hr. split; [apply u32_range | apply s32_range].
Qed.

(** ** Discovery, entry by entry *)

Lemma rev1_discover_instance_entry (fw : Z -> option acpi_object) (i : nat)
    (wobj : acpi_object) (d d' : Rev1.discovery) (w w' : world) :
  nth_error (Rev1.d_info d) i = Some Rev1.zero_info ->
  fw (Z.of_nat i) = Some wobj ->
  Rev1.discover_instance i wobj d w = (Ok d', w') ->
  jiffies w' = jiffies w /\ firmware w' = firmware w /\
  (forall j, j <> i -> nth_error (Rev1.d_info d') j = nth_error (Rev1.d_info d) j) /\
  exists inf,
    nth_error (Rev1.d_info d') i = Some inf /\ rev1_entry fw (jiffies w) i inf.
Proof.
  intros Hnth Hfw H. unfold Rev1.discover_instance in H. rewrite Hnth in H.
  cbn [Rev1.set_instance Rev1.nsensor Rev1.zero_info] in H.
  destruct (Rev1.populate_numeric_sensor_from_wobj zero_nsensor wobj (mem w))
    as [[ns|e|] h] eqn:Hpop; try discriminate H.
  destruct (populate_ok_decoded _ _ rev1_copy rev1_strdup_alloc _ _ _ _ _ Hpop)
    as (elements & -> & D).
  destruct (decoded_ranges _ _ _ _ _ D) as [R M].
  destruct (rev1_scale_exact ns R M) as [_ L].
  unfold rev1_entry, rev1_live.
  destruct (Rev1.numeric_sensor_has_fault ns || (classify_numeric_sensor ns <? 0))
    eqn:Egate.
  - destruct (list_set (Rev1.d_info d) i _) as [l|] eqn:Hset; [|discriminate H].
    injection H as <- <-. cbn [Rev1.d_info jiffies firmware set_mem].
    destruct (list_set_spec _ _ _ _ Hset) as (_ & _ & Hi & Hother).
    split; [reflexivity|]. split; [reflexivity|]. split; [exact Hother|].
    eexists. split; [exact Hi|]. exists elements.
    cbn [Rev1.set_nsensor Rev1.nsensor Rev1.instance Rev1.is_active Rev1.zero_info].
    split; [exact Hfw|]. split; [exact D|]. split; [reflexivity|].
    split; [|discriminate].
    symmetry. apply orb_true_iff in Egate. destruct Egate as [E|E].
    + rewrite E. reflexivity.
    + apply Z.ltb_lt in E. apply andb_false_intro2. apply Z.leb_gt. exact E.
  - destruct (list_set (Rev1.d_info d) i _) as [l|] eqn:Hset; [|discriminate H].
    injection H as <- <-. cbn [Rev1.d_info jiffies firmware set_mem].
    destruct (list_set_spec _ _ _ _ Hset) as (_ & _ & Hi & Hother).
    split; [reflexivity|]. split; [reflexivity|]. split; [exact Hother|].
    eexists. split; [exact Hi|]. exists elements.
    apply orb_false_iff in Egate. destruct Egate as [E1 E2].
    apply Z.ltb_ge in E2.
    unfold Rev1.interpret_info.
    cbn [Rev1.set_nsensor Rev1.set_instance Rev1.nsensor Rev1.instance
         Rev1.is_active Rev1.zero_info Rev1.cached_val Rev1.last_updated
         Rev1.type Rev1.lo_val Rev1.hi_val jiffies set_mem].
    unfold is_long in L.
    destruct (hwmon_eqb (hp_wmi_hwmon_type_map (classify_numeric_sensor ns)) hwmon_fan)
      eqn:Efan; cbn [negb];
      cbn [Rev1.nsensor Rev1.instance Rev1.is_active Rev1.cached_val
           Rev1.last_updated Rev1.type Rev1.lo_val Rev1.hi_val];
      (split; [exact Hfw|]); (split; [exact D|]); (split; [reflexivity|]);
      (split; [rewrite E1; symmetry; apply andb_true_intro; split;
               [reflexivity|apply Z.leb_le; exact E2]|]);
      intros _; (split; [reflexivity|]); (split; [reflexivity|]);
      (split; [reflexivity|]); intros Hne.
    + apply hwmon_eqb_eq in Efan. contradiction.
    + split; lia.
Qed.

Lemma rev2_discover_instance_entry (fw : Z -> option acpi_object) (i : nat)
    (wobj : acpi_object) (d d' : Rev2.discovery) (w w' : world) :
  nth_error (Rev2.d_info d) i = Some Rev2.zero_info ->
  fw (Z.of_nat i) = Some wobj ->
  Rev2.discover_instance i wobj d w = (Ok d', w') ->
  jiffies w' = jiffies w /\ firmware w' = firmware w /\
  (forall j, j <> i -> nth_error (Rev2.d_info d') j = nth_error (Rev2.d_info d) j) /\
  exists inf,
    nth_error (Rev2.d_info d') i = Some inf /\ rev2_entry fw (jiffies w) i inf.
Proof.
  intros Hnth Hfw H. unfold Rev2.discover_instance in H. rewrite Hnth in H.
  cbn [Rev2.set_instance Rev2.nsensor Rev2.zero_info] in H.
  destruct (Rev2.populate_numeric_sensor_from_wobj zero_nsensor wobj (mem w))
    as [[ns|e|] h] eqn:Hpop; try discriminate H.
  destruct (populate_ok_decoded _ _ rev2_copy rev2_strdup_alloc _ _ _ _ _ Hpop)
    as (elements & -> & D).
  unfold rev2_entry, rev2_live.
  destruct (negb (Rev2.numeric_sensor_is_connected ns)
            || (classify_numeric_sensor ns <? 0)) eqn:Egate.
  - destruct (list_set (Rev2.d_info d) i _) as [l|] eqn:Hset; [|discriminate H].
    injection H as <- <-. cbn [Rev2.d_info jiffies firmware set_mem].
    destruct (list_set_spec _ _ _ _ Hset) as (_ & _ & Hi & Hother).
    split; [reflexivity|]. split; [reflexivity|]. split; [exact Hother|].
    eexists. split; [exact Hi|]. exists elements.
    cbn [Rev2.set_nsensor Rev2.nsensor Rev2.instance Rev2.is_active Rev2.zero_info].
    split; [exact Hfw|]. split; [exact D|]. split; [reflexivity|].
    split; [|discriminate].
    symmetry. apply orb_true_iff in Egate. destruct Egate as [E|E].
    + apply negb_true_iff in E. rewrite E. reflexivity.
    + apply Z.ltb_lt in E. apply andb_false_intro2. apply Z.leb_gt. exact E.
  - destruct (list_set (Rev2.d_info d) i _) as [l|] eqn:Hset; [|discriminate H].
    injection H as <- <-. cbn [Rev2.d_info jiffies firmware set_mem].
    destruct (list_set_spec _ _ _ _ Hset) as (_ & _ & Hi & Hother).
    split; [reflexivity|]. split; [reflexivity|]. split; [exact Hother|].
    eexists. split; [exact Hi|]. exists elements.
    apply orb_false_iff in Egate. destruct Egate as [E1 E2].
    apply negb_false_iff in E1. apply Z.ltb_ge in E2.
    cbn [Rev2.interpret_info Rev2.set_nsensor Rev2.nsensor Rev2.instance
         Rev2.is_active Rev2.zero_info Rev2.cached_val Rev2.last_updated Rev2.type].
    split; [exact Hfw|]. split; [exact D|]. split; [reflexivity|].
    split; [rewrite E1; symmetry; apply andb_true_intro; split;
            [reflexivity|apply Z.leb_le; exact E2]|].
    intros _. split; [reflexivity|]. split; reflexivity.
Qed.

Lemma rev1_discover_entries (fw : Z -> option acpi_object) (now : Z) (fuel : nat) :
  forall (i : nat) (d : Rev1.discovery) (w : world) (n : nat)
         (d' : Rev1.discovery) (w' : world),
    (forall j, (i <= j < HP_WMI_MAX_INSTANCES)%nat ->
               nth_error (Rev1.d_info d) j = Some Rev1.zero_info) ->
    (forall j, (j < i)%nat ->
               exists inf, nth_error (Rev1.d_info d) j = Some inf /\
                           rev1_entry fw now j inf) ->
    firmware w = fw -> jiffies w = now ->
    Rev1.discover fuel i d w = (Ok (n, d'), w') ->
    forall j, (j < n)%nat ->
              exists inf, nth_error (Rev1.d_info d') j = Some inf /\
                          rev1_entry fw now j inf.
Proof.
  induction fuel as [|fuel IH]; intros i d w n d' w' Hz Hdone Hfw Hnow H.
  - cbn in H. injection H as <- <- <-. exact Hdone.
  - cbn [Rev1.discover] in H.
    destruct (i <? HP_WMI_MAX_INSTANCES)%nat eqn:Ei;
      [|injection H as <- <- <-; exact Hdone].
    apply Nat.ltb_lt in Ei. unfold hp_wmi_get_wobj in H.
    destruct (firmware w (Z.of_nat i)) as [wobj|] eqn:Hq;
      [|injection H as <- <- <-; exact Hdone].
    match type of H with
    | context [Rev1.discover_instance i wobj d ?w1] =>
        destruct (Rev1.discover_instance i wobj d w1) as [[d1|e|] w2] eqn:Hstep;
          try discriminate H;
          destruct (rev1_discover_instance_entry fw i wobj d d1 w1 w2
                      (Hz i ltac:(lia)) ltac:(rewrite <- Hfw; exact Hq) Hstep)
            as (Hj & Hf & Hother & inf & Hi & He)
    end.
    cbn [jiffies firmware] in Hj, Hf, He.
    apply (IH (i + 1)%nat d1 w2 n d' w'); try assumption; try congruence.
    + intros j Hjr. rewrite Hother by lia. apply Hz. lia.
    + intros j Hjr. destruct (Nat.eq_dec j i) as [->|Hne].
      * exists inf. split; [exact Hi|]. rewrite <- Hnow. exact He.
      * rewrite Hother by exact Hne. apply Hdone. lia.
Qed.

Lemma rev2_discover_entries (fw : Z -> option acpi_object) (now : Z) (fuel : nat) :
  forall (i : nat) (d : Rev2.discovery) (w : world) (n : nat)
         (d' : Rev2.discovery) (w' : world),
    (forall j, (i <= j < HP_WMI_MAX_INSTANCES)%nat ->
               nth_error (Rev2.d_info d) j = Some Rev2.zero_info) ->
    (forall j, (j < i)%nat ->
               exists inf, nth_error (Rev2.d_info d) j = Some inf /\
                           rev2_entry fw now j inf) ->
    firmware w = fw -> jiffies w = now ->
    Rev2.discover fuel i d w = (Ok (n, d'), w') ->
    forall j, (j < n)%nat ->
              exists inf, nth_error (Rev2.d_info d') j = Some inf /\
                          rev2_entry fw now j inf.
Proof.
  induction fuel as [|fuel IH]; intros i d w n d' w' Hz Hdone Hfw Hnow H.
  - cbn in H. injection H as <- <- <-. exact Hdone.
  - cbn [Rev2.discover] in H.
    destruct (i <? HP_WMI_MAX_INSTANCES)%nat eqn:Ei;
      [|injection H as <- <- <-; exact Hdone].
    apply Nat.ltb_lt in Ei. unfold hp_wmi_get_wobj in H.
    destruct (firmware w (Z.of_nat i)) as [wobj|] eqn:Hq;
      [|injection H as <- <- <-; exact Hdone].
    match type of H with
    | context [Rev2.discover_instance i wobj d ?w1] =>
        destruct (Rev2.discover_instance i wobj d w1) as [[d1|e|] w2] eqn:Hstep;
          try discriminate H;
          destruct (rev2_discover_instance_entry fw i wobj d d1 w1 w2
                      (Hz i ltac:(lia)) ltac:(rewrite <- Hfw; exact Hq) Hstep)
            as (Hj & Hf & Hother & inf & Hi & He)
    end.
    cbn [jiffies firmware] in Hj, Hf, He.
    apply (IH (i + 1)%nat d1 w2 n d' w'); try assumption; try congruence.
    + intros j Hjr. rewrite Hother by lia. apply Hz. lia.
    + intros j Hjr. destruct (Nat.eq_dec j i) as [->|Hne].
      * exists inf. split; [exact Hi|]. rewrite <- Hnow. exact He.
      * rewrite Hother by exact Hne. apply Hdone. lia.
Qed.

(** ** What initialisation returns *)

Lemma rev1_init_outcome (w w' : world) (st : Rev1.hp_wmi_sensors) :
  Rev1.hp_wmi_sensors_init Rev1.zero_state w = (Ok st, w') ->
  exists n d w1,
    Rev1.discover HP_WMI_MAX_INSTANCES 0
      {| Rev1.d_info := Rev1.info Rev1.zero_state; Rev1.active_info := [];
         Rev1.d_channel_count := fun _ => 0; Rev1.type_count := 0 |} w
    = (Ok (n, d), w1) /\
    Rev1.info st = Rev1.d_info d /\ Rev1.count st = Z.of_nat n /\
    Rev1.update_interval st = 0 /\
    Rev1.channel_count st
    = (if (List.length (Rev1.active_info d) =? 0)%nat then fun _ => 0
       else set_by_type (Rev1.d_channel_count d) hwmon_chip 1) /\
    (Rev1.active_info d = [] -> w' = w1 /\ Rev1.info_map st = fun _ => []) /\
    (Rev1.active_info d <> [] -> 0 <= hwmon_register w1).
Proof.
  unfold Rev1.hp_wmi_sensors_init. intros H.
  destruct (Rev1.discover HP_WMI_MAX_INSTANCES 0 _ w) as [[[n d]|e|] w1] eqn:Hd;
    try discriminate H.
  exists n, d, w1. split; [reflexivity|].
  destruct (Z.of_nat n =? 0); [discriminate H|].
  destruct (List.length (Rev1.active_info d) =? 0)%nat eqn:Hch.
  - injection H as <- <-. cbn.
    apply Nat.eqb_eq in Hch. apply length_zero_iff_nil in Hch.
    repeat (split; [reflexivity|]).
    split; [intros _; split; reflexivity | intros E; contradiction].
  - apply Nat.eqb_neq in Hch.
    assert (Hne : Rev1.active_info d <> [])
      by (intros E; rewrite E in Hch; apply Hch; reflexivity).
    destruct (alloc (mem w1)) as [[|] h1]; cbn [negb] in H; [|discriminate H].
    destruct (alloc h1) as [[|] h2]; cbn [negb] in H; [|discriminate H].
    destruct (Rev1.alloc_channels _ _ _ h2) as [[map|e|] h3]; try discriminate H.
    destruct (Rev1.fill_info_map _ _ _ _ map) as [map'|e|]; try discriminate H.
    cbn [hwmon_register set_mem] in H.
    destruct (hwmon_register w1 <? 0) eqn:Hr; [discriminate H|].
    destruct (alloc _) as [[|] h4]; cbn [negb] in H; [|discriminate H].
    injection H as <- <-. cbn.
    apply Z.ltb_ge in Hr.
    repeat (split; [reflexivity|]).
    split; [intros E; contradiction | intros _; exact Hr].
Qed.

Lemma rev2_init_outcome (w w' : world) (st : Rev2.hp_wmi_sensors) :
  Rev2.hp_wmi_sensors_init Rev2.zero_state w = (Ok st, w') ->
  exists n d w1,
    Rev2.discover HP_WMI_MAX_INSTANCES 0
      {| Rev2.d_info := Rev2.info Rev2.zero_state; Rev2.active_info := [];
         Rev2.d_channel_count := fun _ => 0; Rev2.type_count := 0 |} w
    = (Ok (n, d), w1) /\
    Rev2.info st = Rev2.d_info d /\ Rev2.count st = Z.of_nat n /\
    Rev2.channel_count st
    = (if (List.length (Rev2.active_info d) =? 0)%nat then fun _ => 0
       else if negb (Rev2.d_channel_count d hwmon_temp =? 0)
            then set_by_type (Rev2.d_channel_count d) hwmon_chip 1
            else Rev2.d_channel_count d) /\
    (Rev2.active_info d = [] -> w' = w1 /\ Rev2.info_map st = fun _ => []) /\
    (Rev2.active_info d <> [] -> 0 <= hwmon_register w1).
Proof.
  unfold Rev2.hp_wmi_sensors_init. intros H.
  destruct (Rev2.discover HP_WMI_MAX_INSTANCES 0 _ w) as [[[n d]|e|] w1] eqn:Hd;
    try discriminate H.
  exists n, d, w1. split; [reflexivity|].
  destruct (Z.of_nat n =? 0); [discriminate H|].
  destruct (List.length (Rev2.active_info d) =? 0)%nat eqn:Hch.
  - injection H as <- <-. cbn.
    apply Nat.eqb_eq in Hch. apply length_zero_iff_nil in Hch.
    repeat (split; [reflexivity|]).
    split; [intros _; split; reflexivity | intros E; contradiction].
  - apply Nat.eqb_neq in Hch.
    assert (Hne : Rev2.active_info d <> [])
      by (intros E; rewrite E in Hch; apply Hch; reflexivity).
    destruct (alloc (mem w1)) as [[|] h1]; cbn [negb] in H; [|discriminate H].
    destruct (alloc h1) as [[|] h2]; cbn [negb] in H; [|discriminate H].
    destruct (Rev2.alloc_channels _ _ _ h2) as [[map|e|] h3]; try discriminate H.
    destruct (Rev2.fill_info_map _ _ _ _ map) as [map'|e|]; try discriminate H.
    cbn [hwmon_register set_mem] in H.
    destruct (hwmon_register w1 <? 0) eqn:Hr; [discriminate H|].
    injection H as <- <-. cbn.
    apply Z.ltb_ge in Hr.
    repeat (split; [reflexivity|]).
    split; [intros E; contradiction | intros _; exact Hr].
Qed.

Lemma zero_entries :
  (forall j, (j < HP_WMI_MAX_INSTANCES)%nat ->
     nth_error (Rev1.info Rev1.zero_state) j = Some Rev1.zero_info) /\
  (forall j, (j < HP_WMI_MAX_INSTANCES)%nat ->
     nth_error (Rev2.info Rev2.zero_state) j = Some Rev2.zero_info).
Proof.
  split; intros j Hj; cbn [Rev1.info Rev1.zero_state Rev2.info Rev2.zero_state];
    apply nth_error_repeat; exact Hj.
Qed.

Lemma rev1_init_entries (w w' : world) (st : Rev1.hp_wmi_sensors) (j : nat) :
  Rev1.hp_wmi_sensors_init Rev1.zero_state w = (Ok st, w') ->
  Z.of_nat j < Rev1.count st ->
  exists inf,
    nth_error (Rev1.info st) j = Some inf /\
    rev1_entry (firmware w) (jiffies w) j inf.
Proof.
  intros Hinit Hj.
  destruct (rev1_init_outcome _ _ _ Hinit)
    as (n & d & w1 & Hd & Hinfo & Hcount & _).
  rewrite Hinfo. rewrite Hcount in Hj.
  match type of Hd with
  | Rev1.discover _ _ ?d0 _ = _ =>
      eapply (rev1_discover_entries (firmware w) (jiffies w) _ 0%nat d0 w n d w1)
  end;
    [ intros k Hk; apply (proj1 zero_entries); lia | intros k Hk; lia
    | reflexivity | reflexivity | exact Hd | lia ].
Qed.

Lemma rev2_init_entries (w w' : world) (st : Rev2.hp_wmi_sensors) (j : nat) :
  Rev2.hp_wmi_sensors_init Rev2.zero_state w = (Ok st, w') ->
  Z.of_nat j < Rev2.count st ->
  exists inf,
    nth_error (Rev2.info st) j = Some inf /\
    rev2_entry (firmware w) (jiffies w) j inf.
Proof.
  intros Hinit Hj.
  destruct (rev2_init_outcome _ _ _ Hinit)
    as (n & d & w1 & Hd & Hinfo & Hcount & _).
  rewrite Hinfo. rewrite Hcount in Hj.
  match type of Hd with
  | Rev2.discover _ _ ?d0 _ = _ =>
      eapply (rev2_discover_entries (firmware w) (jiffies w) _ 0%nat d0 w n d w1)
  end;
    [ intros k Hk; apply (proj2 zero_entries); lia | intros k Hk; lia
    | reflexivity | reflexivity | exact Hd | lia ].
Qed.

(** X12. After a successful initialisation, every entry below [count]
    holds the decoding of the record that the firmware returned for its
    instance, into a zeroed sensor, and its instance number; an active entry
    has its hwmon type, the scaled reading as cached value and the tick of
    discovery as time stamp, and in the first revision its lowest and
    highest values start at the cached value (for a sensor other than a
    fan). *)
Theorem discovery_decodes_each_instance (w : world) :
  (forall st w' j,
     Rev1.hp_wmi_sensors_init Rev1.zero_state w = (Ok st, w') ->
     Z.of_nat j < Rev1.count st ->
     exists inf,
       nth_error (Rev1.info st) j = Some inf /\
       rev1_entry (firmware w) (jiffies w) j inf) /\
  (forall st w' j,
     Rev2.hp_wmi_sensors_init Rev2.zero_state w = (Ok st, w') ->
     Z.of_nat j < Rev2.count st ->
     exists inf,
       nth_error (Rev2.info st) j = Some inf /\
       rev2_entry (firmware w) (jiffies w) j inf).
Proof.
  split; intros st w' j Hinit Hj.
  - exact (rev1_init_entries _ _ _ _ Hinit Hj).
  - exact (rev2_init_entries _ _ _ _ Hinit Hj).
Qed.

(** ** The channel map follows the instance numbers *)

Lemma seq_strongly_sorted (n : nat) : forall a, StronglySorted lt (seq a n).
Proof.
  induction n as [|n IH]; intros a; cbn [seq]; constructor; [apply IH|].
  apply Forall_forall. intros x Hx. apply in_seq in Hx. lia.
Qed.

Lemma filter_strongly_sorted {A : Type} (R : A -> A -> Prop) (f : A -> bool)
    (l : list A) :
  StronglySorted R l -> StronglySorted R (filter f l).
Proof.
  induction 1 as [|x l Hs IH Hx]; cbn [filter]; [constructor|].
  destruct (f x); [|exact IH]. constructor; [exact IH|].
  apply Forall_forall. intros y Hy. apply filter_In in Hy.
  rewrite Forall_forall in Hx. apply Hx. apply Hy.
Qed.

Lemma strongly_sorted_nth_error {A : Type} (R : A -> A -> Prop) (l : list A) :
  StronglySorted R l ->
  forall c1 c2 x y, (c1 < c2)%nat ->
    nth_error l c1 = Some x -> nth_error l c2 = Some y -> R x y.
Proof.
  induction 1 as [|a l Hs IH Ha]; intros c1 c2 x y Hlt H1 H2.
  - destruct c1; discriminate H1.
  - destruct c2 as [|c2]; [lia|]. cbn in H2. destruct c1 as [|c1].
    + cbn in H1. injection H1 as <-. rewrite Forall_forall in Ha.
      apply Ha. eapply nth_error_In; exact H2.
    + cbn in H1. apply (IH c1 c2); [lia|assumption|assumption].
Qed.

Lemma channels_increasing (f g : nat -> bool) (n c1 c2 i1 i2 : nat) :
  (c1 < c2)%nat ->
  nth_error (map Some (filter f (filter g (seq 0 n)))) c1 = Some (Some i1) ->
  nth_error (map Some (filter f (filter g (seq 0 n)))) c2 = Some (Some i2) ->
  (i1 < i2)%nat.
Proof.
  intros Hlt H1 H2. rewrite nth_error_map in H1, H2.
  destruct (nth_error _ c1) as [x|] eqn:E1; [|discriminate H1].
  destruct (nth_error _ c2) as [y|] eqn:E2; [|discriminate H2].
  injection H1 as ->. injection H2 as ->.
  eapply (strongly_sorted_nth_error lt); [|exact Hlt|exact E1|exact E2].
  apply filter_strongly_sorted, filter_strongly_sorted, seq_strongly_sorted.
Qed.

Lemma rev1_init_channels (w w' : world) (st : Rev1.hp_wmi_sensors)
    (t : hwmon_sensor_types) :
  Rev1.hp_wmi_sensors_init Rev1.zero_state w = (Ok st, w') ->
  t <> hwmon_chip -> rev1_channels_of st t.
Proof.
  intros Hinit Ht.
  destruct (rev1_init_spec _ _ _ Hinit)
    as (n & Hcount & Hn & _ & Hdone & Hmap & _).
  destruct (rev1_init_outcome _ _ _ Hinit)
    as (n' & d & w1 & Hd & Hinfo & Hcount' & _ & Hcc & _).
  assert (n' = n) by lia. subst n'.
  pose proof (rev1_discover_spec (firmware w) HP_WMI_MAX_INSTANCES 0 _ w
                (rev1_discovered_zero (firmware w)) eq_refl
                ltac:(lia) ltac:(lia)) as Hspec.
  rewrite Hd in Hspec. destruct Hspec as ((_ & _ & _ & Hact & Hccd) & _).
  specialize (Hmap t Ht). unfold rev1_channels_of.
  assert (Hcct : Rev1.channel_count st t = Z.of_nat (List.length (Rev1.info_map st t))).
  { rewrite Hmap, Hcc, length_map, Hinfo, <- Hact.
    destruct (List.length (Rev1.active_info d) =? 0)%nat eqn:E.
    - apply Nat.eqb_eq in E. apply length_zero_iff_nil in E. rewrite E. reflexivity.
    - unfold set_by_type.
      replace (hwmon_eqb t hwmon_chip) with false
        by (symmetry; apply not_true_is_false; intros K;
            apply hwmon_eqb_eq in K; contradiction).
      apply Hccd. }
  split; [exact Hcct|]. rewrite Hcct.
  split; [rewrite Hmap, length_map; unfold rev1_channels, rev1_active;
          pose proof (filter_length_le
                        (fun idx => hwmon_eqb (Rev1.type (nth idx (Rev1.info st) Rev1.zero_info)) t)
                        (filter (fun idx => Rev1.is_active (nth idx (Rev1.info st) Rev1.zero_info))
                                (seq 0 n))) as L1;
          pose proof (filter_length_le
                        (fun idx => Rev1.is_active (nth idx (Rev1.info st) Rev1.zero_info))
                        (seq 0 n)) as L2;
          rewrite length_seq in L2; lia|].
  rewrite Hmap, Hcount.
  split; [|split].
  - intros c Hc. rewrite length_map in Hc.
    destruct (nth_error (rev1_channels (Rev1.info st)
                           (rev1_active (Rev1.info st) n) t) c) as [idx|] eqn:E;
      [|apply nth_error_None in E; lia].
    pose proof (nth_error_In _ _ E) as Hin.
    unfold rev1_channels in Hin. apply filter_In in Hin. destruct Hin as [Hin Hty].
    unfold rev1_active in Hin. apply filter_In in Hin. destruct Hin as [Hseq Hactive].
    apply in_seq in Hseq.
    destruct (Hdone idx ltac:(lia)) as (inf & k & wobj & Hnth & _ & _ & Hinst & _).
    rewrite (nth_nth_error _ _ _ _ Hnth) in Hty, Hactive.
    exists idx, inf. rewrite nth_error_map, E.
    split; [reflexivity|]. split; [lia|]. split; [exact Hnth|].
    split; [exact Hactive|]. split; [apply hwmon_eqb_eq; exact Hty|exact Hinst].
  - intros c1 c2 i1 i2. apply channels_increasing.
  - intros idx inf Hidx Hnth Hactive Hty. apply in_map.
    apply filter_In. split.
    + apply filter_In. split; [apply in_seq; lia|].
      rewrite (nth_nth_error _ _ _ _ Hnth). exact Hactive.
    + rewrite (nth_nth_error _ _ _ _ Hnth). apply hwmon_eqb_eq. exact Hty.
Qed.

Lemma rev2_init_channels (w w' : world) (st : Rev2.hp_wmi_sensors)
    (t : hwmon_sensor_types) :
  Rev2.hp_wmi_sensors_init Rev2.zero_state w = (Ok st, w') ->
  t <> hwmon_chip -> rev2_channels_of st t.
Proof.
  intros Hinit Ht.
  destruct (rev2_init_spec _ _ _ Hinit)
    as (n & Hcount & Hn & _ & Hdone & Hmap & _).
  destruct (rev2_init_outcome _ _ _ Hinit)
    as (n' & d & w1 & Hd & Hinfo & Hcount' & Hcc & _).
  assert (n' = n) by lia. subst n'.
  pose proof (rev2_discover_spec (firmware w) HP_WMI_MAX_INSTANCES 0 _ w
                (rev2_discovered_zero (firmware w)) eq_refl
                ltac:(lia) ltac:(lia)) as Hspec.
  rewrite Hd in Hspec. destruct Hspec as ((_ & _ & _ & Hact & Hccd) & _).
  specialize (Hmap t Ht). unfold rev2_channels_of.
  assert (Hcct : Rev2.channel_count st t = Z.of_nat (List.length (Rev2.info_map st t))).
  { rewrite Hmap, Hcc, length_map, Hinfo, <- Hact.
    destruct (List.length (Rev2.active_info d) =? 0)%nat eqn:E.
    - apply Nat.eqb_eq in E. apply length_zero_iff_nil in E. rewrite E. reflexivity.
    - destruct (negb (Rev2.d_channel_count d hwmon_temp =? 0)); [|apply Hccd].
      unfold set_by_type.
      replace (hwmon_eqb t hwmon_chip) with false
        by (symmetry; apply not_true_is_false; intros K;
            apply hwmon_eqb_eq in K; contradiction).
      apply Hccd. }
  split; [exact Hcct|]. rewrite Hcct.
  split; [rewrite Hmap, length_map; unfold rev2_channels, rev2_active;
          pose proof (filter_length_le
                        (fun idx => hwmon_eqb (Rev2.type (nth idx (Rev2.info st) Rev2.zero_info)) t)
                        (filter (fun idx => Rev2.is_active (nth idx (Rev2.info st) Rev2.zero_info))
                                (seq 0 n))) as L1;
          pose proof (filter_length_le
                        (fun idx => Rev2.is_active (nth idx (Rev2.info st) Rev2.zero_info))
                        (seq 0 n)) as L2;
          rewrite length_seq in L2; lia|].
  rewrite Hmap, Hcount.
  split; [|split].
  - intros c Hc. rewrite length_map in Hc.
    destruct (nth_error (rev2_channels (Rev2.info st)
                           (rev2_active (Rev2.info st) n) t) c) as [idx|] eqn:E;
      [|apply nth_error_None in E; lia].
    pose proof (nth_error_In _ _ E) as Hin.
    unfold rev2_channels in Hin. apply filter_In in Hin. destruct Hin as [Hin Hty].
    unfold rev2_active in Hin. apply filter_In in Hin. destruct Hin as [Hseq Hactive].
    apply in_seq in Hseq.
    destruct (Hdone idx ltac:(lia)) as (inf & k & wobj & Hnth & _ & _ & Hinst & _).
    rewrite (nth_nth_error _ _ _ _ Hnth) in Hty, Hactive.
    exists idx, inf. rewrite nth_error_map, E.
    split; [reflexivity|]. split; [lia|]. split; [exact Hnth|].
    split; [exact Hactive|]. split; [apply hwmon_eqb_eq; exact Hty|exact Hinst].
  - intros c1 c2 i1 i2. apply channels_increasing.
  - intros idx inf Hidx Hnth Hactive Hty. apply in_map.
    apply filter_In. split.
    + apply filter_In. split; [apply in_seq; lia|].
      rewrite (nth_nth_error _ _ _ _ Hnth). exact Hactive.
    + rewrite (nth_nth_error _ _ _ _ Hnth). apply hwmon_eqb_eq. exact Hty.
Qed.

(** X13. After a successful initialisation the channels of every sensor
    type are the active sensors of that type in the order of their
    instance numbers: [channel_count] is the length of the row of
    [info_map] and at most 32, each channel points to an active entry of that type, a
    higher channel to a higher instance, and no active sensor is left
    without a channel. *)
Theorem init_channels_follow_instances (w : world) (t : hwmon_sensor_types) :
  t <> hwmon_chip ->
  (forall st w',
     Rev1.hp_wmi_sensors_init Rev1.zero_state w = (Ok st, w') ->
     rev1_channels_of st t) /\
  (forall st w',
     Rev2.hp_wmi_sensors_init Rev2.zero_state w = (Ok st, w') ->
     rev2_channels_of st t).
Proof.
  intros Ht. split; intros st w' Hinit.
  - eapply rev1_init_channels; eassumption.
  - eapply rev2_init_channels; eassumption.
Qed.

Lemma init_channels_follow_instances_witness :
  hwmon_temp <> hwmon_chip /\
  (forall st w',
     Rev1.hp_wmi_sensors_init Rev1.zero_state
       (world_at 0 (sample_firmware (sample_wobj 2 "Normal" (-3) 25000)))
     = (Ok st, w') ->
     rev1_channels_of st hwmon_temp) /\
  (forall st w',
     Rev2.hp_wmi_sensors_init Rev2.zero_state
       (world_at 0 (sample_firmware (sample_wobj 2 "Normal" (-3) 25000)))
     = (Ok st, w') ->
     rev2_channels_of st hwmon_temp).
Proof.
  split; [discriminate|].
  apply (init_channels_follow_instances
           (world_at 0 (sample_firmware (sample_wobj 2 "Normal" (-3) 25000)))
           hwmon_temp).
  discriminate.
Defined.

(** ** The hwmon operations on the channels that discovery registered *)

Lemma list_set_same {A : Type} (l : list A) :
  forall i x, nth_error l i = Some x -> list_set l i x = Some l.
Proof.
  induction l as [|y l IH]; intros [|i] x H; try discriminate H.
  - cbn in H. injection H as ->. reflexivity.
  - cbn in H. cbn. rewrite (IH _ _ H). reflexivity.
Qed.

Lemma rev1_init_channel_entry (w w' : world) (st : Rev1.hp_wmi_sensors)
    (t : hwmon_sensor_types) (c : Z) :
  Rev1.hp_wmi_sensors_init Rev1.zero_state w = (Ok st, w') ->
  t <> hwmon_chip -> 0 <= c < Rev1.channel_count st t ->
  exists idx inf,
    nth_error (Rev1.info_map st t) (Z.to_nat c) = Some (Some idx) /\
    nth_error (Rev1.info st) idx = Some inf /\
    Rev1.info_at st t c = Some (idx, inf) /\
    Rev1.is_active inf = true /\ Rev1.type inf = t /\
    rev1_entry (firmware w) (jiffies w) idx inf.
Proof.
  intros Hinit Ht Hc.
  destruct (rev1_init_channels _ _ _ t Hinit Ht) as (Hcc & _ & Hch & _).
  destruct (Hch (Z.to_nat c) ltac:(lia))
    as (idx & inf & Hrow & Hidx & Hnth & Hact & Hty & _).
  destruct (rev1_init_entries _ _ _ idx Hinit Hidx) as (inf' & Hnth' & Hentry).
  assert (inf' = inf) by congruence. subst inf'.
  exists idx, inf. unfold Rev1.info_at.
  replace (c <? 0) with false by (symmetry; apply Z.ltb_ge; lia).
  rewrite Hrow, Hnth. repeat (split; [first [reflexivity|assumption]|]).
  exact Hentry.
Qed.

Lemma rev2_init_channel_entry (w w' : world) (st : Rev2.hp_wmi_sensors)
    (t : hwmon_sensor_types) (c : Z) :
  Rev2.hp_wmi_sensors_init Rev2.zero_state w = (Ok st, w') ->
  t <> hwmon_chip -> 0 <= c < Rev2.channel_count st t ->
  exists idx inf,
    nth_error (Rev2.info_map st t) (Z.to_nat c) = Some (Some idx) /\
    nth_error (Rev2.info st) idx = Some inf /\
    Rev2.info_at st t c = Some (idx, inf) /\
    Rev2.is_active inf = true /\ Rev2.type inf = t /\
    rev2_entry (firmware w) (jiffies w) idx inf.
Proof.
  intros Hinit Ht Hc.
  destruct (rev2_init_channels _ _ _ t Hinit Ht) as (Hcc & _ & Hch & _).
  destruct (Hch (Z.to_nat c) ltac:(lia))
    as (idx & inf & Hrow & Hidx & Hnth & Hact & Hty & _).
  destruct (rev2_init_entries _ _ _ idx Hinit Hidx) as (inf' & Hnth' & Hentry).
  assert (inf' = inf) by congruence. subst inf'.
  exists idx, inf. unfold Rev2.info_at.
  replace (c <? 0) with false by (symmetry; apply Z.ltb_ge; lia).
  rewrite Hrow, Hnth. repeat (split; [first [reflexivity|assumption]|]).
  exact Hentry.
Qed.

Lemma hwmon_neqb (t u : hwmon_sensor_types) : t <> u -> hwmon_eqb t u = false.
Proof.
  intros H. apply not_true_is_false. intros K. apply hwmon_eqb_eq in K.
  contradiction.
Qed.

(** X14. After a successful initialisation every registered channel of a
    sensor type is visible: in the first revision write-only (0200) for the
    reset-history attribute of temperature, current and voltage channels and
    read-only (0444) for every other attribute, in the second revision
    read-only; and a sensor type without channels has no visible attribute. *)
Theorem hwmon_registered_channels_are_visible (a : hwmon_attributes) (w : world)
    (t : hwmon_sensor_types) (attr c : Z) :
  t <> hwmon_chip ->
  (forall st w',
     Rev1.hp_wmi_sensors_init Rev1.zero_state w = (Ok st, w') ->
     (0 <= c < Rev1.channel_count st t ->
      Rev1.hp_wmi_hwmon_is_visible a st t attr c
      = Ok (if (hwmon_eqb t hwmon_temp && (attr =? hwmon_temp_reset_history a)) ||
               (hwmon_eqb t hwmon_curr && (attr =? hwmon_curr_reset_history a)) ||
               (hwmon_eqb t hwmon_in && (attr =? hwmon_in_reset_history a))
            then mode_0200 else mode_0444)) /\
     (Rev1.channel_count st t = 0 ->
      Rev1.hp_wmi_hwmon_is_visible a st t attr c = Ok 0)) /\
  (forall st w',
     Rev2.hp_wmi_sensors_init Rev2.zero_state w = (Ok st, w') ->
     (0 <= c < Rev2.channel_count st t ->
      Rev2.hp_wmi_hwmon_is_visible st t attr c = Ok mode_0444) /\
     (Rev2.channel_count st t = 0 ->
      Rev2.hp_wmi_hwmon_is_visible st t attr c = Ok 0)).
Proof.
  intros Ht. split; intros st w' Hinit; split.
  - intros Hc.
    destruct (rev1_init_channel_entry _ _ _ t c Hinit Ht Hc)
      as (idx & inf & Hrow & _).
    unfold Rev1.hp_wmi_hwmon_is_visible. rewrite (hwmon_neqb _ _ Ht).
    destruct (Rev1.info_map st t) as [|x row] eqn:E;
      [destruct (Z.to_nat c); discriminate Hrow|].
    replace (c <? 0) with false by (symmetry; apply Z.ltb_ge; lia).
    rewrite Hrow.
    destruct ((hwmon_eqb t hwmon_temp && (attr =? hwmon_temp_reset_history a)) ||
              (hwmon_eqb t hwmon_curr && (attr =? hwmon_curr_reset_history a)) ||
              (hwmon_eqb t hwmon_in && (attr =? hwmon_in_reset_history a)));
      reflexivity.
  - intros H0.
    destruct (rev1_init_channels _ _ _ t Hinit Ht) as (Hcc & _).
    unfold Rev1.hp_wmi_hwmon_is_visible. rewrite (hwmon_neqb _ _ Ht).
    destruct (Rev1.info_map st t) as [|x row]; [reflexivity|].
    cbn [List.length] in Hcc. lia.
  - intros Hc.
    destruct (rev2_init_channel_entry _ _ _ t c Hinit Ht Hc)
      as (idx & inf & Hrow & _).
    unfold Rev2.hp_wmi_hwmon_is_visible.
    destruct (Rev2.info_map st t) as [|x row] eqn:E;
      [destruct (Z.to_nat c); discriminate Hrow|].
    replace (c <? 0) with false by (symmetry; apply Z.ltb_ge; lia).
    rewrite Hrow. reflexivity.
  - intros H0.
    destruct (rev2_init_channels _ _ _ t Hinit Ht) as (Hcc & _).
    unfold Rev2.hp_wmi_hwmon_is_visible.
    destruct (Rev2.info_map st t) as [|x row]; [reflexivity|].
    cbn [List.length] in Hcc. lia.
Qed.

Lemma hwmon_registered_channels_are_visible_witness :
  hwmon_temp <> hwmon_chip /\
  (forall st w',
     Rev2.hp_wmi_sensors_init Rev2.zero_state
       (world_at 0 (sample_firmware (sample_wobj 2 "Normal" (-3) 25000)))
     = (Ok st, w') ->
     (0 <= 0 < Rev2.channel_count st hwmon_temp ->
      Rev2.hp_wmi_hwmon_is_visible st hwmon_temp 7 0 = Ok mode_0444) /\
     (Rev2.channel_count st hwmon_temp = 0 ->
      Rev2.hp_wmi_hwmon_is_visible st hwmon_temp 7 0 = Ok 0)).
Proof.
  split; [discriminate|].
  apply (hwmon_registered_channels_are_visible
           sample_attributes
           (world_at 0 (sample_firmware (sample_wobj 2 "Normal" (-3) 25000)))
           hwmon_temp 7 0).
  discriminate.
Defined.

(** X15. After a successful initialisation the label of a registered
    channel is the copy of the Name string (element 0) of the record that
    the firmware returned at discovery for the instance behind the channel:
    cut by its length field and to 127 characters in the first revision,
    trimmed and cut to 127 characters in the second. *)
Theorem hwmon_label_is_record_name (w : world) (t : hwmon_sensor_types)
    (attr c : Z) :
  t <> hwmon_chip ->
  (forall st w',
     Rev1.hp_wmi_sensors_init Rev1.zero_state w = (Ok st, w') ->
     0 <= c < Rev1.channel_count st t ->
     exists idx len p rest,
       nth_error (Rev1.info_map st t) (Z.to_nat c) = Some (Some idx) /\
       firmware w (Z.of_nat idx) = Some (AcpiPackage (AcpiString len p :: rest)) /\
       Rev1.hp_wmi_hwmon_read_string st t attr c
       = Ok (0, Some (rev1_copy p len))) /\
  (forall st w',
     Rev2.hp_wmi_sensors_init Rev2.zero_state w = (Ok st, w') ->
     0 <= c < Rev2.channel_count st t ->
     exists idx len p rest,
       nth_error (Rev2.info_map st t) (Z.to_nat c) = Some (Some idx) /\
       firmware w (Z.of_nat idx) = Some (AcpiPackage (AcpiString len p :: rest)) /\
       Rev2.hp_wmi_hwmon_read_string st t attr c
       = Ok (0, Some (rev2_copy (strim p) len))).
Proof.
  intros Ht. split; intros st w' Hinit Hc.
  - destruct (rev1_init_channel_entry _ _ _ t c Hinit Ht Hc)
      as (idx & inf & Hrow & _ & Hat & _ & _ & (elements & Hfw & D & _)).
    destruct D as (l0 & p0 & l1 & p1 & v2 & l3 & p3 & v4 & l5 & p5 & states
                   & vb & vm & vr & -> & _ & _ & Hname & _).
    exists idx, l0, p0. eexists. split; [exact Hrow|].
    split; [exact Hfw|].
    unfold Rev1.hp_wmi_hwmon_read_string. rewrite Hat, Hname. reflexivity.
  - destruct (rev2_init_channel_entry _ _ _ t c Hinit Ht Hc)
      as (idx & inf & Hrow & _ & Hat & _ & _ & (elements & Hfw & D & _)).
    destruct D as (l0 & p0 & l1 & p1 & v2 & l3 & p3 & v4 & l5 & p5 & states
                   & vb & vm & vr & -> & _ & _ & Hname & _).
    exists idx, l0, p0. eexists. split; [exact Hrow|].
    split; [exact Hfw|].
    unfold Rev2.hp_wmi_hwmon_read_string. rewrite Hat, Hname. reflexivity.
Qed.

Lemma hwmon_label_is_record_name_witness :
  hwmon_temp <> hwmon_chip /\
  (forall st w',
     Rev2.hp_wmi_sensors_init Rev2.zero_state
       (world_at 0 (sample_firmware (sample_wobj 2 "Normal" (-3) 25000)))
     = (Ok st, w') ->
     0 <= 0 < Rev2.channel_count st hwmon_temp ->
     exists idx len p rest,
       nth_error (Rev2.info_map st hwmon_temp) (Z.to_nat 0) = Some (Some idx) /\
       firmware (world_at 0 (sample_firmware (sample_wobj 2 "Normal" (-3) 25000)))
         (Z.of_nat idx)
       = Some (AcpiPackage (AcpiString len p :: rest)) /\
       Rev2.hp_wmi_hwmon_read_string st hwmon_temp 0 0
       = Ok (0, Some (rev2_copy (strim p) len))).
Proof.
  split; [discriminate|].
  apply (hwmon_label_is_record_name
           (world_at 0 (sample_firmware (sample_wobj 2 "Normal" (-3) 25000)))
           hwmon_temp 0 0).
  discriminate.
Defined.

Lemma rev1_set_info_same (st : Rev1.hp_wmi_sensors) :
  Rev1.set_info st (Rev1.info st) = st.
Proof. destruct st. reflexivity. Qed.

Lemma rev1_live_no_fault (ns : hp_wmi_numeric_sensor) :
  rev1_live ns = true -> Rev1.numeric_sensor_has_fault ns = false.
Proof.
  unfold rev1_live. intros H. apply andb_true_iff in H. destruct H as [H _].
  apply negb_true_iff in H. exact H.
Qed.

(** X16. A read of a registered channel within [HZ] ticks of a successful
    initialisation makes no firmware query and leaves the driver state as
    it is: it returns 0 and stores the scaled reading of the record decoded
    at discovery, for every attribute other than the fault attribute of a
    temperature or fan channel; for that one it stores 0 in the first
    revision (a faulty sensor is never active there) and, in the second,
    1 or 0 as the OperationalStatus decoded at discovery is a fault or
    not. *)
Theorem hwmon_read_soon_after_discovery (HZ : Z) (a : hwmon_attributes)
    (w w2 : world) (t : hwmon_sensor_types) (attr c : Z) :
  0 < HZ < 2 ^ 62 ->
  is_ulong (jiffies w) -> is_ulong (jiffies w2) ->
  elapsed (jiffies w2) (jiffies w) <= HZ ->
  t <> hwmon_chip ->
  (forall st w',
     Rev1.hp_wmi_sensors_init Rev1.zero_state w = (Ok st, w') ->
     0 <= c < Rev1.channel_count st t ->
     exists idx inf,
       nth_error (Rev1.info_map st t) (Z.to_nat c) = Some (Some idx) /\
       nth_error (Rev1.info st) idx = Some inf /\
       rev1_entry (firmware w) (jiffies w) idx inf /\
       Rev1.hp_wmi_hwmon_read HZ a st t attr c w2
       = (Ok (0,
              Some (if (hwmon_eqb t hwmon_temp && (attr =? hwmon_temp_fault a)) ||
                       (hwmon_eqb t hwmon_fan && (attr =? hwmon_fan_fault a))
                    then 0
                    else Rev1.scale_numeric_sensor (Rev1.nsensor inf)),
              st), w2)) /\
  (forall st w',
     Rev2.hp_wmi_sensors_init Rev2.zero_state w = (Ok st, w') ->
     0 <= c < Rev2.channel_count st t ->
     exists idx inf,
       nth_error (Rev2.info_map st t) (Z.to_nat c) = Some (Some idx) /\
       nth_error (Rev2.info st) idx = Some inf /\
       rev2_entry (firmware w) (jiffies w) idx inf /\
       Rev2.hp_wmi_hwmon_read HZ a st t attr c w2
       = (Ok (0,
              Some (if (hwmon_eqb t hwmon_temp && (attr =? hwmon_temp_fault a)) ||
                       (hwmon_eqb t hwmon_fan && (attr =? hwmon_fan_fault a))
                    then if Rev2.numeric_sensor_has_fault (Rev2.nsensor inf)
                         then 1 else 0
                    else Rev2.scale_numeric_sensor (Rev2.nsensor inf)),
              st), w2)).
Proof.
  intros HHZ Hj Hj2 He Ht. split; intros st w' Hinit Hc.
  - destruct (rev1_init_channel_entry _ _ _ t c Hinit Ht Hc)
      as (idx & inf & Hrow & Hnth & Hat & Hact & Hty & Hentry).
    exists idx, inf. split; [exact Hrow|]. split; [exact Hnth|].
    split; [exact Hentry|].
    destruct Hentry as (elements & _ & _ & _ & Hlive & Hactive).
    destruct (Hactive Hact) as (_ & Hcached & Hlast & Hhist).
    unfold Rev1.hp_wmi_hwmon_read. rewrite (hwmon_neqb _ _ Ht), Hat.
    rewrite (rev1_update_info_fresh HZ w2 inf HHZ Hj2)
      by (rewrite Hlast; assumption).
    rewrite (list_set_same _ _ _ Hnth). cbn [negb Z.eqb].
    rewrite rev1_set_info_same.
    rewrite (rev1_live_no_fault (Rev1.nsensor inf)) by congruence.
    destruct ((hwmon_eqb t hwmon_temp && (attr =? hwmon_temp_fault a)) ||
              (hwmon_eqb t hwmon_fan && (attr =? hwmon_fan_fault a)));
      [reflexivity|].
    assert (Hlohi : hwmon_eqb t hwmon_fan = false ->
                    Rev1.lo_val inf = Rev1.cached_val inf /\
                    Rev1.hi_val inf = Rev1.cached_val inf).
    { intros K. apply Hhist. rewrite Hty. intros ->. discriminate K. }
    destruct ((hwmon_eqb t hwmon_temp && (attr =? hwmon_temp_lowest a)) ||
              (hwmon_eqb t hwmon_curr && (attr =? hwmon_curr_lowest a)) ||
              (hwmon_eqb t hwmon_in && (attr =? hwmon_in_lowest a))) eqn:Elo.
    { rewrite (proj1 (Hlohi ltac:(destruct t; try reflexivity; discriminate Elo))).
      rewrite Hcached. reflexivity. }
    destruct ((hwmon_eqb t hwmon_temp && (attr =? hwmon_temp_highest a)) ||
              (hwmon_eqb t hwmon_curr && (attr =? hwmon_curr_highest a)) ||
              (hwmon_eqb t hwmon_in && (attr =? hwmon_in_highest a))) eqn:Ehi.
    { rewrite (proj2 (Hlohi ltac:(destruct t; try reflexivity; discriminate Ehi))).
      rewrite Hcached. reflexivity. }
    rewrite Hcached. reflexivity.
  - destruct (rev2_init_channel_entry _ _ _ t c Hinit Ht Hc)
      as (idx & inf & Hrow & Hnth & Hat & Hact & Hty & Hentry).
    exists idx, inf. split; [exact Hrow|]. split; [exact Hnth|].
    split; [exact Hentry|].
    destruct Hentry as (elements & _ & _ & _ & Hlive & Hactive).
    destruct (Hactive Hact) as (_ & Hcached & Hlast).
    unfold Rev2.hp_wmi_hwmon_read. rewrite Hat.
    rewrite (rev2_update_info_fresh HZ w2 inf HHZ Hj2)
      by (rewrite Hlast; assumption).
    rewrite (list_set_same _ _ _ Hnth). cbn [negb Z.eqb].
    replace {| Rev2.info := Rev2.info st; Rev2.info_map := Rev2.info_map st;
               Rev2.count := Rev2.count st;
               Rev2.channel_count := Rev2.channel_count st |}
      with st by (destruct st; reflexivity).
    rewrite Hcached.
    destruct ((hwmon_eqb t hwmon_temp && (attr =? hwmon_temp_fault a)) ||
              (hwmon_eqb t hwmon_fan && (attr =? hwmon_fan_fault a)));
      reflexivity.
Qed.

Lemma hwmon_read_soon_after_discovery_witness :
  (0 < 1000 < 2 ^ 62 /\ elapsed 5600 5000 <= 1000) /\
  forall st w',
    Rev2.hp_wmi_sensors_init Rev2.zero_state
      (world_at 5000 (sample_firmware (sample_wobj 2 "Normal" (-3) 25000)))
    = (Ok st, w') ->
    0 <= 0 < Rev2.channel_count st hwmon_temp ->
    exists idx inf,
      nth_error (Rev2.info_map st hwmon_temp) (Z.to_nat 0) = Some (Some idx) /\
      nth_error (Rev2.info st) idx = Some inf /\
      rev2_entry (sample_firmware (sample_wobj 2 "Normal" (-3) 25000)) 5000 idx inf /\
      Rev2.hp_wmi_hwmon_read 1000 sample_attributes st hwmon_temp 0 0
        (world_at 5600 (fun _ => None))
      = (Ok (0, Some (Rev2.scale_numeric_sensor (Rev2.nsensor inf)), st),
         world_at 5600 (fun _ => None)).
Proof.
  split; [split; [lia | vm_compute; discriminate]|].
  apply (hwmon_read_soon_after_discovery 1000 sample_attributes
           (world_at 5000 (sample_firmware (sample_wobj 2 "Normal" (-3) 25000)))
           (world_at 5600 (fun _ => None)) hwmon_temp 0 0).
  - lia.
  - unfold is_ulong. cbn. lia.
  - unfold is_ulong. cbn. lia.
  - vm_compute. discriminate.
  - discriminate.
Defined.

(** ** What the hwmon operations and the refresh task leave alone *)

Lemma same_fixed_fields_refl (ns : hp_wmi_numeric_sensor) : same_fixed_fields ns ns.
Proof. unfold same_fixed_fields. repeat split. Qed.

Lemma same_fixed_fields_trans (a b c : hp_wmi_numeric_sensor) :
  same_fixed_fields a b -> same_fixed_fields b c -> same_fixed_fields a c.
Proof.
  unfold same_fixed_fields.
  intros (A1 & A2 & A3 & A4 & A5 & A6 & A7) (B1 & B2 & B3 & B4 & B5 & B6 & B7).
  repeat split; congruence.
Qed.

Lemma rev1_same_sensor_refl (inf : Rev1.hp_wmi_info) : rev1_same_sensor inf inf.
Proof.
  unfold rev1_same_sensor.
  repeat (split; [reflexivity|]). apply same_fixed_fields_refl.
Qed.

Lemma rev2_same_sensor_refl (inf : Rev2.hp_wmi_info) : rev2_same_sensor inf inf.
Proof.
  unfold rev2_same_sensor.
  repeat (split; [reflexivity|]). apply same_fixed_fields_refl.
Qed.

Lemma rev1_same_sensor_trans (a b c : Rev1.hp_wmi_info) :
  rev1_same_sensor a b -> rev1_same_sensor b c -> rev1_same_sensor a c.
Proof.
  intros (A1 & A2 & A3 & A4) (B1 & B2 & B3 & B4). unfold rev1_same_sensor.
  split; [congruence|]. split; [congruence|]. split; [congruence|].
  eapply same_fixed_fields_trans; eassumption.
Qed.

Lemma Forall2_refl {A : Type} (R : A -> A -> Prop) (l : list A) :
  (forall x, R x x) -> Forall2 R l l.
Proof. intros HR. induction l; constructor; auto. Qed.

Lemma Forall2_trans {A : Type} (R : A -> A -> Prop) :
  (forall x y z, R x y -> R y z -> R x z) ->
  forall l1 l2 l3, Forall2 R l1 l2 -> Forall2 R l2 l3 -> Forall2 R l1 l3.
Proof.
  intros HR l1 l2 l3 H. revert l3.
  induction H as [|x y l1 l2 Hxy H IH]; intros l3 H3; inversion H3; subst;
    constructor; eauto.
Qed.

Lemma list_set_Forall2 {A : Type} (R : A -> A -> Prop) (l : list A) :
  (forall x, R x x) ->
  forall i x y l',
    nth_error l i = Some x -> R x y -> list_set l i y = Some l' ->
    Forall2 R l l'.
Proof.
  intros HR. induction l as [|z l IH]; intros [|i] x y l' Hn Hxy Hs;
    try discriminate Hn.
  - cbn in Hn, Hs. injection Hn as ->. injection Hs as <-.
    constructor; [exact Hxy | apply Forall2_refl; exact HR].
  - cbn in Hn, Hs. destruct (list_set l i y) as [l2|] eqn:E; [|discriminate Hs].
    injection Hs as <-. constructor; [apply HR | eapply IH; eassumption].
Qed.

Lemma rev1_same_layout_refl (s : Rev1.hp_wmi_sensors) : rev1_same_layout s s.
Proof.
  unfold rev1_same_layout. repeat (split; [reflexivity|]).
  apply Forall2_refl, rev1_same_sensor_refl.
Qed.

Lemma rev1_same_layout_trans (s1 s2 s3 : Rev1.hp_wmi_sensors) :
  rev1_same_layout s1 s2 -> rev1_same_layout s2 s3 -> rev1_same_layout s1 s3.
Proof.
  intros (A1 & A2 & A3 & A4) (B1 & B2 & B3 & B4). unfold rev1_same_layout.
  split; [congruence|]. split; [congruence|]. split; [congruence|].
  eapply Forall2_trans; [exact rev1_same_sensor_trans | eassumption..].
Qed.

Lemma rev1_set_info_layout (s : Rev1.hp_wmi_sensors) (i : nat)
    (inf inf' : Rev1.hp_wmi_info) (l : list Rev1.hp_wmi_info) :
  nth_error (Rev1.info s) i = Some inf -> rev1_same_sensor inf inf' ->
  list_set (Rev1.info s) i inf' = Some l ->
  rev1_same_layout s (Rev1.set_info s l).
Proof.
  intros Hn Hs Hl. unfold rev1_same_layout. cbn.
  repeat (split; [reflexivity|]).
  eapply list_set_Forall2; [exact rev1_same_sensor_refl | eassumption..].
Qed.

Lemma rev1_update_info_outcome (HZ : Z) (w w' : world)
    (info info' : Rev1.hp_wmi_info) (ret : Z) :
  Rev1.hp_wmi_update_info HZ w info = (Ok (ret, info'), w') ->
  rev1_same_sensor info info' /\ (ret <> 0 -> info' = info).
Proof.
  unfold Rev1.hp_wmi_update_info, hp_wmi_get_wobj.
  destruct (time_after _ _);
    [|intros H; injection H as <- <- <-;
      split; [apply rev1_same_sensor_refl | reflexivity]].
  destruct (firmware w (Rev1.instance info));
    [|intros H; injection H as <- <- <-;
      split; [apply rev1_same_sensor_refl | reflexivity]].
  destruct (Rev1.update_numeric_sensor_from_wobj _ _ _) as [[ns|e|] h] eqn:Hup;
    intros H; try discriminate H.
  injection H as <- <- <-. split; [|intros K; contradiction K; reflexivity].
  destruct (rev1_interpret_info_fields (jiffies w) (Rev1.set_nsensor info ns))
    as (Hns & Hi & Ha & Ht).
  unfold rev1_same_sensor. rewrite Hns, Hi, Ha, Ht.
  repeat (split; [reflexivity|]). cbn.
  eapply update_numeric_sensor_frame. exact Hup.
Qed.

Lemma rev2_update_info_outcome (HZ : Z) (w w' : world)
    (info info' : Rev2.hp_wmi_info) (ret : Z) :
  Rev2.hp_wmi_update_info HZ w info = (Ok (ret, info'), w') ->
  rev2_same_sensor info info' /\ (ret <> 0 -> info' = info).
Proof.
  unfold Rev2.hp_wmi_update_info, hp_wmi_get_wobj.
  destruct (time_after _ _);
    [|intros H; injection H as <- <- <-;
      split; [apply rev2_same_sensor_refl | reflexivity]].
  destruct (firmware w (Rev2.instance info));
    [|intros H; injection H as <- <- <-;
      split; [apply rev2_same_sensor_refl | reflexivity]].
  destruct (Rev2.update_numeric_sensor_from_wobj _ _ _) as [[ns|e|] h] eqn:Hup;
    intros H; try discriminate H.
  injection H as <- <- <-. split; [|intros K; contradiction K; reflexivity].
  unfold rev2_same_sensor. cbn.
  repeat (split; [reflexivity|]).
  eapply update_numeric_sensor_frame. exact Hup.
Qed.

Lemma rev1_reset_same_sensor (inf : Rev1.hp_wmi_info) :
  rev1_same_sensor inf (Rev1.reset_info_history inf).
Proof.
  unfold Rev1.reset_info_history. destruct (negb _);
    [|apply rev1_same_sensor_refl].
  unfold rev1_same_sensor. cbn. repeat (split; [reflexivity|]).
  apply same_fixed_fields_refl.
Qed.

Lemma rev1_info_at_nth (s : Rev1.hp_wmi_sensors) (t : hwmon_sensor_types)
    (c : Z) (idx : nat) (inf : Rev1.hp_wmi_info) :
  Rev1.info_at s t c = Some (idx, inf) ->
  0 <= c /\
  nth_error (Rev1.info_map s t) (Z.to_nat c) = Some (Some idx) /\
  nth_error (Rev1.info s) idx = Some inf.
Proof.
  unfold Rev1.info_at. destruct (c <? 0) eqn:E; [discriminate|].
  apply Z.ltb_ge in E.
  destruct (nth_error (Rev1.info_map s t) _) as [[i|]|]; try discriminate.
  destruct (nth_error (Rev1.info s) i) as [x|] eqn:En; [|discriminate].
  intros H. injection H as <- <-. auto.
Qed.

Lemma rev2_info_at_nth (s : Rev2.hp_wmi_sensors) (t : hwmon_sensor_types)
    (c : Z) (idx : nat) (inf : Rev2.hp_wmi_info) :
  Rev2.info_at s t c = Some (idx, inf) ->
  0 <= c /\
  nth_error (Rev2.info_map s t) (Z.to_nat c) = Some (Some idx) /\
  nth_error (Rev2.info s) idx = Some inf.
Proof.
  unfold Rev2.info_at. destruct (c <? 0) eqn:E; [discriminate|].
  apply Z.ltb_ge in E.
  destruct (nth_error (Rev2.info_map s t) _) as [[i|]|]; try discriminate.
  destruct (nth_error (Rev2.info s) i) as [x|] eqn:En; [|discriminate].
  intros H. injection H as <- <-. auto.
Qed.

Lemma rev1_reset_loop_layout (fuel : nat) :
  forall i s t s',
    Rev1.reset_loop fuel i s t = Ok s' ->
    rev1_same_layout s s' /\ Rev1.update_interval s' = Rev1.update_interval s.
Proof.
  induction fuel as [|fuel IH]; intros i s t s' H; cbn [Rev1.reset_loop] in H.
  - injection H as <-. split; [apply rev1_same_layout_refl | reflexivity].
  - destruct (i <? Rev1.channel_count s t);
      [|injection H as <-; split; [apply rev1_same_layout_refl | reflexivity]].
    destruct (Rev1.info_at s t i) as [[idx inf]|] eqn:Hat; [|discriminate H].
    destruct (list_set _ idx _) as [l|] eqn:Hl; [|discriminate H].
    apply rev1_info_at_nth in Hat. destruct Hat as (_ & _ & Hn).
    destruct (IH _ _ _ _ H) as [L U]. split.
    + eapply rev1_same_layout_trans; [|exact L].
      eapply rev1_set_info_layout; [exact Hn | apply rev1_reset_same_sensor | exact Hl].
    + rewrite U. reflexivity.
Qed.

Lemma rev1_refresh_loop_outcome (HZ : Z) (fuel : nat) :
  forall i s w s' b w',
    Rev1.refresh_loop HZ fuel i s w = (Ok (s', b), w') ->
    rev1_same_layout s s' /\
    (b = false -> s' = s) /\
    (b = true -> Rev1.update_interval s' = 0).
Proof.
  induction fuel as [|fuel IH]; intros i s w s' b w' H;
    cbn [Rev1.refresh_loop] in H.
  - injection H as <- <- <-.
    split; [apply rev1_same_layout_refl|]. split; [reflexivity|discriminate].
  - destruct (Z.of_nat i <? Rev1.count s);
      [|injection H as <- <- <-;
        split; [apply rev1_same_layout_refl|]; split; [reflexivity|discriminate]].
    destruct (nth_error (Rev1.info s) i) as [inf|] eqn:Hn; [|discriminate H].
    destruct (negb (Rev1.is_active inf)); [exact (IH _ _ _ _ _ _ H)|].
    destruct (Rev1.hp_wmi_update_info HZ w inf) as [[[err inf']|e|] w1] eqn:Hup;
      try discriminate H.
    destruct (list_set (Rev1.info s) i inf') as [l|] eqn:Hl; [|discriminate H].
    destruct (rev1_update_info_outcome _ _ _ _ _ _ Hup) as [Hs Hsame].
    pose proof (rev1_set_info_layout s i inf inf' l Hn Hs Hl) as L1.
    destruct (err =? 0) eqn:Eerr.
    + injection H as <- <- <-. split.
      * destruct L1 as (A1 & A2 & A3 & A4). unfold rev1_same_layout. cbn.
        cbn in A1, A2, A3, A4. auto.
      * split; [discriminate | reflexivity].
    + apply Z.eqb_neq in Eerr. specialize (Hsame Eerr). subst inf'.
      rewrite (list_set_same _ _ _ Hn) in Hl. injection Hl as <-.
      rewrite rev1_set_info_same in H. exact (IH _ _ _ _ _ _ H).
Qed.

(** X17. The background refresh task never both refreshes a sensor and
    keeps itself running.  When it returns it has either scheduled itself
    again with the update interval it read on entry, and then the driver
    state is exactly what it was (no update of an active sensor returned
    0), or it has not scheduled itself and has set the update interval to
    0.  In both cases the sensors and the channel map are the same. *)
Theorem refresh_task_reschedules_only_unchanged (HZ : Z)
    (state state' : Rev1.hp_wmi_sensors) (w w' : world) (scheduled : option Z) :
  Rev1.hp_wmi_sensors_refresh_task HZ state w = (Ok (state', scheduled), w') ->
  rev1_same_layout state state' /\
  ((scheduled = Some (Rev1.update_interval state) /\ state' = state) \/
   (scheduled = None /\ Rev1.update_interval state' = 0)).
Proof.
  unfold Rev1.hp_wmi_sensors_refresh_task. intros H.
  destruct (Rev1.refresh_loop HZ _ 0%nat state w) as [[[s b]|e|] w1] eqn:Hl;
    try discriminate H.
  destruct (rev1_refresh_loop_outcome _ _ _ _ _ _ _ _ Hl) as (L & Hf & Ht).
  destruct b; injection H as <- <- <-.
  - split; [exact L|]. right. split; [reflexivity | apply Ht; reflexivity].
  - split; [exact L|]. left. split; [reflexivity | apply Hf; reflexivity].
Qed.

Lemma refresh_task_reschedules_only_unchanged_witness :
  let state := sample_state1 (sample_info1 0) 5000 in
  rev1_same_layout state state /\
  ((Some 5000 = Some (Rev1.update_interval state) /\ state = state) \/
   (Some 5000 = None /\ Rev1.update_interval state = 0)).
Proof.
  exact (refresh_task_reschedules_only_unchanged 1000
           (sample_state1 (sample_info1 0) 5000)
           (sample_state1 (sample_info1 0) 5000)
           (world_at 5000 (fun _ : Z => @None acpi_object))
           {| jiffies := 5000; firmware := fun _ : Z => @None acpi_object;
              queries := [0]; mem := []; hwmon_register := 0 |}
           (Some 5000) eq_refl).
Defined.

(** X18. No hwmon read or write and no run of the refresh task changes
    which sensors the driver has or what its channels point to: the count,
    the channel map and the channel counts stay as they are, and every
    entry keeps its instance number, its active flag, its hwmon type and
    the fields of its record that are read once (name, description, sensor
    type, possible states, base units). *)
Theorem hwmon_operations_keep_layout (HZ : Z) (a : hwmon_attributes) :
  (forall state t attr c w ret val state' w',
     Rev1.hp_wmi_hwmon_read HZ a state t attr c w = (Ok (ret, val, state'), w') ->
     rev1_same_layout state state') /\
  (forall state t attr c val ret state' eff,
     Rev1.hp_wmi_hwmon_write a state t attr c val = Ok (ret, state', eff) ->
     rev1_same_layout state state') /\
  (forall state w state' scheduled w',
     Rev1.hp_wmi_sensors_refresh_task HZ state w = (Ok (state', scheduled), w') ->
     rev1_same_layout state state') /\
  (forall state t attr c w ret val state' w',
     Rev2.hp_wmi_hwmon_read HZ a state t attr c w = (Ok (ret, val, state'), w') ->
     rev2_same_layout state state').
Proof.
  split; [|split; [|split]].
  - intros s t attr c w ret val s' w' H. unfold Rev1.hp_wmi_hwmon_read in H.
    destruct (hwmon_eqb t hwmon_chip).
    { destruct (attr =? _); injection H as <- <- <- <-;
        apply rev1_same_layout_refl. }
    destruct (Rev1.info_at s t c) as [[idx inf]|] eqn:Hat; [|discriminate H].
    apply rev1_info_at_nth in Hat. destruct Hat as (_ & _ & Hn).
    destruct (Rev1.hp_wmi_update_info HZ w inf) as [[[err inf']|e|] w1] eqn:Hup;
      try discriminate H.
    destruct (list_set (Rev1.info s) idx inf') as [l|] eqn:Hl; [|discriminate H].
    destruct (rev1_update_info_outcome _ _ _ _ _ _ Hup) as [Hs _].
    pose proof (rev1_set_info_layout s idx inf inf' l Hn Hs Hl) as L.
    repeat match type of H with
           | (if ?b then _ else _) = _ => destruct b
           end; injection H as <- <- <- <-; exact L.
  - intros s t attr c val ret s' eff H. unfold Rev1.hp_wmi_hwmon_write in H.
    destruct (hwmon_eqb t hwmon_chip).
    { unfold Rev1.hp_wmi_hwmon_chip_write in H.
      destruct (attr =? hwmon_chip_update_interval a).
      - destruct (negb (val =? 0) && _); injection H as <- <- <-;
          [apply rev1_same_layout_refl|].
        unfold rev1_same_layout. cbn. repeat (split; [reflexivity|]).
        apply Forall2_refl, rev1_same_sensor_refl.
      - destruct (if attr =? hwmon_chip_temp_reset_history a then _ else _)
          as [ty|]; [|injection H as <- <- <-; apply rev1_same_layout_refl].
        destruct (negb (val =? 1));
          [injection H as <- <- <-; apply rev1_same_layout_refl|].
        destruct (Rev1.reset_loop _ 0 s ty) as [s2|e|] eqn:Hl; try discriminate H.
        injection H as <- <- <-.
        exact (proj1 (rev1_reset_loop_layout _ _ _ _ _ Hl)). }
    destruct (negb (val =? 1));
      [injection H as <- <- <-; apply rev1_same_layout_refl|].
    destruct (Rev1.info_at s t c) as [[idx inf]|] eqn:Hat; [|discriminate H].
    apply rev1_info_at_nth in Hat. destruct Hat as (_ & _ & Hn).
    destruct (list_set _ idx _) as [l|] eqn:Hl; [|discriminate H].
    injection H as <- <- <-.
    eapply rev1_set_info_layout; [exact Hn | apply rev1_reset_same_sensor | exact Hl].
  - intros s w s' sched w' H. unfold Rev1.hp_wmi_sensors_refresh_task in H.
    destruct (Rev1.refresh_loop HZ _ 0%nat s w) as [[[s2 b]|e|] w1] eqn:Hl;
      try discriminate H.
    destruct (rev1_refresh_loop_outcome _ _ _ _ _ _ _ _ Hl) as (L & _).
    destruct b; injection H as <- <- <-; exact L.
  - intros s t attr c w ret val s' w' H. unfold Rev2.hp_wmi_hwmon_read in H.
    destruct (Rev2.info_at s t c) as [[idx inf]|] eqn:Hat; [|discriminate H].
    apply rev2_info_at_nth in Hat. destruct Hat as (_ & _ & Hn).
    destruct (Rev2.hp_wmi_update_info HZ w inf) as [[[err inf']|e|] w1] eqn:Hup;
      try discriminate H.
    destruct (list_set (Rev2.info s) idx inf') as [l|] eqn:Hl; [|discriminate H].
    destruct (rev2_update_info_outcome _ _ _ _ _ _ Hup) as [Hs _].
    assert (L : rev2_same_layout s
                  {| Rev2.info := l; Rev2.info_map := Rev2.info_map s;
                     Rev2.count := Rev2.count s;
                     Rev2.channel_count := Rev2.channel_count s |}).
    { unfold rev2_same_layout. cbn. repeat (split; [reflexivity|]).
      eapply list_set_Forall2; [exact rev2_same_sensor_refl | eassumption..]. }
    repeat match type of H with
           | (if ?b then _ else _) = _ => destruct b
           end; injection H as <- <- <- <-; exact L.
Qed.

(** ** The update interval (first revision) *)

Lemma rev1_chip_write_interval (a : hwmon_attributes)
    (state : Rev1.hp_wmi_sensors) (val : Z) :
  (valid_update_interval val /\
   Rev1.hp_wmi_hwmon_chip_write a state (hwmon_chip_update_interval a) val
   = Ok (0, Rev1.set_update_interval state val,
         if val =? 0 then WorkCancelled else WorkScheduled 0)) \/
  (~ valid_update_interval val /\
   Rev1.hp_wmi_hwmon_chip_write a state (hwmon_chip_update_interval a) val
   = Ok (- ERANGE, state, WorkKept)).
Proof.
  unfold Rev1.hp_wmi_hwmon_chip_write, valid_update_interval.
  rewrite Z.eqb_refl.
  destruct (val =? 0) eqn:E0; cbn [negb andb].
  - apply Z.eqb_eq in E0. left. split; [left; exact E0 | reflexivity].
  - apply Z.eqb_neq in E0.
    destruct (val <? HP_WMI_MIN_UPDATE_INTERVAL) eqn:Elo; cbn [orb].
    + apply Z.ltb_lt in Elo. right. split; [lia | reflexivity].
    + apply Z.ltb_ge in Elo.
      destruct (val >? HP_WMI_MAX_UPDATE_INTERVAL) eqn:Ehi.
      * apply Z.gtb_lt in Ehi. right. split; [lia | reflexivity].
      * rewrite Z.gtb_ltb in Ehi. apply Z.ltb_ge in Ehi.
        left. split; [right; lia | reflexivity].
Qed.

Lemma rev1_chip_write_keeps_valid (a : hwmon_attributes)
    (state state' : Rev1.hp_wmi_sensors) (attr val ret : Z) (eff : work_effect) :
  valid_update_interval (Rev1.update_interval state) ->
  Rev1.hp_wmi_hwmon_chip_write a state attr val = Ok (ret, state', eff) ->
  valid_update_interval (Rev1.update_interval state') /\
  (forall d, eff = WorkScheduled d -> d = 0 /\ Rev1.update_interval state' <> 0) /\
  (eff = WorkCancelled -> Rev1.update_interval state' = 0).
Proof.
  intros Hv H.
  destruct (attr =? hwmon_chip_update_interval a) eqn:Ea.
  - apply Z.eqb_eq in Ea. subst attr.
    destruct (rev1_chip_write_interval a state val) as [[V E]|[V E]];
      rewrite E in H; injection H as <- <- <-.
    + cbn. split; [exact V|]. destruct (val =? 0) eqn:E0.
      * apply Z.eqb_eq in E0. split; [intros d K; discriminate K | intros _; exact E0].
      * apply Z.eqb_neq in E0. split; [|intros K; discriminate K].
        intros d K. injection K as <-. split; [reflexivity | exact E0].
    + split; [exact Hv|]. split; intros; discriminate.
  - unfold Rev1.hp_wmi_hwmon_chip_write in H. rewrite Ea in H.
    destruct (if attr =? hwmon_chip_temp_reset_history a then _ else _) as [ty|];
      [|injection H as <- <- <-; split; [exact Hv|]; split; intros; discriminate].
    destruct (negb (val =? 1));
      [injection H as <- <- <-; split; [exact Hv|]; split; intros; discriminate|].
    destruct (Rev1.reset_loop _ 0 state ty) as [s2|e|] eqn:Hl; try discriminate H.
    injection H as <- <- <-.
    rewrite (proj2 (rev1_reset_loop_layout _ _ _ _ _ Hl)).
    split; [exact Hv|]. split; intros; discriminate.
Qed.

(** X19. The update interval of the first revision is always 0 or between
    5000 ms and 604800000 ms.  It is 0 after a successful probe; a write of
    the update-interval attribute stores a value in that set (cancelling the
    refresh task for 0, scheduling it at once otherwise) and rejects any
    other value with [-ERANGE], changing nothing; every other write and
    every read leaves it alone; the refresh task leaves it or sets it to 0.
    A write schedules the refresh task only when it leaves an interval that
    is not 0. *)
Theorem update_interval_stays_valid (HZ : Z) (a : hwmon_attributes) :
  (forall g1 g2 w state w',
     Rev1.hp_wmi_sensors_probe g1 g2 w = (Ok state, w') ->
     Rev1.update_interval state = 0) /\
  (forall state val,
     (valid_update_interval val /\
      Rev1.hp_wmi_hwmon_write a state hwmon_chip (hwmon_chip_update_interval a) 0 val
      = Ok (0, Rev1.set_update_interval state val,
            if val =? 0 then WorkCancelled else WorkScheduled 0)) \/
     (~ valid_update_interval val /\
      Rev1.hp_wmi_hwmon_write a state hwmon_chip (hwmon_chip_update_interval a) 0 val
      = Ok (- ERANGE, state, WorkKept))) /\
  (forall state t attr c val ret state' eff,
     valid_update_interval (Rev1.update_interval state) ->
     Rev1.hp_wmi_hwmon_write a state t attr c val = Ok (ret, state', eff) ->
     valid_update_interval (Rev1.update_interval state') /\
     (forall d, eff = WorkScheduled d -> d = 0 /\ Rev1.update_interval state' <> 0) /\
     (eff = WorkCancelled -> Rev1.update_interval state' = 0)) /\
  (forall state t attr c w ret val state' w',
     Rev1.hp_wmi_hwmon_read HZ a state t attr c w = (Ok (ret, val, state'), w') ->
     Rev1.update_interval state' = Rev1.update_interval state) /\
  (forall state w state' scheduled w',
     valid_update_interval (Rev1.update_interval state) ->
     Rev1.hp_wmi_sensors_refresh_task HZ state w = (Ok (state', scheduled), w') ->
     valid_update_interval (Rev1.update_interval state')).
Proof.
  split; [|split; [|split; [|split]]].
  - intros g1 g2 w s w' H. unfold Rev1.hp_wmi_sensors_probe in H.
    destruct (negb g1 || negb g2); [discriminate H|].
    destruct (alloc (mem w)) as [ok h]. destruct (negb ok); [discriminate H|].
    destruct (rev1_init_outcome _ _ _ H) as (n & d & w1 & _ & _ & _ & U & _).
    exact U.
  - intros s val. unfold Rev1.hp_wmi_hwmon_write. cbn [hwmon_eqb].
    apply rev1_chip_write_interval.
  - intros s t attr c val ret s' eff Hv H. unfold Rev1.hp_wmi_hwmon_write in H.
    destruct (hwmon_eqb t hwmon_chip);
      [exact (rev1_chip_write_keeps_valid _ _ _ _ _ _ _ Hv H)|].
    destruct (negb (val =? 1));
      [injection H as <- <- <-; split; [exact Hv|]; split; intros; discriminate|].
    destruct (Rev1.info_at s t c) as [[idx inf]|]; [|discriminate H].
    destruct (list_set _ idx _) as [l|]; [|discriminate H].
    injection H as <- <- <-. cbn.
    split; [exact Hv|]. split; intros; discriminate.
  - intros s t attr c w ret val s' w' H. unfold Rev1.hp_wmi_hwmon_read in H.
    destruct (hwmon_eqb t hwmon_chip).
    { destruct (attr =? _); injection H as <- <- <- <-; reflexivity. }
    destruct (Rev1.info_at s t c) as [[idx inf]|]; [|discriminate H].
    destruct (Rev1.hp_wmi_update_info HZ w inf) as [[[err inf']|e|] w1];
      try discriminate H.
    destruct (list_set (Rev1.info s) idx inf') as [l|]; [|discriminate H].
    repeat match type of H with
           | (if ?b then _ else _) = _ => destruct b
           end; injection H as <- <- <- <-; reflexivity.
  - intros s w s' sched w' Hv H. unfold Rev1.hp_wmi_sensors_refresh_task in H.
    destruct (Rev1.refresh_loop HZ _ 0%nat s w) as [[[s2 b]|e|] w1] eqn:Hl;
      try discriminate H.
    destruct (rev1_refresh_loop_outcome _ _ _ _ _ _ _ _ Hl) as (_ & Hf & Ht).
    destruct b; injection H as <- <- <-.
    + left. apply Ht. reflexivity.
    + rewrite (Hf eq_refl). exact Hv.
Qed.

(** ** Resetting the history (first revision) *)

Lemma rev1_reset_idempotent (inf : Rev1.hp_wmi_info) :
  Rev1.reset_info_history (Rev1.reset_info_history inf)
  = Rev1.reset_info_history inf.
Proof.
  unfold Rev1.reset_info_history.
  destruct (negb (hwmon_eqb (Rev1.type inf) hwmon_fan)) eqn:E; cbn; rewrite E;
    reflexivity.
Qed.

Lemma rev1_reset_loop_run (t : hwmon_sensor_types) (row : list (option nat))
    (n : nat) (fuel : nat) :
  forall i s,
    Rev1.info_map s t = row -> Rev1.channel_count s t = Z.of_nat (List.length row) ->
    Z.of_nat (List.length row) < 256 -> List.length (Rev1.info s) = n ->
    forallb (fun o => match o with
                      | Some idx => (idx <? n)%nat
                      | None => false
                      end) row = true ->
    (i <= List.length row)%nat -> (List.length row - i <= fuel)%nat ->
    exists s',
      Rev1.reset_loop fuel (Z.of_nat i) s t = Ok s' /\
      forall idx,
        nth_error (Rev1.info s') idx
        = option_map (fun inf => if behind_channel (skipn i row) idx
                                 then Rev1.reset_info_history inf else inf)
                     (nth_error (Rev1.info s) idx).
Proof.
  induction fuel as [|fuel IH]; intros i s Hmap Hcc H256 Hlen Hall Hi Hfuel.
  - exists s. split; [reflexivity|]. intros idx.
    rewrite skipn_all2 by lia. cbn. destruct (nth_error _ idx); reflexivity.
  - cbn [Rev1.reset_loop]. rewrite Hcc.
    destruct (Z.of_nat i <? Z.of_nat (List.length row)) eqn:Ei.
    2:{ apply Z.ltb_ge in Ei. exists s. split; [reflexivity|]. intros idx.
        rewrite skipn_all2 by lia. cbn. destruct (nth_error _ idx); reflexivity. }
    apply Z.ltb_lt in Ei.
    destruct (nth_error row i) as [o|] eqn:Ho;
      [|apply nth_error_None in Ho; lia].
    rewrite forallb_forall in Hall.
    pose proof (Hall o (nth_error_In _ _ Ho)) as Ho'.
    destruct o as [j|]; [|discriminate Ho']. apply Nat.ltb_lt in Ho'.
    destruct (nth_error (Rev1.info s) j) as [inf|] eqn:Hj;
      [|apply nth_error_None in Hj; lia].
    unfold Rev1.info_at.
    replace (Z.of_nat i <? 0) with false by (symmetry; apply Z.ltb_ge; lia).
    rewrite Nat2Z.id, Hmap, Ho, Hj.
    destruct (list_set_some (Rev1.info s) j (Rev1.reset_info_history inf)
                ltac:(lia)) as [l Hl].
    rewrite Hl.
    destruct (list_set_spec _ _ _ _ Hl) as (Hl1 & _ & Hl2 & Hl3).
    replace (u8 (Z.of_nat i + 1)) with (Z.of_nat (S i))
      by (unfold u8, wrap_unsigned; rewrite Z.mod_small; lia).
    destruct (IH (S i) (Rev1.set_info s l)) as (s' & Hrun & Hs');
      [exact Hmap | exact Hcc | exact H256 | cbn; lia
      | apply forallb_forall; exact Hall | lia | lia |].
    exists s'. split; [exact Hrun|]. intros idx. rewrite Hs'. cbn [Rev1.info Rev1.set_info].
    rewrite (skipn_nth_error _ _ _ Ho). cbn [behind_channel existsb].
    fold (behind_channel (skipn (S i) row) idx).
    destruct (Nat.eq_dec idx j) as [->|Hne].
    + rewrite Hl2, Hj, Nat.eqb_refl. cbn [option_map orb].
      destruct (behind_channel _ j); [rewrite rev1_reset_idempotent|]; reflexivity.
    + rewrite (Hl3 _ Hne).
      replace (j =? idx)%nat with false
        by (symmetry; apply Nat.eqb_neq; congruence).
      reflexivity.
Qed.

Lemma rev1_wired_parts (state : Rev1.hp_wmi_sensors) (t : hwmon_sensor_types) :
  rev1_channels_wired state t = true ->
  Rev1.channel_count state t = Z.of_nat (List.length (Rev1.info_map state t)) /\
  Z.of_nat (List.length (Rev1.info_map state t)) < 256 /\
  forallb (fun o => match o with
                    | Some idx => (idx <? List.length (Rev1.info state))%nat
                    | None => false
                    end) (Rev1.info_map state t) = true.
Proof.
  unfold rev1_channels_wired. intros H.
  apply andb_true_iff in H. destruct H as [H H3].
  apply andb_true_iff in H. destruct H as [H1 H2].
  apply Z.eqb_eq in H1. apply Z.ltb_lt in H2.
  split; [exact H1|]. split; [lia | exact H3].
Qed.

(** X20. Resetting the history in the first revision, on a state whose
    channels of type [t] are wired.  Writing 1 to the chip attribute that
    resets the history of [t] returns 0 and applies [reset_info_history] to
    exactly the entries behind the channels of [t]; writing 1 to any
    attribute of one channel of [t] does so for the entry behind that
    channel alone; a reset sets the lowest and the highest value of a sensor
    that is not a fan to its cached value and leaves everything else; and
    any value other than 1 is refused with [-EINVAL], the state
    unchanged. *)
Theorem reset_history_resets_the_channels (a : hwmon_attributes)
    (state : Rev1.hp_wmi_sensors) (t : hwmon_sensor_types) :
  rev1_channels_wired state t = true ->
  (forall attr c,
     attr <> hwmon_chip_update_interval a -> chip_reset_type a attr = Some t ->
     exists state',
       Rev1.hp_wmi_hwmon_write a state hwmon_chip attr c 1
       = Ok (0, state', WorkKept) /\
       (forall idx,
          nth_error (Rev1.info state') idx
          = option_map (fun inf => if behind_channel (Rev1.info_map state t) idx
                                   then Rev1.reset_info_history inf else inf)
                       (nth_error (Rev1.info state) idx)) /\
       (forall val, val <> 1 ->
          Rev1.hp_wmi_hwmon_write a state hwmon_chip attr c val
          = Ok (- EINVAL, state, WorkKept))) /\
  (forall attr c,
     t <> hwmon_chip -> 0 <= c < Rev1.channel_count state t ->
     exists chan state',
       nth_error (Rev1.info_map state t) (Z.to_nat c) = Some (Some chan) /\
       Rev1.hp_wmi_hwmon_write a state t attr c 1 = Ok (0, state', WorkKept) /\
       (forall idx,
          nth_error (Rev1.info state') idx
          = option_map (fun inf => if (chan =? idx)%nat
                                   then Rev1.reset_info_history inf else inf)
                       (nth_error (Rev1.info state) idx)) /\
       (forall val, val <> 1 ->
          Rev1.hp_wmi_hwmon_write a state t attr c val
          = Ok (- EINVAL, state, WorkKept))) /\
  (forall inf,
     let inf' := Rev1.reset_info_history inf in
     Rev1.cached_val inf' = Rev1.cached_val inf /\
     Rev1.nsensor inf' = Rev1.nsensor inf /\
     Rev1.last_updated inf' = Rev1.last_updated inf /\
     (Rev1.type inf <> hwmon_fan ->
      Rev1.lo_val inf' = Rev1.cached_val inf /\
      Rev1.hi_val inf' = Rev1.cached_val inf) /\
     (Rev1.type inf = hwmon_fan -> inf' = inf)).
Proof.
  intros Hw. destruct (rev1_wired_parts _ _ Hw) as (Hcc & H256 & Hall).
  split; [|split].
  - intros attr c Hattr Hty.
    destruct (rev1_reset_loop_run t (Rev1.info_map state t)
                (List.length (Rev1.info state))
                (Z.to_nat (Rev1.channel_count state t)) 0 state
                eq_refl Hcc H256 eq_refl Hall ltac:(lia) ltac:(lia))
      as (state' & Hrun & Hs').
    exists state'.
    assert (Hsel : forall val,
              Rev1.hp_wmi_hwmon_write a state hwmon_chip attr c val
              = if negb (val =? 1) then Ok (- EINVAL, state, WorkKept)
                else match Rev1.reset_loop
                             (Z.to_nat (Rev1.channel_count state t)) 0 state t with
                     | Ok s => Ok (0, s, WorkKept)
                     | Err e => Err e
                     | Undefined => Undefined
                     end).
    { intros val. unfold Rev1.hp_wmi_hwmon_write, Rev1.hp_wmi_hwmon_chip_write.
      cbn [hwmon_eqb].
      replace (attr =? hwmon_chip_update_interval a) with false
        by (symmetry; apply Z.eqb_neq; exact Hattr).
      unfold chip_reset_type in Hty. rewrite Hty. reflexivity. }
    split; [|split].
    + rewrite Hsel. cbn [Z.eqb Pos.eqb negb]. change (Z.of_nat 0) with 0 in Hrun.
      rewrite Hrun. reflexivity.
    + exact Hs'.
    + intros val Hval. rewrite Hsel.
      replace (val =? 1) with false by (symmetry; apply Z.eqb_neq; exact Hval).
      reflexivity.
  - intros attr c Ht Hc.
    destruct (nth_error (Rev1.info_map state t) (Z.to_nat c)) as [o|] eqn:Ho;
      [|apply nth_error_None in Ho; lia].
    rewrite forallb_forall in Hall.
    pose proof (Hall o (nth_error_In _ _ Ho)) as Ho'.
    destruct o as [j|]; [|discriminate Ho']. apply Nat.ltb_lt in Ho'.
    destruct (nth_error (Rev1.info state) j) as [inf|] eqn:Hj;
      [|apply nth_error_None in Hj; lia].
    destruct (list_set_some (Rev1.info state) j (Rev1.reset_info_history inf)
                ltac:(lia)) as [l Hl].
    destruct (list_set_spec _ _ _ _ Hl) as (_ & _ & Hl2 & Hl3).
    exists j, (Rev1.set_info state l).
    assert (Hsel : forall val,
              Rev1.hp_wmi_hwmon_write a state t attr c val
              = if negb (val =? 1) then Ok (- EINVAL, state, WorkKept)
                else Ok (0, Rev1.set_info state l, WorkKept)).
    { intros val. unfold Rev1.hp_wmi_hwmon_write, Rev1.info_at.
      rewrite (hwmon_neqb _ _ Ht).
      replace (c <? 0) with false by (symmetry; apply Z.ltb_ge; lia).
      rewrite Ho, Hj, Hl. reflexivity. }
    split; [reflexivity|]. split; [rewrite Hsel; reflexivity|]. split.
    + intros idx. cbn [Rev1.info Rev1.set_info].
      destruct (Nat.eq_dec idx j) as [->|Hne].
      * rewrite Hl2, Hj, Nat.eqb_refl. reflexivity.
      * rewrite (Hl3 _ Hne).
        replace (j =? idx)%nat with false
          by (symmetry; apply Nat.eqb_neq; congruence).
        destruct (nth_error _ idx); reflexivity.
    + intros val Hval. rewrite Hsel.
      replace (val =? 1) with false by (symmetry; apply Z.eqb_neq; exact Hval).
      reflexivity.
  - intros inf. cbv zeta. unfold Rev1.reset_info_history.
    destruct (hwmon_eqb (Rev1.type inf) hwmon_fan) eqn:E; cbn [negb].
    + apply hwmon_eqb_eq in E. repeat (split; [reflexivity|]).
      split; [intros K; contradiction | reflexivity].
    + cbn. repeat (split; [reflexivity|]).
      split; [intros _; split; reflexivity|].
      intros K. rewrite K in E. discriminate E.
Qed.

Lemma reset_history_resets_the_channels_witness :
  let state :=
    sample_state1
      {| Rev1.nsensor := sample_nsensor 2 "Normal" (-3) 25000;
         Rev1.instance := 0; Rev1.is_active := true; Rev1.type := hwmon_temp;
         Rev1.cached_val := 25000; Rev1.lo_val := 21000; Rev1.hi_val := 30000;
         Rev1.last_updated := 0 |} 0 in
  rev1_channels_wired state hwmon_temp = true /\
  exists state',
    Rev1.hp_wmi_hwmon_write sample_attributes state hwmon_chip 0 0 1
    = Ok (0, state', WorkKept) /\
    (forall idx,
       nth_error (Rev1.info state') idx
       = option_map (fun inf => if behind_channel (Rev1.info_map state hwmon_temp) idx
                                then Rev1.reset_info_history inf else inf)
                    (nth_error (Rev1.info state) idx)) /\
    (forall val, val <> 1 ->
       Rev1.hp_wmi_hwmon_write sample_attributes state hwmon_chip 0 0 val
       = Ok (- EINVAL, state, WorkKept)).
Proof.
  cbv zeta. split; [reflexivity|].
  apply (proj1 (reset_history_resets_the_channels sample_attributes
                  (sample_state1
                     {| Rev1.nsensor := sample_nsensor 2 "Normal" (-3) 25000;
                        Rev1.instance := 0; Rev1.is_active := true;
                        Rev1.type := hwmon_temp;
                        Rev1.cached_val := 25000; Rev1.lo_val := 21000;
                        Rev1.hi_val := 30000; Rev1.last_updated := 0 |} 0)
                  hwmon_temp eq_refl) 0 0).
  - discriminate.
  - reflexivity.
Defined.

(** ** The channels stay wired *)

Lemma Forall2_length_eq {A B : Type} (R : A -> B -> Prop) (l : list A) (l' : list B) :
  Forall2 R l l' -> List.length l = List.length l'.
Proof. induction 1; cbn; congruence. Qed.

(** X21. After a successful initialisation of the first revision the
    channels of every sensor type are wired (the channel count is the
    length of the row and every channel points to an entry), and a state
    with the same layout is wired exactly when the original is: with no
    read, write or refresh changing the layout, a history reset never
    follows a null or dangling channel. *)
Theorem channels_stay_wired (t : hwmon_sensor_types) :
  t <> hwmon_chip ->
  (forall w state w',
     Rev1.hp_wmi_sensors_init Rev1.zero_state w = (Ok state, w') ->
     rev1_channels_wired state t = true) /\
  (forall state state',
     rev1_same_layout state state' ->
     rev1_channels_wired state' t = rev1_channels_wired state t).
Proof.
  intros Ht. split.
  - intros w s w' Hinit.
    destruct (rev1_init_channels _ _ _ t Hinit Ht) as (Hcc & Hmax & Hch & _).
    unfold rev1_channels_wired.
    apply andb_true_iff. split; [apply andb_true_iff; split|].
    + apply Z.eqb_eq. exact Hcc.
    + apply Z.ltb_lt. unfold HP_WMI_MAX_INSTANCES in Hmax. lia.
    + apply forallb_forall. intros o Ho.
      destruct (In_nth_error _ _ Ho) as [c Hc].
      destruct (Hch c) as (idx & inf & Hrow & _ & Hnth & _).
      { apply nth_error_Some. rewrite Hc. discriminate. }
      rewrite Hrow in Hc. injection Hc as <-.
      apply Nat.ltb_lt. apply nth_error_Some. rewrite Hnth. discriminate.
  - intros s s' (_ & Hmap & Hcc & Hinfo). unfold rev1_channels_wired.
    rewrite Hmap, Hcc, (Forall2_length_eq _ _ _ Hinfo). reflexivity.
Qed.

Lemma channels_stay_wired_witness :
  hwmon_temp <> hwmon_chip /\
  forall w state w',
    Rev1.hp_wmi_sensors_init Rev1.zero_state w = (Ok state, w') ->
    rev1_channels_wired state hwmon_temp = true.
Proof.
  split; [discriminate|].
  apply (channels_stay_wired hwmon_temp). discriminate.
Defined.

(** ** The errors of probing *)

Lemma rev1_discover_errors (fuel : nat) :
  forall i d w e w',
    Rev1.discover fuel i d w = (Err e, w') -> e = - EINVAL \/ e = - ENOMEM.
Proof.
  induction fuel as [|fuel IH]; intros i d w e w' H; cbn [Rev1.discover] in H;
    [discriminate H|].
  destruct (i <? HP_WMI_MAX_INSTANCES)%nat; [|discriminate H].
  unfold hp_wmi_get_wobj in H.
  destruct (firmware w (Z.of_nat i)) as [wobj|]; [|discriminate H].
  destruct (Rev1.discover_instance i wobj d _) as [[d1|e1|] w1] eqn:Hd;
    [exact (IH _ _ _ _ _ H) | | discriminate H].
  injection H as <- <-. unfold Rev1.discover_instance in Hd.
  destruct (nth_error (Rev1.d_info d) i) as [inf|]; [|discriminate Hd].
  destruct (Rev1.populate_numeric_sensor_from_wobj _ wobj _) as [[ns|e2|] h] eqn:Hp.
  - repeat match type of Hd with
           | context [if ?b then _ else _] => destruct b
           | context [match ?x with _ => _ end] => destruct x
           end; discriminate Hd.
  - injection Hd as <- _.
    destruct (populate_error_codes _ _ rev1_copy rev1_strdup_alloc _ _ _ _ _ Hp)
      as [->|[-> _]]; auto.
  - discriminate Hd.
Qed.

Lemma rev2_discover_errors (fuel : nat) :
  forall i d w e w',
    Rev2.discover fuel i d w = (Err e, w') -> e = - EINVAL \/ e = - ENOMEM.
Proof.
  induction fuel as [|fuel IH]; intros i d w e w' H; cbn [Rev2.discover] in H;
    [discriminate H|].
  destruct (i <? HP_WMI_MAX_INSTANCES)%nat; [|discriminate H].
  unfold hp_wmi_get_wobj in H.
  destruct (firmware w (Z.of_nat i)) as [wobj|]; [|discriminate H].
  destruct (Rev2.discover_instance i wobj d _) as [[d1|e1|] w1] eqn:Hd;
    [exact (IH _ _ _ _ _ H) | | discriminate H].
  injection H as <- <-. unfold Rev2.discover_instance in Hd.
  destruct (nth_error (Rev2.d_info d) i) as [inf|]; [|discriminate Hd].
  destruct (Rev2.populate_numeric_sensor_from_wobj _ wobj _) as [[ns|e2|] h] eqn:Hp.
  - repeat match type of Hd with
           | context [if ?b then _ else _] => destruct b
           | context [match ?x with _ => _ end] => destruct x
           end; discriminate Hd.
  - injection Hd as <- _.
    destruct (populate_error_codes _ _ rev2_copy rev2_strdup_alloc _ _ _ _ _ Hp)
      as [->|[-> _]]; auto.
  - discriminate Hd.
Qed.

Lemma rev1_alloc_channels_errors (types : list hwmon_sensor_types) :
  forall cc map h e h',
    Rev1.alloc_channels types cc map h = (Err e, h') -> e = - ENOMEM.
Proof.
  induction types as [|t types IH]; intros cc map h e h' H;
    cbn [Rev1.alloc_channels] in H; [discriminate H|].
  destruct (cc t =? 0); [exact (IH _ _ _ _ _ H)|].
  destruct (alloc h) as [ok h1]. destruct (negb ok); [congruence|].
  destruct (alloc h1) as [ok2 h2]. destruct (negb ok2); [congruence|].
  exact (IH _ _ _ _ _ H).
Qed.

Lemma rev2_alloc_channels_errors (types : list hwmon_sensor_types) :
  forall cc map h e h',
    Rev2.alloc_channels types cc map h = (Err e, h') -> e = - ENOMEM.
Proof.
  induction types as [|t types IH]; intros cc map h e h' H;
    cbn [Rev2.alloc_channels] in H; [discriminate H|].
  destruct (cc t =? 0); [exact (IH _ _ _ _ _ H)|].
  destruct (alloc h) as [ok h1]. destruct (negb ok); [congruence|].
  destruct (alloc h1) as [ok2 h2]. destruct (negb ok2); [congruence|].
  exact (IH _ _ _ _ _ H).
Qed.

Lemma rev1_fill_info_map_no_error (channel : nat) :
  forall active info cc map e,
    Rev1.fill_info_map channel active info cc map <> Err e.
Proof.
  induction channel as [|channel IH]; intros active info cc map e;
    cbn [Rev1.fill_info_map]; [discriminate|].
  destruct (nth_error active channel); [|discriminate].
  destruct (nth_error info _); [|discriminate].
  destruct (list_set _ _ _); [apply IH | discriminate].
Qed.

Lemma rev2_fill_info_map_no_error (channel : nat) :
  forall active info cc map e,
    Rev2.fill_info_map channel active info cc map <> Err e.
Proof.
  induction channel as [|channel IH]; intros active info cc map e;
    cbn [Rev2.fill_info_map]; [discriminate|].
  destruct (nth_error active channel); [|discriminate].
  destruct (nth_error info _); [|discriminate].
  destruct (list_set _ _ _); [apply IH | discriminate].
Qed.

Lemma rev1_init_errors (state : Rev1.hp_wmi_sensors) (w w' : world) (e : Z) :
  Rev1.hp_wmi_sensors_init state w = (Err e, w') ->
  e = - ENODATA \/ e = - EINVAL \/ e = - ENOMEM \/
  (e = hwmon_register w' /\ e < 0).
Proof.
  unfold Rev1.hp_wmi_sensors_init. intros H.
  destruct (Rev1.discover _ _ _ w) as [[[n d]|e1|] w1] eqn:Hd;
    [| | discriminate H].
  2:{ injection H as <- <-.
      destruct (rev1_discover_errors _ _ _ _ _ _ Hd); auto. }
  destruct (Z.of_nat n =? 0); [injection H as <- _; auto|].
  destruct (List.length (Rev1.active_info d) =? 0)%nat; [discriminate H|].
  destruct (alloc (mem w1)) as [ok h1].
  destruct (negb ok); [injection H as <- _; auto|].
  destruct (alloc h1) as [ok2 h2].
  destruct (negb ok2); [injection H as <- _; auto|].
  destruct (Rev1.alloc_channels _ _ _ h2) as [[map|e1|] h3] eqn:Ha;
    [| | discriminate H].
  2:{ injection H as <- _.
      rewrite (rev1_alloc_channels_errors _ _ _ _ _ _ Ha). auto. }
  destruct (Rev1.fill_info_map _ _ _ _ map) as [map2|e1|] eqn:Hf;
    [| | discriminate H].
  2:{ exfalso. exact (rev1_fill_info_map_no_error _ _ _ _ _ _ Hf). }
  destruct (hwmon_register (set_mem w1 h3) <? 0) eqn:Eh.
  { injection H as <- <-. apply Z.ltb_lt in Eh. right. right. right.
    split; [reflexivity | exact Eh]. }
  destruct (alloc (mem (set_mem w1 h3))) as [ok3 h4].
  destruct (negb ok3); [injection H as <- _; auto | discriminate H].
Qed.

Lemma rev2_init_errors (state : Rev2.hp_wmi_sensors) (w w' : world) (e : Z) :
  Rev2.hp_wmi_sensors_init state w = (Err e, w') ->
  e = - ENODATA \/ e = - EINVAL \/ e = - ENOMEM \/
  (e = hwmon_register w' /\ e < 0).
Proof.
  unfold Rev2.hp_wmi_sensors_init. intros H.
  destruct (Rev2.discover _ _ _ w) as [[[n d]|e1|] w1] eqn:Hd;
    [| | discriminate H].
  2:{ injection H as <- <-.
      destruct (rev2_discover_errors _ _ _ _ _ _ Hd); auto. }
  destruct (Z.of_nat n =? 0); [injection H as <- _; auto|].
  destruct (List.length (Rev2.active_info d) =? 0)%nat; [discriminate H|].
  destruct (alloc (mem w1)) as [ok h1].
  destruct (negb ok); [injection H as <- _; auto|].
  destruct (alloc h1) as [ok2 h2].
  destruct (negb ok2); [injection H as <- _; auto|].
  destruct (Rev2.alloc_channels _ _ _ h2) as [[map|e1|] h3] eqn:Ha;
    [| | discriminate H].
  2:{ injection H as <- _.
      rewrite (rev2_alloc_channels_errors _ _ _ _ _ _ Ha). auto. }
  destruct (Rev2.fill_info_map _ _ _ _ map) as [map2|e1|] eqn:Hf;
    [| | discriminate H].
  2:{ exfalso. exact (rev2_fill_info_map_no_error _ _ _ _ _ _ Hf). }
  destruct (hwmon_register (set_mem w1 h3) <? 0) eqn:Eh; [|discriminate H].
  injection H as <- <-. apply Z.ltb_lt in Eh. right. right. right.
  split; [reflexivity | exact Eh].
Qed.

(** X22. Probing always returns, a state or an error.  The first revision
    returns [-ENODEV] when one of the two WMI GUIDs is absent, and then
    nothing was queried or allocated; otherwise, and in the second
    revision, the error is one of [-ENODATA], [-EINVAL], [-ENOMEM] or the
    negative result of the hwmon registration.  When the firmware has no
    instance 0, initialisation fails with [-ENODATA] after that single
    query. *)
Theorem probe_error_codes :
  (forall g1 g2 w,
     fst (Rev1.hp_wmi_sensors_probe g1 g2 w) <> Undefined /\
     (g1 && g2 = false ->
      Rev1.hp_wmi_sensors_probe g1 g2 w = (Err (- ENODEV), w)) /\
     (forall e w',
        Rev1.hp_wmi_sensors_probe g1 g2 w = (Err e, w') ->
        (e = - ENODEV /\ g1 && g2 = false) \/
        (g1 && g2 = true /\
         (e = - ENODATA \/ e = - EINVAL \/ e = - ENOMEM \/
          (e = hwmon_register w' /\ e < 0))))) /\
  (forall w,
     fst (Rev2.hp_wmi_sensors_probe w) <> Undefined /\
     (forall e w',
        Rev2.hp_wmi_sensors_probe w = (Err e, w') ->
        e = - ENODATA \/ e = - EINVAL \/ e = - ENOMEM \/
        (e = hwmon_register w' /\ e < 0))) /\
  (forall w,
     firmware w 0 = None ->
     Rev1.hp_wmi_sensors_init Rev1.zero_state w = (Err (- ENODATA), queried w 0) /\
     Rev2.hp_wmi_sensors_init Rev2.zero_state w = (Err (- ENODATA), queried w 0)).
Proof.
  split; [|split].
  - intros g1 g2 w. unfold Rev1.hp_wmi_sensors_probe.
    destruct g1, g2; cbn [negb orb andb];
      try (split; [discriminate|]; split; [reflexivity|];
           intros e w' H; injection H as <- _; left; split; reflexivity).
    destruct (alloc (mem w)) as [ok h]. destruct ok; cbn [negb].
    + split; [apply rev1_init_defined|]. split; [discriminate|].
      intros e w' H. right. split; [reflexivity|].
      exact (rev1_init_errors _ _ _ _ H).
    + split; [discriminate|]. split; [discriminate|].
      intros e w' H. injection H as <- _. right. split; [reflexivity|]. auto.
  - intros w. unfold Rev2.hp_wmi_sensors_probe.
    destruct (alloc (mem w)) as [ok h]. destruct ok; cbn [negb].
    + split; [apply rev2_init_defined|].
      intros e w' H. exact (rev2_init_errors _ _ _ _ H).
    + split; [discriminate|]. intros e w' H. injection H as <- _. auto.
  - intros w Hfw. split.
    + unfold Rev1.hp_wmi_sensors_init. cbn [Rev1.discover HP_WMI_MAX_INSTANCES].
      cbn [Nat.ltb Nat.leb]. unfold hp_wmi_get_wobj. cbn [Z.of_nat].
      rewrite Hfw. reflexivity.
    + unfold Rev2.hp_wmi_sensors_init. cbn [Rev2.discover HP_WMI_MAX_INSTANCES].
      cbn [Nat.ltb Nat.leb]. unfold hp_wmi_get_wobj. cbn [Z.of_nat].
      rewrite Hfw. reflexivity.
Qed.

(** * Freshness and discovery, end to end *)

(** ** Freshness of the cache *)

Lemma update_validated_returns
    (prep : string -> string)
    (dup : string -> Z -> heap -> option string * heap)
    (ns : hp_wmi_numeric_sensor) (wobj : acpi_object) (h : heap) (s : string) :
  check_wobj wobj = Ok (possible_states_count ns) ->
  current_state ns = Some s ->
  exists ns' h',
    update_numeric_sensor_from_wobj prep dup ns wobj h = (Ok ns', h').
Proof.
  intros Hcheck Hcur.
  destruct (check_wobj_ok_shape _ _ Hcheck)
    as (head & states & tail & -> & Hhead & Hs & Hne & Htail & Hcount & Hlen).
  destruct (update_reads_validated_record prep dup ns head states tail h s
              Hhead Hs Hne Htail Hlen Hcount Hcur)
    as (ns' & h' & _ & _ & _ & Hup & _).
  exists ns', h'. exact Hup.
Qed.

Lemma rev1_update_info_refresh (HZ : Z) (w : world) (info : Rev1.hp_wmi_info)
    (wobj : acpi_object) (s : string) :
  0 < HZ < 2 ^ 62 ->
  is_ulong (jiffies w) -> is_ulong (Rev1.last_updated info) ->
  HZ < elapsed (jiffies w) (Rev1.last_updated info) <= HZ + 2 ^ 63 ->
  firmware w (Rev1.instance info) = Some wobj ->
  check_wobj wobj = Ok (possible_states_count (Rev1.nsensor info)) ->
  current_state (Rev1.nsensor info) = Some s ->
  exists info' w',
    Rev1.hp_wmi_update_info HZ w info = (Ok (0, info'), w') /\
    queries w' = Rev1.instance info :: queries w /\
    Rev1.last_updated info' = jiffies w.
Proof.
  intros HHZ Hj Hl He Hfw Hcheck Hcur.
  destruct (update_validated_returns (fun s => s) Rev1.hp_wmi_strdup
              (Rev1.nsensor info) wobj (mem w) s Hcheck Hcur) as (ns' & h' & Hup).
  unfold Rev1.hp_wmi_update_info.
  rewrite (proj2 (time_after_elapsed HZ _ _ HHZ Hj Hl) He).
  unfold hp_wmi_get_wobj. rewrite Hfw.
  unfold Rev1.update_numeric_sensor_from_wobj. cbn [mem]. rewrite Hup.
  eexists _, _. split; [reflexivity|]. split; [reflexivity|].
  unfold Rev1.interpret_info. destruct (negb _); reflexivity.
Qed.

Lemma rev2_update_info_refresh (HZ : Z) (w : world) (info : Rev2.hp_wmi_info)
    (wobj : acpi_object) (s : string) :
  0 < HZ < 2 ^ 62 ->
  is_ulong (jiffies w) -> is_ulong (Rev2.last_updated info) ->
  HZ < elapsed (jiffies w) (Rev2.last_updated info) <= HZ + 2 ^ 63 ->
  firmware w (Rev2.instance info) = Some wobj ->
  check_wobj wobj = Ok (possible_states_count (Rev2.nsensor info)) ->
  current_state (Rev2.nsensor info) = Some s ->
  exists info' w',
    Rev2.hp_wmi_update_info HZ w info = (Ok (0, info'), w') /\
    queries w' = Rev2.instance info :: queries w /\
    Rev2.last_updated info' = jiffies w.
Proof.
  intros HHZ Hj Hl He Hfw Hcheck Hcur.
  destruct (update_validated_returns strim Rev2.hp_wmi_strdup
              (Rev2.nsensor info) wobj (mem w) s Hcheck Hcur) as (ns' & h' & Hup).
  unfold Rev2.hp_wmi_update_info.
  rewrite (proj2 (time_after_elapsed HZ _ _ HHZ Hj Hl) He).
  unfold hp_wmi_get_wobj. rewrite Hfw.
  unfold Rev2.update_numeric_sensor_from_wobj. cbn [mem]. rewrite Hup.
  eexists _, _. split; [reflexivity|]. split; [reflexivity|]. reflexivity.
Qed.

(** C4. With [HZ] ticks to the second, in both revisions.  A read at most
    [HZ] ticks after [last_updated] issues no query, changes neither the
    sensor nor the world and returns 0.  A read more than [HZ] ticks after
    it (and within the [2 ^ 63] ticks that [time_after] can tell apart)
    issues exactly one query, for the sensor's instance.  When that query
    yields a record that [check_wobj] accepts with the count stored at
    discovery, the read returns 0, has issued that one query and stamps the
    sensor with the current tick; a second read at most [HZ] ticks later
    then returns 0 with the sensor and the world as they are, so that the
    two reads issue one query in total. *)
Theorem hp_wmi_update_info_freshness (HZ : Z) :
  0 < HZ < 2 ^ 62 ->
  (forall (w : world) (info : Rev1.hp_wmi_info),
     is_ulong (jiffies w) -> is_ulong (Rev1.last_updated info) ->
     (elapsed (jiffies w) (Rev1.last_updated info) <= HZ ->
      Rev1.hp_wmi_update_info HZ w info = (Ok (0, info), w)) /\
     (HZ < elapsed (jiffies w) (Rev1.last_updated info) <= HZ + 2 ^ 63 ->
      queries (snd (Rev1.hp_wmi_update_info HZ w info))
      = Rev1.instance info :: queries w /\
      forall wobj s,
        firmware w (Rev1.instance info) = Some wobj ->
        check_wobj wobj = Ok (possible_states_count (Rev1.nsensor info)) ->
        current_state (Rev1.nsensor info) = Some s ->
        exists info' w',
          Rev1.hp_wmi_update_info HZ w info = (Ok (0, info'), w') /\
          queries w' = Rev1.instance info :: queries w /\
          Rev1.last_updated info' = jiffies w /\
          forall w2,
            is_ulong (jiffies w2) -> elapsed (jiffies w2) (jiffies w) <= HZ ->
            Rev1.hp_wmi_update_info HZ w2 info' = (Ok (0, info'), w2) /\
            (queries w2 = queries w' ->
             queries (snd (Rev1.hp_wmi_update_info HZ w2 info'))
             = Rev1.instance info :: queries w))) /\
  (forall (w : world) (info : Rev2.hp_wmi_info),
     is_ulong (jiffies w) -> is_ulong (Rev2.last_updated info) ->
     (elapsed (jiffies w) (Rev2.last_updated info) <= HZ ->
      Rev2.hp_wmi_update_info HZ w info = (Ok (0, info), w)) /\
     (HZ < elapsed (jiffies w) (Rev2.last_updated info) <= HZ + 2 ^ 63 ->
      queries (snd (Rev2.hp_wmi_update_info HZ w info))
      = Rev2.instance info :: queries w /\
      forall wobj s,
        firmware w (Rev2.instance info) = Some wobj ->
        check_wobj wobj = Ok (possible_states_count (Rev2.nsensor info)) ->
        current_state (Rev2.nsensor info) = Some s ->
        exists info' w',
          Rev2.hp_wmi_update_info HZ w info = (Ok (0, info'), w') /\
          queries w' = Rev2.instance info :: queries w /\
          Rev2.last_updated info' = jiffies w /\
          forall w2,
            is_ulong (jiffies w2) -> elapsed (jiffies w2) (jiffies w) <= HZ ->
            Rev2.hp_wmi_update_info HZ w2 info' = (Ok (0, info'), w2) /\
            (queries w2 = queries w' ->
             queries (snd (Rev2.hp_wmi_update_info HZ w2 info'))
             = Rev2.instance info :: queries w))).
Proof.
  intros HHZ. split; intros w info Hj Hl; (split; [intros He|intros He]).
  - apply rev1_update_info_fresh; assumption.
  - split; [exact (proj1 (rev1_update_info_stale HZ w info HHZ Hj Hl He))|].
    intros wobj s Hfw Hcheck Hcur.
    destruct (rev1_update_info_refresh HZ w info wobj s HHZ Hj Hl He Hfw Hcheck Hcur)
      as (info' & w' & Hup & Hq & Hlast).
    exists info', w'. split; [exact Hup|]. split; [exact Hq|].
    split; [exact Hlast|]. intros w2 Hj2 He2.
    assert (Hfresh : Rev1.hp_wmi_update_info HZ w2 info' = (Ok (0, info'), w2))
      by (apply rev1_update_info_fresh; try assumption; rewrite Hlast; assumption).
    split; [exact Hfresh|]. intros Hq2. rewrite Hfresh. cbn [snd].
    rewrite Hq2. exact Hq.
  - apply rev2_update_info_fresh; assumption.
  - split; [exact (proj1 (rev2_update_info_stale HZ w info HHZ Hj Hl He))|].
    intros wobj s Hfw Hcheck Hcur.
    destruct (rev2_update_info_refresh HZ w info wobj s HHZ Hj Hl He Hfw Hcheck Hcur)
      as (info' & w' & Hup & Hq & Hlast).
    exists info', w'. split; [exact Hup|]. split; [exact Hq|].
    split; [exact Hlast|]. intros w2 Hj2 He2.
    assert (Hfresh : Rev2.hp_wmi_update_info HZ w2 info' = (Ok (0, info'), w2))
      by (apply rev2_update_info_fresh; try assumption; rewrite Hlast; assumption).
    split; [exact Hfresh|]. intros Hq2. rewrite Hfresh. cbn [snd].
    rewrite Hq2. exact Hq.
Qed.

Lemma hp_wmi_update_info_freshness_witness :
  let fw := sample_firmware (sample_wobj 2 "Normal" (-3) 26000) in
  (Rev1.hp_wmi_update_info 1000 (world_at 5000 fw) (sample_info1 4500)
   = (Ok (0, sample_info1 4500), world_at 5000 fw) /\
   Rev2.hp_wmi_update_info 1000 (world_at 5000 fw) (sample_info2 4500)
   = (Ok (0, sample_info2 4500), world_at 5000 fw)) /\
  (exists info' w',
     Rev1.hp_wmi_update_info 1000 (world_at 5000 fw) (sample_info1 3000)
     = (Ok (0, info'), w') /\
     queries w' = [0] /\ Rev1.last_updated info' = 5000 /\
     Rev1.cached_val info' = 26000 /\
     Rev1.hp_wmi_update_info 1000
       {| jiffies := 5900; firmware := fw; queries := queries w'; mem := mem w';
          hwmon_register := 0 |} info'
     = (Ok (0, info'),
        {| jiffies := 5900; firmware := fw; queries := [0]; mem := mem w';
           hwmon_register := 0 |})) /\
  (exists info' w',
     Rev2.hp_wmi_update_info 1000 (world_at 5000 fw) (sample_info2 3000)
     = (Ok (0, info'), w') /\
     queries w' = [0] /\ Rev2.last_updated info' = 5000 /\
     Rev2.cached_val info' = 26000 /\
     Rev2.hp_wmi_update_info 1000
       {| jiffies := 5900; firmware := fw; queries := queries w'; mem := mem w';
          hwmon_register := 0 |} info'
     = (Ok (0, info'),
        {| jiffies := 5900; firmware := fw; queries := [0]; mem := mem w';
           hwmon_register := 0 |})).
Proof.
  cbv zeta.
  assert (HHZ : 0 < 1000 < 2 ^ 62) by (vm_compute; split; reflexivity).
  destruct (hp_wmi_update_info_freshness 1000 HHZ) as [H1 H2].
  split; [split|split].
  - refine (proj1 (H1 _ (sample_info1 4500) _ _) _);
      vm_compute; intuition congruence.
  - refine (proj1 (H2 _ (sample_info2 4500) _ _) _);
      vm_compute; intuition congruence.
  - destruct (H1 (world_at 5000 (sample_firmware (sample_wobj 2 "Normal" (-3) 26000)))
                (sample_info1 3000)) as [_ Hs];
      [vm_compute; intuition congruence | vm_compute; intuition congruence |].
    destruct Hs as [_ Hs]; [vm_compute; intuition congruence|].
    destruct (Hs (sample_wobj 2 "Normal" (-3) 26000) "Normal"%string
                eq_refl eq_refl eq_refl)
      as (info' & w' & Hup & Hq & Hlast & Hsecond).
    exists info', w'. split; [exact Hup|]. split; [exact Hq|].
    split; [exact Hlast|].
    assert (Hrun : Rev1.hp_wmi_update_info 1000
                     (world_at 5000 (sample_firmware (sample_wobj 2 "Normal" (-3) 26000)))
                     (sample_info1 3000)
                   = (Ok (0, Rev1.interpret_info 5000
                                (Rev1.set_nsensor (sample_info1 3000)
                                   (sample_nsensor 2 "Normal" (-3) 26000))),
                      {| jiffies := 5000;
                         firmware := sample_firmware (sample_wobj 2 "Normal" (-3) 26000);
                         queries := [0]; mem := []; hwmon_register := 0 |}))
      by (vm_compute; reflexivity).
    pose proof (eq_trans (eq_sym Hrun) Hup) as E. injection E as <- <-.
    split; [vm_compute; reflexivity|].
    refine (proj1 (Hsecond _ _ _)); vm_compute; intuition congruence.
  - destruct (H2 (world_at 5000 (sample_firmware (sample_wobj 2 "Normal" (-3) 26000)))
                (sample_info2 3000)) as [_ Hs];
      [vm_compute; intuition congruence | vm_compute; intuition congruence |].
    destruct Hs as [_ Hs]; [vm_compute; intuition congruence|].
    destruct (Hs (sample_wobj 2 "Normal" (-3) 26000) "Normal"%string
                eq_refl eq_refl eq_refl)
      as (info' & w' & Hup & Hq & Hlast & Hsecond).
    exists info', w'. split; [exact Hup|]. split; [exact Hq|].
    split; [exact Hlast|].
    assert (Hrun : Rev2.hp_wmi_update_info 1000
                     (world_at 5000 (sample_firmware (sample_wobj 2 "Normal" (-3) 26000)))
                     (sample_info2 3000)
                   = (Ok (0, Rev2.interpret_info 5000
                                (Rev2.set_nsensor (sample_info2 3000)
                                   (sample_nsensor 2 "Normal" (-3) 26000))),
                      {| jiffies := 5000;
                         firmware := sample_firmware (sample_wobj 2 "Normal" (-3) 26000);
                         queries := [0]; mem := []; hwmon_register := 0 |}))
      by (vm_compute; reflexivity).
    pose proof (eq_trans (eq_sym Hrun) Hup) as E. injection E as <- <-.
    split; [vm_compute; reflexivity|].
    refine (proj1 (Hsecond _ _ _)); vm_compute; intuition congruence.
Defined.

(** ** Discovery: the live set *)





(** ** Discovery: which errors are fatal *)

Section PopulateCauses.

Variable prep : string -> string.
Variable dup : string -> Z -> heap -> option string * heap.
Variable copy : string -> Z -> string.

Hypothesis Hdup :
  forall src len h,
    dup src len h
    = let '(ok, h') := alloc h in
      if ok then (Some (copy src len), h') else (None, h').

Local Abbreviation pop2 := (populate_numeric_sensor_from_wobj prep dup).

Lemma populate_ok_decodable (ns0 ns : hp_wmi_numeric_sensor) (wobj : acpi_object)
    (h h' : heap) :
  pop2 ns0 wobj h = (Ok ns, h') -> decodable_record wobj.
Proof.
  intros H.
  destruct (populate_ok_check _ _ _ _ _ _ _ H) as (n & Hcheck).
  destruct (populate_ok_decoded _ _ copy Hdup _ _ _ _ _ H) as (elements & -> & D).
  destruct D as (l0 & p0 & l1 & p1 & v2 & l3 & p3 & v4 & l5 & p5 & states
                 & vb & vm & vr & -> & _ & _ & _ & _ & _ & Hty & _).
  exists n. eexists. exists v2. split; [exact Hcheck|].
  split; [reflexivity|]. split; [reflexivity|exact Hty].
Qed.

Lemma populate_keeps_failure (ns0 : hp_wmi_numeric_sensor) (wobj : acpi_object)
    (h h' : heap) (r : result hp_wmi_numeric_sensor) :
  pop2 ns0 wobj h = (r, h') -> In false h' -> In false h.
Proof.
  intros H Hin. destruct (check_wobj wobj) as [n|e'|] eqn:Hcheck.
  - destruct (check_wobj_ok_fields _ _ Hcheck)
      as (l0 & p0 & l1 & p1 & v2 & l3 & p3 & v4 & l5 & p5 & states & vb & vm & vr
          & -> & Hs & Hlen & _).
    rewrite populate_shape_run in H;
      [| assumption | destruct states; [simpl in Hlen; lia|discriminate] | lia].
    unfold populate_run in H.
    destruct (alloc h) as [ok h0] eqn:A.
    assert (K0 : In false h0 -> In false h) by (eapply alloc_keeps_failure; eauto).
    destruct ok; cbn [negb] in H; [|inversion H; subst; auto].
    destruct (dup (prep p0) l0 h0) as [o0 h1] eqn:E0.
    assert (K1 : In false h1 -> In false h)
      by (intros; apply K0; eapply (dup_keeps_failure dup copy Hdup); eauto).
    destruct o0 as [s0|]; [|inversion H; subst; auto].
    destruct (dup (prep p1) l1 h1) as [o1 h2] eqn:E1.
    assert (K2 : In false h2 -> In false h)
      by (intros; apply K1; eapply (dup_keeps_failure dup copy Hdup); eauto).
    destruct o1 as [s1|]; [|inversion H; subst; auto].
    destruct (u32 v2 >? HP_WMI_TYPE_AIR_FLOW); [inversion H; subst; auto|].
    assert (Hend : forall h3 o3, (In false h3 -> In false h) ->
              match dup (prep p5) l5 h3 with
              | (None, h4) => (Err (- ENOMEM), h4)
              | (Some s5, h4) =>
                  match dup_states prep dup states h4 with
                  | (None, h5) => (@Err hp_wmi_numeric_sensor (- ENOMEM), h5)
                  | (Some strs, h5) =>
                      (Ok {| name := Some s0; description := Some s1;
                             sensor_type := u32 v2; other_sensor_type := o3;
                             operational_status := u32 v4;
                             current_state := Some s5;
                             possible_states := strs;
                             base_units := u32 vb;
                             unit_modifier := s32 (u32 vm);
                             current_reading := u32 vr;
                             possible_states_count
                             := Z.of_nat (List.length states) |}, h5)
                  end
              end = (r, h') -> In false h).
    { intros h3 o3 K3 H3.
      destruct (dup (prep p5) l5 h3) as [o5 h4] eqn:E5.
      assert (K4 : In false h4 -> In false h)
        by (intros; apply K3; eapply (dup_keeps_failure dup copy Hdup); eauto).
      destruct o5 as [s5|]; [|inversion H3; subst; auto].
      destruct (dup_states prep dup states h4) as [os h5] eqn:Ed.
      pose proof (proj2 (dup_states_fails prep dup copy Hdup _ _ _ _ Ed)) as K5.
      destruct os; inversion H3; subst; auto. }
    destruct (u32 v2 =? HP_WMI_TYPE_OTHER).
    + destruct (dup (prep p3) l3 h2) as [o3 h3] eqn:E3.
      assert (K3 : In false h3 -> In false h)
        by (intros; apply K2; eapply (dup_keeps_failure dup copy Hdup); eauto).
      destruct o3 as [s3|]; [|inversion H; subst; auto].
      exact (Hend h3 (Some s3) K3 H).
    + exact (Hend h2 (other_sensor_type ns0) K2 H).
  - rewrite (populate_check_err _ _ _ _ _ _ Hcheck) in H. inversion H; subst.
    exact Hin.
  - exfalso. exact (check_wobj_defined _ Hcheck).
Qed.

Lemma populate_error_causes (ns0 : hp_wmi_numeric_sensor) (wobj : acpi_object)
    (h h' : heap) (e : Z) :
  pop2 ns0 wobj h = (Err e, h') ->
  (e = - EINVAL /\ ~ decodable_record wobj) \/ (e = - ENOMEM /\ In false h).
Proof.
  intros H.
  destruct (populate_error_codes prep dup copy Hdup _ _ _ _ _ H) as [->|K];
    [|right; exact K].
  left. split; [reflexivity|]. intros (n & elements & v & Hcheck & -> & Hv & Hty).
  destruct (check_wobj_ok_fields _ _ Hcheck)
    as (l0 & p0 & l1 & p1 & v2 & l3 & p3 & v4 & l5 & p5 & states & vb & vm & vr
        & Hw & Hs & Hlen & _).
  assert (He : elements
               = [AcpiString l0 p0; AcpiString l1 p1; AcpiInteger v2;
                  AcpiString l3 p3; AcpiInteger v4; AcpiString l5 p5]
                 ++ states ++ [AcpiInteger vb; AcpiInteger vm; AcpiInteger vr])
    by congruence.
  clear Hw. subst elements. cbn in Hv. injection Hv as <-.
  rewrite populate_shape_run in H;
    [| assumption | destruct states; [simpl in Hlen; lia|discriminate] | lia].
  unfold populate_run in H. unfold ENOMEM, EINVAL in H.
  destruct (alloc h) as [[|] h0]; cbn [negb] in H; [|discriminate H].
  destruct (dup (prep p0) l0 h0) as [[s0|] h1]; [|discriminate H].
  destruct (dup (prep p1) l1 h1) as [[s1|] h2]; [|discriminate H].
  replace (u32 v2 >? HP_WMI_TYPE_AIR_FLOW) with false in H
    by (symmetry; rewrite Z.gtb_ltb; apply Z.ltb_ge; exact Hty).
  destruct (u32 v2 =? HP_WMI_TYPE_OTHER).
  - destruct (dup (prep p3) l3 h2) as [[s3|] h3]; [|discriminate H].
    destruct (dup (prep p5) l5 h3) as [[s5|] h4]; [|discriminate H].
    destruct (dup_states prep dup states h4) as [[strs|] h5]; discriminate H.
  - destruct (dup (prep p5) l5 h2) as [[s5|] h4]; [|discriminate H].
    destruct (dup_states prep dup states h4) as [[strs|] h5]; discriminate H.
Qed.

Lemma populate_decodable_ok (ns0 : hp_wmi_numeric_sensor) (wobj : acpi_object)
    (h : heap) :
  decodable_record wobj -> ~ In false h ->
  exists ns h', pop2 ns0 wobj h = (Ok ns, h').
Proof.
  intros Hd Hno.
  pose proof (populate_defined prep dup ns0 wobj h) as Hdef.
  destruct (pop2 ns0 wobj h) as [[ns|e|] h'] eqn:H.
  - eauto.
  - destruct (populate_error_causes _ _ _ _ _ H) as [[_ K]|[_ K]]; contradiction.
  - exfalso. apply Hdef. reflexivity.
Qed.

End PopulateCauses.

Lemma alloc_no_failure (h : heap) :
  ~ In false h -> exists h', alloc h = (true, h') /\ ~ In false h'.
Proof.
  destruct h as [|[|] h0]; cbn; intros H.
  - exists []. split; [reflexivity | exact H].
  - exists h0. split; [reflexivity | tauto].
  - exfalso. apply H. left. reflexivity.
Qed.

Lemma rev1_discover_instance_cause (i : nat) (wobj : acpi_object)
    (d : Rev1.discovery) (w : world) :
  match Rev1.discover_instance i wobj d w with
  | (Ok d', w') =>
      decodable_record wobj /\ (In false (mem w') -> In false (mem w))
  | (Err e, w') =>
      (e = - EINVAL /\ ~ decodable_record wobj) \/
      (e = - ENOMEM /\ In false (mem w))
  | (Undefined, _) => True
  end.
Proof.
  unfold Rev1.discover_instance.
  destruct (nth_error (Rev1.d_info d) i) as [inf|]; [|exact I].
  destruct (Rev1.populate_numeric_sensor_from_wobj _ wobj (mem w))
    as [[ns|e|] h] eqn:Hp; [| |exact I].
  - pose proof (populate_ok_decodable _ _ rev1_copy rev1_strdup_alloc _ _ _ _ _ Hp)
      as Hd.
    pose proof (populate_keeps_failure _ _ rev1_copy rev1_strdup_alloc _ _ _ _ _ Hp)
      as Hk.
    repeat match goal with
           | |- context [if ?b then _ else _] => destruct b
           | |- context [match list_set ?l ?n ?x with _ => _ end] =>
               destruct (list_set l n x)
           end; try exact I; (split; [exact Hd | exact Hk]).
  - exact (populate_error_causes _ _ rev1_copy rev1_strdup_alloc _ _ _ _ _ Hp).
Qed.

Lemma rev1_discover_outcome (fw : Z -> option acpi_object) (fuel : nat) :
  forall (i : nat) (d : Rev1.discovery) (w : world),
    rev1_discovered fw i d -> firmware w = fw ->
    (i <= HP_WMI_MAX_INSTANCES)%nat -> (HP_WMI_MAX_INSTANCES - i <= fuel)%nat ->
    match Rev1.discover fuel i d w with
    | (Ok (n, d'), w') =>
        (i <= n <= HP_WMI_MAX_INSTANCES)%nat /\
        (forall j, (i <= j < n)%nat ->
           exists wobj, fw (Z.of_nat j) = Some wobj /\ decodable_record wobj) /\
        ((n < HP_WMI_MAX_INSTANCES)%nat -> fw (Z.of_nat n) = None) /\
        (In false (mem w') -> In false (mem w)) /\
        hwmon_register w' = hwmon_register w
    | (Err e, w') =>
        exists k wobj,
          (i <= k < HP_WMI_MAX_INSTANCES)%nat /\
          (forall j, (i <= j < k)%nat ->
             exists wobj, fw (Z.of_nat j) = Some wobj /\ decodable_record wobj) /\
          fw (Z.of_nat k) = Some wobj /\
          ((e = - EINVAL /\ ~ decodable_record wobj) \/
           (e = - ENOMEM /\ In false (mem w)))
    | (Undefined, _) => False
    end.
Proof.
  induction fuel as [|fuel IH]; intros i d w Hinv Hfw Hi Hfuel.
  - cbn [Rev1.discover].
    split; [lia|]. split; [intros j Hj; lia|]. split; [intros; lia|].
    split; [auto | reflexivity].
  - cbn [Rev1.discover].
    destruct (i <? HP_WMI_MAX_INSTANCES)%nat eqn:Hlt.
    2:{ apply Nat.ltb_ge in Hlt.
        split; [lia|]. split; [intros j Hj; lia|]. split; [intros; lia|].
        split; [auto | reflexivity]. }
    apply Nat.ltb_lt in Hlt. unfold hp_wmi_get_wobj. rewrite Hfw.
    destruct (fw (Z.of_nat i)) as [wobj|] eqn:Hwobj.
    2:{ split; [lia|]. split; [intros j Hj; lia|]. split; [intros _; exact Hwobj|].
        split; [auto | reflexivity]. }
    set (w1 := {| jiffies := jiffies w; firmware := fw;
                  queries := Z.of_nat i :: queries w; mem := mem w;
                  hwmon_register := hwmon_register w |}).
    assert (Hsome : exists inf0, nth_error (Rev1.d_info d) i = Some inf0).
    { destruct (nth_error (Rev1.d_info d) i) eqn:E; [eauto|].
      apply nth_error_None in E. destruct Hinv as [Hlen _]. lia. }
    destruct Hsome as [inf0 Hinf0].
    pose proof (rev1_discover_instance_spec i wobj d w1 inf0 Hinf0
                  (proj1 (proj2 Hinv) i inf0 (le_n i) Hinf0)) as Hspec.
    pose proof (rev1_discover_instance_cause i wobj d w1) as Hcause.
    destruct (Rev1.discover_instance i wobj d w1) as [[d'|e|] w2] eqn:Hstep;
      [| |exact Hspec].
    + destruct Hspec as (Hfw2 & Hreg2 & _). destruct Hcause as [Hdec Hk].
      pose proof (rev1_discovered_step fw i wobj d d' w1 w2 Hinv Hlt Hwobj Hstep)
        as Hinv'.
      specialize (IH (i + 1)%nat d' w2 Hinv' Hfw2 ltac:(lia) ltac:(lia)).
      destruct (Rev1.discover fuel (i + 1) d' w2) as [[[n d'']|e|] w3];
        [| |exact IH].
      * destruct IH as (H1 & H2 & H3 & H4 & H5).
        split; [lia|]. split; [|split; [exact H3|split]].
        -- intros j Hj. destruct (Nat.eq_dec j i) as [->|Hne];
             [exists wobj; split; assumption | apply H2; lia].
        -- intros K. apply Hk. apply H4. exact K.
        -- rewrite H5, Hreg2. reflexivity.
      * destruct IH as (k & bad & Hk1 & Hk2 & Hk3 & Hk4).
        exists k, bad. split; [lia|]. split; [|split; [exact Hk3|]].
        -- intros j Hj. destruct (Nat.eq_dec j i) as [->|Hne];
             [exists wobj; split; assumption | apply Hk2; lia].
        -- destruct Hk4 as [Hk4|[Hk4 Hk5]]; [left; exact Hk4|].
           right. split; [exact Hk4 | apply Hk; exact Hk5].
    + exists i, wobj. split; [lia|]. split; [intros j Hj; lia|].
      split; [exact Hwobj | exact Hcause].
Qed.

Lemma rev1_init_malformed (w : world) (k : nat) (bad : acpi_object) :
  (k < HP_WMI_MAX_INSTANCES)%nat ->
  (forall j, (j <= k)%nat -> firmware w (Z.of_nat j) <> None) ->
  firmware w (Z.of_nat k) = Some bad -> ~ decodable_record bad ->
  exists e' w',
    Rev1.hp_wmi_sensors_init Rev1.zero_state w = (Err e', w') /\
    (e' = - EINVAL \/ (e' = - ENOMEM /\ In false (mem w))).
Proof.
  intros Hk Hall Hbad Hnd. unfold Rev1.hp_wmi_sensors_init.
  pose proof (rev1_discover_outcome (firmware w) HP_WMI_MAX_INSTANCES 0 _ w
                (rev1_discovered_zero (firmware w)) eq_refl
                ltac:(lia) ltac:(lia)) as Hd.
  destruct (Rev1.discover HP_WMI_MAX_INSTANCES 0 _ w) as [[[n d]|e|] w1];
    [| |destruct Hd].
  - exfalso. destruct Hd as (Hn & Hdec & Hstop & _).
    destruct (Nat.le_gt_cases n k) as [Hle|Hgt].
    + apply (Hall n Hle). apply Hstop. lia.
    + destruct (Hdec k ltac:(lia)) as (wobj & Hfw & Hw).
      assert (wobj = bad) by congruence. subst wobj. contradiction.
  - destruct Hd as (k' & wobj & Hk' & _ & _ & Hcause).
    exists e, w1. split; [reflexivity|].
    destruct Hcause as [[-> _]|[-> Hin]]; [left; reflexivity | right; auto].
Qed.

Lemma rev1_alloc_channels_no_failure (types : list hwmon_sensor_types) :
  forall cc map h,
    ~ In false h ->
    exists map' h',
      Rev1.alloc_channels types cc map h = (Ok map', h') /\ ~ In false h'.
Proof.
  induction types as [|t types IH]; intros cc map h Hno;
    cbn [Rev1.alloc_channels]; [eauto|].
  destruct (cc t =? 0); [apply IH; exact Hno|].
  destruct (alloc_no_failure h Hno) as (h1 & -> & Hno1). cbn [negb].
  destruct (alloc_no_failure h1 Hno1) as (h2 & -> & Hno2). cbn [negb].
  apply IH. exact Hno2.
Qed.

Lemma rev1_init_succeeds (w : world) (n : nat) :
  (1 <= n <= HP_WMI_MAX_INSTANCES)%nat ->
  (forall j, (j < n)%nat ->
     exists wobj, firmware w (Z.of_nat j) = Some wobj /\ decodable_record wobj) ->
  ((n < HP_WMI_MAX_INSTANCES)%nat -> firmware w (Z.of_nat n) = None) ->
  ~ In false (mem w) -> 0 <= hwmon_register w ->
  exists st w',
    Rev1.hp_wmi_sensors_init Rev1.zero_state w = (Ok st, w') /\
    Rev1.count st = Z.of_nat n.
Proof.
  intros Hn Hall Hstop Hno Hreg.
  pose proof (rev1_init_defined w) as Hdef.
  unfold Rev1.hp_wmi_sensors_init in Hdef |- *.
  pose proof (rev1_discover_outcome (firmware w) HP_WMI_MAX_INSTANCES 0 _ w
                (rev1_discovered_zero (firmware w)) eq_refl
                ltac:(lia) ltac:(lia)) as Hd.
  destruct (Rev1.discover HP_WMI_MAX_INSTANCES 0 _ w) as [[[n' d]|e|] w1];
    [| |destruct Hd].
  2:{ exfalso. destruct Hd as (k & wobj & Hk & Hdec & Hfw & Hcause).
      destruct (Nat.lt_ge_cases k n) as [Hlt|Hge].
      - destruct (Hall k Hlt) as (wobj' & Hfw' & Hw').
        assert (wobj' = wobj) by congruence. subst wobj'.
        destruct Hcause as [[_ K]|[_ K]]; contradiction.
      - assert (Hnone : firmware w (Z.of_nat n) = None) by (apply Hstop; lia).
        destruct (Nat.eq_dec k n) as [->|Hne]; [congruence|].
        destruct (Hdec n ltac:(lia)) as (wobj' & Hfw' & _). congruence. }
  destruct Hd as (Hn' & Hdec & Hstop' & Hmem & Hreg').
  assert (n' = n).
  { destruct (Nat.lt_trichotomy n' n) as [Hlt|[Heq|Hgt]]; [|exact Heq|].
    - destruct (Hall n' Hlt) as (wobj & Hfw & _).
      rewrite Hstop' in Hfw by lia. discriminate Hfw.
    - destruct (Hdec n ltac:(lia)) as (wobj & Hfw & _).
      rewrite Hstop in Hfw by lia. discriminate Hfw. }
  subst n'.
  assert (Hno1 : ~ In false (mem w1)) by (intros K; apply Hno, Hmem, K).
  replace (Z.of_nat n =? 0) with false in Hdef |- *
    by (symmetry; apply Z.eqb_neq; lia).
  destruct (List.length (Rev1.active_info d) =? 0)%nat;
    [eexists _, _; split; reflexivity|].
  destruct (alloc_no_failure _ Hno1) as (h1 & A1 & Hno2).
  rewrite A1 in Hdef |- *. cbn [negb] in Hdef |- *.
  destruct (alloc_no_failure _ Hno2) as (h2 & A2 & Hno3).
  rewrite A2 in Hdef |- *. cbn [negb] in Hdef |- *.
  destruct (rev1_alloc_channels_no_failure (rev hwmon_types)
              (set_by_type (Rev1.d_channel_count d) hwmon_chip 1)
              (Rev1.info_map Rev1.zero_state) h2 Hno3) as (map' & h3 & A3 & Hno4).
  rewrite A3 in Hdef |- *.
  destruct (Rev1.fill_info_map _ _ _ _ map') as [map2|e|] eqn:Hf.
  - cbn [hwmon_register set_mem mem] in Hdef |- *.
    replace (hwmon_register w1 <? 0) with false
      by (symmetry; apply Z.ltb_ge; lia).
    destruct (alloc_no_failure _ Hno4) as (h4 & A4 & _).
    rewrite A4. cbn [negb]. eexists _, _. split; reflexivity.
  - exfalso. exact (rev1_fill_info_map_no_error _ _ _ _ _ _ Hf).
  - exfalso. apply Hdef. reflexivity.
Qed.

Lemma rev2_discover_instance_cause (i : nat) (wobj : acpi_object)
    (d : Rev2.discovery) (w : world) :
  match Rev2.discover_instance i wobj d w with
  | (Ok d', w') =>
      decodable_record wobj /\ (In false (mem w') -> In false (mem w))
  | (Err e, w') =>
      (e = - EINVAL /\ ~ decodable_record wobj) \/
      (e = - ENOMEM /\ In false (mem w))
  | (Undefined, _) => True
  end.
Proof.
  unfold Rev2.discover_instance.
  destruct (nth_error (Rev2.d_info d) i) as [inf|]; [|exact I].
  destruct (Rev2.populate_numeric_sensor_from_wobj _ wobj (mem w))
    as [[ns|e|] h] eqn:Hp; [| |exact I].
  - pose proof (populate_ok_decodable _ _ rev2_copy rev2_strdup_alloc _ _ _ _ _ Hp)
      as Hd.
    pose proof (populate_keeps_failure _ _ rev2_copy rev2_strdup_alloc _ _ _ _ _ Hp)
      as Hk.
    repeat match goal with
           | |- context [if ?b then _ else _] => destruct b
           | |- context [match list_set ?l ?n ?x with _ => _ end] =>
               destruct (list_set l n x)
           end; try exact I; (split; [exact Hd | exact Hk]).
  - exact (populate_error_causes _ _ rev2_copy rev2_strdup_alloc _ _ _ _ _ Hp).
Qed.

Lemma rev2_discover_outcome (fw : Z -> option acpi_object) (fuel : nat) :
  forall (i : nat) (d : Rev2.discovery) (w : world),
    rev2_discovered fw i d -> firmware w = fw ->
    (i <= HP_WMI_MAX_INSTANCES)%nat -> (HP_WMI_MAX_INSTANCES - i <= fuel)%nat ->
    match Rev2.discover fuel i d w with
    | (Ok (n, d'), w') =>
        (i <= n <= HP_WMI_MAX_INSTANCES)%nat /\
        (forall j, (i <= j < n)%nat ->
           exists wobj, fw (Z.of_nat j) = Some wobj /\ decodable_record wobj) /\
        ((n < HP_WMI_MAX_INSTANCES)%nat -> fw (Z.of_nat n) = None) /\
        (In false (mem w') -> In false (mem w)) /\
        hwmon_register w' = hwmon_register w
    | (Err e, w') =>
        exists k wobj,
          (i <= k < HP_WMI_MAX_INSTANCES)%nat /\
          (forall j, (i <= j < k)%nat ->
             exists wobj, fw (Z.of_nat j) = Some wobj /\ decodable_record wobj) /\
          fw (Z.of_nat k) = Some wobj /\
          ((e = - EINVAL /\ ~ decodable_record wobj) \/
           (e = - ENOMEM /\ In false (mem w)))
    | (Undefined, _) => False
    end.
Proof.
  induction fuel as [|fuel IH]; intros i d w Hinv Hfw Hi Hfuel.
  - cbn [Rev2.discover].
    split; [lia|]. split; [intros j Hj; lia|]. split; [intros; lia|].
    split; [auto | reflexivity].
  - cbn [Rev2.discover].
    destruct (i <? HP_WMI_MAX_INSTANCES)%nat eqn:Hlt.
    2:{ apply Nat.ltb_ge in Hlt.
        split; [lia|]. split; [intros j Hj; lia|]. split; [intros; lia|].
        split; [auto | reflexivity]. }
    apply Nat.ltb_lt in Hlt. unfold hp_wmi_get_wobj. rewrite Hfw.
    destruct (fw (Z.of_nat i)) as [wobj|] eqn:Hwobj.
    2:{ split; [lia|]. split; [intros j Hj; lia|]. split; [intros _; exact Hwobj|].
        split; [auto | reflexivity]. }
    set (w1 := {| jiffies := jiffies w; firmware := fw;
                  queries := Z.of_nat i :: queries w; mem := mem w;
                  hwmon_register := hwmon_register w |}).
    assert (Hsome : exists inf0, nth_error (Rev2.d_info d) i = Some inf0).
    { destruct (nth_error (Rev2.d_info d) i) eqn:E; [eauto|].
      apply nth_error_None in E. destruct Hinv as [Hlen _]. lia. }
    destruct Hsome as [inf0 Hinf0].
    pose proof (rev2_discover_instance_spec i wobj d w1 inf0 Hinf0
                  (proj1 (proj2 Hinv) i inf0 (le_n i) Hinf0)) as Hspec.
    pose proof (rev2_discover_instance_cause i wobj d w1) as Hcause.
    destruct (Rev2.discover_instance i wobj d w1) as [[d'|e|] w2] eqn:Hstep;
      [| |exact Hspec].
    + destruct Hspec as (Hfw2 & Hreg2 & _). destruct Hcause as [Hdec Hk].
      pose proof (rev2_discovered_step fw i wobj d d' w1 w2 Hinv Hlt Hwobj Hstep)
        as Hinv'.
      specialize (IH (i + 1)%nat d' w2 Hinv' Hfw2 ltac:(lia) ltac:(lia)).
      destruct (Rev2.discover fuel (i + 1) d' w2) as [[[n d'']|e|] w3];
        [| |exact IH].
      * destruct IH as (H1 & H2 & H3 & H4 & H5).
        split; [lia|]. split; [|split; [exact H3|split]].
        -- intros j Hj. destruct (Nat.eq_dec j i) as [->|Hne];
             [exists wobj; split; assumption | apply H2; lia].
        -- intros K. apply Hk. apply H4. exact K.
        -- rewrite H5, Hreg2. reflexivity.
      * destruct IH as (k & bad & Hk1 & Hk2 & Hk3 & Hk4).
        exists k, bad. split; [lia|]. split; [|split; [exact Hk3|]].
        -- intros j Hj. destruct (Nat.eq_dec j i) as [->|Hne];
             [exists wobj; split; assumption | apply Hk2; lia].
        -- destruct Hk4 as [Hk4|[Hk4 Hk5]]; [left; exact Hk4|].
           right. split; [exact Hk4 | apply Hk; exact Hk5].
    + exists i, wobj. split; [lia|]. split; [intros j Hj; lia|].
      split; [exact Hwobj | exact Hcause].
Qed.

Lemma rev2_init_malformed (w : world) (k : nat) (bad : acpi_object) :
  (k < HP_WMI_MAX_INSTANCES)%nat ->
  (forall j, (j <= k)%nat -> firmware w (Z.of_nat j) <> None) ->
  firmware w (Z.of_nat k) = Some bad -> ~ decodable_record bad ->
  exists e' w',
    Rev2.hp_wmi_sensors_init Rev2.zero_state w = (Err e', w') /\
    (e' = - EINVAL \/ (e' = - ENOMEM /\ In false (mem w))).
Proof.
  intros Hk Hall Hbad Hnd. unfold Rev2.hp_wmi_sensors_init.
  pose proof (rev2_discover_outcome (firmware w) HP_WMI_MAX_INSTANCES 0 _ w
                (rev2_discovered_zero (firmware w)) eq_refl
                ltac:(lia) ltac:(lia)) as Hd.
  destruct (Rev2.discover HP_WMI_MAX_INSTANCES 0 _ w) as [[[n d]|e|] w1];
    [| |destruct Hd].
  - exfalso. destruct Hd as (Hn & Hdec & Hstop & _).
    destruct (Nat.le_gt_cases n k) as [Hle|Hgt].
    + apply (Hall n Hle). apply Hstop. lia.
    + destruct (Hdec k ltac:(lia)) as (wobj & Hfw & Hw).
      assert (wobj = bad) by congruence. subst wobj. contradiction.
  - destruct Hd as (k' & wobj & Hk' & _ & _ & Hcause).
    exists e, w1. split; [reflexivity|].
    destruct Hcause as [[-> _]|[-> Hin]]; [left; reflexivity | right; auto].
Qed.

Lemma rev2_alloc_channels_no_failure (types : list hwmon_sensor_types) :
  forall cc map h,
    ~ In false h ->
    exists map' h',
      Rev2.alloc_channels types cc map h = (Ok map', h') /\ ~ In false h'.
Proof.
  induction types as [|t types IH]; intros cc map h Hno;
    cbn [Rev2.alloc_channels]; [eauto|].
  destruct (cc t =? 0); [apply IH; exact Hno|].
  destruct (alloc_no_failure h Hno) as (h1 & -> & Hno1). cbn [negb].
  destruct (alloc_no_failure h1 Hno1) as (h2 & -> & Hno2). cbn [negb].
  apply IH. exact Hno2.
Qed.

Lemma rev2_init_succeeds (w : world) (n : nat) :
  (1 <= n <= HP_WMI_MAX_INSTANCES)%nat ->
  (forall j, (j < n)%nat ->
     exists wobj, firmware w (Z.of_nat j) = Some wobj /\ decodable_record wobj) ->
  ((n < HP_WMI_MAX_INSTANCES)%nat -> firmware w (Z.of_nat n) = None) ->
  ~ In false (mem w) -> 0 <= hwmon_register w ->
  exists st w',
    Rev2.hp_wmi_sensors_init Rev2.zero_state w = (Ok st, w') /\
    Rev2.count st = Z.of_nat n.
Proof.
  intros Hn Hall Hstop Hno Hreg.
  pose proof (rev2_init_defined w) as Hdef.
  unfold Rev2.hp_wmi_sensors_init in Hdef |- *.
  pose proof (rev2_discover_outcome (firmware w) HP_WMI_MAX_INSTANCES 0 _ w
                (rev2_discovered_zero (firmware w)) eq_refl
                ltac:(lia) ltac:(lia)) as Hd.
  destruct (Rev2.discover HP_WMI_MAX_INSTANCES 0 _ w) as [[[n' d]|e|] w1];
    [| |destruct Hd].
  2:{ exfalso. destruct Hd as (k & wobj & Hk & Hdec & Hfw & Hcause).
      destruct (Nat.lt_ge_cases k n) as [Hlt|Hge].
      - destruct (Hall k Hlt) as (wobj' & Hfw' & Hw').
        assert (wobj' = wobj) by congruence. subst wobj'.
        destruct Hcause as [[_ K]|[_ K]]; contradiction.
      - assert (Hnone : firmware w (Z.of_nat n) = None) by (apply Hstop; lia).
        destruct (Nat.eq_dec k n) as [->|Hne]; [congruence|].
        destruct (Hdec n ltac:(lia)) as (wobj' & Hfw' & _). congruence. }
  destruct Hd as (Hn' & Hdec & Hstop' & Hmem & Hreg').
  assert (n' = n).
  { destruct (Nat.lt_trichotomy n' n) as [Hlt|[Heq|Hgt]]; [|exact Heq|].
    - destruct (Hall n' Hlt) as (wobj & Hfw & _).
      rewrite Hstop' in Hfw by lia. discriminate Hfw.
    - destruct (Hdec n ltac:(lia)) as (wobj & Hfw & _).
      rewrite Hstop in Hfw by lia. discriminate Hfw. }
  subst n'.
  assert (Hno1 : ~ In false (mem w1)) by (intros K; apply Hno, Hmem, K).
  replace (Z.of_nat n =? 0) with false in Hdef |- *
    by (symmetry; apply Z.eqb_neq; lia).
  destruct (List.length (Rev2.active_info d) =? 0)%nat;
    [eexists _, _; split; reflexivity|].
  destruct (alloc_no_failure _ Hno1) as (h1 & A1 & Hno2).
  rewrite A1 in Hdef |- *. cbn [negb] in Hdef |- *.
  destruct (alloc_no_failure _ Hno2) as (h2 & A2 & Hno3).
  rewrite A2 in Hdef |- *. cbn [negb] in Hdef |- *.
  destruct (rev2_alloc_channels_no_failure hwmon_types
              (if negb (Rev2.d_channel_count d hwmon_temp =? 0)
               then set_by_type (Rev2.d_channel_count d) hwmon_chip 1
               else Rev2.d_channel_count d)
              (Rev2.info_map Rev2.zero_state) h2 Hno3) as (map' & h3 & A3 & Hno4).
  rewrite A3 in Hdef |- *.
  destruct (Rev2.fill_info_map _ _ _ _ map') as [map2|e|] eqn:Hf.
  - cbn [hwmon_register set_mem mem] in Hdef |- *.
    replace (hwmon_register w1 <? 0) with false
      by (symmetry; apply Z.ltb_ge; lia).
    eexists _, _. split; reflexivity.
  - exfalso. exact (rev2_fill_info_map_no_error _ _ _ _ _ _ Hf).
  - exfalso. apply Hdef. reflexivity.
Qed.

Lemma rejected_not_decodable (wobj : acpi_object) (e : Z) :
  check_wobj wobj = Err e -> ~ decodable_record wobj.
Proof.
  intros H (n & elements & v & Hcheck & _). rewrite H in Hcheck.
  discriminate Hcheck.
Qed.

(** C8, as the code has it.  A record that the decoder does not accept
    (one that [check_wobj] rejects, or whose SensorType is out of range) is
    fatal at every instance, not only at instance 0: when the firmware
    answers up to instance [k] and the record of instance [k] is such a
    record, [hp_wmi_sensors_init] returns an error and no state, in both
    revisions; the error is [-EINVAL], or [-ENOMEM] when an allocation
    failed before.  What stops discovery while keeping the earlier sensors
    is an absent record: when the records of the instances below [n], at
    least one, are accepted and instance [n] is absent (or [n] is 32), no
    allocation fails and the hwmon registration succeeds, initialisation
    succeeds with count [n]; and every successful initialisation is of
    that kind.  An absent instance 0 gives [-ENODATA] after that one
    query. *)
Theorem discovery_malformed_record_is_fatal (w : world) :
  (forall (k : nat) (bad : acpi_object),
     (k < HP_WMI_MAX_INSTANCES)%nat ->
     (forall j, (j <= k)%nat -> firmware w (Z.of_nat j) <> None) ->
     firmware w (Z.of_nat k) = Some bad ->
     (exists e, check_wobj bad = Err e) \/ ~ decodable_record bad ->
     (exists e' w',
        Rev1.hp_wmi_sensors_init Rev1.zero_state w = (Err e', w') /\
        (e' = - EINVAL \/ (e' = - ENOMEM /\ In false (mem w)))) /\
     (exists e' w',
        Rev2.hp_wmi_sensors_init Rev2.zero_state w = (Err e', w') /\
        (e' = - EINVAL \/ (e' = - ENOMEM /\ In false (mem w))))) /\
  (forall n : nat,
     (1 <= n <= HP_WMI_MAX_INSTANCES)%nat ->
     (forall j, (j < n)%nat ->
        exists wobj,
          firmware w (Z.of_nat j) = Some wobj /\ decodable_record wobj) ->
     ((n < HP_WMI_MAX_INSTANCES)%nat -> firmware w (Z.of_nat n) = None) ->
     ~ In false (mem w) -> 0 <= hwmon_register w ->
     (exists st w',
        Rev1.hp_wmi_sensors_init Rev1.zero_state w = (Ok st, w') /\
        Rev1.count st = Z.of_nat n) /\
     (exists st w',
        Rev2.hp_wmi_sensors_init Rev2.zero_state w = (Ok st, w') /\
        Rev2.count st = Z.of_nat n)) /\
  (firmware w 0 = None ->
   Rev1.hp_wmi_sensors_init Rev1.zero_state w = (Err (- ENODATA), queried w 0) /\
   Rev2.hp_wmi_sensors_init Rev2.zero_state w = (Err (- ENODATA), queried w 0)) /\
  (forall st w',
     Rev1.hp_wmi_sensors_init Rev1.zero_state w = (Ok st, w') ->
     exists n, Rev1.count st = Z.of_nat n /\ (1 <= n <= HP_WMI_MAX_INSTANCES)%nat /\
       ((n < HP_WMI_MAX_INSTANCES)%nat -> firmware w (Z.of_nat n) = None) /\
       forall j, (j < n)%nat ->
         exists wobj c, firmware w (Z.of_nat j) = Some wobj /\ check_wobj wobj = Ok c) /\
  (forall st w',
     Rev2.hp_wmi_sensors_init Rev2.zero_state w = (Ok st, w') ->
     exists n, Rev2.count st = Z.of_nat n /\ (1 <= n <= HP_WMI_MAX_INSTANCES)%nat /\
       ((n < HP_WMI_MAX_INSTANCES)%nat -> firmware w (Z.of_nat n) = None) /\
       forall j, (j < n)%nat ->
         exists wobj c, firmware w (Z.of_nat j) = Some wobj /\ check_wobj wobj = Ok c).
Proof.
  split; [|split; [|split; [|split]]].
  - intros k bad Hk Hall Hbad Hrej.
    assert (Hnd : ~ decodable_record bad).
    { destruct Hrej as [[e He]|Hnd]; [|exact Hnd].
      exact (rejected_not_decodable _ _ He). }
    split.
    + exact (rev1_init_malformed w k bad Hk Hall Hbad Hnd).
    + exact (rev2_init_malformed w k bad Hk Hall Hbad Hnd).
  - intros n Hn Hall Hstop Hno Hreg. split.
    + exact (rev1_init_succeeds w n Hn Hall Hstop Hno Hreg).
    + exact (rev2_init_succeeds w n Hn Hall Hstop Hno Hreg).
  - intros Hfw. split.
    + unfold Rev1.hp_wmi_sensors_init. cbn [Rev1.discover HP_WMI_MAX_INSTANCES].
      cbn [Nat.ltb Nat.leb]. unfold queried, hp_wmi_get_wobj. cbn [Z.of_nat].
      rewrite Hfw. reflexivity.
    + unfold Rev2.hp_wmi_sensors_init. cbn [Rev2.discover HP_WMI_MAX_INSTANCES].
      cbn [Nat.ltb Nat.leb]. unfold queried, hp_wmi_get_wobj. cbn [Z.of_nat].
      rewrite Hfw. reflexivity.
  - intros st w' H. destruct (rev1_init_spec _ _ _ H) as (n & H1 & H2 & H3 & H4 & _).
    exists n. repeat split; try assumption; try lia.
    intros j Hj. destruct (H4 j Hj) as (inf & c & wobj & _ & Hfw & Hc & _). eauto.
  - intros st w' H. destruct (rev2_init_spec _ _ _ H) as (n & H1 & H2 & H3 & H4 & _).
    exists n. repeat split; try assumption; try lia.
    intros j Hj. destruct (H4 j Hj) as (inf & c & wobj & _ & Hfw & Hc & _). eauto.
Qed.

Lemma discovery_malformed_record_is_fatal_witness :
  ((exists e' w',
      Rev1.hp_wmi_sensors_init Rev1.zero_state (world_at 0 firmware_malformed_second)
      = (Err e', w') /\
      (e' = - EINVAL \/ (e' = - ENOMEM /\ In false []))) /\
   (exists e' w',
      Rev2.hp_wmi_sensors_init Rev2.zero_state (world_at 0 firmware_malformed_second)
      = (Err e', w') /\
      (e' = - EINVAL \/ (e' = - ENOMEM /\ In false [])))) /\
  ((exists st w',
      Rev1.hp_wmi_sensors_init Rev1.zero_state
        (world_at 0 (sample_firmware (sample_wobj 2 "Normal" (-3) 25000)))
      = (Ok st, w') /\ Rev1.count st = 1) /\
   (exists st w',
      Rev2.hp_wmi_sensors_init Rev2.zero_state
        (world_at 0 (sample_firmware (sample_wobj 2 "Normal" (-3) 25000)))
      = (Ok st, w') /\ Rev2.count st = 1)).
Proof.
  split.
  - apply (proj1 (discovery_malformed_record_is_fatal
                    (world_at 0 firmware_malformed_second))
             1%nat malformed_wobj).
    + unfold HP_WMI_MAX_INSTANCES. lia.
    + intros [|[|j]] Hj; [discriminate | discriminate | lia].
    + reflexivity.
    + left. exists (- EINVAL). reflexivity.
  - apply (proj1 (proj2 (discovery_malformed_record_is_fatal
                           (world_at 0 (sample_firmware
                                          (sample_wobj 2 "Normal" (-3) 25000)))))
             1%nat).
    + unfold HP_WMI_MAX_INSTANCES. lia.
    + intros [|j] Hj; [|lia].
      exists (sample_wobj 2 "Normal" (-3) 25000). split; [reflexivity|].
      exists 2. eexists. exists HP_WMI_TYPE_TEMPERATURE.
      split; [reflexivity|]. split; [reflexivity|]. split; [reflexivity|].
      vm_compute. discriminate.
    + intros _. reflexivity.
    + intros K. exact K.
    + cbn. lia.
Defined.
